(** * realsense2_camera: the base node's stream set-up and frame pipeline

    A shallow embedding of [BaseRealSenseNode]
    (realsense2_camera/src/base_realsense_node.cpp): parameter loading,
    profile negotiation, filter set-up, the frame and IMU callbacks, frame
    publishing and point-cloud publishing, with the properties the
    specification states about them.

    Conventions.
    - [std::map<stream_index_pair, V>] is a [gmap stream_index_pair V];
      [operator[]] reads the default value of [V] at an absent key, [at]
      raises [std::out_of_range], [find] is the lookup itself.
    - [float] and [double] are IEEE-754 binary32 and binary64, computed with
      the executable operations of [SpecFloat].
    - The node's members are the fields of [Node]; the callbacks run in a
      state-and-exception monad over [Node] that also collects what they
      emit (log lines and published messages).
    - librealsense and ROS are collaborators: a frame is a record of what
      the node reads from it, a processing block is a function that may
      raise, [ros::Time] is an interface ([RosTime]), and subscriber counts
      and clock readings come with each callback invocation ([Env]). *)

From Stdlib Require Import ZArith List Bool Lia String Ascii.
From Stdlib Require Import Floats.SpecFloat.
From stdpp Require Import base gmap list strings sorting.

Local Open Scope string_scope.
Local Open Scope list_scope.
Local Open Scope Z_scope.

(** ** Stream keys (rs2_stream, stream_index_pair) *)

Inductive rs2_stream : Type :=
| RS2_STREAM_ANY
| RS2_STREAM_DEPTH
| RS2_STREAM_COLOR
| RS2_STREAM_INFRARED
| RS2_STREAM_FISHEYE
| RS2_STREAM_GYRO
| RS2_STREAM_ACCEL
| RS2_STREAM_GPIO
| RS2_STREAM_POSE.

Inductive rs2_format : Type :=
| RS2_FORMAT_ANY
| RS2_FORMAT_Z16
| RS2_FORMAT_DISPARITY16
| RS2_FORMAT_XYZ32F
| RS2_FORMAT_YUYV
| RS2_FORMAT_RGB8
| RS2_FORMAT_Y8
| RS2_FORMAT_Y16
| RS2_FORMAT_RAW8
| RS2_FORMAT_MOTION_XYZ32F
| RS2_FORMAT_DISPARITY32.

Inductive rs2_timestamp_domain : Type :=
| RS2_TIMESTAMP_DOMAIN_HARDWARE_CLOCK
| RS2_TIMESTAMP_DOMAIN_SYSTEM_TIME.

#[global] Instance rs2_stream_eq_dec : EqDecision rs2_stream.
Proof. solve_decision. Defined.

#[global] Instance rs2_format_eq_dec : EqDecision rs2_format.
Proof. solve_decision. Defined.

#[global] Instance rs2_timestamp_domain_eq_dec : EqDecision rs2_timestamp_domain.
Proof. solve_decision. Defined.

Definition rs2_stream_code (s : rs2_stream) : nat :=
  match s with
  | RS2_STREAM_ANY => 0 | RS2_STREAM_DEPTH => 1 | RS2_STREAM_COLOR => 2
  | RS2_STREAM_INFRARED => 3 | RS2_STREAM_FISHEYE => 4 | RS2_STREAM_GYRO => 5
  | RS2_STREAM_ACCEL => 6 | RS2_STREAM_GPIO => 7 | RS2_STREAM_POSE => 8
  end%nat.

Definition rs2_stream_of_code (n : nat) : rs2_stream :=
  match n with
  | 0 => RS2_STREAM_ANY | 1 => RS2_STREAM_DEPTH | 2 => RS2_STREAM_COLOR
  | 3 => RS2_STREAM_INFRARED | 4 => RS2_STREAM_FISHEYE | 5 => RS2_STREAM_GYRO
  | 6 => RS2_STREAM_ACCEL | 7 => RS2_STREAM_GPIO | _ => RS2_STREAM_POSE
  end%nat.

#[global] Instance rs2_stream_countable : Countable rs2_stream :=
  inj_countable' rs2_stream_code rs2_stream_of_code
    ltac:(intros []; reflexivity).

(** [typedef std::pair<rs2_stream, int> stream_index_pair] *)
Abbreviation stream_index_pair := (rs2_stream * Z)%type.

Definition COLOR   : stream_index_pair := (RS2_STREAM_COLOR, 0).
Definition DEPTH   : stream_index_pair := (RS2_STREAM_DEPTH, 0).
Definition INFRA1  : stream_index_pair := (RS2_STREAM_INFRARED, 1).
Definition INFRA2  : stream_index_pair := (RS2_STREAM_INFRARED, 2).
Definition FISHEYE : stream_index_pair := (RS2_STREAM_FISHEYE, 0).
Definition GYRO    : stream_index_pair := (RS2_STREAM_GYRO, 0).
Definition ACCEL   : stream_index_pair := (RS2_STREAM_ACCEL, 0).

(** [m[k]] on a map whose absent keys read as [d]. *)
Definition at_default {V} (d : V) (m : gmap stream_index_pair V)
    (k : stream_index_pair) : V :=
  default d (m !! k).

(** ** Strings: [boost::split] on one character and [std::string::find] *)

(** [boost::split(out, s, [](char c){return c == sep;})]: the tokens between
    separators, empty ones included; the empty string gives one empty
    token. *)
Fixpoint split_on (sep : ascii) (s : string) : list string :=
  match s with
  | EmptyString => [EmptyString]
  | String a s' =>
      if Ascii.eqb a sep then EmptyString :: split_on sep s'
      else match split_on sep s' with
           | [] => [String a EmptyString]
           | t :: ts => String a t :: ts
           end
  end.

(** [s.find(needle)]: the position of the first occurrence, [None] for
    [std::string::npos]. *)
Fixpoint find_str (needle s : string) : option nat :=
  if String.prefix needle s then Some 0%nat
  else match s with
       | EmptyString => None
       | String _ s' => option_map S (find_str needle s')
       end.

(** ** Floating point: binary32 and binary64 *)

Abbreviation float := spec_float (only parsing).
Abbreviation double := spec_float (only parsing).

Module F32.
Definition prec : Z := 24.
Definition emax : Z := 128.
Definition zero : float := S754_zero false.
Definition one : float := SFone prec emax.
Definition of_int (n : Z) : float := binary_normalize prec emax n 0 false.
Definition mul : float -> float -> float := SFmul prec emax.
Definition leb : float -> float -> bool := SFleb.
(** [x >= y] *)
Definition geb (x y : float) : bool := SFleb y x.
(** [m * 2^e], the value of a finite binary32 *)
Definition of_bits (m e : Z) : float := binary_normalize prec emax m e false.
(** [static_cast<int>(x)]: truncation toward zero (finite [x] in range). *)
Definition to_int (x : float) : Z :=
  match x with
  | S754_finite s m e =>
      let a := if (0 <=? e) then Z.pos m * 2 ^ e else Z.pos m / 2 ^ (- e) in
      if s then - a else a
  | _ => 0
  end.
End F32.

Module F64.
Definition prec : Z := 53.
Definition emax : Z := 1024.
Definition of_int (n : Z) : double := binary_normalize prec emax n 0 false.
Definition add : double -> double -> double := SFadd prec emax.
Definition sub : double -> double -> double := SFsub prec emax.
Definition div : double -> double -> double := SFdiv prec emax.
Definition of_bits (m e : Z) : double := binary_normalize prec emax m e false.
End F64.

(** ** Data model *)

(** OpenCV matrix types; [CV_8UC1] is the value 0. *)
Inductive cv_type : Type := CV_8UC1 | CV_16UC1 | CV_8UC3.

#[global] Instance cv_type_eq_dec : EqDecision cv_type.
Proof. solve_decision. Defined.

(** [sensor_msgs::image_encodings]: the encoding tags are strings. *)
Definition TYPE_16UC1 : string := "16UC1".
Definition TYPE_8UC1 : string := "8UC1".
Definition RGB8 : string := "rgb8".

(** [cv::Mat]: size, element type and the bytes its [data] points to. *)

(** What the node reads of an [rs2::video_stream_profile]. *)
Record stream_profile : Type := {
  profile_stream_type : rs2_stream;
  profile_stream_index : Z;
  profile_format : rs2_format;
  profile_width : Z;
  profile_height : Z;
  profile_fps : Z
}.

#[global] Instance stream_profile_eq_dec : EqDecision stream_profile.
Proof. solve_decision. Defined.

(** The processing blocks [setupFilters] instantiates. *)
Inductive processing_block : Type :=
| disparity_transform (transform_to_disparity : bool)
| spatial_filter
| temporal_filter
| decimation_filter
| colorizer
| pointcloud (stream : rs2_stream) (index : Z).

Record NamedFilter : Type := {
  _name : string;
  _filter : processing_block
}.

#[global] Instance processing_block_eq_dec : EqDecision processing_block.
Proof. solve_decision. Defined.

#[global] Instance NamedFilter_eq_dec : EqDecision NamedFilter.
Proof. solve_decision. Defined.

Record vertex : Type := { vertex_x : float; vertex_y : float; vertex_z : float }.
Record texture_coordinate : Type := { tex_u : float; tex_v : float }.

(** The payload of a frame: [rs2::video_frame], [rs2::points] (one vertex
    and one texture coordinate per point, [size()] of them) or a motion
    sample. *)
Inductive frame_data : Type :=
| video_frame (width height bytes_per_pixel : Z) (data : list Z)
| points (pts : list (vertex * texture_coordinate))
| motion_frame (axes : vertex).

Record frame : Type := {
  frame_stream_type : rs2_stream;
  frame_stream_index : Z;
  frame_format : rs2_format;
  frame_timestamp : double;
  frame_timestamp_domain : rs2_timestamp_domain;
  frame_number : Z;
  frame_payload : frame_data
}.

Definition is_points (f : frame) : bool :=
  match frame_payload f with points _ => true | _ => false end.

Definition is_video_frame (f : frame) : bool :=
  match frame_payload f with video_frame _ _ _ _ => true | _ => false end.

Definition frame_key (f : frame) : stream_index_pair :=
  (frame_stream_type f, frame_stream_index f).

(** [cv::Mat]: size, element type, and the frame payload its [data]
    points to ([None] for the matrix's own zero-filled buffer). *)
Record Mat : Type := {
  mat_rows : Z;
  mat_cols : Z;
  mat_type : cv_type;
  mat_data : option frame_data
}.

(** [cv::Mat(rows, cols, type, cv::Scalar(0,0,0))] *)
Definition Mat_new (rows cols : Z) (ty : cv_type) : Mat :=
  {| mat_rows := rows; mat_cols := cols; mat_type := ty; mat_data := None |}.

(** [cv::Mat()] *)
Definition Mat_empty : Mat := Mat_new 0 0 CV_8UC1.

(** What a callback receives: one frame, or an [rs2::frameset] with its own
    timestamp and the frames it bundles. *)
Inductive rs2_frame : Type :=
| single (f : frame)
| frameset (timestamp : double) (domain : rs2_timestamp_domain)
           (number : Z) (frames : list frame).

Definition get_timestamp (fr : rs2_frame) : double :=
  match fr with
  | single f => frame_timestamp f
  | frameset ts _ _ _ => ts
  end.

Definition get_frame_timestamp_domain (fr : rs2_frame) : rs2_timestamp_domain :=
  match fr with
  | single f => frame_timestamp_domain f
  | frameset _ d _ _ => d
  end.

(** A [ros::Publisher]: the topic it advertises, [None] when default
    constructed (such a publisher has no subscribers). *)
Abbreviation publisher := (option string) (only parsing).

(** [PointCloud2] record of one point. *)
Record PointCloudPoint : Type := {
  pt_x : float; pt_y : float; pt_z : float;
  pt_r : Z; pt_g : Z; pt_b : Z
}.

(** Exceptions, all derived from [std::exception]: [std::runtime_error],
    [std::out_of_range] (from [std::map::at]) and [rs2::error] (from the
    camera SDK). *)
Inductive exn : Type :=
| std_runtime_error (what : string)
| std_out_of_range (what : string)
| rs2_error (what : string).

Definition what (e : exn) : string :=
  match e with
  | std_runtime_error w | std_out_of_range w | rs2_error w => w
  end.

(** How a member function ends: in a value, in a raised exception, in the
    termination of the process ([exit], a failed [assert],
    [std::terminate]), or in an access outside an array, after which C++
    promises nothing. *)
Inductive outcome (A : Type) : Type :=
| Ok (a : A)
| Raise (e : exn)
| Terminated (reason : string)
| Undefined (reason : string).
#[global] Arguments Ok {A} a.
#[global] Arguments Raise {A} e.
#[global] Arguments Terminated {A} reason.
#[global] Arguments Undefined {A} reason.

(** The [ros::Time] interface the node uses. *)
Class RosTime : Type := {
  Time : Type;
  Duration : Type;
  Time_default : Time;                       (* ros::Time()            *)
  Time_fromSec : double -> Time;             (* ros::Time(double)      *)
  Time_toSec : Time -> double;               (* t.toSec()              *)
  Duration_fromSec : double -> Duration;     (* ros::Duration(double)  *)
  Time_plus : Time -> Duration -> Time       (* t + d                  *)
}.

Section BaseRealSenseNode.
Context `{RosTime}.

(** ** Messages *)

(** [sensor_msgs::Image] *)
Record Image : Type := {
  img_frame_id : string;
  img_stamp : Time;
  img_seq : Z;
  img_width : Z;
  img_height : Z;
  img_step : Z;
  img_encoding : string;
  img_is_bigendian : bool;
  img_data : option frame_data
}.

(** The header of a [sensor_msgs::CameraInfo] (the calibration part is
    filled by [updateStreamCalibData] and not changed afterwards). *)
Record CameraInfo : Type := {
  ci_stamp : Time;
  ci_seq : Z
}.

(** [sensor_msgs::PointCloud2]: the header fields [publishPointCloud] sets
    and [pc_records], the records stored through the field iterators in
    the order they are stored. The buffer holds [pc_width * pc_height]
    records: a record at a position from [pc_width] on was stored past its
    end. *)
Record PointCloud2 : Type := {
  pc_stamp : Time;
  pc_frame_id : string;
  pc_width : Z;
  pc_height : Z;
  pc_is_dense : bool;
  pc_records : list PointCloudPoint
}.

(** [sensor_msgs::Imu] *)
Record Imu : Type := {
  imu_frame_id : string;
  imu_stamp : Time;
  imu_seq : Z;
  imu_angular_velocity : option vertex;
  imu_linear_acceleration : option vertex
}.

(** The two sets of members [publishFrame] is called with: the stream's own
    ([_image], [_info_publisher], [_image_publishers], [_seq],
    [_camera_info], [_encoding]) and the aligned-depth ones
    ([_depth_aligned_image], ...). *)
Inductive publish_family : Type := Regular | AlignedDepth.

(** What the node emits: log lines (INFO, WARN and ERROR; DEBUG lines are
    left out) and messages handed to publishers. *)
Inductive effect : Type :=
| ROS_INFO (msg : string)
| ROS_WARN (msg : string)
| ROS_ERROR (msg : string)
| ROS_INFO_int (msg : string) (arg : Z)
| ROS_INFO_stream_enabled (elem : stream_index_pair) (width height fps : Z)
| ROS_WARN_not_supported (elem : stream_index_pair) (format : rs2_format)
                         (width height fps : Z)
| publish_camera_info (fam : publish_family) (stream : stream_index_pair)
                      (info : CameraInfo)
| publish_image (fam : publish_family) (stream : stream_index_pair)
                (src : frame) (img : Image)
| publish_pointcloud (msg : PointCloud2)
| publish_imu (stream : stream_index_pair) (msg : Imu)
| publish_counter (stamp : Time) (counter : Z).

(** ** The node's members *)

(** Members loaded by [getParameters]. *)
Record Params : Type := {
  _align_depth : bool;
  _pointcloud : bool;
  _pointcloud_texture : stream_index_pair;
  _filters_str : string;
  _sync_frames : bool;
  _ros_time_offset : double;
  _optical_frame_id : gmap stream_index_pair string
}.

(** The per-stream descriptors. *)
Record Descriptors : Type := {
  _format : gmap stream_index_pair rs2_format;
  _image_format : gmap stream_index_pair cv_type;
  _encoding : gmap stream_index_pair string;
  _unit_step_size : gmap stream_index_pair Z;
  _width : gmap stream_index_pair Z;
  _height : gmap stream_index_pair Z;
  _fps : gmap stream_index_pair Z;
  _enable : gmap stream_index_pair bool;
  _image : gmap stream_index_pair Mat
}.

Record TimeBase : Type := {
  _intialize_time_base : bool;
  _ros_time_base : Time;
  _camera_time_base : double
}.

Record Publishers : Type := {
  _image_publishers : gmap stream_index_pair publisher;
  _info_publisher : gmap stream_index_pair publisher;
  _imu_publishers : gmap stream_index_pair publisher;
  _pointcloud_publisher : publisher;
  _depth_aligned_image_publishers : gmap stream_index_pair publisher;
  _depth_aligned_info_publisher : gmap stream_index_pair publisher
}.

(** Members the callbacks update while publishing. *)
Record PublishState : Type := {
  _seq : gmap stream_index_pair Z;
  _camera_info : gmap stream_index_pair CameraInfo;
  _depth_aligned_seq : gmap stream_index_pair Z;
  _depth_aligned_camera_info : gmap stream_index_pair CameraInfo;
  _depth_aligned_image : gmap stream_index_pair Mat;
  _depth_aligned_encoding : gmap stream_index_pair string;
  _send_counter : bool;
  _counter_enabled : bool;
  _image_counter : Z
}.

Record Node : Type := {
  params : Params;
  desc : Descriptors;
  time_base : TimeBase;
  pubs : Publishers;
  pstate : PublishState;
  _is_frame_arrived : gmap stream_index_pair bool;
  _enabled_profiles : gmap stream_index_pair (list stream_profile);
  _filters : list NamedFilter
}.

(** Member updates. *)

Definition with_params (p : Params) (n : Node) : Node :=
  {| params := p; desc := desc n; time_base := time_base n; pubs := pubs n;
     pstate := pstate n; _is_frame_arrived := _is_frame_arrived n;
     _enabled_profiles := _enabled_profiles n;
     _filters := _filters n |}.

Definition with_desc (d : Descriptors) (n : Node) : Node :=
  {| params := params n; desc := d; time_base := time_base n; pubs := pubs n;
     pstate := pstate n; _is_frame_arrived := _is_frame_arrived n;
     _enabled_profiles := _enabled_profiles n;
     _filters := _filters n |}.

Definition with_pubs (p : Publishers) (n : Node) : Node :=
  {| params := params n; desc := desc n; time_base := time_base n; pubs := p;
     pstate := pstate n; _is_frame_arrived := _is_frame_arrived n;
     _enabled_profiles := _enabled_profiles n;
     _filters := _filters n |}.

Definition with_time_base (tb : TimeBase) (n : Node) : Node :=
  {| params := params n; desc := desc n; time_base := tb; pubs := pubs n;
     pstate := pstate n; _is_frame_arrived := _is_frame_arrived n;
     _enabled_profiles := _enabled_profiles n;
     _filters := _filters n |}.

Definition with_pstate (ps : PublishState) (n : Node) : Node :=
  {| params := params n; desc := desc n; time_base := time_base n;
     pubs := pubs n; pstate := ps; _is_frame_arrived := _is_frame_arrived n;
     _enabled_profiles := _enabled_profiles n;
     _filters := _filters n |}.

Definition with_enabled_profiles
    (ep : gmap stream_index_pair (list stream_profile)) (n : Node) : Node :=
  {| params := params n; desc := desc n; time_base := time_base n;
     pubs := pubs n; pstate := pstate n;
     _is_frame_arrived := _is_frame_arrived n; _enabled_profiles := ep;
     _filters := _filters n |}.

Definition with_filters (fl : list NamedFilter) (n : Node) : Node :=
  {| params := params n; desc := desc n; time_base := time_base n;
     pubs := pubs n; pstate := pstate n;
     _is_frame_arrived := _is_frame_arrived n;
     _enabled_profiles := _enabled_profiles n; _filters := fl |}.

Definition set_optical_frame_id (m : gmap stream_index_pair string) (p : Params) :=
  {| _align_depth := _align_depth p; _pointcloud := _pointcloud p;
     _pointcloud_texture := _pointcloud_texture p;
     _filters_str := _filters_str p; _sync_frames := _sync_frames p;
     _ros_time_offset := _ros_time_offset p; _optical_frame_id := m |}.

Definition set_info_publisher (m : gmap stream_index_pair publisher) (p : Publishers) :=
  {| _image_publishers := _image_publishers p; _info_publisher := m;
     _imu_publishers := _imu_publishers p;
     _pointcloud_publisher := _pointcloud_publisher p;
     _depth_aligned_image_publishers := _depth_aligned_image_publishers p;
     _depth_aligned_info_publisher := _depth_aligned_info_publisher p |}.

Definition set_format (k : stream_index_pair) (x : rs2_format) (d : Descriptors) :=
  {| _format := <[k := x]> (_format d); _image_format := _image_format d;
     _encoding := _encoding d; _unit_step_size := _unit_step_size d;
     _width := _width d; _height := _height d; _fps := _fps d;
     _enable := _enable d; _image := _image d |}.

Definition set_image_format (k : stream_index_pair) (x : cv_type) (d : Descriptors) :=
  {| _format := _format d; _image_format := <[k := x]> (_image_format d);
     _encoding := _encoding d; _unit_step_size := _unit_step_size d;
     _width := _width d; _height := _height d; _fps := _fps d;
     _enable := _enable d; _image := _image d |}.

Definition set_encoding (m : gmap stream_index_pair string) (d : Descriptors) :=
  {| _format := _format d; _image_format := _image_format d;
     _encoding := m; _unit_step_size := _unit_step_size d;
     _width := _width d; _height := _height d; _fps := _fps d;
     _enable := _enable d; _image := _image d |}.

Definition set_unit_step_size (k : stream_index_pair) (x : Z) (d : Descriptors) :=
  {| _format := _format d; _image_format := _image_format d;
     _encoding := _encoding d; _unit_step_size := <[k := x]> (_unit_step_size d);
     _width := _width d; _height := _height d; _fps := _fps d;
     _enable := _enable d; _image := _image d |}.

Definition set_width (k : stream_index_pair) (x : Z) (d : Descriptors) :=
  {| _format := _format d; _image_format := _image_format d;
     _encoding := _encoding d; _unit_step_size := _unit_step_size d;
     _width := <[k := x]> (_width d); _height := _height d; _fps := _fps d;
     _enable := _enable d; _image := _image d |}.

Definition set_height (k : stream_index_pair) (x : Z) (d : Descriptors) :=
  {| _format := _format d; _image_format := _image_format d;
     _encoding := _encoding d; _unit_step_size := _unit_step_size d;
     _width := _width d; _height := <[k := x]> (_height d); _fps := _fps d;
     _enable := _enable d; _image := _image d |}.

Definition set_fps (k : stream_index_pair) (x : Z) (d : Descriptors) :=
  {| _format := _format d; _image_format := _image_format d;
     _encoding := _encoding d; _unit_step_size := _unit_step_size d;
     _width := _width d; _height := _height d; _fps := <[k := x]> (_fps d);
     _enable := _enable d; _image := _image d |}.

Definition set_enable (k : stream_index_pair) (x : bool) (d : Descriptors) :=
  {| _format := _format d; _image_format := _image_format d;
     _encoding := _encoding d; _unit_step_size := _unit_step_size d;
     _width := _width d; _height := _height d; _fps := _fps d;
     _enable := <[k := x]> (_enable d); _image := _image d |}.

Definition set_image (k : stream_index_pair) (x : Mat) (d : Descriptors) :=
  {| _format := _format d; _image_format := _image_format d;
     _encoding := _encoding d; _unit_step_size := _unit_step_size d;
     _width := _width d; _height := _height d; _fps := _fps d;
     _enable := _enable d; _image := <[k := x]> (_image d) |}.

Definition set_images (m : gmap stream_index_pair Mat) (d : Descriptors) :=
  {| _format := _format d; _image_format := _image_format d;
     _encoding := _encoding d; _unit_step_size := _unit_step_size d;
     _width := _width d; _height := _height d; _fps := _fps d;
     _enable := _enable d; _image := m |}.

Definition set_seq (m : gmap stream_index_pair Z) (p : PublishState) :=
  {| _seq := m; _camera_info := _camera_info p;
     _depth_aligned_seq := _depth_aligned_seq p;
     _depth_aligned_camera_info := _depth_aligned_camera_info p;
     _depth_aligned_image := _depth_aligned_image p;
     _depth_aligned_encoding := _depth_aligned_encoding p;
     _send_counter := _send_counter p; _counter_enabled := _counter_enabled p;
     _image_counter := _image_counter p |}.

Definition set_camera_info (m : gmap stream_index_pair CameraInfo) (p : PublishState) :=
  {| _seq := _seq p; _camera_info := m;
     _depth_aligned_seq := _depth_aligned_seq p;
     _depth_aligned_camera_info := _depth_aligned_camera_info p;
     _depth_aligned_image := _depth_aligned_image p;
     _depth_aligned_encoding := _depth_aligned_encoding p;
     _send_counter := _send_counter p; _counter_enabled := _counter_enabled p;
     _image_counter := _image_counter p |}.

Definition set_depth_aligned_seq (m : gmap stream_index_pair Z) (p : PublishState) :=
  {| _seq := _seq p; _camera_info := _camera_info p;
     _depth_aligned_seq := m;
     _depth_aligned_camera_info := _depth_aligned_camera_info p;
     _depth_aligned_image := _depth_aligned_image p;
     _depth_aligned_encoding := _depth_aligned_encoding p;
     _send_counter := _send_counter p; _counter_enabled := _counter_enabled p;
     _image_counter := _image_counter p |}.

Definition set_depth_aligned_camera_info
    (m : gmap stream_index_pair CameraInfo) (p : PublishState) :=
  {| _seq := _seq p; _camera_info := _camera_info p;
     _depth_aligned_seq := _depth_aligned_seq p;
     _depth_aligned_camera_info := m;
     _depth_aligned_image := _depth_aligned_image p;
     _depth_aligned_encoding := _depth_aligned_encoding p;
     _send_counter := _send_counter p; _counter_enabled := _counter_enabled p;
     _image_counter := _image_counter p |}.

Definition set_depth_aligned_image (m : gmap stream_index_pair Mat) (p : PublishState) :=
  {| _seq := _seq p; _camera_info := _camera_info p;
     _depth_aligned_seq := _depth_aligned_seq p;
     _depth_aligned_camera_info := _depth_aligned_camera_info p;
     _depth_aligned_image := m;
     _depth_aligned_encoding := _depth_aligned_encoding p;
     _send_counter := _send_counter p; _counter_enabled := _counter_enabled p;
     _image_counter := _image_counter p |}.

Definition set_send_counter (b : bool) (p : PublishState) :=
  {| _seq := _seq p; _camera_info := _camera_info p;
     _depth_aligned_seq := _depth_aligned_seq p;
     _depth_aligned_camera_info := _depth_aligned_camera_info p;
     _depth_aligned_image := _depth_aligned_image p;
     _depth_aligned_encoding := _depth_aligned_encoding p;
     _send_counter := b; _counter_enabled := _counter_enabled p;
     _image_counter := _image_counter p |}.

Definition set_image_counter (c : Z) (p : PublishState) :=
  {| _seq := _seq p; _camera_info := _camera_info p;
     _depth_aligned_seq := _depth_aligned_seq p;
     _depth_aligned_camera_info := _depth_aligned_camera_info p;
     _depth_aligned_image := _depth_aligned_image p;
     _depth_aligned_encoding := _depth_aligned_encoding p;
     _send_counter := _send_counter p; _counter_enabled := _counter_enabled p;
     _image_counter := c |}.

(** ** The monad of the node's member functions

    A member function reads and updates the node, emits effects, and ends
    in an [outcome]. *)

Definition M (A : Type) : Type := Node -> outcome A * Node * list effect.

Definition ret {A} (a : A) : M A := fun n => (Ok a, n, []).

Definition bind {A B} (c : M A) (k : A -> M B) : M B :=
  fun n =>
    match c n with
    | (Ok a, n1, out1) => let '(r, n2, out2) := k a n1 in (r, n2, out1 ++ out2)
    | (Raise e, n1, out1) => (Raise e, n1, out1)
    | (Terminated why, n1, out1) => (Terminated why, n1, out1)
    | (Undefined why, n1, out1) => (Undefined why, n1, out1)
    end.

#[global] Instance M_ret : MRet M := @ret.
#[global] Instance M_bind : MBind M := fun A B k c => bind c k.

Definition get : M Node := fun n => (Ok n, n, []).
Definition gets {A} (f : Node -> A) : M A := fun n => (Ok (f n), n, []).
Definition modify (f : Node -> Node) : M unit := fun n => (Ok tt, f n, []).
Definition emit (e : effect) : M unit := fun n => (Ok tt, n, [e]).
Definition throw {A} (e : exn) : M A := fun n => (Raise e, n, []).
Definition terminate {A} (why : string) : M A := fun n => (Terminated why, n, []).
Definition undefined {A} (why : string) : M A := fun n => (Undefined why, n, []).

(** [try { body } catch (const std::exception& ex) { handler(ex) }]: what
    [body] did to the node and emitted before raising stays. *)
Definition try_catch {A} (body : M A) (handler : exn -> M A) : M A :=
  fun n =>
    match body n with
    | (Raise e, n1, out1) =>
        let '(r, n2, out2) := handler e n1 in (r, n2, out1 ++ out2)
    | r => r
    end.

Definition when (b : bool) (c : M unit) : M unit := if b then c else ret tt.

(** A range-for loop whose body neither breaks nor returns. *)
Fixpoint for_each {A} (l : list A) (body : A -> M unit) : M unit :=
  match l with
  | [] => ret tt
  | x :: l' => body x ;; for_each l' body
  end.

(** [m.at(k)] *)
Definition map_at {V} (m : gmap stream_index_pair V) (k : stream_index_pair) : M V :=
  match m !! k with
  | Some x => ret x
  | None => throw (std_out_of_range "map::at")
  end.

(** ** Construction and parameters *)

(** The constructor: [_intialize_time_base(false)], [_image_counter(0)] and
    the per-stream tables. Members it leaves uninitialised keep the value
    they have in [raw]. *)
Definition BaseRealSenseNode_new (raw : Node) : Node :=
  {| params := params raw;
     desc :=
       {| _format :=
            <[ACCEL := RS2_FORMAT_MOTION_XYZ32F]> (<[GYRO := RS2_FORMAT_MOTION_XYZ32F]>
            (<[FISHEYE := RS2_FORMAT_RAW8]> (<[COLOR := RS2_FORMAT_RGB8]>
            (<[INFRA2 := RS2_FORMAT_Y8]> (<[INFRA1 := RS2_FORMAT_Y8]>
            (<[DEPTH := RS2_FORMAT_Z16]> ∅))))));
          _image_format :=
            <[ACCEL := CV_8UC1]> (<[GYRO := CV_8UC1]>
            (<[FISHEYE := CV_8UC1]> (<[COLOR := CV_8UC3]>
            (<[INFRA2 := CV_8UC1]> (<[INFRA1 := CV_8UC1]>
            (<[DEPTH := CV_16UC1]> ∅))))));
          _encoding :=
            <[ACCEL := TYPE_8UC1]> (<[GYRO := TYPE_8UC1]>
            (<[FISHEYE := TYPE_8UC1]> (<[COLOR := RGB8]>
            (<[INFRA2 := TYPE_8UC1]> (<[INFRA1 := TYPE_8UC1]>
            (<[DEPTH := TYPE_16UC1]> ∅))))));
          _unit_step_size :=
            <[ACCEL := 1]> (<[GYRO := 1]>
            (<[FISHEYE := 1]> (<[COLOR := 3]>
            (<[INFRA2 := 1]> (<[INFRA1 := 1]>
            (<[DEPTH := 2]> ∅))))));
          _width := ∅; _height := ∅; _fps := ∅; _enable := ∅; _image := ∅ |};
     time_base :=
       {| _intialize_time_base := false;
          _ros_time_base := Time_default;
          _camera_time_base := _camera_time_base (time_base raw) |};
     pubs := pubs raw;
     pstate :=
       {| _seq := ∅; _camera_info := ∅; _depth_aligned_seq := ∅;
          _depth_aligned_camera_info := ∅; _depth_aligned_image := ∅;
          _depth_aligned_encoding :=
            <[FISHEYE := TYPE_16UC1]> (<[COLOR := TYPE_16UC1]>
            (<[INFRA2 := TYPE_16UC1]> (<[INFRA1 := TYPE_16UC1]>
            (<[DEPTH := TYPE_16UC1]> ∅))));
          _send_counter := _send_counter (pstate raw);
          _counter_enabled := _counter_enabled (pstate raw);
          _image_counter := 0 |};
     _is_frame_arrived :=
       <[ACCEL := false]> (<[GYRO := false]> (<[FISHEYE := false]>
       (<[COLOR := false]> (<[INFRA2 := false]> (<[INFRA1 := false]>
       (<[DEPTH := false]> ∅))))));
     _enabled_profiles := ∅;
     _filters := [] |}.

Definition rs2_string_to_stream (str : string) : M rs2_stream :=
  if String.eqb str "RS2_STREAM_ANY" then ret RS2_STREAM_ANY
  else if String.eqb str "RS2_STREAM_COLOR" then ret RS2_STREAM_COLOR
  else if String.eqb str "RS2_STREAM_INFRARED" then ret RS2_STREAM_INFRARED
  else if String.eqb str "RS2_STREAM_FISHEYE" then ret RS2_STREAM_FISHEYE
  else throw (std_runtime_error ("Unknown stream string " ++ str)%string).

(** The strings [rs2_string_to_stream] accepts. *)
Definition known_stream_string (str : string) : bool :=
  String.eqb str "RS2_STREAM_ANY" || String.eqb str "RS2_STREAM_COLOR"
  || String.eqb str "RS2_STREAM_INFRARED" || String.eqb str "RS2_STREAM_FISHEYE".

(** The parameter server: what is set, by type. [param] is
    [_pnh.param(name, member, default_value)]. *)
Record ParamServer : Type := {
  param_bool : string -> option bool;
  param_int : string -> option Z;
  param_string : string -> option string;
  param_double : string -> option double
}.

Definition param {V} (lookup : string -> option V) (name : string) (dflt : V) : V :=
  default dflt (lookup name).

(** The default values of constants.h, which getParameters names. *)
Record Constants : Type := {
  ALIGN_DEPTH : bool;
  POINTCLOUD : bool;
  SYNC_FRAMES : bool;
  DEFAULT_FILTERS : string;
  DEFAULT_ROS_TIME_OFFSET : double;
  DEPTH_WIDTH : Z; DEPTH_HEIGHT : Z; DEPTH_FPS : Z; ENABLE_DEPTH : bool;
  INFRA1_WIDTH : Z; INFRA1_HEIGHT : Z; INFRA1_FPS : Z; ENABLE_INFRA1 : bool;
  INFRA2_WIDTH : Z; INFRA2_HEIGHT : Z; INFRA2_FPS : Z; ENABLE_INFRA2 : bool;
  COLOR_WIDTH : Z; COLOR_HEIGHT : Z; COLOR_FPS : Z; ENABLE_COLOR : bool;
  FISHEYE_WIDTH : Z; FISHEYE_HEIGHT : Z; FISHEYE_FPS : Z; ENABLE_FISHEYE : bool;
  GYRO_FPS : Z; ACCEL_FPS : Z; ENABLE_IMU : bool;
  DEFAULT_DEPTH_OPTICAL_FRAME_ID : string;
  DEFAULT_INFRA1_OPTICAL_FRAME_ID : string;
  DEFAULT_INFRA2_OPTICAL_FRAME_ID : string;
  DEFAULT_COLOR_OPTICAL_FRAME_ID : string;
  DEFAULT_FISHEYE_OPTICAL_FRAME_ID : string;
  DEFAULT_GYRO_OPTICAL_FRAME_ID : string;
  DEFAULT_ACCEL_OPTICAL_FRAME_ID : string
}.

Variable K : Constants.

Definition set_align_depth_pointcloud (a pc : bool) (p : Params) : Params :=
  {| _align_depth := a; _pointcloud := pc;
     _pointcloud_texture := _pointcloud_texture p;
     _filters_str := _filters_str p; _sync_frames := _sync_frames p;
     _ros_time_offset := _ros_time_offset p;
     _optical_frame_id := _optical_frame_id p |}.

(** [getParameters], up to the optical frame ids. The parameters read after
    them (the tf frame ids, the JSON file path and the inter-camera
    synchronisation mode) go to members that only [setupDevice] and
    [publishStaticTransforms] read. *)
Definition getParameters (ps : ParamServer) : M unit :=
  emit (ROS_INFO "getParameters...");;
  let align_depth := param (param_bool ps) "align_depth" (ALIGN_DEPTH K) in
  let enable_pointcloud := param (param_bool ps) "enable_pointcloud" (POINTCLOUD K) in
  modify (fun n => with_params
            (set_align_depth_pointcloud align_depth enable_pointcloud (params n)) n);;
  let pc_texture_stream :=
    param (param_string ps) "pointcloud_texture_stream" "RS2_STREAM_COLOR" in
  let pc_texture_idx := param (param_int ps) "pointcloud_texture_index" 0 in
  texture_stream ← rs2_string_to_stream pc_texture_stream;
  let filters_str := param (param_string ps) "filters" (DEFAULT_FILTERS K) in
  let pointcloud := enable_pointcloud || bool_decide (is_Some (find_str "pointcloud" filters_str)) in
  let enable_sync := param (param_bool ps) "enable_sync" (SYNC_FRAMES K) in
  let sync_frames :=
    if pointcloud || align_depth || (0 <? String.length filters_str)%nat
    then true else enable_sync in
  let ros_time_offset :=
    param (param_double ps) "ros_time_offset" (DEFAULT_ROS_TIME_OFFSET K) in
  modify (fun n =>
    with_params
      {| _align_depth := align_depth;
         _pointcloud := pointcloud;
         _pointcloud_texture := (texture_stream, pc_texture_idx);
         _filters_str := filters_str;
         _sync_frames := sync_frames;
         _ros_time_offset := ros_time_offset;
         _optical_frame_id :=
           <[ACCEL := param (param_string ps) "accel_optical_frame_id" (DEFAULT_ACCEL_OPTICAL_FRAME_ID K)]>
           (<[GYRO := param (param_string ps) "gyro_optical_frame_id" (DEFAULT_GYRO_OPTICAL_FRAME_ID K)]>
           (<[FISHEYE := param (param_string ps) "fisheye_optical_frame_id" (DEFAULT_FISHEYE_OPTICAL_FRAME_ID K)]>
           (<[COLOR := param (param_string ps) "color_optical_frame_id" (DEFAULT_COLOR_OPTICAL_FRAME_ID K)]>
           (<[INFRA2 := param (param_string ps) "infra2_optical_frame_id" (DEFAULT_INFRA2_OPTICAL_FRAME_ID K)]>
           (<[INFRA1 := param (param_string ps) "infra1_optical_frame_id" (DEFAULT_INFRA1_OPTICAL_FRAME_ID K)]>
           (<[DEPTH := param (param_string ps) "depth_optical_frame_id" (DEFAULT_DEPTH_OPTICAL_FRAME_ID K)]>
            (_optical_frame_id (params n)))))))) |}
      (with_desc
        (set_width DEPTH (param (param_int ps) "depth_width" (DEPTH_WIDTH K))
        (set_height DEPTH (param (param_int ps) "depth_height" (DEPTH_HEIGHT K))
        (set_fps DEPTH (param (param_int ps) "depth_fps" (DEPTH_FPS K))
        (set_enable DEPTH (param (param_bool ps) "enable_depth" (ENABLE_DEPTH K))
        (set_width INFRA1 (param (param_int ps) "infra1_width" (INFRA1_WIDTH K))
        (set_height INFRA1 (param (param_int ps) "infra1_height" (INFRA1_HEIGHT K))
        (set_fps INFRA1 (param (param_int ps) "infra1_fps" (INFRA1_FPS K))
        (set_enable INFRA1 (param (param_bool ps) "enable_infra1" (ENABLE_INFRA1 K))
        (set_width INFRA2 (param (param_int ps) "infra2_width" (INFRA2_WIDTH K))
        (set_height INFRA2 (param (param_int ps) "infra2_height" (INFRA2_HEIGHT K))
        (set_fps INFRA2 (param (param_int ps) "infra2_fps" (INFRA2_FPS K))
        (set_enable INFRA2 (param (param_bool ps) "enable_infra2" (ENABLE_INFRA2 K))
        (set_width COLOR (param (param_int ps) "color_width" (COLOR_WIDTH K))
        (set_height COLOR (param (param_int ps) "color_height" (COLOR_HEIGHT K))
        (set_fps COLOR (param (param_int ps) "color_fps" (COLOR_FPS K))
        (set_enable COLOR (param (param_bool ps) "enable_color" (ENABLE_COLOR K))
        (set_width FISHEYE (param (param_int ps) "fisheye_width" (FISHEYE_WIDTH K))
        (set_height FISHEYE (param (param_int ps) "fisheye_height" (FISHEYE_HEIGHT K))
        (set_fps FISHEYE (param (param_int ps) "fisheye_fps" (FISHEYE_FPS K))
        (set_enable FISHEYE (param (param_bool ps) "enable_fisheye" (ENABLE_FISHEYE K))
        (set_fps GYRO (param (param_int ps) "gyro_fps" (GYRO_FPS K))
        (set_fps ACCEL (param (param_int ps) "accel_fps" (ACCEL_FPS K))
        (set_enable GYRO (param (param_bool ps) "enable_imu" (ENABLE_IMU K))
        (set_enable ACCEL (param (param_bool ps) "enable_imu" (ENABLE_IMU K))
           (desc n)))))))))))))))))))))))))
        n)).


(** [m[k]] creates the entry of an absent key. It is kept for the members
    that are also read with [at] or [find]; for the others nothing can
    observe it and [at_default] alone stands for [m[k]]. *)
Definition touch {V} (d : V) (k : stream_index_pair)
    (m : gmap stream_index_pair V) : gmap stream_index_pair V :=
  match m !! k with
  | Some _ => m
  | None => <[k := d]> m
  end.

(** A loop over a list that carries local variables. *)
Fixpoint for_fold {A S} (l : list A) (s : S) (body : S -> A -> M S) : M S :=
  match l with
  | [] => ret s
  | x :: l' => s' ← body s x; for_fold l' s' body
  end.

(** ** setupFilters *)

Definition push_back_filter (f : NamedFilter) : M unit :=
  modify (fun n => with_filters (_filters n ++ [f]) n).

Definition insert_begin_filter (f : NamedFilter) : M unit :=
  modify (fun n => with_filters (f :: _filters n) n).

Definition disparity_start : NamedFilter :=
  {| _name := "disparity_start"; _filter := disparity_transform true |}.
Definition disparity_end : NamedFilter :=
  {| _name := "disparity_end"; _filter := disparity_transform false |}.
Definition spatial : NamedFilter :=
  {| _name := "spatial"; _filter := spatial_filter |}.
Definition temporal : NamedFilter :=
  {| _name := "temporal"; _filter := temporal_filter |}.
Definition decimation : NamedFilter :=
  {| _name := "decimation"; _filter := decimation_filter |}.
Definition colorizer_stage : NamedFilter :=
  {| _name := "colorizer"; _filter := colorizer |}.
Definition pointcloud_stage (texture : stream_index_pair) : NamedFilter :=
  {| _name := "pointcloud"; _filter := pointcloud (fst texture) (snd texture) |}.

(** The body of the loop over the requested filter names; the local
    variables are [(use_disparity_filter, use_colorizer_filter)]. A bare
    [throw;] outside a handler ends in [std::terminate]. *)
Definition setupFilters_token (flags : bool * bool) (s : string) : M (bool * bool) :=
  if String.eqb s "colorizer" then ret (fst flags, true)
  else if String.eqb s "disparity" then ret (true, snd flags)
  else if String.eqb s "spatial" then
    emit (ROS_INFO "Add Filter: spatial");; push_back_filter spatial;; ret flags
  else if String.eqb s "temporal" then
    emit (ROS_INFO "Add Filter: temporal");; push_back_filter temporal;; ret flags
  else if String.eqb s "decimation" then
    emit (ROS_INFO "Add Filter: decimation");; push_back_filter decimation;; ret flags
  else if String.eqb s "pointcloud" then
    pc ← gets (fun n => _pointcloud (params n));
    if pc : bool then ret flags else terminate "assert(_pointcloud)"
  else if (0 <? String.length s)%nat then
    emit (ROS_ERROR ("Unknown Filter: " ++ s)%string);;
    terminate "throw without an active exception"
  else ret flags.

(** The colorizer branch: DEPTH takes the descriptors of COLOR. *)
Definition depth_adopts_color (d : Descriptors) : Descriptors :=
  let d1 := set_format DEPTH (at_default RS2_FORMAT_ANY (_format d) COLOR) d in
  let d2 := set_image_format DEPTH (at_default CV_8UC1 (_image_format d1) COLOR) d1 in
  let d3 := set_encoding
              (<[DEPTH := at_default "" (_encoding d2) COLOR]>
                 (touch "" COLOR (_encoding d2))) d2 in
  let d4 := set_unit_step_size DEPTH (at_default 0 (_unit_step_size d3) COLOR) d3 in
  let d5 := set_width DEPTH (at_default 0 (_width d4) COLOR) d4 in
  let d6 := set_height DEPTH (at_default 0 (_height d5) COLOR) d5 in
  set_image DEPTH
    (Mat_new (at_default 0 (_height d6) DEPTH) (at_default 0 (_width d6) DEPTH)
             (at_default CV_8UC1 (_image_format d6) DEPTH)) d6.

Definition setupFilters : M unit :=
  filters_str ← gets (fun n => _filters_str (params n));
  flags ← for_fold (split_on "," filters_str) (false, false) setupFilters_token;
  when (fst flags)
    (emit (ROS_INFO "Add Filter: disparity");;
     insert_begin_filter disparity_start;;
     push_back_filter disparity_end;;
     emit (ROS_INFO "Done Add Filter: disparity"));;
  when (snd flags)
    (emit (ROS_INFO "Add Filter: colorizer");;
     push_back_filter colorizer_stage;;
     modify (fun n => with_desc (depth_adopts_color (desc n)) n));;
  pc ← gets (fun n => _pointcloud (params n));
  when pc
    (emit (ROS_INFO "Add Filter: pointcloud");;
     texture ← gets (fun n => _pointcloud_texture (params n));
     push_back_filter (pointcloud_stage texture));;
  num ← gets (fun n => Z.of_nat (length (_filters n)));
  emit (ROS_INFO_int "num_filters: %d" num).


(** What a request asks for, read off the list of names: the smoothing
    stage a name stands for, whether a name is one [setupFilters] accepts,
    and whether a name occurs in the request. *)
Definition smoothing_stage (s : string) : option NamedFilter :=
  if String.eqb s "spatial" then Some spatial
  else if String.eqb s "temporal" then Some temporal
  else if String.eqb s "decimation" then Some decimation
  else None.

Definition known_filter_name (s : string) : bool :=
  String.eqb s "colorizer" || String.eqb s "disparity" || String.eqb s "spatial"
  || String.eqb s "temporal" || String.eqb s "decimation"
  || String.eqb s "pointcloud" || String.eqb s "".

Definition requests (name : string) (names : list string) : bool :=
  existsb (String.eqb name) names.


(** The node [setupFilters] leaves for a request it accepts: the stages in
    execution order, and DEPTH described as COLOR when the colorizer is
    requested. *)
Definition filters_after_setup (n : Node) : list NamedFilter :=
  let names := split_on "," (_filters_str (params n)) in
  (if requests "disparity" names then [disparity_start] else [])
  ++ _filters n
  ++ omap smoothing_stage names
  ++ (if requests "disparity" names then [disparity_end] else [])
  ++ (if requests "colorizer" names then [colorizer_stage] else [])
  ++ (if _pointcloud (params n)
      then [pointcloud_stage (_pointcloud_texture (params n))] else []).

Definition node_after_setupFilters (n : Node) : Node :=
  let names := split_on "," (_filters_str (params n)) in
  with_filters (filters_after_setup n)
    (if requests "colorizer" names
     then with_desc (depth_adopts_color (desc n)) n else n).


(** ** enable_devices *)

(** The image streams, grouped by sensor (declared in
    base_realsense_node.h). *)
Variable IMAGE_STREAMS : list (list stream_index_pair).

(** The test of the profile loop. *)
Definition profile_matches (d : Descriptors) (elem : stream_index_pair)
    (video_profile : stream_profile) : bool :=
  bool_decide (profile_format video_profile = at_default RS2_FORMAT_ANY (_format d) elem)
  && ((at_default 0 (_width d) elem =? 0)
      || (profile_width video_profile =? at_default 0 (_width d) elem))
  && ((at_default 0 (_height d) elem =? 0)
      || (profile_height video_profile =? at_default 0 (_height d) elem))
  && ((at_default 0 (_fps d) elem =? 0)
      || (profile_fps video_profile =? at_default 0 (_fps d) elem))
  && (profile_stream_index video_profile =? snd elem).

(** What the loop does at the first profile that passes the test, before
    it breaks. *)
Definition accept_profile (elem : stream_index_pair) (profile : stream_profile) : M unit :=
  modify (fun n => with_desc (set_width elem (profile_width profile) (desc n)) n);;
  modify (fun n => with_desc (set_height elem (profile_height profile) (desc n)) n);;
  modify (fun n => with_desc (set_fps elem (profile_fps profile) (desc n)) n);;
  modify (fun n =>
    with_enabled_profiles
      (<[elem := default [] (_enabled_profiles n !! elem) ++ [profile]]>
         (_enabled_profiles n)) n);;
  modify (fun n =>
    with_desc
      (set_image elem
         (Mat_new (at_default 0 (_height (desc n)) elem)
                  (at_default 0 (_width (desc n)) elem)
                  (at_default CV_8UC1 (_image_format (desc n)) elem))
         (desc n)) n);;
  n ← get;
  emit (ROS_INFO_stream_enabled elem
          (at_default 0 (_width (desc n)) elem)
          (at_default 0 (_height (desc n)) elem)
          (at_default 0 (_fps (desc n)) elem)).

(** The body of the loops over [IMAGE_STREAMS] for one stream.
    [get_stream_profiles elem] is [_sensors[elem].get_stream_profiles()],
    in the order the sensor reports; [setupDevice] has disabled every
    stream without a sensor. The profile loop stops at its first match, as
    [find] does. *)
Definition enable_stream (get_stream_profiles : stream_index_pair -> list stream_profile)
    (elem : stream_index_pair) : M unit :=
  enabled ← gets (fun n => at_default false (_enable (desc n)) elem);
  when enabled
    (d ← gets desc;
     match List.find (profile_matches d elem) (get_stream_profiles elem) with
     | Some profile => accept_profile elem profile
     | None => ret tt
     end;;
     n ← get;
     match _enabled_profiles n !! elem with
     | None =>
         emit (ROS_WARN_not_supported elem
                 (at_default RS2_FORMAT_ANY (_format (desc n)) elem)
                 (at_default 0 (_width (desc n)) elem)
                 (at_default 0 (_height (desc n)) elem)
                 (at_default 0 (_fps (desc n)) elem));;
         modify (fun n => with_desc (set_enable elem false (desc n)) n)
     | Some _ => ret tt
     end).

Definition enable_devices (get_stream_profiles : stream_index_pair -> list stream_profile)
    : M unit :=
  for_each IMAGE_STREAMS (fun streams =>
    for_each streams (enable_stream get_stream_profiles));;
  align_depth ← gets (fun n => _align_depth (params n));
  when align_depth
    (modify (fun n =>
       let depth_image :=
         Mat_new (at_default 0 (_height (desc n)) DEPTH)
                 (at_default 0 (_width (desc n)) DEPTH)
                 (at_default CV_8UC1 (_image_format (desc n)) DEPTH) in
       with_pstate
         (set_depth_aligned_image
            (((fun _ => depth_image) <$> _enabled_profiles n)
               ∪ _depth_aligned_image (pstate n))
            (pstate n)) n)).


(** What negotiation reads and writes for one stream. *)
Definition stream_view (n : Node) (elem : stream_index_pair) :=
  (_format (desc n) !! elem, _width (desc n) !! elem, _height (desc n) !! elem,
   _fps (desc n) !! elem, _enable (desc n) !! elem, _enabled_profiles n !! elem).

(** The stream a negotiation log line is about. *)
Definition effect_stream (e : effect) : option stream_index_pair :=
  match e with
  | ROS_INFO_stream_enabled elem _ _ _ => Some elem
  | ROS_WARN_not_supported elem _ _ _ _ => Some elem
  | _ => None
  end.

(** The result of negotiation for [elem], from the node [n] before it to
    the node [n'] after it and the lines [out] logged meanwhile. *)
Definition negotiated (get_stream_profiles : stream_index_pair -> list stream_profile)
    (elem : stream_index_pair) (n n' : Node) (out : list effect) : Prop :=
  match List.find (profile_matches (desc n) elem) (get_stream_profiles elem) with
  | Some profile =>
      _enabled_profiles n' !! elem = Some [profile]
      ∧ _width (desc n') !! elem = Some (profile_width profile)
      ∧ _height (desc n') !! elem = Some (profile_height profile)
      ∧ _fps (desc n') !! elem = Some (profile_fps profile)
      ∧ at_default false (_enable (desc n')) elem = true
      ∧ (∀ e, e ∈ out → effect_stream e = Some elem →
              e = ROS_INFO_stream_enabled elem (profile_width profile)
                    (profile_height profile) (profile_fps profile))
  | None =>
      _enable (desc n') !! elem = Some false
      ∧ _enabled_profiles n' !! elem = None
      ∧ _width (desc n') !! elem = _width (desc n) !! elem
      ∧ _height (desc n') !! elem = _height (desc n) !! elem
      ∧ _fps (desc n') !! elem = _fps (desc n) !! elem
      ∧ ROS_WARN_not_supported elem
          (at_default RS2_FORMAT_ANY (_format (desc n)) elem)
          (at_default 0 (_width (desc n)) elem)
          (at_default 0 (_height (desc n)) elem)
          (at_default 0 (_fps (desc n)) elem) ∈ out
  end.


(** ** Publishing *)

(** What the collaborators answer during one callback invocation: the two
    readings of [ros::Time::now()] (where the time base is set, and where
    the stamp is taken in synchronised mode), the subscribers of each
    topic, what each processing block returns and what alignment to a
    stream returns ([frames.apply_filter(align).get_depth_frame()]). *)
Record Env : Type := {
  now_at_base : Time;
  now_at_stamp : Time;
  num_subscribers : string -> Z;
  process : NamedFilter -> list frame -> exn + list frame;
  align_to : rs2_stream -> list frame -> exn + frame
}.

Definition getNumSubscribers (env : Env) (p : publisher) : Z :=
  match p with
  | Some topic => num_subscribers env topic
  | None => 0
  end.

Definition lift {A} (r : exn + A) : M A :=
  match r with
  | inl e => throw e
  | inr a => ret a
  end.

(** The members [publishFrame] is passed, by family. *)
Definition images (fam : publish_family) (n : Node) : gmap stream_index_pair Mat :=
  match fam with
  | Regular => _image (desc n)
  | AlignedDepth => _depth_aligned_image (pstate n)
  end.

Definition set_images_of (fam : publish_family) (m : gmap stream_index_pair Mat)
    (n : Node) : Node :=
  match fam with
  | Regular => with_desc (set_images m (desc n)) n
  | AlignedDepth => with_pstate (set_depth_aligned_image m (pstate n)) n
  end.

Definition info_publishers (fam : publish_family) (n : Node) :=
  match fam with
  | Regular => _info_publisher (pubs n)
  | AlignedDepth => _depth_aligned_info_publisher (pubs n)
  end.

Definition image_publishers (fam : publish_family) (n : Node) :=
  match fam with
  | Regular => _image_publishers (pubs n)
  | AlignedDepth => _depth_aligned_image_publishers (pubs n)
  end.

Definition seq_of (fam : publish_family) (n : Node) : gmap stream_index_pair Z :=
  match fam with
  | Regular => _seq (pstate n)
  | AlignedDepth => _depth_aligned_seq (pstate n)
  end.

Definition set_seq_of (fam : publish_family) (m : gmap stream_index_pair Z)
    (n : Node) : Node :=
  match fam with
  | Regular => with_pstate (set_seq m (pstate n)) n
  | AlignedDepth => with_pstate (set_depth_aligned_seq m (pstate n)) n
  end.

Definition camera_info_of (fam : publish_family) (n : Node) :=
  match fam with
  | Regular => _camera_info (pstate n)
  | AlignedDepth => _depth_aligned_camera_info (pstate n)
  end.

Definition set_camera_info_of (fam : publish_family)
    (m : gmap stream_index_pair CameraInfo) (n : Node) : Node :=
  match fam with
  | Regular => with_pstate (set_camera_info m (pstate n)) n
  | AlignedDepth => with_pstate (set_depth_aligned_camera_info m (pstate n)) n
  end.

Definition encoding_of (fam : publish_family) (n : Node) :=
  match fam with
  | Regular => _encoding (desc n)
  | AlignedDepth => _depth_aligned_encoding (pstate n)
  end.

(** [publishFrame(f, t, stream, images, info_publishers, image_publishers,
    seq, camera_info, optical_frame_id, encoding, copy_data_from_frame)];
    [fam] selects the members passed by reference. *)
Definition publishFrame (env : Env) (f : frame) (t : Time)
    (stream : stream_index_pair) (fam : publish_family)
    (copy_data_from_frame : bool) : M unit :=
  let '(width, height, bpp) :=
    match frame_payload f with
    | video_frame w h b _ => (w, h, b)
    | _ => (0, 0, 1)
    end in
  when copy_data_from_frame
    (modify (fun n =>
       let image := at_default Mat_empty (images fam n) stream in
       let created :=
         if bool_decide (mat_cols image = width ∧ mat_rows image = height)
         then image
         else Mat_new height width
                (at_default CV_8UC1 (_image_format (desc n)) stream) in
       set_images_of fam
         (<[stream := {| mat_rows := mat_rows created; mat_cols := mat_cols created;
                         mat_type := mat_type created;
                         mat_data := Some (frame_payload f) |}]> (images fam n)) n));;
  modify (fun n =>
    set_seq_of fam (<[stream := at_default 0 (seq_of fam n) stream + 1]> (seq_of fam n)) n);;
  info_publisher ← (m ← gets (info_publishers fam); map_at m stream);
  image_publisher ← (m ← gets (image_publishers fam); map_at m stream);
  let has_subscribers :=
    negb (getNumSubscribers env info_publisher =? 0)
    || negb (getNumSubscribers env image_publisher =? 0) in
  when has_subscribers
    (enc ← (m ← gets (encoding_of fam); map_at m stream);
     image ← gets (fun n => at_default Mat_empty (images fam n) stream);
     frame_id ← (m ← gets (fun n => _optical_frame_id (params n)); map_at m stream);
     let img :=
       {| img_frame_id := frame_id; img_stamp := t; img_seq := frame_number f;
          img_width := width; img_height := height; img_step := width * bpp;
          img_encoding := enc; img_is_bigendian := false;
          img_data := mat_data image |} in
     cam_info ← (m ← gets (camera_info_of fam); map_at m stream);
     let cam_info' := {| ci_stamp := img_stamp img; ci_seq := img_seq img |} in
     modify (fun n =>
       set_camera_info_of fam (<[stream := cam_info']> (camera_info_of fam n)) n);;
     emit (publish_camera_info fam stream cam_info');;
     emit (publish_image fam stream f img);;
     modify (fun n => with_pstate (set_send_counter true (pstate n)) n)).

(** [get_frame]: the callback of [foreach] overwrites [f] at every match,
    so the last matching frame is returned. *)
Definition get_frame (frames : list frame) (stream : rs2_stream) (index : Z)
    : option frame :=
  last (List.filter
          (fun fr => bool_decide (frame_stream_type fr = stream)
                     && (frame_stream_index fr =? index)) frames).

(** ** publishPointCloud *)

(** [i >= 0.f && i <= 1.f && j >= 0.f && j <= 1.f] *)
Definition in_unit_square (i j : float) : bool :=
  F32.geb i F32.zero && F32.leb i F32.one && F32.geb j F32.zero && F32.leb j F32.one.

(** The test of the first loop on a point. *)
Definition valid_point (p : vertex * texture_coordinate) : bool :=
  in_unit_square (tex_u (snd p)) (tex_v (snd p)).

(** The first loop: [num_valid_points]. *)
Definition count_valid_points (pts : list (vertex * texture_coordinate)) : Z :=
  Z.of_nat (length (List.filter valid_point pts)).

(** [color_data[offset]] *)
Definition read_byte (color_data : list Z) (offset : Z) : option Z :=
  if offset <? 0 then None else color_data !! Z.to_nat offset.

(** The body of the second loop for one point: the record it stores
    ([Some (Some r)]), nothing when the test fails ([Some None]), or a read
    outside [color_data] ([None]). *)
Definition fill_point (use_texture : bool) (color_data : list Z)
    (texture_width texture_height : Z) (p : vertex * texture_coordinate)
    : option (option PointCloudPoint) :=
  let i := if use_texture then tex_u (snd p) else F32.zero in
  let j := if use_texture then tex_v (snd p) else F32.zero in
  if in_unit_square i j then
    let pixx := F32.to_int (F32.mul i (F32.of_int texture_width)) in
    let pixy := F32.to_int (F32.mul j (F32.of_int texture_height)) in
    let offset := (pixy * texture_width + pixx) * 3 in
    match read_byte color_data offset, read_byte color_data (offset + 1),
          read_byte color_data (offset + 2) with
    | Some r, Some g, Some b =>
        Some (Some {| pt_x := vertex_x (fst p); pt_y := vertex_y (fst p);
                      pt_z := vertex_z (fst p);
                      pt_r := r; pt_g := g; pt_b := b |})
    | _, _, _ => None
    end
  else Some None.

(** The second loop: the records stored through the iterators, in order;
    [None] when a read falls outside [color_data]. *)
Fixpoint fill_points (use_texture : bool) (color_data : list Z)
    (texture_width texture_height : Z) (pts : list (vertex * texture_coordinate))
    : option (list PointCloudPoint) :=
  match pts with
  | [] => Some []
  | p :: pts' =>
      match fill_point use_texture color_data texture_width texture_height p with
      | None => None
      | Some stored =>
          match fill_points use_texture color_data texture_width texture_height pts' with
          | None => None
          | Some rest => Some (option_list stored ++ rest)
          end
      end
  end.

Definition no_color : list Z := [255; 255; 255].

(** The part of [publishPointCloud] after the texture is settled. The
    message has room for [num_valid_points] records. *)
Definition publish_points_with (use_texture : bool) (color_data : list Z)
    (texture_width texture_height : Z)
    (pc : list (vertex * texture_coordinate)) (t : Time) : M unit :=
  let num_valid_points := count_valid_points pc in
  frame_id ← gets (fun n => at_default "" (_optical_frame_id (params n)) DEPTH);
  modify (fun n =>
    with_params (set_optical_frame_id
                   (touch "" DEPTH (_optical_frame_id (params n))) (params n)) n);;
  match fill_points use_texture color_data texture_width texture_height pc with
  | None => undefined "read outside the texture data"
  | Some records =>
      if num_valid_points <? Z.of_nat (length records)
      then undefined "store past the end of the point cloud data"
      else
        emit (publish_pointcloud
                {| pc_stamp := t; pc_frame_id := frame_id;
                   pc_width := num_valid_points; pc_height := 1;
                   pc_is_dense := true; pc_records := records |});;
        modify (fun n => with_pstate (set_send_counter true (pstate n)) n)
  end.

Definition publishPointCloud (pc : list (vertex * texture_coordinate)) (t : Time)
    (frameset : list frame) : M unit :=
  texture ← gets (fun n => _pointcloud_texture (params n));
  let use_texture := negb (bool_decide (fst texture = RS2_STREAM_ANY)) in
  if use_texture then
    match get_frame frameset (fst texture) (snd texture) with
    | Some {| frame_payload := video_frame w h bpp data |} =>
        if bpp =? 3
        then publish_points_with true data w h pc t
        else terminate "assert(texture_frame.get_bytes_per_pixel() == 3)"
    | _ => ret tt
    end
  else publish_points_with false no_color 0 0 pc t.


(** ** The frame callback *)

(** [updateIsFrameArrived]: [at] on the local copy of [_is_frame_arrived],
    its [std::out_of_range] caught and logged on the spot. *)
Definition updateIsFrameArrived (is_frame_arrived : gmap stream_index_pair bool)
    (stream_type : rs2_stream) (stream_index : Z)
    : M (gmap stream_index_pair bool) :=
  match is_frame_arrived !! (stream_type, stream_index) with
  | Some _ => ret (<[(stream_type, stream_index) := true]> is_frame_arrived)
  | None =>
      emit (ROS_ERROR "Stream type is not supported!");;
      ret is_frame_arrived
  end.

(** The local variables of the loop that removes streams with the same
    type and index. *)
Record dedup_state : Type := {
  points_in_set : bool;
  frames_to_publish : list frame;
  is_in_set : list stream_index_pair;
  depth_frame : option frame;
  is_depth_arrived : bool
}.

Definition dedup_init : dedup_state :=
  {| points_in_set := false; frames_to_publish := []; is_in_set := [];
     depth_frame := None; is_depth_arrived := false |}.

(** The body of that loop. *)
Definition dedup_step (align_depth : bool) (st : dedup_state) (f : frame)
    : dedup_state :=
  if is_points f then
    if negb (points_in_set st) then
      {| points_in_set := true;
         frames_to_publish := frames_to_publish st ++ [f];
         is_in_set := is_in_set st;
         depth_frame := depth_frame st;
         is_depth_arrived := is_depth_arrived st |}
    else st
  else
    let sip := frame_key f in
    let st1 :=
      if bool_decide (sip ∈ is_in_set st) then st
      else
        {| points_in_set := points_in_set st;
           frames_to_publish := frames_to_publish st ++ [f];
           is_in_set := is_in_set st ++ [sip];
           depth_frame := depth_frame st;
           is_depth_arrived := is_depth_arrived st |} in
    if align_depth && bool_decide (frame_stream_type f = RS2_STREAM_DEPTH)
       && bool_decide (frame_format f = RS2_FORMAT_Z16)
    then
      {| points_in_set := points_in_set st1;
         frames_to_publish := frames_to_publish st1;
         is_in_set := is_in_set st1;
         depth_frame := Some f;
         is_depth_arrived := true |}
    else st1.

Definition dedup (align_depth : bool) (frames : list frame) : dedup_state :=
  fold_left (dedup_step align_depth) frames dedup_init.

(** The body of the loop over [frames_to_publish]. *)
Definition publish_one (env : Env) (t : Time) (frameset : list frame) (f : frame)
    : M unit :=
  match frame_payload f with
  | points pc =>
      pub ← gets (fun n => _pointcloud_publisher (pubs n));
      when (negb (getNumSubscribers env pub =? 0))
        (publishPointCloud pc t frameset)
  | _ => publishFrame env f t (frame_key f) Regular true
  end.

Definition publishAlignedDepthToOthers (env : Env) (frames : list frame) (t : Time)
    : M unit :=
  for_each frames (fun fr =>
    if bool_decide (frame_stream_type fr = RS2_STREAM_DEPTH) then ret tt
    else
      let sip := frame_key fr in
      info_publisher ← (m ← gets (fun n => _depth_aligned_info_publisher (pubs n));
                        map_at m sip);
      image_publisher ← (m ← gets (fun n => _depth_aligned_image_publishers (pubs n));
                         map_at m sip);
      when (negb (getNumSubscribers env info_publisher =? 0)
            || negb (getNumSubscribers env image_publisher =? 0))
        (aligned_depth_frame ← lift (align_to env (frame_stream_type fr) frames);
         publishFrame env aligned_depth_frame t sip AlignedDepth true)).

(** The loop over [_filters]: [frameset = filter_it->_filter->process(frameset)],
    left at the first block that raises. *)
Fixpoint apply_filters (env : Env) (filters : list NamedFilter) (frames : list frame)
    : exn + list frame :=
  match filters with
  | [] => inr frames
  | filter_it :: rest =>
      match process env filter_it frames with
      | inl e => inl e
      | inr frames' => apply_filters env rest frames'
      end
  end.

(** The first statement of the callback: the time base is set when it is
    not set yet. *)
Definition initialize_time_base (env : Env) (fr : rs2_frame) : M unit :=
  initialized ← gets (fun n => _intialize_time_base (time_base n));
  when (negb initialized)
    (when (bool_decide (get_frame_timestamp_domain fr = RS2_TIMESTAMP_DOMAIN_SYSTEM_TIME))
       (emit (ROS_WARN "Frame metadata isn't available! (frame_timestamp_domain = RS2_TIMESTAMP_DOMAIN_SYSTEM_TIME)"));;
     modify (fun n =>
       with_time_base
         {| _intialize_time_base := true;
            _ros_time_base := _ros_time_base (time_base n);
            _camera_time_base := _camera_time_base (time_base n) |} n);;
     modify (fun n =>
       with_time_base
         {| _intialize_time_base := _intialize_time_base (time_base n);
            _ros_time_base := now_at_base env;
            _camera_time_base := _camera_time_base (time_base n) |} n);;
     modify (fun n =>
       with_time_base
         {| _intialize_time_base := _intialize_time_base (time_base n);
            _ros_time_base := _ros_time_base (time_base n);
            _camera_time_base := get_timestamp fr |} n)).

(** [ros::Time t]: the stamp of everything published for this frame. *)
Definition frame_stamp (env : Env) (n : Node) (fr : rs2_frame) : Time :=
  if _sync_frames (params n)
  then Time_plus (now_at_stamp env) (Duration_fromSec (_ros_time_offset (params n)))
  else Time_fromSec
         (F64.add (Time_toSec (_ros_time_base (time_base n)))
                  (F64.div (F64.sub (get_timestamp fr) (_camera_time_base (time_base n)))
                           (F64.of_int 1000))).

(** The end of the [try] block: the image counter, when something was
    published. *)
Definition publish_image_counter (t : Time) : M unit :=
  send ← gets (fun n => _counter_enabled (pstate n) && _send_counter (pstate n));
  when send
    (counter ← gets (fun n => _image_counter (pstate n));
     emit (publish_counter t counter);;
     modify (fun n => with_pstate (set_image_counter (counter + 1) (pstate n)) n);;
     modify (fun n => with_pstate (set_send_counter false (pstate n)) n)).

(** The [try] block after [t] is computed. *)
Definition process_frame (env : Env) (fr : rs2_frame) (t : Time) : M unit :=
  is_frame_arrived ← gets _is_frame_arrived;
  match fr with
  | frameset _ _ _ frames =>
      _ ← for_fold frames is_frame_arrived (fun arrived f =>
            updateIsFrameArrived arrived (frame_stream_type f) (frame_stream_index f));
      filters ← gets _filters;
      filtered ← lift (apply_filters env filters frames);
      align_depth ← gets (fun n => _align_depth (params n));
      let st := dedup align_depth filtered in
      for_each (frames_to_publish st) (publish_one env t filtered);;
      when (align_depth && is_depth_arrived st)
        (publishAlignedDepthToOthers env filtered t)
  | single f =>
      _ ← updateIsFrameArrived is_frame_arrived (frame_stream_type f) (frame_stream_index f);
      publishFrame env f t (frame_key f) Regular true
  end;;
  publish_image_counter t.

(** The body of the [try] block. *)
Definition frame_callback_body (env : Env) (fr : rs2_frame) : M unit :=
  initialize_time_base env fr;;
  t ← gets (fun n => frame_stamp env n fr);
  process_frame env fr t.

Definition frame_callback (env : Env) (fr : rs2_frame) : M unit :=
  try_catch (frame_callback_body env fr)
    (fun ex => emit (ROS_ERROR ("An error has occurred during frame callback: "
                                ++ what ex)%string)).

(** ** The IMU callback *)

Definition zero_axes : vertex :=
  {| vertex_x := F32.zero; vertex_y := F32.zero; vertex_z := F32.zero |}.

(** [*(reinterpret_cast<const float3*>(frame.get_data()))] of a motion
    frame. *)
Definition frame_axes (f : frame) : vertex :=
  match frame_payload f with
  | motion_frame axes => axes
  | _ => zero_axes
  end.

Definition imu_callback (env : Env) (f : frame) : M unit :=
  initialized ← gets (fun n => _intialize_time_base (time_base n));
  if negb initialized then ret tt
  else
    let stream := frame_stream_type f in
    let stream_index := if bool_decide (stream = fst GYRO) then GYRO else ACCEL in
    info_publisher ← gets (fun n => at_default None (_info_publisher (pubs n)) stream_index);
    modify (fun n =>
      with_pubs (set_info_publisher
                   (touch None stream_index (_info_publisher (pubs n))) (pubs n)) n);;
    imu_publisher ← gets (fun n => at_default None (_imu_publishers (pubs n)) stream_index);
    when (negb (getNumSubscribers env info_publisher =? 0)
          || negb (getNumSubscribers env imu_publisher =? 0))
      (tb ← gets time_base;
       let elapsed_camera_ms :=
         F64.div (F64.sub (frame_timestamp f) (_camera_time_base tb)) (F64.of_int 1000) in
       let t := Time_fromSec (F64.add (Time_toSec (_ros_time_base tb)) elapsed_camera_ms) in
       frame_id ← gets (fun n => at_default "" (_optical_frame_id (params n)) stream_index);
       modify (fun n =>
         with_params (set_optical_frame_id
                        (touch "" stream_index (_optical_frame_id (params n)))
                        (params n)) n);;
       let axes := frame_axes f in
       modify (fun n =>
         with_pstate (set_seq (<[stream_index := at_default 0 (_seq (pstate n)) stream_index + 1]>
                                 (_seq (pstate n))) (pstate n)) n);;
       seq ← gets (fun n => at_default 0 (_seq (pstate n)) stream_index);
       emit (publish_imu stream_index
               {| imu_frame_id := frame_id; imu_stamp := t; imu_seq := seq;
                  imu_angular_velocity :=
                    if bool_decide (stream_index = GYRO) then Some axes else None;
                  imu_linear_acceleration :=
                    if bool_decide (stream_index = GYRO) then None
                    else if bool_decide (stream_index = ACCEL) then Some axes else None |})).

(** ** A streaming session: the callbacks the SDK invokes, one after the
    other *)
Inductive delivery : Type :=
| to_frame_callback (env : Env) (fr : rs2_frame)
| to_imu_callback (env : Env) (f : frame).

Definition deliver (d : delivery) : M unit :=
  match d with
  | to_frame_callback env fr => frame_callback env fr
  | to_imu_callback env f => imu_callback env f
  end.

(** The node and the effects after one delivery; what the callback returns
    to the SDK is in [fst (fst _)]. *)
Definition session_step (n : Node) (d : delivery) : Node :=
  snd (fst (deliver d n)).

Definition session (n : Node) (ds : list delivery) : Node :=
  fold_left session_step ds n.


(** ** What a run leaves, emits and returns *)

Definition result_of {A} (x : outcome A * Node * list effect) : outcome A := fst (fst x).
Definition node_of {A} (x : outcome A * Node * list effect) : Node := snd (fst x).
Definition out_of {A} (x : outcome A * Node * list effect) : list effect := snd x.

(** [c] takes every node to one related to it by [R]. *)
Definition maintains (R : Node -> Node -> Prop) {A} (c : M A) : Prop :=
  forall n, R n (node_of (c n)).

(** Everything [c] emits satisfies [P]. *)
Definition emits (P : effect -> Prop) {A} (c : M A) : Prop :=
  forall n, Forall P (out_of (c n)).

(** [c] never ends in a raised exception. *)
Definition no_raise {A} (c : M A) : Prop :=
  forall n e, result_of (c n) <> Raise e.


(** What a callback leaves in place for the next one: the parameters, the
    filters, the descriptors it publishes with, the publishers, the entries
    of the maps read with [at], and the time base once it is set. *)
Record session_stable (n n' : Node) : Prop := {
  stable_filters : _filters n' = _filters n;
  stable_sync_frames : _sync_frames (params n') = _sync_frames (params n);
  stable_ros_time_offset : _ros_time_offset (params n') = _ros_time_offset (params n);
  stable_align_depth : _align_depth (params n') = _align_depth (params n);
  stable_pointcloud : _pointcloud (params n') = _pointcloud (params n);
  stable_pointcloud_texture :
    _pointcloud_texture (params n') = _pointcloud_texture (params n);
  stable_optical_frame_id :
    _optical_frame_id (params n) ⊆ _optical_frame_id (params n');
  stable_encoding : _encoding (desc n') = _encoding (desc n);
  stable_image_format : _image_format (desc n') = _image_format (desc n);
  stable_image_publishers :
    _image_publishers (pubs n') = _image_publishers (pubs n);
  stable_info_publisher : _info_publisher (pubs n) ⊆ _info_publisher (pubs n');
  stable_imu_publishers : _imu_publishers (pubs n') = _imu_publishers (pubs n);
  stable_pointcloud_publisher :
    _pointcloud_publisher (pubs n') = _pointcloud_publisher (pubs n);
  stable_aligned_image_publishers :
    _depth_aligned_image_publishers (pubs n') = _depth_aligned_image_publishers (pubs n);
  stable_aligned_info_publisher :
    _depth_aligned_info_publisher (pubs n') = _depth_aligned_info_publisher (pubs n);
  stable_aligned_encoding :
    _depth_aligned_encoding (pstate n') = _depth_aligned_encoding (pstate n);
  stable_camera_info :
    dom (_camera_info (pstate n)) ⊆ dom (_camera_info (pstate n'));
  stable_aligned_camera_info :
    dom (_depth_aligned_camera_info (pstate n))
    ⊆ dom (_depth_aligned_camera_info (pstate n'));
  stable_is_frame_arrived : _is_frame_arrived n' = _is_frame_arrived n;
  stable_time_base :
    _intialize_time_base (time_base n) = true → time_base n' = time_base n
}.


(** The node of [n] with the time base set from the first frame. *)
Definition with_time_base_from (env : Env) (fr : rs2_frame) (n : Node) : Node :=
  with_time_base
    {| _intialize_time_base := true;
       _ros_time_base := now_at_base env;
       _camera_time_base := get_timestamp fr |} n.

Definition is_imu_delivery (d : delivery) : bool :=
  match d with
  | to_imu_callback _ _ => true
  | to_frame_callback _ _ => false
  end.


(** The stamp an emitted message carries. *)
Definition effect_stamp (e : effect) : option Time :=
  match e with
  | publish_camera_info _ _ info => Some (ci_stamp info)
  | publish_image _ _ _ img => Some (img_stamp img)
  | publish_pointcloud msg => Some (pc_stamp msg)
  | publish_imu _ msg => Some (imu_stamp msg)
  | publish_counter stamp _ => Some stamp
  | _ => None
  end.

Definition stamped (t : Time) (e : effect) : Prop :=
  forall s, effect_stamp e = Some s -> s = t.

(** The frame an emitted effect hands to the image publisher of its own
    stream. *)
Definition regular_frame (e : effect) : option frame :=
  match e with
  | publish_image Regular _ f _ => Some f
  | _ => None
  end.

Definition regular_frames (out : list effect) : list frame :=
  omap regular_frame out.


(** The test of the first image or motion frame of key [k]. *)
Definition is_frame_of (k : stream_index_pair) (f : frame) : bool :=
  negb (is_points f) && bool_decide (frame_key f = k).

Definition not_points (f : frame) : bool := negb (is_points f).

(** What the loop has established after the frames [seen]. *)
Record dedup_inv (seen : list frame) (st : dedup_state) : Prop := {
  inv_is_in_set :
    is_in_set st = map frame_key (List.filter not_points (frames_to_publish st));
  inv_nodup : NoDup (is_in_set st);
  inv_points_in_set : points_in_set st = existsb is_points seen;
  inv_points :
    List.filter is_points (frames_to_publish st)
    = take 1 (List.filter is_points seen);
  inv_sublist : sublist (frames_to_publish st) seen;
  inv_first :
    forall k, List.find (is_frame_of k) (frames_to_publish st)
              = List.find (is_frame_of k) seen
}.


(** [c] hands to the image publishers of the streams at most the frames
    [l], in that order. *)
Definition hands_over (l : list frame) {A} (c : M A) : Prop :=
  forall n, sublist (regular_frames (out_of (c n))) l.


(** The same under an invariant of the node: [c], from a node where [I]
    holds, hands over at most [l] and leaves a node where [I] holds. *)
Definition hands_over_in (I : Node → Prop) (l : list frame) {A} (c : M A) : Prop :=
  ∀ n, I n → sublist (regular_frames (out_of (c n))) l ∧ I (node_of (c n)).

(** What the publishing loop reads of the node. *)
Definition publishing_reads (F : list NamedFilter) (a : bool) (n : Node) : Prop :=
  _filters n = F ∧ _align_depth (params n) = a.


(** The record [publishPointCloud] stores for a point it colors white. *)
Definition white_point (p : vertex * texture_coordinate) : PointCloudPoint :=
  {| pt_x := vertex_x (fst p); pt_y := vertex_y (fst p); pt_z := vertex_z (fst p);
     pt_r := 255; pt_g := 255; pt_b := 255 |}.

(** [r] is the record of the point [p]: same coordinates. *)
Definition record_of (r : PointCloudPoint) (p : vertex * texture_coordinate) : Prop :=
  pt_x r = vertex_x (fst p) /\ pt_y r = vertex_y (fst p) /\ pt_z r = vertex_z (fst p).


(** ** What a session emits *)

(** The counters among the emitted messages, in order. *)
Definition counters_of (out : list effect) : list Z :=
  omap (fun e => match e with publish_counter _ c => Some c | _ => None end) out.

(** Everything emitted during a session, in order. *)
Fixpoint session_out (n : Node) (ds : list delivery) : list effect :=
  match ds with
  | [] => []
  | d :: ds' => out_of (deliver d n) ++ session_out (session_step n d) ds'
  end.

(** [c] leaves the image counter and emits no counter message. *)
Definition counter_quiet {A} (c : M A) : Prop :=
  maintains (λ n n', _image_counter (pstate n') = _image_counter (pstate n)) c
  ∧ emits (λ e, ∀ t k, e ≠ publish_counter t k) c.

(** [c] emits no counter message and leaves the counter, or emits the
    counter's value once and advances it by one. *)
Definition counts_once {A} (c : M A) : Prop :=
  ∀ n,
    (counters_of (out_of (c n)) = []
     ∧ _image_counter (pstate (node_of (c n))) = _image_counter (pstate n))
    ∨ (counters_of (out_of (c n)) = [_image_counter (pstate n)]
       ∧ _image_counter (pstate (node_of (c n))) = _image_counter (pstate n) + 1).


(** ** What a frameset gets published *)

(** The stream [k] can be published: its two publishers exist and one of
    them has a subscriber, and the maps [publishFrame] reads with [at] have
    its entry. *)
Definition publishable (env : Env) (n : Node) (k : stream_index_pair) : Prop :=
  ∃ info_pub image_pub,
    _info_publisher (pubs n) !! k = Some info_pub
    ∧ _image_publishers (pubs n) !! k = Some image_pub
    ∧ (getNumSubscribers env info_pub ≠ 0 ∨ getNumSubscribers env image_pub ≠ 0)
    ∧ is_Some (_encoding (desc n) !! k)
    ∧ is_Some (_optical_frame_id (params n) !! k)
    ∧ is_Some (_camera_info (pstate n) !! k).

(** The frames handed to the image publishers of their streams, each with
    the stamp of its image. *)
Definition regular_stamps (out : list effect) : list (frame * Time) :=
  omap (fun e =>
          match e with
          | publish_image Regular _ f img => Some (f, img_stamp img)
          | _ => None
          end) out.

(** The stream of a camera info handed to the info publisher of the
    stream. *)
Definition regular_info_key (e : effect) : option stream_index_pair :=
  match e with
  | publish_camera_info Regular k _ => Some k
  | _ => None
  end.

Definition regular_info_keys (out : list effect) : list stream_index_pair :=
  omap regular_info_key out.

(** [c] hands the info publishers of the streams one camera info with
    every image it hands to the image publisher of a stream, under the key
    of the frame of the image, and no other. *)
Definition info_paired {A} (c : M A) : Prop :=
  ∀ n, regular_info_keys (out_of (c n)) = map frame_key (regular_frames (out_of (c n))).

(** [e] goes to no publisher of the streams' own images and camera
    infos. *)
Definition not_regular (e : effect) : Prop :=
  regular_frame e = None ∧ regular_info_key e = None.

End BaseRealSenseNode.


(* ================================================================== *)
(** * Bringing the node up

    The functions [publishTopics] runs before the first frame arrives, with
    the members and the collaborators that only they use. *)

(** ** Calibration data of the camera SDK *)

(** [rs2_intrinsics]: what [updateStreamCalibData] reads of it; [coeffs]
    is [float coeffs[5]]. *)
Record rs2_intrinsics : Type := {
  intr_width : Z;
  intr_height : Z;
  intr_ppx : float;
  intr_ppy : float;
  intr_fx : float;
  intr_fy : float;
  intr_coeffs : list float
}.

(** [rs2_extrinsics]: [float rotation[9]], column-major, and
    [float translation[3]]. *)
Record rs2_extrinsics : Type := {
  ext_rotation : list float;
  ext_translation : list float
}.

(** [rs2_motion_device_intrinsic]: [float data[3][4]],
    [float noise_variances[3]], [float bias_variances[3]]. *)
Record rs2_motion_device_intrinsic : Type := {
  mi_data : list (list float);
  mi_noise_variances : list float;
  mi_bias_variances : list float
}.

(** The conversion of a [float] to a [double]; it is exact. *)
Definition double_of_float (x : float) : double :=
  match x with
  | S754_finite s m e =>
      binary_normalize F64.prec F64.emax (if s then Z.neg m else Z.pos m) e s
  | _ => x
  end.

(** The calibration part of a [sensor_msgs::CameraInfo]; the stamp and the
    sequence number of its header are in [CameraInfo]. [K], [R] and [P] are
    arrays of 9, 9 and 12 [double]s, [D] is a vector. *)
Record Calibration : Type := {
  cal_frame_id : string;
  cal_width : Z;
  cal_height : Z;
  cal_distortion_model : string;
  cal_D : list double;
  cal_K : list double;
  cal_R : list double;
  cal_P : list double
}.

(** [sensor_msgs::CameraInfo()] *)
Definition Calibration_new : Calibration :=
  {| cal_frame_id := ""; cal_width := 0; cal_height := 0;
     cal_distortion_model := ""; cal_D := [];
     cal_K := replicate 9 (S754_zero false);
     cal_R := replicate 9 (S754_zero false);
     cal_P := replicate 12 (S754_zero false) |}.

(** The arrays of a calibration have their sizes. *)
Definition well_sized (c : Calibration) : Prop :=
  length (cal_K c) = 9%nat ∧ length (cal_R c) = 9%nat ∧ length (cal_P c) = 12%nat.

(** ** The order of the keys of a [std::map<stream_index_pair, V>] *)

(** [std::pair]'s [operator<]: by the stream type's enumeration value, then
    by the index. *)
Definition sip_le (a b : stream_index_pair) : Prop :=
  (rs2_stream_code (fst a) < rs2_stream_code (fst b))%nat
  ∨ (rs2_stream_code (fst a) = rs2_stream_code (fst b) ∧ snd a ≤ snd b).

#[global] Instance sip_le_dec (a b : stream_index_pair) : Decision (sip_le a b).
Proof. unfold sip_le. apply _. Defined.

(** The entries of a map in the order a range-for visits them. *)
Definition in_key_order {V} (m : gmap stream_index_pair V)
    : list (stream_index_pair * V) :=
  merge_sort (fun x y => sip_le (fst x) (fst y)) (map_to_list m).

Section SetUp.
Context `{RosTime}.

(** ** The members of the node that the callbacks do not use *)

(** What the node reads of an [rs2::sensor]: its name, and what
    [get_stream_profiles()] ends in, the profiles in the order the sensor
    reports them or the exception of the SDK. *)
Record sensor : Type := {
  sensor_name : string;                        (* get_info(RS2_CAMERA_INFO_NAME) *)
  sensor_stream_profiles : exn + list stream_profile (* get_stream_profiles()    *)
}.

Inductive inter_cam_sync_mode : Type :=
| inter_cam_sync_none
| inter_cam_sync_default
| inter_cam_sync_master
| inter_cam_sync_slave.

#[global] Instance inter_cam_sync_mode_eq_dec : EqDecision inter_cam_sync_mode.
Proof. solve_decision. Defined.

Record SetupMembers : Type := {
  _json_file_path : string;
  _serial_no : string;
  _namespace : string;
  _base_frame_id : string;
  _frame_id : gmap stream_index_pair string;
  _depth_aligned_frame_id : gmap stream_index_pair string;
  _stream_name : gmap stream_index_pair string;
  _inter_cam_sync_mode : inter_cam_sync_mode;
  _sensors : gmap stream_index_pair sensor;
  _stream_intrinsics : gmap stream_index_pair rs2_intrinsics;
  _calibration : gmap stream_index_pair Calibration;
  _depth_aligned_calibration : gmap stream_index_pair Calibration;
  _counter_publisher : publisher;
  _depth_to_other_extrinsics_publishers : gmap stream_index_pair publisher;
  _depth_to_other_extrinsics : gmap stream_index_pair rs2_extrinsics;
  _depth_scale_meters : float
}.

(** The whole node: the members of [Node] and the others. *)
Record Whole : Type := {
  core : Node;
  rest : SetupMembers
}.

Definition with_core (n : Node) (w : Whole) : Whole :=
  {| core := n; rest := rest w |}.

Definition with_rest (r : SetupMembers) (w : Whole) : Whole :=
  {| core := core w; rest := r |}.

(** ** Messages and calls of the set-up *)

(** [geometry_msgs::TransformStamped] *)
Record TransformStamped : Type := {
  tf_stamp : Time;
  tf_frame_id : string;
  tf_child_frame_id : string;
  tf_translation : double * double * double;
  tf_rotation : double * double * double * double
}.

(** [Extrinsics]: [float64[9] rotation], [float64[3] translation]. *)
Record Extrinsics : Type := {
  ex_frame_id : string;
  ex_rotation : list double;
  ex_translation : list double
}.

(** [IMUInfo]: [float64[12] data], [float64[3] noise_variances],
    [float64[3] bias_variances]. *)
Record IMUInfo : Type := {
  ii_frame_id : string;
  ii_data : list double;
  ii_noise_variances : list double;
  ii_bias_variances : list double
}.

(** Who a sensor is started with. *)
Inductive frame_sink : Type := to_syncer | to_frame_callback_sink | to_imu_callback_sink.

(** What the set-up functions emit: what the functions of [Node] emit,
    log lines, and the calls to ROS and to the camera. *)
Inductive action : Type :=
| core_effect (e : effect)
| LOG_INFO (msg : string)
| LOG_WARN (msg : string)
| LOG_ERROR (msg : string)
| LOG_INFO_skipping (stream_index : stream_index_pair)
| advertise (topic : string) (queue_size : Z) (latch : bool)
| sendTransform (msg : TransformStamped)
| LOG_INFO_stream_enabled (stream_name : string) (fps : Z)
| LOG_INFO_sync_mode (mode : inter_cam_sync_mode)
| LOG_ERROR_module (module_name : string)
| publish_extrinsics (p : publisher) (msg : Extrinsics)
| publish_imu_info (p : publisher) (msg : IMUInfo)
| load_json (content : string)
| set_inter_cam_sync_mode (s : sensor) (mode : inter_cam_sync_mode)
| sensor_open (s : sensor) (profiles : list stream_profile)
| sensor_start (s : sensor) (sink : frame_sink)
| syncer_start
| ros_shutdown.

(** ** The monad of the set-up functions *)

Definition MW (A : Type) : Type := Whole -> outcome A * Whole * list action.

Definition w_ret {A} (a : A) : MW A := fun w => (Ok a, w, []).

Definition w_bind {A B} (c : MW A) (k : A -> MW B) : MW B :=
  fun w =>
    match c w with
    | (Ok a, w1, out1) => let '(r, w2, out2) := k a w1 in (r, w2, out1 ++ out2)
    | (Raise e, w1, out1) => (Raise e, w1, out1)
    | (Terminated why, w1, out1) => (Terminated why, w1, out1)
    | (Undefined why, w1, out1) => (Undefined why, w1, out1)
    end.

#[global] Instance MW_ret : MRet MW := @w_ret.
#[global] Instance MW_bind : MBind MW := fun A B k c => w_bind c k.

Definition w_gets {A} (f : Whole -> A) : MW A := fun w => (Ok (f w), w, []).
Definition w_modify (f : Whole -> Whole) : MW unit := fun w => (Ok tt, f w, []).
Definition w_emit (a : action) : MW unit := fun w => (Ok tt, w, [a]).
Definition w_throw {A} (e : exn) : MW A := fun w => (Raise e, w, []).
Definition w_terminate {A} (why : string) : MW A := fun w => (Terminated why, w, []).
Definition w_undefined {A} (why : string) : MW A := fun w => (Undefined why, w, []).

Definition w_lift {A} (r : exn + A) : MW A :=
  match r with
  | inl e => w_throw e
  | inr a => w_ret a
  end.

Definition w_when (b : bool) (c : MW unit) : MW unit := if b then c else w_ret tt.

Fixpoint w_for_each {A} (l : list A) (body : A -> MW unit) : MW unit :=
  match l with
  | [] => w_ret tt
  | x :: l' => body x ;; w_for_each l' body
  end.

(** [try { body } catch (const std::exception& ex) { handler(ex) }] *)
Definition w_try_catch {A} (body : MW A) (handler : exn -> MW A) : MW A :=
  fun w =>
    match body w with
    | (Raise e, w1, out1) =>
        let '(r, w2, out2) := handler e w1 in (r, w2, out1 ++ out2)
    | r => r
    end.

(** What a run returns, leaves and emits. *)
Definition w_result_of {A} (x : outcome A * Whole * list action) : outcome A :=
  fst (fst x).
Definition w_whole_of {A} (x : outcome A * Whole * list action) : Whole :=
  snd (fst x).
Definition w_out_of {A} (x : outcome A * Whole * list action) : list action := snd x.

(** A member function of [Node], run on the whole node. *)
Definition in_core {A} (c : M A) : MW A :=
  fun w =>
    let '(r, n', out) := c (core w) in
    (r, with_core n' w, map core_effect out).

(** [ROS_ERROR_STREAM(msg); ros::shutdown(); exit(1);] *)
Definition shutdown_and_exit {A} (msg : string) : MW A :=
  w_emit (LOG_ERROR msg);;
  w_emit ros_shutdown;;
  w_terminate "exit(1)".

(** ** getEnabledProfile *)

(** [getEnabledProfile(stream_index, profile)]: [Some p] for [true] with
    [profile = p], [None] for [false]. [_enabled_profiles[stream_index]]
    creates the entry of an absent key. *)
Definition getEnabledProfile (stream_index : stream_index_pair)
    : M (option stream_profile) :=
  profiles ← gets (fun n => at_default [] (_enabled_profiles n) stream_index);
  modify (fun n =>
    with_enabled_profiles (touch [] stream_index (_enabled_profiles n)) n);;
  ret (List.find
         (fun profile => bool_decide (profile_stream_type profile = fst stream_index))
         profiles).

(** ** updateStreamCalibData *)

(** The camera SDK, asked about profiles. *)
Record Sdk : Type := {
  get_intrinsics : stream_profile -> exn + rs2_intrinsics;
  get_extrinsics_to : stream_profile -> stream_profile -> exn + rs2_extrinsics;
  get_motion_intrinsics : stream_profile -> exn + rs2_motion_device_intrinsic
}.

(** [sensor_msgs::CameraInfo()]: the header. *)
Definition CameraInfo_new : CameraInfo := {| ci_stamp := Time_default; ci_seq := 0 |}.

Definition set_calibration (m : gmap stream_index_pair Calibration)
    (r : SetupMembers) : SetupMembers :=
  {| _json_file_path := _json_file_path r; _serial_no := _serial_no r;
     _namespace := _namespace r; _base_frame_id := _base_frame_id r;
     _frame_id := _frame_id r;
     _depth_aligned_frame_id := _depth_aligned_frame_id r;
     _stream_name := _stream_name r;
     _inter_cam_sync_mode := _inter_cam_sync_mode r;
     _sensors := _sensors r;
     _stream_intrinsics := _stream_intrinsics r;
     _calibration := m;
     _depth_aligned_calibration := _depth_aligned_calibration r;
     _counter_publisher := _counter_publisher r;
     _depth_to_other_extrinsics_publishers := _depth_to_other_extrinsics_publishers r;
     _depth_to_other_extrinsics := _depth_to_other_extrinsics r;
     _depth_scale_meters := _depth_scale_meters r |}.

Definition set_depth_aligned_calibration (m : gmap stream_index_pair Calibration)
    (r : SetupMembers) : SetupMembers :=
  {| _json_file_path := _json_file_path r; _serial_no := _serial_no r;
     _namespace := _namespace r; _base_frame_id := _base_frame_id r;
     _frame_id := _frame_id r;
     _depth_aligned_frame_id := _depth_aligned_frame_id r;
     _stream_name := _stream_name r;
     _inter_cam_sync_mode := _inter_cam_sync_mode r;
     _sensors := _sensors r;
     _stream_intrinsics := _stream_intrinsics r;
     _calibration := _calibration r;
     _depth_aligned_calibration := m;
     _counter_publisher := _counter_publisher r;
     _depth_to_other_extrinsics_publishers := _depth_to_other_extrinsics_publishers r;
     _depth_to_other_extrinsics := _depth_to_other_extrinsics r;
     _depth_scale_meters := _depth_scale_meters r |}.

Definition set_stream_intrinsics (m : gmap stream_index_pair rs2_intrinsics)
    (r : SetupMembers) : SetupMembers :=
  {| _json_file_path := _json_file_path r; _serial_no := _serial_no r;
     _namespace := _namespace r; _base_frame_id := _base_frame_id r;
     _frame_id := _frame_id r;
     _depth_aligned_frame_id := _depth_aligned_frame_id r;
     _stream_name := _stream_name r;
     _inter_cam_sync_mode := _inter_cam_sync_mode r;
     _sensors := _sensors r;
     _stream_intrinsics := m;
     _calibration := _calibration r;
     _depth_aligned_calibration := _depth_aligned_calibration r;
     _counter_publisher := _counter_publisher r;
     _depth_to_other_extrinsics_publishers := _depth_to_other_extrinsics_publishers r;
     _depth_to_other_extrinsics := _depth_to_other_extrinsics r;
     _depth_scale_meters := _depth_scale_meters r |}.

(** An update of [_camera_info[stream_index]], calibration part;
    [operator[]] creates the entry, header and calibration, when the key
    is absent. *)
Definition update_camera_info (stream_index : stream_index_pair)
    (f : Calibration -> Calibration) : MW unit :=
  w_modify (fun w =>
    with_core
      (with_pstate
         (set_camera_info
            (touch CameraInfo_new stream_index (_camera_info (pstate (core w))))
            (pstate (core w)))
         (core w))
      (with_rest
         (set_calibration
            (<[stream_index :=
                 f (at_default Calibration_new (_calibration (rest w)) stream_index)]>
               (_calibration (rest w)))
            (rest w))
         w)).

Definition set_cal_K (k : list double) (c : Calibration) : Calibration :=
  {| cal_frame_id := cal_frame_id c; cal_width := cal_width c;
     cal_height := cal_height c; cal_distortion_model := cal_distortion_model c;
     cal_D := cal_D c; cal_K := k; cal_R := cal_R c; cal_P := cal_P c |}.

Definition set_cal_P (p : list double) (c : Calibration) : Calibration :=
  {| cal_frame_id := cal_frame_id c; cal_width := cal_width c;
     cal_height := cal_height c; cal_distortion_model := cal_distortion_model c;
     cal_D := cal_D c; cal_K := cal_K c; cal_R := cal_R c; cal_P := p |}.

Definition set_cal_R (r : list double) (c : Calibration) : Calibration :=
  {| cal_frame_id := cal_frame_id c; cal_width := cal_width c;
     cal_height := cal_height c; cal_distortion_model := cal_distortion_model c;
     cal_D := cal_D c; cal_K := cal_K c; cal_R := r; cal_P := cal_P c |}.

Definition set_cal_D (d : list double) (c : Calibration) : Calibration :=
  {| cal_frame_id := cal_frame_id c; cal_width := cal_width c;
     cal_height := cal_height c; cal_distortion_model := cal_distortion_model c;
     cal_D := d; cal_K := cal_K c; cal_R := cal_R c; cal_P := cal_P c |}.

Definition d0 : double := S754_zero false.
Definition d1 : double := F64.of_int 1.

(** An element of an array of the SDK, read at an index. *)
Definition array_get {A} (a : list A) (i : nat) : MW A :=
  match a !! i with
  | Some x => w_ret x
  | None => w_undefined "read outside an array"
  end.

(** The statements from [_camera_info[stream_index].width = ...] to
    [P.at(11) = 0]. [K.at(i) = x] on an array of 9 is [<[i := x]>]. *)
Definition calibrate_K_P (intrinsic : rs2_intrinsics) (frame_id : string)
    (c : Calibration) : Calibration :=
  let k := <[8%nat := d1]>
           (<[5%nat := double_of_float (intr_ppy intrinsic)]>
           (<[4%nat := double_of_float (intr_fy intrinsic)]>
           (<[2%nat := double_of_float (intr_ppx intrinsic)]>
           (<[0%nat := double_of_float (intr_fx intrinsic)]> (cal_K c))))) in
  let at_K i := default d0 (k !! i) in
  let p := <[11%nat := d0]> (<[10%nat := d1]> (<[9%nat := d0]> (<[8%nat := d0]>
           (<[7%nat := d0]> (<[6%nat := at_K 5%nat]> (<[5%nat := at_K 4%nat]>
           (<[4%nat := d0]> (<[3%nat := d0]> (<[2%nat := at_K 2%nat]>
           (<[1%nat := d0]> (<[0%nat := at_K 0%nat]> (cal_P c)))))))))))) in
  {| cal_frame_id := frame_id;
     cal_width := intr_width intrinsic;
     cal_height := intr_height intrinsic;
     cal_distortion_model := cal_distortion_model c;
     cal_D := cal_D c; cal_K := k; cal_R := cal_R c; cal_P := p |}.

(** [distortion_model = "plumb_bob"] and [R] set to the identity. *)
Definition calibrate_R (c : Calibration) : Calibration :=
  {| cal_frame_id := cal_frame_id c; cal_width := cal_width c;
     cal_height := cal_height c; cal_distortion_model := "plumb_bob";
     cal_D := cal_D c; cal_K := cal_K c;
     cal_R := <[8%nat := d1]> (<[7%nat := d0]> (<[6%nat := d0]> (<[5%nat := d0]>
              (<[4%nat := d1]> (<[3%nat := d0]> (<[2%nat := d0]> (<[1%nat := d0]>
              (<[0%nat := d1]> (cal_R c)))))))));
     cal_P := cal_P c |}.

(** [_depth_aligned_camera_info[k] = _camera_info[k]] *)
Definition copy_to_aligned (k : stream_index_pair) : MW unit :=
  update_camera_info k (fun c => c);;
  w_modify (fun w =>
    with_core
      (with_pstate
         (set_depth_aligned_camera_info
            (<[k := at_default CameraInfo_new (_camera_info (pstate (core w))) k]>
               (_depth_aligned_camera_info (pstate (core w))))
            (pstate (core w)))
         (core w))
      (with_rest
         (set_depth_aligned_calibration
            (<[k := at_default Calibration_new (_calibration (rest w)) k]>
               (_depth_aligned_calibration (rest w)))
            (rest w))
         w)).

(** The last statement of [updateStreamCalibData]: with [_align_depth],
    the camera info of every enabled profile's stream is copied to the
    aligned-depth camera infos. *)
Definition copy_camera_infos_to_aligned : MW unit :=
  align_depth ← in_core (gets (fun n => _align_depth (params n)));
  w_when align_depth
    (profiles ← in_core (gets (fun n => in_key_order (_enabled_profiles n)));
     w_for_each profiles (fun entry =>
       w_for_each (snd entry) (fun profile =>
         copy_to_aligned (profile_stream_type profile, profile_stream_index profile)))).

Definition updateStreamCalibData (sdk : Sdk) (video_profile : stream_profile)
    : MW unit :=
  let stream_index :=
    (profile_stream_type video_profile, profile_stream_index video_profile) in
  intrinsic ← w_lift (get_intrinsics sdk video_profile);
  w_modify (fun w =>
    with_rest (set_stream_intrinsics
                 (<[stream_index := intrinsic]> (_stream_intrinsics (rest w)))
                 (rest w)) w);;
  update_camera_info stream_index (fun c => c);;
  frame_id ← in_core
    (gets (fun n => at_default "" (_optical_frame_id (params n)) stream_index));
  in_core (modify (fun n =>
    with_params (set_optical_frame_id
                   (touch "" stream_index (_optical_frame_id (params n)))
                   (params n)) n));;
  update_camera_info stream_index (calibrate_K_P intrinsic frame_id);;
  depth_profile ← in_core (getEnabledProfile DEPTH);
  match depth_profile with
  | None => shutdown_and_exit "Given depth profile is not supported by current device!"
  | Some _ => w_ret tt
  end;;
  update_camera_info stream_index calibrate_R;;
  w_for_each (seq 0 5) (fun i =>
    coeff ← array_get (intr_coeffs intrinsic) i;
    update_camera_info stream_index
      (fun c => set_cal_D (cal_D c ++ [double_of_float coeff]) c));;
  enable_depth ← in_core (gets (fun n => at_default false (_enable (desc n)) DEPTH));
  enable_color ← in_core (gets (fun n => at_default false (_enable (desc n)) COLOR));
  w_when (bool_decide (stream_index = DEPTH) && enable_depth && enable_color)
    (update_camera_info stream_index
       (fun c => set_cal_P (<[7%nat := d0]> (<[3%nat := d0]> (cal_P c))) c));;
  copy_camera_infos_to_aligned.

(** The first loop of [setupStreams]: the calibration data of every
    enabled profile, in the order of the keys of [_enabled_profiles]. The
    map does not change while the loop runs, unless the process ends. *)
Definition calibrate_streams (sdk : Sdk) : MW unit :=
  profiles ← in_core (gets (fun n => in_key_order (_enabled_profiles n)));
  w_for_each profiles (fun entry =>
    w_for_each (snd entry) (updateStreamCalibData sdk)).


(** ** getParameters, the members read off the parameter server that only
    the set-up uses *)

(** More default values of constants.h. *)
Record SetupConstants : Type := {
  DEFAULT_BASE_FRAME_ID : string;
  DEFAULT_DEPTH_FRAME_ID : string;
  DEFAULT_INFRA1_FRAME_ID : string;
  DEFAULT_INFRA2_FRAME_ID : string;
  DEFAULT_COLOR_FRAME_ID : string;
  DEFAULT_FISHEYE_FRAME_ID : string;
  DEFAULT_IMU_FRAME_ID : string;
  DEFAULT_ALIGNED_DEPTH_TO_COLOR_FRAME_ID : string;
  DEFAULT_ALIGNED_DEPTH_TO_INFRA1_FRAME_ID : string;
  DEFAULT_ALIGNED_DEPTH_TO_INFRA2_FRAME_ID : string;
  DEFAULT_ALIGNED_DEPTH_TO_FISHEYE_FRAME_ID : string;
  INTER_CAM_SYNC_MODE : string
}.

(** [::tolower] in the C locale. *)
Definition tolower (c : ascii) : ascii :=
  let n := nat_of_ascii c in
  if (65 <=? n)%nat && (n <=? 90)%nat then ascii_of_nat (n + 32) else c.

Fixpoint string_tolower (s : string) : string :=
  match s with
  | EmptyString => EmptyString
  | String c s' => String (tolower c) (string_tolower s')
  end.

(** The mode a value of the parameter inter_cam_sync_mode stands for, lower
    case, and whether it is one of the four values known. *)
Definition parse_inter_cam_sync_mode (lowered : string)
    : inter_cam_sync_mode * bool :=
  if String.eqb lowered "default" then (inter_cam_sync_default, true)
  else if String.eqb lowered "master" then (inter_cam_sync_master, true)
  else if String.eqb lowered "slave" then (inter_cam_sync_slave, true)
  else if String.eqb lowered "none" then (inter_cam_sync_none, true)
  else (inter_cam_sync_none, false).

Definition set_parameters (json_file_path base_frame_id : string)
    (frame_id depth_aligned_frame_id : gmap stream_index_pair string)
    (mode : inter_cam_sync_mode) (r : SetupMembers) : SetupMembers :=
  {| _json_file_path := json_file_path; _serial_no := _serial_no r;
     _namespace := _namespace r; _base_frame_id := base_frame_id;
     _frame_id := frame_id;
     _depth_aligned_frame_id := depth_aligned_frame_id;
     _stream_name := _stream_name r;
     _inter_cam_sync_mode := mode;
     _sensors := _sensors r;
     _stream_intrinsics := _stream_intrinsics r;
     _calibration := _calibration r;
     _depth_aligned_calibration := _depth_aligned_calibration r;
     _counter_publisher := _counter_publisher r;
     _depth_to_other_extrinsics_publishers := _depth_to_other_extrinsics_publishers r;
     _depth_to_other_extrinsics := _depth_to_other_extrinsics r;
     _depth_scale_meters := _depth_scale_meters r |}.

(** The statements of [getParameters] that load [_json_file_path], the tf
    frame ids and [_inter_cam_sync_mode]. In the source they stand between
    the statements [getParameters] (above) models; neither group reads what
    the other writes, and the one statement that can raise,
    [rs2_string_to_stream], comes before all of them. *)
Definition getParameters_frames (KS : SetupConstants) (ps : ParamServer) : MW unit :=
  w_modify (fun w =>
    with_rest
      (set_parameters
         (param (param_string ps) "json_file_path" "")
         (param (param_string ps) "base_frame_id" (DEFAULT_BASE_FRAME_ID KS))
         (<[ACCEL := param (param_string ps) "imu_accel_frame_id" (DEFAULT_IMU_FRAME_ID KS)]>
         (<[GYRO := param (param_string ps) "imu_gyro_frame_id" (DEFAULT_IMU_FRAME_ID KS)]>
         (<[FISHEYE := param (param_string ps) "fisheye_frame_id" (DEFAULT_FISHEYE_FRAME_ID KS)]>
         (<[COLOR := param (param_string ps) "color_frame_id" (DEFAULT_COLOR_FRAME_ID KS)]>
         (<[INFRA2 := param (param_string ps) "infra2_frame_id" (DEFAULT_INFRA2_FRAME_ID KS)]>
         (<[INFRA1 := param (param_string ps) "infra1_frame_id" (DEFAULT_INFRA1_FRAME_ID KS)]>
         (<[DEPTH := param (param_string ps) "depth_frame_id" (DEFAULT_DEPTH_FRAME_ID KS)]>
          (_frame_id (rest w)))))))))
         (<[FISHEYE := param (param_string ps) "aligned_depth_to_fisheye_frame_id"
                         (DEFAULT_ALIGNED_DEPTH_TO_FISHEYE_FRAME_ID KS)]>
         (<[INFRA2 := param (param_string ps) "aligned_depth_to_infra2_frame_id"
                        (DEFAULT_ALIGNED_DEPTH_TO_INFRA2_FRAME_ID KS)]>
         (<[INFRA1 := param (param_string ps) "aligned_depth_to_infra1_frame_id"
                        (DEFAULT_ALIGNED_DEPTH_TO_INFRA1_FRAME_ID KS)]>
         (<[COLOR := param (param_string ps) "aligned_depth_to_color_frame_id"
                       (DEFAULT_ALIGNED_DEPTH_TO_COLOR_FRAME_ID KS)]>
          (_depth_aligned_frame_id (rest w))))))
         (fst (parse_inter_cam_sync_mode
                 (string_tolower
                    (param (param_string ps) "inter_cam_sync_mode"
                       (INTER_CAM_SYNC_MODE KS)))))
         (rest w)) w);;
  let lowered :=
    string_tolower (param (param_string ps) "inter_cam_sync_mode"
                      (INTER_CAM_SYNC_MODE KS)) in
  w_when (negb (snd (parse_inter_cam_sync_mode lowered)))
    (w_emit (LOG_WARN ("Invalid inter cam sync mode (" ++ lowered
                       ++ ")! Not using inter cam sync mode.")%string)).

(** ** setupDevice *)

(** The camera: what [_dev] answers, and what the calls into the SDK that
    act on the camera end in ([None]: they return). *)
Record Device : Type := {
  dev_is_advanced_mode : bool;
  dev_name : exn + string;             (* get_info(RS2_CAMERA_INFO_NAME)             *)
  dev_firmware_version : exn + string; (* get_info(RS2_CAMERA_INFO_FIRMWARE_VERSION) *)
  dev_product_id : exn + string;       (* get_info(RS2_CAMERA_INFO_PRODUCT_ID)       *)
  dev_query_sensors : exn + list sensor;
  dev_load_json : string -> option exn;
  dev_set_option : sensor -> inter_cam_sync_mode -> option exn;
  dev_open : sensor -> list stream_profile -> option exn;
  dev_start : sensor -> frame_sink -> option exn;
  dev_get_depth_scale : sensor -> exn + float;
  dev_syncer_start : option exn
}.

(** The files [std::ifstream] can open, with their content. *)
Definition FileSystem : Type := string -> option string.

Definition w_call (r : option exn) : MW unit :=
  match r with
  | Some e => w_throw e
  | None => w_ret tt
  end.

Definition set_sensors (m : gmap stream_index_pair sensor) (r : SetupMembers)
    : SetupMembers :=
  {| _json_file_path := _json_file_path r; _serial_no := _serial_no r;
     _namespace := _namespace r; _base_frame_id := _base_frame_id r;
     _frame_id := _frame_id r;
     _depth_aligned_frame_id := _depth_aligned_frame_id r;
     _stream_name := _stream_name r;
     _inter_cam_sync_mode := _inter_cam_sync_mode r;
     _sensors := m;
     _stream_intrinsics := _stream_intrinsics r;
     _calibration := _calibration r;
     _depth_aligned_calibration := _depth_aligned_calibration r;
     _counter_publisher := _counter_publisher r;
     _depth_to_other_extrinsics_publishers := _depth_to_other_extrinsics_publishers r;
     _depth_to_other_extrinsics := _depth_to_other_extrinsics r;
     _depth_scale_meters := _depth_scale_meters r |}.

(** [_sensors[k] = elem] for the streams [ks]. *)
Definition assign_sensor (ks : list stream_index_pair) (elem : sensor) : MW unit :=
  w_modify (fun w =>
    with_rest
      (set_sensors (foldl (fun m k => <[k := elem]> m) (_sensors (rest w)) ks)
         (rest w)) w).

(** The streams a module of the camera serves; [None] for a module the
    node does not know. *)
Definition streams_of_module (module_name : string)
    : option (list stream_index_pair) :=
  if String.eqb "Stereo Module" module_name then Some [DEPTH; INFRA1; INFRA2]
  else if String.eqb "Coded-Light Depth Sensor" module_name then Some [DEPTH; INFRA1]
  else if String.eqb "RGB Camera" module_name then Some [COLOR]
  else if String.eqb "Wide FOV Camera" module_name then Some [FISHEYE]
  else if String.eqb "Motion Module" module_name then Some [GYRO; ACCEL]
  else None.

Definition on_off (b : bool) : string := if b then "On" else "Off".

(** The [if (!_json_file_path.empty())] statement. *)
Definition load_json_file (dev : Device) (fs : FileSystem) : MW unit :=
  json_file_path ← w_gets (fun w => _json_file_path (rest w));
  if negb (String.eqb json_file_path "") then
    if dev_is_advanced_mode dev then
      match fs json_file_path with
      | Some json_file_content =>
          w_call (dev_load_json dev json_file_content);;
          w_emit (load_json json_file_content);;
          w_emit (LOG_INFO ("JSON file is loaded! (" ++ json_file_path ++ ")")%string)
      | None =>
          w_emit (LOG_WARN ("JSON file provided doesn't exist! ("
                            ++ json_file_path ++ ")")%string)
      end
    else w_emit (LOG_WARN "Device does not support advanced settings!")
  else w_emit (LOG_INFO "JSON file is not provided").

(** The body of the loop over the sensors of the camera. *)
Definition register_sensor (elem : sensor) : MW unit :=
  match streams_of_module (sensor_name elem) with
  | Some ks => assign_sensor ks elem
  | None =>
      w_emit (LOG_ERROR_module (sensor_name elem));;
      w_emit ros_shutdown;;
      w_terminate "exit(1)"
  end;;
  w_emit (LOG_INFO (sensor_name elem ++ " was found.")%string).

(** The body of the loops that update the "enable" map. *)
Definition disable_unsupported (stream_index : stream_index_pair) : MW unit :=
  enabled ← in_core (gets (fun n => at_default false (_enable (desc n)) stream_index));
  sensors ← w_gets (fun w => _sensors (rest w));
  w_when (enabled && bool_decide (sensors !! stream_index = None))
    (w_emit (LOG_INFO_skipping stream_index);;
     in_core (modify (fun n => with_desc (set_enable stream_index false (desc n)) n))).

(** The streams that are not image streams, grouped as [IMAGE_STREAMS]
    is (declared in base_realsense_node.h). *)
Variable HID_STREAMS : list (list stream_index_pair).
Variable IMAGE_STREAMS : list (list stream_index_pair).

(** [rs2::sensor()], what [operator[]] puts under an absent key. What the
    SDK answers for a sensor constructed that way is not part of this
    repository. *)
Variable sensor_default : sensor.

(** [_sensors[k]]: [operator[]] creates the entry of an absent key. *)
Definition sensor_at (k : stream_index_pair) : MW sensor :=
  sens ← w_gets (fun w => at_default sensor_default (_sensors (rest w)) k);
  w_modify (fun w =>
    with_rest (set_sensors (touch sensor_default k (_sensors (rest w))) (rest w)) w);;
  w_ret sens.

Definition rethrow_logged {A} (body : MW A) : MW A :=
  w_try_catch body (fun ex =>
    w_emit (LOG_ERROR ("An exception has been thrown: " ++ what ex)%string);;
    w_throw ex).

(** The statements from the line on the namespace to the line
    "Device Sensors: ": the sensors of the camera. *)
Definition log_device_info (dev : Device) : MW (list sensor) :=
  namespace ← w_gets (fun w => _namespace (rest w));
  w_emit (LOG_INFO ("ROS Node Namespace: " ++ namespace)%string);;
  camera_name ← w_lift (dev_name dev);
  w_emit (LOG_INFO ("Device Name: " ++ camera_name)%string);;
  serial_no ← w_gets (fun w => _serial_no (rest w));
  w_emit (LOG_INFO ("Device Serial No: " ++ serial_no)%string);;
  fw_ver ← w_lift (dev_firmware_version dev);
  w_emit (LOG_INFO ("Device FW version: " ++ fw_ver)%string);;
  pid ← w_lift (dev_product_id dev);
  w_emit (LOG_INFO ("Device Product ID: 0x" ++ pid)%string);;
  p ← in_core (gets params);
  w_emit (LOG_INFO ("Enable PointCloud: " ++ on_off (_pointcloud p))%string);;
  w_emit (LOG_INFO ("Align Depth: " ++ on_off (_align_depth p))%string);;
  w_emit (LOG_INFO ("Sync Mode: " ++ on_off (_sync_frames p))%string);;
  dev_sensors ← w_lift (dev_query_sensors dev);
  w_emit (LOG_INFO "Device Sensors: ");;
  w_ret dev_sensors.

(** The loops under "Update "enable" map". *)
Definition update_enable_map : MW unit :=
  w_for_each (IMAGE_STREAMS ++ HID_STREAMS) (fun elem =>
    w_for_each elem disable_unsupported).

(** The statement under "set cam sync mode". *)
Definition set_cam_sync_mode (dev : Device) : MW unit :=
  mode ← w_gets (fun w => _inter_cam_sync_mode (rest w));
  w_when (negb (bool_decide (mode = inter_cam_sync_none)))
    (sens ← sensor_at DEPTH;
     w_call (dev_set_option dev sens mode);;
     w_emit (set_inter_cam_sync_mode sens mode);;
     w_emit (LOG_INFO_sync_mode mode)).

Definition setupDevice (dev : Device) (fs : FileSystem) : MW unit :=
  w_emit (LOG_INFO "setupDevice...");;
  rethrow_logged
    (load_json_file dev fs;;
     dev_sensors ← log_device_info dev;
     w_for_each dev_sensors register_sensor;;
     update_enable_map;;
     set_cam_sync_mode dev).

(** ** The constructor, the members only the set-up uses *)

(** [getNamespaceStr]: the namespace of the node without its slashes. *)
Fixpoint remove_char (c : ascii) (s : string) : string :=
  match s with
  | EmptyString => EmptyString
  | String x s' => if Ascii.eqb x c then remove_char c s' else String x (remove_char c s')
  end.

Definition getNamespaceStr (ns : string) : string := remove_char "/"%char ns.

(** The members the constructor initialises; [ns] is
    [ros::this_node::getNamespace()]. The maps start empty, the others
    are left as they are. *)
Definition BaseRealSenseNode_new_members (ns serial_no : string)
    (raw : SetupMembers) : SetupMembers :=
  {| _json_file_path := ""; _serial_no := serial_no;
     _namespace := getNamespaceStr ns; _base_frame_id := "";
     _frame_id := ∅; _depth_aligned_frame_id := ∅;
     _stream_name :=
       <[ACCEL := "accel"]> (<[GYRO := "gyro"]> (<[FISHEYE := "fisheye"]>
       (<[COLOR := "color"]> (<[INFRA2 := "infra2"]> (<[INFRA1 := "infra1"]>
       (<[DEPTH := "depth"]> ∅))))));
     _inter_cam_sync_mode := _inter_cam_sync_mode raw;
     _sensors := ∅; _stream_intrinsics := ∅; _calibration := ∅;
     _depth_aligned_calibration := ∅; _counter_publisher := None;
     _depth_to_other_extrinsics_publishers := ∅;
     _depth_to_other_extrinsics := ∅;
     _depth_scale_meters := _depth_scale_meters raw |}.

(** ** setupPublishers *)

Definition set_counter_publisher (p : publisher) (r : SetupMembers) : SetupMembers :=
  {| _json_file_path := _json_file_path r; _serial_no := _serial_no r;
     _namespace := _namespace r; _base_frame_id := _base_frame_id r;
     _frame_id := _frame_id r;
     _depth_aligned_frame_id := _depth_aligned_frame_id r;
     _stream_name := _stream_name r;
     _inter_cam_sync_mode := _inter_cam_sync_mode r;
     _sensors := _sensors r;
     _stream_intrinsics := _stream_intrinsics r;
     _calibration := _calibration r;
     _depth_aligned_calibration := _depth_aligned_calibration r;
     _counter_publisher := p;
     _depth_to_other_extrinsics_publishers := _depth_to_other_extrinsics_publishers r;
     _depth_to_other_extrinsics := _depth_to_other_extrinsics r;
     _depth_scale_meters := _depth_scale_meters r |}.

Definition set_extrinsics_publishers (m : gmap stream_index_pair publisher)
    (r : SetupMembers) : SetupMembers :=
  {| _json_file_path := _json_file_path r; _serial_no := _serial_no r;
     _namespace := _namespace r; _base_frame_id := _base_frame_id r;
     _frame_id := _frame_id r;
     _depth_aligned_frame_id := _depth_aligned_frame_id r;
     _stream_name := _stream_name r;
     _inter_cam_sync_mode := _inter_cam_sync_mode r;
     _sensors := _sensors r;
     _stream_intrinsics := _stream_intrinsics r;
     _calibration := _calibration r;
     _depth_aligned_calibration := _depth_aligned_calibration r;
     _counter_publisher := _counter_publisher r;
     _depth_to_other_extrinsics_publishers := m;
     _depth_to_other_extrinsics := _depth_to_other_extrinsics r;
     _depth_scale_meters := _depth_scale_meters r |}.

Definition set_extrinsics (m : gmap stream_index_pair rs2_extrinsics)
    (r : SetupMembers) : SetupMembers :=
  {| _json_file_path := _json_file_path r; _serial_no := _serial_no r;
     _namespace := _namespace r; _base_frame_id := _base_frame_id r;
     _frame_id := _frame_id r;
     _depth_aligned_frame_id := _depth_aligned_frame_id r;
     _stream_name := _stream_name r;
     _inter_cam_sync_mode := _inter_cam_sync_mode r;
     _sensors := _sensors r;
     _stream_intrinsics := _stream_intrinsics r;
     _calibration := _calibration r;
     _depth_aligned_calibration := _depth_aligned_calibration r;
     _counter_publisher := _counter_publisher r;
     _depth_to_other_extrinsics_publishers := _depth_to_other_extrinsics_publishers r;
     _depth_to_other_extrinsics := m;
     _depth_scale_meters := _depth_scale_meters r |}.

Definition set_depth_scale_meters (x : float) (r : SetupMembers) : SetupMembers :=
  {| _json_file_path := _json_file_path r; _serial_no := _serial_no r;
     _namespace := _namespace r; _base_frame_id := _base_frame_id r;
     _frame_id := _frame_id r;
     _depth_aligned_frame_id := _depth_aligned_frame_id r;
     _stream_name := _stream_name r;
     _inter_cam_sync_mode := _inter_cam_sync_mode r;
     _sensors := _sensors r;
     _stream_intrinsics := _stream_intrinsics r;
     _calibration := _calibration r;
     _depth_aligned_calibration := _depth_aligned_calibration r;
     _counter_publisher := _counter_publisher r;
     _depth_to_other_extrinsics_publishers := _depth_to_other_extrinsics_publishers r;
     _depth_to_other_extrinsics := _depth_to_other_extrinsics r;
     _depth_scale_meters := x |}.

Definition set_image_publishers (m : gmap stream_index_pair publisher) (p : Publishers) :=
  {| _image_publishers := m; _info_publisher := _info_publisher p;
     _imu_publishers := _imu_publishers p;
     _pointcloud_publisher := _pointcloud_publisher p;
     _depth_aligned_image_publishers := _depth_aligned_image_publishers p;
     _depth_aligned_info_publisher := _depth_aligned_info_publisher p |}.

Definition set_imu_publishers (m : gmap stream_index_pair publisher) (p : Publishers) :=
  {| _image_publishers := _image_publishers p; _info_publisher := _info_publisher p;
     _imu_publishers := m;
     _pointcloud_publisher := _pointcloud_publisher p;
     _depth_aligned_image_publishers := _depth_aligned_image_publishers p;
     _depth_aligned_info_publisher := _depth_aligned_info_publisher p |}.

Definition set_pointcloud_publisher (x : publisher) (p : Publishers) :=
  {| _image_publishers := _image_publishers p; _info_publisher := _info_publisher p;
     _imu_publishers := _imu_publishers p;
     _pointcloud_publisher := x;
     _depth_aligned_image_publishers := _depth_aligned_image_publishers p;
     _depth_aligned_info_publisher := _depth_aligned_info_publisher p |}.

Definition set_depth_aligned_image_publishers (m : gmap stream_index_pair publisher)
    (p : Publishers) :=
  {| _image_publishers := _image_publishers p; _info_publisher := _info_publisher p;
     _imu_publishers := _imu_publishers p;
     _pointcloud_publisher := _pointcloud_publisher p;
     _depth_aligned_image_publishers := m;
     _depth_aligned_info_publisher := _depth_aligned_info_publisher p |}.

Definition set_depth_aligned_info_publisher (m : gmap stream_index_pair publisher)
    (p : Publishers) :=
  {| _image_publishers := _image_publishers p; _info_publisher := _info_publisher p;
     _imu_publishers := _imu_publishers p;
     _pointcloud_publisher := _pointcloud_publisher p;
     _depth_aligned_image_publishers := _depth_aligned_image_publishers p;
     _depth_aligned_info_publisher := m |}.

Definition set_counter_enabled (b : bool) (p : PublishState) :=
  {| _seq := _seq p; _camera_info := _camera_info p;
     _depth_aligned_seq := _depth_aligned_seq p;
     _depth_aligned_camera_info := _depth_aligned_camera_info p;
     _depth_aligned_image := _depth_aligned_image p;
     _depth_aligned_encoding := _depth_aligned_encoding p;
     _send_counter := _send_counter p; _counter_enabled := b;
     _image_counter := _image_counter p |}.

(** [advertise(topic, queue_size, latch)]: the publisher of the topic. *)
Definition advertise_as (topic : string) (queue_size : Z) (latch : bool)
    : MW publisher :=
  w_emit (advertise topic queue_size latch);;
  w_ret (Some topic).

Definition update_pubs (f : Publishers -> Publishers) : MW unit :=
  in_core (modify (fun n => with_pubs (f (pubs n)) n)).

(** The body of the loop over the image streams. [_stream_name], [_fps],
    [_enable], [_frame_id] and [_depth_aligned_frame_id] are read with
    [operator[]] everywhere, so the entries the reads create are not
    modelled. *)
Definition advertise_image_stream (stream : stream_index_pair) : MW unit :=
  enabled ← in_core (gets (fun n => at_default false (_enable (desc n)) stream));
  w_when enabled
    (counter_enabled ← in_core (gets (fun n => _counter_enabled (pstate n)));
     w_when (negb counter_enabled)
       (p ← advertise_as "/depth/counter" 1 false;
        w_modify (fun w => with_rest (set_counter_publisher p (rest w)) w);;
        in_core (modify (fun n =>
          with_pstate (set_counter_enabled true (pstate n)) n)));;
     let rectified_image :=
       bool_decide (stream = DEPTH) || bool_decide (stream = INFRA1)
       || bool_decide (stream = INFRA2) in
     name ← w_gets (fun w => at_default "" (_stream_name (rest w)) stream);
     image_publisher ← advertise_as
       (name ++ "/image_" ++ (if rectified_image then "rect_" else "") ++ "raw") 1 false;
     update_pubs (fun p =>
       set_image_publishers (<[stream := image_publisher]> (_image_publishers p)) p);;
     info_publisher ← advertise_as (name ++ "/camera_info") 1 false;
     update_pubs (fun p =>
       set_info_publisher (<[stream := info_publisher]> (_info_publisher p)) p);;
     align_depth ← in_core (gets (fun n => _align_depth (params n)));
     w_when (align_depth && negb (bool_decide (stream = DEPTH)))
       (aligned_image_publisher ← advertise_as
          ("aligned_depth_to_" ++ name ++ "/image_raw") 1 false;
        update_pubs (fun p =>
          set_depth_aligned_image_publishers
            (<[stream := aligned_image_publisher]> (_depth_aligned_image_publishers p)) p);;
        aligned_info_publisher ← advertise_as
          ("aligned_depth_to_" ++ name ++ "/camera_info") 1 false;
        update_pubs (fun p =>
          set_depth_aligned_info_publisher
            (<[stream := aligned_info_publisher]> (_depth_aligned_info_publisher p)) p));;
     pointcloud ← in_core (gets (fun n => _pointcloud (params n)));
     w_when (bool_decide (stream = DEPTH) && pointcloud)
       (p ← advertise_as "depth/color/points" 1 false;
        update_pubs (set_pointcloud_publisher p)))%string.

(** One of the four [if (_enable[X] && _enable[DEPTH])] statements. *)
Definition advertise_extrinsics (stream : stream_index_pair) (topic : string)
    : MW unit :=
  enable_stream ← in_core (gets (fun n => at_default false (_enable (desc n)) stream));
  enable_depth ← in_core (gets (fun n => at_default false (_enable (desc n)) DEPTH));
  w_when (enable_stream && enable_depth)
    (p ← advertise_as topic 1 true;
     w_modify (fun w =>
       with_rest (set_extrinsics_publishers
                    (<[stream := p]> (_depth_to_other_extrinsics_publishers (rest w)))
                    (rest w)) w)).

(** One of the two [if (_enable[GYRO])], [if (_enable[ACCEL])] statements. *)
Definition advertise_imu (stream : stream_index_pair) (sample imu_info : string)
    : MW unit :=
  enabled ← in_core (gets (fun n => at_default false (_enable (desc n)) stream));
  w_when enabled
    (p ← advertise_as sample 100 false;
     update_pubs (fun pb => set_imu_publishers (<[stream := p]> (_imu_publishers pb)) pb);;
     q ← advertise_as imu_info 1 true;
     update_pubs (fun pb => set_info_publisher (<[stream := q]> (_info_publisher pb)) pb)).

Definition setupPublishers : MW unit :=
  w_emit (LOG_INFO "setupPublishers...");;
  let image_stream_types := concat IMAGE_STREAMS in
  w_for_each image_stream_types advertise_image_stream;;
  advertise_extrinsics FISHEYE "extrinsics/depth_to_fisheye";;
  advertise_extrinsics COLOR "extrinsics/depth_to_color";;
  advertise_extrinsics INFRA1 "extrinsics/depth_to_infra1";;
  advertise_extrinsics INFRA2 "extrinsics/depth_to_infra2";;
  advertise_imu GYRO "gyro/sample" "gyro/imu_info";;
  advertise_imu ACCEL "accel/sample" "accel/imu_info".

(** ** getRsExtrinsics, rsExtrinsicsToMsg, getImuInfo *)

(** [_enabled_profiles[k].front()]; [front()] of an empty vector is not
    defined. *)
Definition front_profile (k : stream_index_pair) : M stream_profile :=
  profiles ← gets (fun n => at_default [] (_enabled_profiles n) k);
  modify (fun n => with_enabled_profiles (touch [] k (_enabled_profiles n)) n);;
  match profiles with
  | profile :: _ => ret profile
  | [] => undefined "front() of an empty vector"
  end.

Definition getRsExtrinsics (sdk : Sdk) (from_stream to_stream : stream_index_pair)
    : MW rs2_extrinsics :=
  from ← in_core (front_profile from_stream);
  to ← in_core (front_profile to_stream);
  w_lift (get_extrinsics_to sdk from to).

Fixpoint w_for_fold {A S} (l : list A) (s : S) (body : S -> A -> MW S) : MW S :=
  match l with
  | [] => w_ret s
  | x :: l' => s' ← body s x; w_for_fold l' s' body
  end.

(** [Extrinsics()] *)
Definition Extrinsics_new : Extrinsics :=
  {| ex_frame_id := ""; ex_rotation := replicate 9 d0; ex_translation := replicate 3 d0 |}.

Definition rsExtrinsicsToMsg (extrinsics : rs2_extrinsics) (frame_id : string)
    : MW Extrinsics :=
  extrinsicsMsg ← w_for_fold (seq 0 9) Extrinsics_new (fun msg i =>
    r ← array_get (ext_rotation extrinsics) i;
    let msg1 :=
      {| ex_frame_id := ex_frame_id msg;
         ex_rotation := <[i := double_of_float r]> (ex_rotation msg);
         ex_translation := ex_translation msg |} in
    if (i <? 3)%nat then
      t ← array_get (ext_translation extrinsics) i;
      w_ret {| ex_frame_id := ex_frame_id msg1;
               ex_rotation := ex_rotation msg1;
               ex_translation := <[i := double_of_float t]> (ex_translation msg1) |}
    else w_ret msg1);
  w_ret {| ex_frame_id := frame_id;
           ex_rotation := ex_rotation extrinsicsMsg;
           ex_translation := ex_translation extrinsicsMsg |}.

(** [IMUInfo info{}] with the frame id of the stream. *)
Definition IMUInfo_of (stream_index : stream_index_pair) : IMUInfo :=
  {| ii_frame_id :=
       if bool_decide (GYRO = stream_index) then "imu_gyro"
       else if bool_decide (ACCEL = stream_index) then "imu_accel" else "";
     ii_data := replicate 12 d0;
     ii_noise_variances := replicate 3 d0;
     ii_bias_variances := replicate 3 d0 |}.

Definition getImuInfo (sdk : Sdk) (stream_index : stream_index_pair) : MW IMUInfo :=
  sp ← in_core (front_profile stream_index);
  imuIntrinsics ← w_lift (get_motion_intrinsics sdk sp);
  filled ← w_for_fold (seq 0 3) (IMUInfo_of stream_index, 0%nat) (fun st i =>
    st1 ← w_for_fold (seq 0 4) st (fun st j =>
      let '(info, index) := st in
      row ← array_get (mi_data imuIntrinsics) i;
      x ← array_get row j;
      w_ret ({| ii_frame_id := ii_frame_id info;
                ii_data := <[index := double_of_float x]> (ii_data info);
                ii_noise_variances := ii_noise_variances info;
                ii_bias_variances := ii_bias_variances info |}, S index));
    let '(info, index) := st1 in
    nv ← array_get (mi_noise_variances imuIntrinsics) i;
    bv ← array_get (mi_bias_variances imuIntrinsics) i;
    w_ret ({| ii_frame_id := ii_frame_id info;
              ii_data := ii_data info;
              ii_noise_variances := <[i := double_of_float nv]> (ii_noise_variances info);
              ii_bias_variances := <[i := double_of_float bv]> (ii_bias_variances info) |},
           index));
  w_ret (fst filled).

(** ** setupStreams *)

(** The loop over a group of image streams that gathers the profiles to
    open: the profiles of a stream are inserted before the ones gathered. *)
Definition gather_profiles (streams : list stream_index_pair)
    : M (list stream_profile) :=
  for_fold streams [] (fun profiles elem =>
    enabled ← gets (fun n => at_default [] (_enabled_profiles n) elem);
    modify (fun n => with_enabled_profiles (touch [] elem (_enabled_profiles n)) n);;
    ret (match enabled with
         | [] => profiles
         | _ => enabled ++ profiles
         end)).

(** [sens.open(profiles)] and [sens.start(sink)] *)
Definition open_sensor (dev : Device) (sens : sensor) (profiles : list stream_profile)
    : MW unit :=
  w_call (dev_open dev sens profiles);;
  w_emit (sensor_open sens profiles).

Definition start_sensor (dev : Device) (sens : sensor) (sink : frame_sink) : MW unit :=
  w_call (dev_start dev sens sink);;
  w_emit (sensor_start sens sink).

(** The body of the loop "Streaming IMAGES". *)
Definition stream_images (dev : Device) (streams : list stream_index_pair) : MW unit :=
  profiles ← in_core (gather_profiles streams);
  match profiles with
  | [] => w_ret tt
  | _ =>
      match streams with
      | [] => w_undefined "front() of an empty vector"
      | stream :: _ =>
          sens ← sensor_at stream;
          open_sensor dev sens profiles;;
          w_when (bool_decide (DEPTH = stream))
            (scale ← w_lift (dev_get_depth_scale dev sens);
             w_modify (fun w => with_rest (set_depth_scale_meters scale (rest w)) w));;
          sync_frames ← in_core (gets (fun n => _sync_frames (params n)));
          start_sensor dev sens
            (if sync_frames : bool then to_syncer else to_frame_callback_sink)
      end
  end.

(** The body of the loop "Streaming HID". *)
Definition enable_hid_stream (elem : stream_index_pair) : MW unit :=
  enabled ← in_core (gets (fun n => at_default false (_enable (desc n)) elem));
  w_when enabled
    (sens ← sensor_at elem;
     profiles ← w_lift (sensor_stream_profiles sens);
     d ← in_core (gets desc);
     match List.find
             (fun profile =>
                (profile_fps profile =? at_default 0 (_fps d) elem)
                && bool_decide (profile_format profile
                                = at_default RS2_FORMAT_ANY (_format d) elem))
             profiles with
     | Some profile =>
         in_core (modify (fun n =>
           with_enabled_profiles
             (<[elem := at_default [] (_enabled_profiles n) elem ++ [profile]]>
                (_enabled_profiles n)) n))
     | None => w_ret tt
     end).

(** One of the two [if (_enable[GYRO])], [if (_enable[ACCEL])] statements
    that publish the IMU info. *)
Definition announce_imu (sdk : Sdk) (stream : stream_index_pair) : MW unit :=
  enabled ← in_core (gets (fun n => at_default false (_enable (desc n)) stream));
  w_when enabled
    (name ← w_gets (fun w => at_default "" (_stream_name (rest w)) stream);
     fps ← in_core (gets (fun n => at_default 0 (_fps (desc n)) stream));
     w_emit (LOG_INFO_stream_enabled name fps);;
     info ← getImuInfo sdk stream;
     p ← in_core (gets (fun n => at_default None (_info_publisher (pubs n)) stream));
     update_pubs (fun pb =>
       set_info_publisher (touch None stream (_info_publisher pb)) pb);;
     w_emit (publish_imu_info p info)).

(** The statements from [_enabled_profiles.find(GYRO)] to the end of the
    [if] on the two profiles. *)
Definition stream_imu (dev : Device) (sdk : Sdk) : MW unit :=
  enabled_profiles ← in_core (gets _enabled_profiles);
  match enabled_profiles !! GYRO, enabled_profiles !! ACCEL with
  | Some gyro_profile, Some accel_profile =>
      let profiles := accel_profile ++ gyro_profile in
      sens ← sensor_at GYRO;
      open_sensor dev sens profiles;;
      start_sensor dev sens to_imu_callback_sink;;
      announce_imu sdk GYRO;;
      announce_imu sdk ACCEL
  | _, _ => w_ret tt
  end.

(** One of the four [if (_enable[DEPTH] && _enable[X])] statements. *)
Definition publish_depth_extrinsics (sdk : Sdk) (stream : stream_index_pair)
    (frame_id : string) : MW unit :=
  enable_depth ← in_core (gets (fun n => at_default false (_enable (desc n)) DEPTH));
  enable_stream ← in_core (gets (fun n => at_default false (_enable (desc n)) stream));
  w_when (enable_depth && enable_stream)
    (ex ← getRsExtrinsics sdk DEPTH stream;
     w_modify (fun w =>
       with_rest (set_extrinsics (<[stream := ex]> (_depth_to_other_extrinsics (rest w)))
                    (rest w)) w);;
     p ← w_gets (fun w =>
       at_default None (_depth_to_other_extrinsics_publishers (rest w)) stream);
     w_modify (fun w =>
       with_rest (set_extrinsics_publishers
                    (touch None stream (_depth_to_other_extrinsics_publishers (rest w)))
                    (rest w)) w);;
     msg ← rsExtrinsicsToMsg ex frame_id;
     w_emit (publish_extrinsics p msg)).

(** [enable_devices] as [setupStreams] runs it, on the sensors of
    [_sensors]. The body of its loops for one stream: the profiles are asked
    of [_sensors[elem]], and the SDK may raise there
    ([get_stream_profiles()], or [as<rs2::video_stream_profile>()] on a
    profile read before the first match). On the profiles answered, the
    statements are those of [enable_stream], whose test of [_enable[elem]]
    holds again. *)
Definition enable_stream_of_sensor (elem : stream_index_pair) : MW unit :=
  enabled ← in_core (gets (fun n => at_default false (_enable (desc n)) elem));
  w_when enabled
    (sens ← sensor_at elem;
     profiles ← w_lift (sensor_stream_profiles sens);
     in_core (enable_stream (fun _ => profiles) elem)).

(** The statement [if (_align_depth)] that ends [enable_devices]. *)
Definition create_aligned_images : M unit :=
  align_depth ← gets (fun n => _align_depth (params n));
  when align_depth
    (modify (fun n =>
       let depth_image :=
         Mat_new (at_default 0 (_height (desc n)) DEPTH)
                 (at_default 0 (_width (desc n)) DEPTH)
                 (at_default CV_8UC1 (_image_format (desc n)) DEPTH) in
       with_pstate
         (set_depth_aligned_image
            (((fun _ => depth_image) <$> _enabled_profiles n)
               ∪ _depth_aligned_image (pstate n))
            (pstate n)) n)).

Definition enable_devices_on_sensors : MW unit :=
  w_for_each IMAGE_STREAMS (fun streams =>
    w_for_each streams enable_stream_of_sensor);;
  in_core create_aligned_images.

Definition setupStreams (dev : Device) (sdk : Sdk) : MW unit :=
  w_emit (LOG_INFO "setupStreams...");;
  enable_devices_on_sensors;;
  rethrow_logged
    (calibrate_streams sdk;;
     w_for_each IMAGE_STREAMS (stream_images dev);;
     sync_frames ← in_core (gets (fun n => _sync_frames (params n)));
     w_when sync_frames
       (w_call (dev_syncer_start dev);; w_emit syncer_start);;
     w_for_each HID_STREAMS (fun streams => w_for_each streams enable_hid_stream);;
     stream_imu dev sdk;;
     publish_depth_extrinsics sdk FISHEYE "depth_to_fisheye_extrinsics";;
     publish_depth_extrinsics sdk COLOR "depth_to_color_extrinsics";;
     publish_depth_extrinsics sdk INFRA1 "depth_to_infra1_extrinsics";;
     publish_depth_extrinsics sdk INFRA2 "depth_to_infra2_extrinsics").

(** ** publishStaticTransforms *)

Definition quaternion : Type := double * double * double * double.

(** The quaternion arithmetic of tf and Eigen. *)
Record Geometry : Type := {
  quaternion_optical : quaternion;      (* setRPY(-M_PI / 2, 0.0, -M_PI / 2) *)
  quaternion_mul : quaternion -> quaternion -> quaternion;
  quaternion_inverse : quaternion -> quaternion;
  (* Eigen::Quaternionf(m), [m] by rows: x, y, z, w *)
  Quaternionf : list (list float) -> float * float * float * float
}.

Definition rotationMatrixToQuaternion (geo : Geometry) (rotation : list float)
    : MW quaternion :=
  r0 ← array_get rotation 0; r1 ← array_get rotation 1; r2 ← array_get rotation 2;
  r3 ← array_get rotation 3; r4 ← array_get rotation 4; r5 ← array_get rotation 5;
  r6 ← array_get rotation 6; r7 ← array_get rotation 7; r8 ← array_get rotation 8;
  let '(x, y, z, w) := Quaternionf geo [[r0; r3; r6]; [r1; r4; r7]; [r2; r5; r8]] in
  w_ret (double_of_float x, double_of_float y, double_of_float z, double_of_float w).

Definition float3 : Type := float * float * float.

Definition zero_trans : float3 := (F32.zero, F32.zero, F32.zero).

Definition publish_static_tf (t : Time) (trans : float3) (q : quaternion)
    (from to : string) : MW unit :=
  let '(x, y, z) := trans in
  w_emit (sendTransform
            {| tf_stamp := t; tf_frame_id := from; tf_child_frame_id := to;
               tf_translation :=
                 (double_of_float z, double_of_float (SFopp x),
                  double_of_float (SFopp y));
               tf_rotation := q |}).

(** [_optical_frame_id[k]]; [publishFrame] reads this map with [at], so
    the entry [operator[]] creates is modelled. *)
Definition optical_frame_id_at (k : stream_index_pair) : MW string :=
  frame_id ← in_core (gets (fun n => at_default "" (_optical_frame_id (params n)) k));
  in_core (modify (fun n =>
    with_params (set_optical_frame_id (touch "" k (_optical_frame_id (params n)))
                   (params n)) n));;
  w_ret frame_id.

(** One of the four [if (_enable[X])] statements. *)
Definition publish_stream_tf (sdk : Sdk) (geo : Geometry) (transform_ts_ : Time)
    (stream : stream_index_pair) : MW unit :=
  enabled ← in_core (gets (fun n => at_default false (_enable (desc n)) stream));
  w_when enabled
    (ex ← getRsExtrinsics sdk stream DEPTH;
     Q ← rotationMatrixToQuaternion geo (ext_rotation ex);
     let Q := quaternion_mul geo (quaternion_mul geo (quaternion_optical geo) Q)
                (quaternion_inverse geo (quaternion_optical geo)) in
     t0 ← array_get (ext_translation ex) 0;
     t1 ← array_get (ext_translation ex) 1;
     t2 ← array_get (ext_translation ex) 2;
     let trans := (t0, t1, t2) in
     let q1 := Q in
     base_frame_id ← w_gets (fun w => _base_frame_id (rest w));
     frame_id ← w_gets (fun w => at_default "" (_frame_id (rest w)) stream);
     publish_static_tf transform_ts_ trans q1 base_frame_id frame_id;;
     let q2 := quaternion_optical geo in
     optical ← optical_frame_id_at stream;
     publish_static_tf transform_ts_ zero_trans q2 frame_id optical;;
     align_depth ← in_core (gets (fun n => _align_depth (params n)));
     w_when align_depth
       (aligned ← w_gets (fun w =>
          at_default "" (_depth_aligned_frame_id (rest w)) stream);
        publish_static_tf transform_ts_ trans q1 base_frame_id aligned;;
        optical ← optical_frame_id_at stream;
        publish_static_tf transform_ts_ zero_trans q2 aligned optical)).

(** [transform_ts_] is what [ros::Time::now()] returns. *)
Definition publishStaticTransforms (sdk : Sdk) (geo : Geometry) (transform_ts_ : Time)
    : MW unit :=
  w_emit (LOG_INFO "publishStaticTransforms...");;
  base_frame_id ← w_gets (fun w => _base_frame_id (rest w));
  depth_frame_id ← w_gets (fun w => at_default "" (_frame_id (rest w)) DEPTH);
  publish_static_tf transform_ts_ zero_trans (d0, d0, d0, d1)
    base_frame_id depth_frame_id;;
  depth_optical ← optical_frame_id_at DEPTH;
  publish_static_tf transform_ts_ zero_trans (quaternion_optical geo)
    depth_frame_id depth_optical;;
  depth_profile ← in_core (getEnabledProfile DEPTH);
  match depth_profile with
  | None => shutdown_and_exit "Given depth profile is not supported by current device!"
  | Some _ => w_ret tt
  end;;
  publish_stream_tf sdk geo transform_ts_ COLOR;;
  publish_stream_tf sdk geo transform_ts_ INFRA1;;
  publish_stream_tf sdk geo transform_ts_ INFRA2;;
  publish_stream_tf sdk geo transform_ts_ FISHEYE.

(** ** publishTopics *)

Definition publishTopics (K : Constants) (KS : SetupConstants) (ps : ParamServer)
    (dev : Device) (fs : FileSystem) (sdk : Sdk) (geo : Geometry) (now : Time)
    : MW unit :=
  in_core (getParameters K ps);;
  getParameters_frames KS ps;;
  setupDevice dev fs;;
  setupPublishers;;
  setupStreams dev sdk;;
  in_core setupFilters;;
  publishStaticTransforms sdk geo now;;
  w_emit (LOG_INFO "RealSense Node Is Up!").

(** What the loop that copies the camera infos to the aligned-depth ones
    leaves: it ends normally, emits nothing, and keeps the calibration and
    the camera info header of every stream that has them. *)
Record copies_kept (w w' : Whole) : Prop := {
  kept_calibration :
    ∀ k c, _calibration (rest w) !! k = Some c → _calibration (rest w') !! k = Some c;
  kept_camera_info :
    ∀ k c, _camera_info (pstate (core w)) !! k = Some c →
           _camera_info (pstate (core w')) !! k = Some c;
  kept_stream_intrinsics : _stream_intrinsics (rest w') = _stream_intrinsics (rest w);
  kept_enabled_profiles : _enabled_profiles (core w') = _enabled_profiles (core w);
  kept_params : params (core w') = params (core w);
  kept_desc : desc (core w') = desc (core w)
}.


(** ** Relations between the node before and after a set-up function *)

(** What the set-up of the publishers leaves as it is. *)
Definition same_settings (w w' : Whole) : Prop :=
  desc (core w') = desc (core w) ∧ params (core w') = params (core w)
  ∧ _stream_name (rest w') = _stream_name (rest w).


(** [c] leaves [f] of the node as it is, however it ends. *)
Definition w_keeps {X A} (f : Whole -> X) (c : MW A) : Prop :=
  forall w r w1 o, c w = (r, w1, o) -> f w1 = f w.


(** What the loop that copies the camera infos adds: calibrations that are
    new are default ones, and the aligned-depth camera infos stay. *)
Record copies_added (w w' : Whole) : Prop := {
  added_kept : copies_kept w w';
  added_calibration :
    ∀ k c, _calibration (rest w') !! k = Some c →
           _calibration (rest w) !! k = Some c ∨ c = Calibration_new;
  added_aligned :
    ∀ k, is_Some (_depth_aligned_camera_info (pstate (core w)) !! k) →
         is_Some (_depth_aligned_camera_info (pstate (core w')) !! k);
  added_pubs : pubs (core w') = pubs (core w)
}.


(** What [_sensors[elem].get_stream_profiles()] ends in on the node [w]. *)
Definition asked_profiles (w : Whole) (elem : stream_index_pair)
    : exn + list stream_profile :=
  sensor_stream_profiles (at_default sensor_default (_sensors (rest w)) elem).

(** What the loop "Streaming HID" leaves: the descriptors, the enabled
    profiles of the streams that are disabled, and what the sensors answer. *)
Definition hid_kept (w w' : Whole) : Prop :=
  desc (core w') = desc (core w)
  /\ (forall k, at_default false (_enable (desc (core w))) k = false ->
                _enabled_profiles (core w') !! k = _enabled_profiles (core w) !! k)
  /\ (forall k, asked_profiles w' k = asked_profiles w k).

(** What [enable_devices] leaves on the image streams [streams]: the
    parameters, what the sensors answer, and what negotiation reads and
    writes for every stream that is disabled or is not among [streams]. *)
Definition negotiation_kept (streams : list stream_index_pair) (w w' : Whole) : Prop :=
  params (core w') = params (core w)
  /\ (forall k, asked_profiles w' k = asked_profiles w k)
  /\ (forall k, at_default false (_enable (desc (core w))) k = false \/ k ∉ streams ->
                stream_view (core w') k = stream_view (core w) k).

(** [c] takes a node with [I] to a node with [I], however it ends. *)
Definition w_preserves {A} (I : Whole -> Prop) (c : MW A) : Prop :=
  forall w r w1 o, I w -> c w = (r, w1, o) -> I w1.

(** The depth stream is disabled and has no enabled profile. *)
Definition no_depth (n : Node) : Prop :=
  at_default [] (_enabled_profiles n) DEPTH = []
  /\ at_default false (_enable (desc n)) DEPTH = false.


(** A node without the depth stream stays one. *)
Definition no_depth_kept (n n' : Node) : Prop := no_depth n -> no_depth n'.

End SetUp.


(** ** Sample data for the scenarios below *)


Module Sample.

(** A reading of [ros::Time] and [ros::Duration] as counts of nanoseconds. *)
Definition ns_of_double (x : double) : Z :=
  match x with
  | S754_finite s m e =>
      let v := if 0 <=? e then Z.pos m * 2 ^ e * 10 ^ 9
               else (Z.pos m * 10 ^ 9) / 2 ^ (- e) in
      if s then - v else v
  | _ => 0
  end.

Definition double_of_ns (t : Z) : double :=
  F64.div (F64.of_int t) (F64.of_int (10 ^ 9)).

Definition time : RosTime :=
  {| Time := Z; Duration := Z; Time_default := 0;
     Time_fromSec := ns_of_double; Time_toSec := double_of_ns;
     Duration_fromSec := ns_of_double; Time_plus := Z.add |}.

#[local] Existing Instance time.

(** Default values for the parameters. *)
Definition constants : Constants :=
  {| ALIGN_DEPTH := false; POINTCLOUD := false; SYNC_FRAMES := false;
     DEFAULT_FILTERS := ""; DEFAULT_ROS_TIME_OFFSET := S754_zero false;
     DEPTH_WIDTH := 640; DEPTH_HEIGHT := 480; DEPTH_FPS := 30; ENABLE_DEPTH := true;
     INFRA1_WIDTH := 640; INFRA1_HEIGHT := 480; INFRA1_FPS := 30; ENABLE_INFRA1 := true;
     INFRA2_WIDTH := 640; INFRA2_HEIGHT := 480; INFRA2_FPS := 30; ENABLE_INFRA2 := true;
     COLOR_WIDTH := 640; COLOR_HEIGHT := 480; COLOR_FPS := 30; ENABLE_COLOR := true;
     FISHEYE_WIDTH := 640; FISHEYE_HEIGHT := 480; FISHEYE_FPS := 30;
     ENABLE_FISHEYE := true;
     GYRO_FPS := 1000; ACCEL_FPS := 1000; ENABLE_IMU := true;
     DEFAULT_DEPTH_OPTICAL_FRAME_ID := "camera_depth_optical_frame";
     DEFAULT_INFRA1_OPTICAL_FRAME_ID := "camera_infra1_optical_frame";
     DEFAULT_INFRA2_OPTICAL_FRAME_ID := "camera_infra2_optical_frame";
     DEFAULT_COLOR_OPTICAL_FRAME_ID := "camera_color_optical_frame";
     DEFAULT_FISHEYE_OPTICAL_FRAME_ID := "camera_fisheye_optical_frame";
     DEFAULT_GYRO_OPTICAL_FRAME_ID := "camera_gyro_optical_frame";
     DEFAULT_ACCEL_OPTICAL_FRAME_ID := "camera_accel_optical_frame" |}.

Definition image_streams : list (list stream_index_pair) :=
  [[DEPTH; INFRA1; INFRA2]; [COLOR]; [FISHEYE]].

(** The node's storage before the constructor runs. *)
Definition raw : @Node time :=
  {| params := {| _align_depth := false; _pointcloud := false;
                  _pointcloud_texture := (RS2_STREAM_ANY, 0);
                  _filters_str := ""; _sync_frames := false;
                  _ros_time_offset := S754_zero false;
                  _optical_frame_id := ∅ |};
     desc := {| _format := ∅; _image_format := ∅; _encoding := ∅;
                _unit_step_size := ∅; _width := ∅; _height := ∅; _fps := ∅;
                _enable := ∅; _image := ∅ |};
     time_base := {| _intialize_time_base := false; _ros_time_base := 0;
                     _camera_time_base := S754_zero false |};
     pubs := {| _image_publishers := ∅; _info_publisher := ∅;
                _imu_publishers := ∅; _pointcloud_publisher := None;
                _depth_aligned_image_publishers := ∅;
                _depth_aligned_info_publisher := ∅ |};
     pstate := {| _seq := ∅; _camera_info := ∅; _depth_aligned_seq := ∅;
                  _depth_aligned_camera_info := ∅; _depth_aligned_image := ∅;
                  _depth_aligned_encoding := ∅; _send_counter := false;
                  _counter_enabled := false; _image_counter := 0 |};
     _is_frame_arrived := ∅; _enabled_profiles := ∅; _filters := [] |}.

(** The node after the constructor. *)
Definition constructed : @Node time := BaseRealSenseNode_new raw.

(** A parameter server where only [filters], [enable_pointcloud] and
    [pointcloud_texture_stream] may be set. *)
Definition server (filters : option string) (enable_pointcloud : option bool)
    (texture : option string) : ParamServer :=
  {| param_bool := fun name =>
       if String.eqb name "enable_pointcloud" then enable_pointcloud else None;
     param_int := fun _ => None;
     param_string := fun name =>
       if String.eqb name "filters" then filters
       else if String.eqb name "pointcloud_texture_stream" then texture
       else None;
     param_double := fun _ => None |}.

(** The node after the constructor and [getParameters]. *)
Definition configured (ps : ParamServer) : @Node time :=
  node_of (getParameters constants ps constructed).

(** A request for depth 848x480 at 30 fps and color 1920x1080 at 60 fps,
    on a device whose depth sensor offers 1280x720 and then 848x480 and
    whose color sensor offers 1280x720 at 30 fps only. *)
Definition requesting : @Node time :=
  with_desc
    (set_width DEPTH 848 (set_height DEPTH 480 (set_fps DEPTH 30
    (set_enable DEPTH true
    (set_width COLOR 1920 (set_height COLOR 1080 (set_fps COLOR 60
    (set_enable COLOR true (desc constructed)))))))))
    constructed.

Definition profile (s : stream_index_pair) (fmt : rs2_format) (w h fps : Z)
    : stream_profile :=
  {| profile_stream_type := fst s; profile_stream_index := snd s;
     profile_format := fmt; profile_width := w; profile_height := h;
     profile_fps := fps |}.

Definition sensor_profiles (elem : stream_index_pair) : list stream_profile :=
  if bool_decide (fst elem = RS2_STREAM_DEPTH) then
    [profile DEPTH RS2_FORMAT_Z16 1280 720 30;
     profile DEPTH RS2_FORMAT_Y8 848 480 30;
     profile DEPTH RS2_FORMAT_Z16 848 480 30;
     profile DEPTH RS2_FORMAT_Z16 848 480 30]
  else if bool_decide (fst elem = RS2_STREAM_COLOR) then
    [profile COLOR RS2_FORMAT_RGB8 1280 720 30]
  else [].

(** A node that streams depth and color: configured with the defaults,
    with publishers and camera infos for the two streams. *)
Definition streaming (ps : ParamServer) : @Node time :=
  let n := configured ps in
  with_pubs
    {| _image_publishers :=
         <[COLOR := Some "color/image_raw"]>
           (<[DEPTH := Some "depth/image_rect_raw"]> ∅);
       _info_publisher :=
         <[COLOR := Some "color/camera_info"]>
           (<[DEPTH := Some "depth/camera_info"]> ∅);
       _imu_publishers := <[GYRO := Some "gyro/sample"]> ∅;
       _pointcloud_publisher := Some "depth/color/points";
       _depth_aligned_image_publishers := ∅;
       _depth_aligned_info_publisher := ∅ |}
    (with_pstate
       (set_camera_info
          (<[COLOR := {| ci_stamp := 0; ci_seq := 0 |}]>
             (<[DEPTH := {| ci_stamp := 0; ci_seq := 0 |}]> ∅))
          (pstate n)) n).

(** The same node with the time base set: wall-clock origin 1000 s,
    hardware origin 1000 ms. *)
Definition streaming_since (ps : ParamServer) : @Node time :=
  with_time_base
    {| _intialize_time_base := true; _ros_time_base := 10 ^ 12;
       _camera_time_base := F64.of_int 1000 |}
    (streaming ps).

Definition no_parameters : ParamServer := server None None None.

(** Frames: 2x2 images with hardware timestamp [ts] ms. *)
Definition depth_image (ts : Z) (number : Z) : frame :=
  {| frame_stream_type := RS2_STREAM_DEPTH; frame_stream_index := 0;
     frame_format := RS2_FORMAT_Z16; frame_timestamp := F64.of_int ts;
     frame_timestamp_domain := RS2_TIMESTAMP_DOMAIN_HARDWARE_CLOCK;
     frame_number := number;
     frame_payload := video_frame 2 2 2 [1; 0; 2; 0; 3; 0; 4; 0] |}.

Definition colorized_depth_image (ts : Z) (number : Z) : frame :=
  {| frame_stream_type := RS2_STREAM_DEPTH; frame_stream_index := 0;
     frame_format := RS2_FORMAT_RGB8; frame_timestamp := F64.of_int ts;
     frame_timestamp_domain := RS2_TIMESTAMP_DOMAIN_HARDWARE_CLOCK;
     frame_number := number;
     frame_payload := video_frame 2 2 3 [9; 9; 9; 8; 8; 8; 7; 7; 7; 6; 6; 6] |}.

Definition color_image (ts : Z) (number : Z) : frame :=
  {| frame_stream_type := RS2_STREAM_COLOR; frame_stream_index := 0;
     frame_format := RS2_FORMAT_RGB8; frame_timestamp := F64.of_int ts;
     frame_timestamp_domain := RS2_TIMESTAMP_DOMAIN_HARDWARE_CLOCK;
     frame_number := number;
     frame_payload :=
       video_frame 2 2 3 [255; 0; 0; 0; 255; 0; 0; 0; 255; 10; 20; 30] |}.

Definition gyro_sample (ts : Z) : frame :=
  {| frame_stream_type := RS2_STREAM_GYRO; frame_stream_index := 0;
     frame_format := RS2_FORMAT_MOTION_XYZ32F; frame_timestamp := F64.of_int ts;
     frame_timestamp_domain := RS2_TIMESTAMP_DOMAIN_HARDWARE_CLOCK;
     frame_number := 1; frame_payload := motion_frame zero_axes |}.

Definition vertex_at (x : Z) : vertex :=
  {| vertex_x := F32.of_int x; vertex_y := F32.of_int x; vertex_z := F32.of_int 1 |}.

Definition uv (u v : float) : texture_coordinate := {| tex_u := u; tex_v := v |}.

(** Two points: the first with texture coordinates (2, 2), outside the unit
    square, the second with (0.5, 0.5). *)
Definition two_points : list (vertex * texture_coordinate) :=
  [(vertex_at 1, uv (F32.of_int 2) (F32.of_int 2));
   (vertex_at 2, uv (F32.of_bits 1 (-1)) (F32.of_bits 1 (-1)))].

Definition points_frame (ts : Z) (pts : list (vertex * texture_coordinate)) : frame :=
  {| frame_stream_type := RS2_STREAM_DEPTH; frame_stream_index := 0;
     frame_format := RS2_FORMAT_XYZ32F; frame_timestamp := F64.of_int ts;
     frame_timestamp_domain := RS2_TIMESTAMP_DOMAIN_HARDWARE_CLOCK;
     frame_number := 1; frame_payload := points pts |}.

(** Collaborators: every topic has one subscriber, the clock reads 2000 s;
    the processing blocks return the frameset as it is, or raise. *)
Definition env_ok : @Env time :=
  {| now_at_base := 2 * 10 ^ 12; now_at_stamp := 2 * 10 ^ 12;
     num_subscribers := fun _ => 1;
     process := fun _ frames => inr frames;
     align_to := fun _ _ => inl (rs2_error "no depth frame") |}.

Definition env_failing : @Env time :=
  {| now_at_base := 2 * 10 ^ 12; now_at_stamp := 2 * 10 ^ 12;
     num_subscribers := fun _ => 1;
     process := fun _ _ => inl (rs2_error "frame didn't arrive within 5000");
     align_to := fun _ _ => inl (rs2_error "no depth frame") |}.

(** What the images among the effects carry: family, stream, stamp in
    nanoseconds, encoding, row step and sequence number. *)
Definition image_headers (out : list (@effect time))
    : list (publish_family * stream_index_pair * Z * string * Z * Z) :=
  omap (fun e =>
          match e with
          | publish_image fam s _ img =>
              Some (fam, s, img_stamp img, img_encoding img, img_step img, img_seq img)
          | _ => None
          end) out.

(** The stamps among the effects, in nanoseconds. *)
Definition stamps (out : list (@effect time)) : list Z := omap effect_stamp out.

(** The ERROR lines among the effects. *)
Definition error_lines (out : list (@effect time)) : list string :=
  omap (fun e => match e with ROS_ERROR msg => Some msg | _ => None end) out.

(** The time base as a triple, the wall-clock origin in nanoseconds. *)
Definition time_base_triple (n : @Node time) : bool * Z * double :=
  (_intialize_time_base (time_base n), _ros_time_base (time_base n),
   _camera_time_base (time_base n)).

(** How a run ended, without the value. *)
Definition ended {A} (x : outcome A * @Node time * list (@effect time)) : string :=
  match result_of x with
  | Ok _ => "returned"
  | Raise e => ("raised: " ++ what e)%string
  | Terminated why => ("terminated: " ++ why)%string
  | Undefined why => ("undefined: " ++ why)%string
  end.


(** The point clouds among the effects: width and records. *)
Definition clouds (out : list (@effect time)) : list (Z * list PointCloudPoint) :=
  omap (fun e =>
          match e with
          | publish_pointcloud msg => Some (pc_width msg, pc_records msg)
          | _ => None
          end) out.


(** The same node once [setupPublishers] has advertised the counter. *)
Definition counted (n : @Node time) : @Node time :=
  with_pstate
    {| _seq := _seq (pstate n); _camera_info := _camera_info (pstate n);
       _depth_aligned_seq := _depth_aligned_seq (pstate n);
       _depth_aligned_camera_info := _depth_aligned_camera_info (pstate n);
       _depth_aligned_image := _depth_aligned_image (pstate n);
       _depth_aligned_encoding := _depth_aligned_encoding (pstate n);
       _send_counter := _send_counter (pstate n);
       _counter_enabled := true;
       _image_counter := _image_counter (pstate n) |} n.


(** The members only the set-up uses, before the constructor runs and
    after it, for a node in the namespace "/camera". *)
Definition raw_members : SetupMembers :=
  {| _json_file_path := ""; _serial_no := ""; _namespace := "";
     _base_frame_id := ""; _frame_id := ∅; _depth_aligned_frame_id := ∅;
     _stream_name := ∅; _inter_cam_sync_mode := inter_cam_sync_none;
     _sensors := ∅; _stream_intrinsics := ∅; _calibration := ∅;
     _depth_aligned_calibration := ∅; _counter_publisher := None;
     _depth_to_other_extrinsics_publishers := ∅;
     _depth_to_other_extrinsics := ∅;
     _depth_scale_meters := S754_zero false |}.

Definition members : SetupMembers :=
  BaseRealSenseNode_new_members "/camera" "827312070790" raw_members.

Definition whole (n : @Node time) : @Whole time := {| core := n; rest := members |}.

(** An SDK that answers every question: a pinhole camera with the
    principal point in the middle and no distortion, sensors that sit on
    top of each other, an IMU without bias. *)
Definition intrinsics_of (p : stream_profile) : rs2_intrinsics :=
  {| intr_width := profile_width p; intr_height := profile_height p;
     intr_ppx := F32.of_int (profile_width p / 2);
     intr_ppy := F32.of_int (profile_height p / 2);
     intr_fx := F32.of_int 600; intr_fy := F32.of_int 600;
     intr_coeffs := replicate 5 (S754_zero false) |}.

Definition sdk : Sdk :=
  {| get_intrinsics := fun p => inr (intrinsics_of p);
     get_extrinsics_to := fun _ _ =>
       inr {| ext_rotation :=
                [F32.of_int 1; F32.of_int 0; F32.of_int 0;
                 F32.of_int 0; F32.of_int 1; F32.of_int 0;
                 F32.of_int 0; F32.of_int 0; F32.of_int 1];
              ext_translation := [F32.of_int 0; F32.of_int 0; F32.of_int 0] |};
     get_motion_intrinsics := fun _ =>
       inr {| mi_data := replicate 3 (replicate 4 (S754_zero false));
              mi_noise_variances := replicate 3 (S754_zero false);
              mi_bias_variances := replicate 3 (S754_zero false) |} |}.

(** The node [requesting] after [enable_devices]: depth is negotiated. *)
Definition negotiated : @Node time :=
  node_of (enable_devices image_streams sensor_profiles requesting).

(** The same request with color at 1280x720 and 30 fps, which the color
    sensor offers: depth and color are negotiated. *)
Definition requesting_both : @Node time :=
  with_desc
    (set_width COLOR 1280 (set_height COLOR 720 (set_fps COLOR 30 (desc requesting))))
    requesting.

Definition negotiated_both : @Node time :=
  node_of (enable_devices image_streams sensor_profiles requesting_both).

Definition hid_streams : list (list stream_index_pair) := [[GYRO; ACCEL]].

Definition setup_constants : SetupConstants :=
  {| DEFAULT_BASE_FRAME_ID := "camera_link";
     DEFAULT_DEPTH_FRAME_ID := "camera_depth_frame";
     DEFAULT_INFRA1_FRAME_ID := "camera_infra1_frame";
     DEFAULT_INFRA2_FRAME_ID := "camera_infra2_frame";
     DEFAULT_COLOR_FRAME_ID := "camera_color_frame";
     DEFAULT_FISHEYE_FRAME_ID := "camera_fisheye_frame";
     DEFAULT_IMU_FRAME_ID := "camera_imu_frame";
     DEFAULT_ALIGNED_DEPTH_TO_COLOR_FRAME_ID := "camera_aligned_depth_to_color_frame";
     DEFAULT_ALIGNED_DEPTH_TO_INFRA1_FRAME_ID := "camera_aligned_depth_to_infra1_frame";
     DEFAULT_ALIGNED_DEPTH_TO_INFRA2_FRAME_ID := "camera_aligned_depth_to_infra2_frame";
     DEFAULT_ALIGNED_DEPTH_TO_FISHEYE_FRAME_ID :=
       "camera_aligned_depth_to_fisheye_frame";
     INTER_CAM_SYNC_MODE := "None" |}.

(** The modules of a camera, and one the node does not know. *)
Definition stereo_module : sensor :=
  {| sensor_name := "Stereo Module"; sensor_stream_profiles := inr (sensor_profiles DEPTH) |}.

Definition rgb_camera : sensor :=
  {| sensor_name := "RGB Camera"; sensor_stream_profiles := inr (sensor_profiles COLOR) |}.

Definition gyro_profile : stream_profile :=
  profile GYRO RS2_FORMAT_MOTION_XYZ32F 0 0 1000.

Definition motion_module : sensor :=
  {| sensor_name := "Motion Module";
     sensor_stream_profiles :=
       inr [gyro_profile; profile ACCEL RS2_FORMAT_MOTION_XYZ32F 0 0 1000] |}.

(** A sensor that was never bound to a module of the camera. *)
Definition sensor_default : sensor :=
  {| sensor_name := "";
     sensor_stream_profiles := inl (rs2_error "null pointer passed for argument sensor") |}.

(** A stereo module that raises when it is asked its profiles. *)
Definition unanswering_stereo_module : sensor :=
  {| sensor_name := "Stereo Module";
     sensor_stream_profiles := inl (rs2_error "failed to get stream profiles") |}.

Definition tracking_module : sensor :=
  {| sensor_name := "Tracking Module"; sensor_stream_profiles := inr [] |}.

(** A camera with the sensors [sensors] that accepts every call, and one
    that does not give its name. *)
Definition device (sensors : list sensor) : Device :=
  {| dev_is_advanced_mode := true;
     dev_name := inr "Intel RealSense D435";
     dev_firmware_version := inr "05.10.03.00";
     dev_product_id := inr "0B07";
     dev_query_sensors := inr sensors;
     dev_load_json := fun _ => None;
     dev_set_option := fun _ _ => None;
     dev_open := fun _ _ => None;
     dev_start := fun _ _ => None;
     dev_get_depth_scale := fun _ => inr (F32.of_bits 1 (-10));
     dev_syncer_start := None |}.

Definition silent_device : Device :=
  {| dev_is_advanced_mode := false;
     dev_name := inl (rs2_error "get_info failed");
     dev_firmware_version := inr "05.10.03.00";
     dev_product_id := inr "0B07";
     dev_query_sensors := inr [];
     dev_load_json := fun _ => None;
     dev_set_option := fun _ _ => None;
     dev_open := fun _ _ => None;
     dev_start := fun _ _ => None;
     dev_get_depth_scale := fun _ => inr (F32.of_bits 1 (-10));
     dev_syncer_start := None |}.

Definition no_files : FileSystem := fun _ => None.

(** A stand-in for the quaternion arithmetic: the product keeps its left
    factor, the inverse is the identity, every matrix is read as no
    rotation. *)
Definition geometry : Geometry :=
  {| quaternion_optical := (d0, d0, d0, d1);
     quaternion_mul := fun a _ => a;
     quaternion_inverse := fun a => a;
     Quaternionf := fun _ => (F32.zero, F32.zero, F32.zero, F32.one) |}.

(** A parameter server that only sets [enable_depth], to false. *)
Definition server_without_depth : ParamServer :=
  {| param_bool := fun name =>
       if String.eqb name "enable_depth" then Some false else None;
     param_int := fun _ => None;
     param_string := fun _ => None;
     param_double := fun _ => None |}.

(** The node configured with the defaults, whole. *)
Definition configured_whole : @Whole time := whole (configured no_parameters).

(** A node with the gyro enabled and the accelerometer not, and with the
    motion module registered for the gyro. *)
Definition gyro_only : @Whole time :=
  {| core := with_desc (set_enable GYRO true (set_fps GYRO 1000 (desc constructed)))
               constructed;
     rest := set_sensors (<[GYRO := motion_module]> ∅) members |}.

(** The node [requesting], whole, with the colour camera registered and
    [stereo] as the stereo module. *)
Definition requesting_whole (stereo : sensor) : @Whole time :=
  {| core := requesting;
     rest := set_sensors
               (<[COLOR := rgb_camera]> (<[INFRA2 := stereo]> (<[INFRA1 := stereo]>
                (<[DEPTH := stereo]> ∅))))
               members |}.

(** A node with an enabled profile for the gyro. *)
Definition gyro_negotiated : @Whole time :=
  whole (with_enabled_profiles (<[GYRO := [gyro_profile]]> ∅) constructed).


(** A second color image, gray all over. *)
Definition gray_image (ts : Z) (number : Z) : frame :=
  {| frame_stream_type := RS2_STREAM_COLOR; frame_stream_index := 0;
     frame_format := RS2_FORMAT_RGB8; frame_timestamp := F64.of_int ts;
     frame_timestamp_domain := RS2_TIMESTAMP_DOMAIN_HARDWARE_CLOCK;
     frame_number := number;
     frame_payload := video_frame 2 2 3 (replicate 12 100) |}.

(** The colors of the records of the point clouds among the effects. *)
Definition cloud_colors (out : list (@effect time)) : list (list (Z * Z * Z)) :=
  map (fun c => map (fun r => (pt_r r, pt_g r, pt_b r)) (snd c)) (clouds out).

(** A parameter server that only sets [align_depth], to true. *)
Definition server_aligning : ParamServer :=
  {| param_bool := fun name =>
       if String.eqb name "align_depth" then Some true else None;
     param_int := fun _ => None;
     param_string := fun _ => None;
     param_double := fun _ => None |}.

(** The streaming node with [align_depth] set, which also publishes depth
    aligned to color. *)
Definition aligning : @Node time :=
  let n := streaming_since server_aligning in
  with_pubs
    {| _image_publishers := _image_publishers (pubs n);
       _info_publisher := _info_publisher (pubs n);
       _imu_publishers := _imu_publishers (pubs n);
       _pointcloud_publisher := _pointcloud_publisher (pubs n);
       _depth_aligned_image_publishers :=
         <[COLOR := Some "aligned_depth_to_color/image_raw"]> ∅;
       _depth_aligned_info_publisher :=
         <[COLOR := Some "aligned_depth_to_color/camera_info"]> ∅ |}
    (with_pstate
       (set_depth_aligned_camera_info
          (<[COLOR := {| ci_stamp := 0; ci_seq := 0 |}]> ∅) (pstate n)) n).

(** Collaborators as [env_ok], where alignment returns the depth frame the
    frameset holds last. *)
Definition env_aligning : @Env time :=
  {| now_at_base := 2 * 10 ^ 12; now_at_stamp := 2 * 10 ^ 12;
     num_subscribers := fun _ => 1;
     process := fun _ frames => inr frames;
     align_to := fun _ frames =>
       match get_frame frames RS2_STREAM_DEPTH 0 with
       | Some f => inr f
       | None => inl (rs2_error "no depth frame")
       end |}.

(** The frames handed to the aligned-depth image publishers. *)
Definition aligned_frames (out : list (@effect time)) : list frame :=
  omap (fun e =>
          match e with
          | publish_image AlignedDepth _ f _ => Some f
          | _ => None
          end) out.

(** The frames handed to the image publishers of their streams, with the
    stamps of the images in nanoseconds. *)
Definition frames_stamped (out : list (@effect time)) : list (frame * Z) :=
  regular_stamps out.

(** Collaborators as [env_ok], without subscriber of the point cloud. *)
Definition env_images : @Env time :=
  {| now_at_base := 2 * 10 ^ 12; now_at_stamp := 2 * 10 ^ 12;
     num_subscribers := fun topic =>
       if String.eqb topic "depth/color/points" then 0 else 1;
     process := fun _ frames => inr frames;
     align_to := fun _ _ => inl (rs2_error "no depth frame") |}.

End Sample.


(* ================================================================== *)
(** * Properties *)

(** ** Sanity checks of the basic definitions *)

Example at_default_absent : at_default false (∅ : gmap stream_index_pair bool) DEPTH = false.
Proof. reflexivity. Qed.

Example at_default_present :
  at_default 0 (<[DEPTH := 7]> (∅ : gmap stream_index_pair Z)) DEPTH = 7.
Proof. reflexivity. Qed.

Example split_on_sample :
  split_on "," "temporal,disparity,spatial" = ["temporal"; "disparity"; "spatial"].
Proof. reflexivity. Qed.

Example split_on_empty : split_on "," "" = [""].
Proof. reflexivity. Qed.

Example split_on_gaps : split_on "," "a,,b," = ["a"; ""; "b"; ""].
Proof. reflexivity. Qed.

Example find_str_sample : find_str "pointcloud" "spatial,pointcloud" = Some 8%nat.
Proof. reflexivity. Qed.

Example find_str_npos : find_str "pointcloud" "spatial,temporal" = None.
Proof. reflexivity. Qed.

Example f32_half_in_unit :
  F32.geb (F32.of_bits 1 (-1)) F32.zero && F32.leb (F32.of_bits 1 (-1)) F32.one = true.
Proof. reflexivity. Qed.

Example f32_nan_not_in_unit : F32.geb S754_nan F32.zero = false.
Proof. reflexivity. Qed.

Example f32_trunc : F32.to_int (F32.mul (F32.of_bits 3 (-2)) (F32.of_int 640)) = 480.
Proof. reflexivity. Qed.

Example f64_ms_to_s :
  F64.div (F64.sub (F64.of_int 1500) (F64.of_int 1000)) (F64.of_int 1000)
  = F64.of_bits 1 (-1).
Proof. reflexivity. Qed.

Section Properties.
Context `{RosTime}.
Variable K : Constants.


(** ** Tokens of a split string occur in it *)

Lemma prefix_empty (s : string) : String.prefix "" s = true.
Proof. destruct s; reflexivity. Qed.

Lemma split_on_head (sep : ascii) (s : string) :
  ∃ t ts, split_on sep s = t :: ts ∧ String.prefix t s = true.
Proof.
  induction s as [|a s IH]; simpl.
  - exists "", []. split; reflexivity.
  - destruct (Ascii.eqb a sep).
    + exists "", (split_on sep s). split; reflexivity.
    + destruct IH as (t & ts & -> & Hp).
      exists (String a t), ts. split; [reflexivity|].
      simpl. destruct (ascii_dec a a) as [_|Hne]; [exact Hp | congruence].
Qed.

Lemma find_str_tail (needle : string) (a : ascii) (s : string) :
  is_Some (find_str needle s) → is_Some (find_str needle (String a s)).
Proof.
  intros [k Hk]. cbn [find_str].
  destruct (String.prefix needle (String a s)); [eauto|].
  rewrite Hk. simpl. eauto.
Qed.

Lemma split_on_token_found (sep : ascii) (tok s : string) :
  In tok (split_on sep s) → is_Some (find_str tok s).
Proof.
  revert tok. induction s as [|a s IH]; intros tok Hin.
  - simpl in Hin. destruct Hin as [<-|[]]. simpl. eauto.
  - simpl in Hin. destruct (Ascii.eqb a sep).
    + destruct Hin as [<-|Hin].
      * cbn [find_str]. rewrite prefix_empty. eauto.
      * apply find_str_tail, IH, Hin.
    + destruct (split_on_head sep s) as (t & ts & Hs & Hp).
      rewrite Hs in Hin. destruct Hin as [<-|Hin].
      * cbn [find_str]. simpl String.prefix.
        destruct (ascii_dec a a) as [_|Hne]; [|congruence].
        rewrite Hp. eauto.
      * apply find_str_tail, IH. rewrite Hs. right. exact Hin.
Qed.

(** ** getParameters *)

Lemma rs2_string_to_stream_known (str : string) (n : Node) :
  known_stream_string str = true →
  ∃ st, rs2_string_to_stream str n = (Ok st, n, []).
Proof.
  unfold known_stream_string, rs2_string_to_stream. intros Hk.
  destruct (String.eqb str "RS2_STREAM_ANY"); [eexists; reflexivity|].
  destruct (String.eqb str "RS2_STREAM_COLOR"); [eexists; reflexivity|].
  destruct (String.eqb str "RS2_STREAM_INFRARED"); [eexists; reflexivity|].
  destruct (String.eqb str "RS2_STREAM_FISHEYE"); [eexists; reflexivity|].
  discriminate.
Qed.

(** C10. After [getParameters], [_sync_frames] is true whenever
    enable_pointcloud or align_depth is set or the filters string is not
    empty, whatever enable_sync says; enable_sync decides only when all
    three are absent; and a "pointcloud" token in the filters string sets
    [_pointcloud]. *)
Theorem getParameters_forces_sync (ps : ParamServer) (n : Node) :
  known_stream_string
    (param (param_string ps) "pointcloud_texture_stream" "RS2_STREAM_COLOR") = true →
  let enable_pointcloud := param (param_bool ps) "enable_pointcloud" (POINTCLOUD K) in
  let align_depth := param (param_bool ps) "align_depth" (ALIGN_DEPTH K) in
  let filters := param (param_string ps) "filters" (DEFAULT_FILTERS K) in
  let enable_sync := param (param_bool ps) "enable_sync" (SYNC_FRAMES K) in
  ∃ n', getParameters K ps n = (Ok tt, n', [ROS_INFO "getParameters..."]) ∧
    _align_depth (params n') = align_depth ∧
    _filters_str (params n') = filters ∧
    (enable_pointcloud = true ∨ align_depth = true ∨ filters ≠ "" →
       _sync_frames (params n') = true) ∧
    (enable_pointcloud = false → align_depth = false → filters = "" →
       _sync_frames (params n') = enable_sync ∧ _pointcloud (params n') = false) ∧
    (enable_pointcloud = true → _pointcloud (params n') = true) ∧
    (In "pointcloud" (split_on "," filters) → _pointcloud (params n') = true).
Proof.
  intros Hknown enable_pointcloud align_depth filters enable_sync.
  destruct (rs2_string_to_stream_known _
              (with_params (set_align_depth_pointcloud align_depth
                              enable_pointcloud (params n)) n) Hknown)
    as [st Hst].
  unfold align_depth, enable_pointcloud in Hst.
  eexists. split.
  { unfold getParameters, mbind, M_bind, bind, emit, modify.
    rewrite Hst. reflexivity. }
  cbn [params with_params _align_depth _filters_str _sync_frames _pointcloud].
  fold enable_pointcloud align_depth filters enable_sync.
  split; [reflexivity|]. split; [reflexivity|].
  split; [|split; [|split]].
  - intros [Hp|[Ha|Hf]].
    + rewrite Hp. reflexivity.
    + rewrite Ha, orb_true_r. reflexivity.
    + destruct filters as [|c rest]; [congruence|].
      simpl String.length. rewrite orb_true_r. reflexivity.
  - intros -> -> ->. split; reflexivity.
  - intros ->. reflexivity.
  - intros Hin. apply split_on_token_found in Hin.
    rewrite (bool_decide_eq_true_2 _ Hin). apply orb_true_r.
Qed.


(** ** Running monadic code *)

Lemma bind_Ok {A B} (c : M A) (k : A → M B) (n n1 n2 : Node) (a : A)
    (r : outcome B) (o1 o2 : list effect) :
  c n = (Ok a, n1, o1) → k a n1 = (r, n2, o2) →
  (c ≫= k) n = (r, n2, o1 ++ o2).
Proof.
  intros Hc Hk. unfold mbind, M_bind, bind. rewrite Hc, Hk. reflexivity.
Qed.

Lemma bind_Raise {A B} (c : M A) (k : A → M B) (n n1 : Node) (e : exn)
    (o1 : list effect) :
  c n = (Raise e, n1, o1) → (c ≫= k) n = (Raise e, n1, o1).
Proof. intros Hc. unfold mbind, M_bind, bind. rewrite Hc. reflexivity. Qed.

Lemma with_filters_same (n : Node) : with_filters (_filters n) n = n.
Proof. destruct n; reflexivity. Qed.

Lemma with_filters_twice (l1 l2 : list NamedFilter) (n : Node) :
  with_filters l2 (with_filters l1 n) = with_filters l2 n.
Proof. reflexivity. Qed.

(** ** setupFilters *)

Lemma requests_In (name : string) (names : list string) :
  requests name names = true ↔ In name names.
Proof.
  unfold requests. rewrite existsb_exists. split.
  - intros (x & Hx & He). apply String.eqb_eq in He. subst. exact Hx.
  - intros Hin. exists name. split; [exact Hin | apply String.eqb_refl].
Qed.

(** One name of the request. *)
Lemma setupFilters_token_run (flags : bool * bool) (s : string) (n : Node) :
  known_filter_name s = true →
  (s = "pointcloud" → _pointcloud (params n) = true) →
  ∃ out,
    setupFilters_token flags s n
    = (Ok (fst flags || String.eqb "disparity" s,
           snd flags || String.eqb "colorizer" s),
       with_filters (_filters n ++ option_list (smoothing_stage s)) n, out).
Proof.
  intros Hs Hpc. destruct flags as [d c].
  unfold setupFilters_token, smoothing_stage, known_filter_name in *.
  destruct (String.eqb s "colorizer") eqn:E1.
  { apply String.eqb_eq in E1. subst s. exists []. cbn.
    rewrite orb_false_r, orb_true_r, app_nil_r, with_filters_same. reflexivity. }
  destruct (String.eqb s "disparity") eqn:E2.
  { apply String.eqb_eq in E2. subst s. exists []. cbn.
    rewrite orb_false_r, orb_true_r, app_nil_r, with_filters_same. reflexivity. }
  destruct (String.eqb s "spatial") eqn:E3.
  { apply String.eqb_eq in E3. subst s. eexists. cbn.
    rewrite !orb_false_r. reflexivity. }
  destruct (String.eqb s "temporal") eqn:E4.
  { apply String.eqb_eq in E4. subst s. eexists. cbn.
    rewrite !orb_false_r. reflexivity. }
  destruct (String.eqb s "decimation") eqn:E5.
  { apply String.eqb_eq in E5. subst s. eexists. cbn.
    rewrite !orb_false_r. reflexivity. }
  destruct (String.eqb s "pointcloud") eqn:E6.
  { apply String.eqb_eq in E6. subst s. eexists.
    unfold mbind, M_bind, bind, gets. rewrite Hpc by reflexivity. cbn.
    rewrite !orb_false_r, app_nil_r, with_filters_same. reflexivity. }
  simpl in Hs. apply String.eqb_eq in Hs. subst s. exists []. cbn.
  rewrite !orb_false_r, app_nil_r, with_filters_same. reflexivity.
Qed.

Lemma omap_smoothing_cons (s : string) (names : list string) :
  omap smoothing_stage (s :: names)
  = option_list (smoothing_stage s) ++ omap smoothing_stage names.
Proof. cbn. destruct (smoothing_stage s); reflexivity. Qed.

(** The loop over the names: it ends normally when every name is accepted
    and "pointcloud" comes with [_pointcloud]; it then has appended the
    smoothing stages in the order of the request and noted whether
    "disparity" and "colorizer" occur. *)
Lemma setupFilters_loop (names : list string) :
  ∀ (flags : bool * bool) (n : Node),
    forallb known_filter_name names = true →
    (requests "pointcloud" names = true → _pointcloud (params n) = true) →
    ∃ out,
      for_fold names flags setupFilters_token n
      = (Ok (fst flags || requests "disparity" names,
             snd flags || requests "colorizer" names),
         with_filters (_filters n ++ omap smoothing_stage names) n, out).
Proof.
  induction names as [|s names IH]; intros flags n Hknown Hpc.
  - exists []. simpl. rewrite !orb_false_r, app_nil_r, with_filters_same.
    destruct flags; reflexivity.
  - simpl in Hknown. apply andb_true_iff in Hknown as [Hs Hrest].
    destruct (setupFilters_token_run flags s n Hs) as [out1 H1].
    { intros ->. apply Hpc. reflexivity. }
    destruct (IH (fst flags || String.eqb "disparity" s,
                  snd flags || String.eqb "colorizer" s)
                 (with_filters (_filters n ++ option_list (smoothing_stage s)) n)
                 Hrest) as [out2 H2].
    { intros Hr. apply Hpc. simpl. rewrite Hr. apply orb_true_r. }
    exists (out1 ++ out2). cbn [for_fold].
    erewrite bind_Ok; [|exact H1|exact H2].
    rewrite omap_smoothing_cons. cbn [fst snd requests existsb _filters with_filters].
    rewrite <- !orb_assoc, <- app_assoc. reflexivity.
Qed.


(** [setupFilters] on a request it accepts ends normally in
    [node_after_setupFilters]. *)
Lemma setupFilters_run (n : Node) :
  let names := split_on "," (_filters_str (params n)) in
  forallb known_filter_name names = true →
  (requests "pointcloud" names = true → _pointcloud (params n) = true) →
  ∃ out, setupFilters n = (Ok tt, node_after_setupFilters n, out).
Proof.
  intros names Hknown Hpc.
  destruct (setupFilters_loop names (false, false) n Hknown Hpc) as [out0 H0].
  cbn [fst snd orb] in H0.
  unfold node_after_setupFilters, filters_after_setup. fold names.
  unfold setupFilters.
  destruct (requests "disparity" names) eqn:Hd,
           (requests "colorizer" names) eqn:Hc,
           (_pointcloud (params n)) eqn:Hp;
    eexists;
    (eapply bind_Ok; [reflexivity|]);
    (eapply bind_Ok; [exact H0|]);
    unfold when, push_back_filter, insert_begin_filter;
    unfold mbind, M_bind, bind, gets, emit, modify, ret;
    cbn [fst snd params with_filters with_desc _filters desc];
    rewrite ?Hp; unfold with_filters, with_desc;
    cbn [fst snd params desc time_base pubs pstate _is_frame_arrived
         _enabled_profiles _filters app];
    rewrite <- ?app_assoc, ?app_nil_r; reflexivity.
Qed.


(** ** enable_devices *)

Variable IMAGE_STREAMS : list (list stream_index_pair).

Lemma bind_assoc {A B C} (c : M A) (k : A → M B) (h : B → M C) (n : Node) :
  ((c ≫= k) ≫= h) n = (c ≫= (λ a, k a ≫= h)) n.
Proof.
  unfold mbind, M_bind, bind.
  destruct (c n) as [[[a| | |] n1] o1]; try reflexivity.
  destruct (k a n1) as [[[b| | |] n2] o2]; try reflexivity.
  destruct (h b n2) as [[r n3] o3]. rewrite app_assoc. reflexivity.
Qed.

Lemma bind_ext {A B} (c : M A) (k k' : A → M B) (n : Node) :
  (∀ a m, k a m = k' a m) → (c ≫= k) n = (c ≫= k') n.
Proof.
  intros Hk. unfold mbind, M_bind, bind.
  destruct (c n) as [[[a| | |] n1] o1]; try reflexivity.
  rewrite Hk. reflexivity.
Qed.

Lemma ret_bind {B} (k : M B) (n : Node) : (ret tt ;; k) n = k n.
Proof.
  unfold mbind, M_bind, bind, ret. destruct (k n) as [[r n2] o2]. reflexivity.
Qed.

Lemma for_each_app {A} (l1 l2 : list A) (body : A → M unit) (n : Node) :
  for_each (l1 ++ l2) body n = (for_each l1 body ;; for_each l2 body) n.
Proof.
  revert n. induction l1 as [|x l1 IH]; intros n.
  - cbn [app for_each]. rewrite ret_bind. reflexivity.
  - cbn [app for_each]. rewrite bind_assoc.
    apply bind_ext. intros _ m. apply IH.
Qed.

Lemma for_each_concat {A} (ls : list (list A)) (body : A → M unit) (n : Node) :
  for_each ls (λ l, for_each l body) n = for_each (concat ls) body n.
Proof.
  revert n. induction ls as [|l ls IH]; intros n; [reflexivity|].
  cbn [for_each concat]. rewrite for_each_app.
  apply bind_ext. intros _ m. apply IH.
Qed.

Lemma profile_matches_view (n1 n2 : Node) (elem : stream_index_pair)
    (p : stream_profile) :
  stream_view n1 elem = stream_view n2 elem →
  profile_matches (desc n1) elem p = profile_matches (desc n2) elem p.
Proof.
  unfold stream_view, profile_matches, at_default. intros Hv.
  injection Hv as -> -> -> -> _ _. reflexivity.
Qed.

(** Negotiating one stream: it ends normally, leaves the other streams as
    they are and logs about this stream only; a disabled stream is
    skipped, an enabled one without profiles yet is [negotiated]. *)
Lemma enable_stream_run (hw : stream_index_pair → list stream_profile)
    (elem : stream_index_pair) (n : Node) :
  ∃ n' out,
    enable_stream hw elem n = (Ok tt, n', out)
    ∧ params n' = params n ∧ pstate n' = pstate n
    ∧ (∀ e', e' ≠ elem → stream_view n' e' = stream_view n e')
    ∧ Forall (λ e, effect_stream e = Some elem) out
    ∧ (at_default false (_enable (desc n)) elem = false → n' = n ∧ out = [])
    ∧ (at_default false (_enable (desc n)) elem = true →
       _enabled_profiles n !! elem = None → negotiated hw elem n n' out).
Proof.
  unfold enable_stream, negotiated.
  destruct (at_default false (_enable (desc n)) elem) eqn:Hen.
  - destruct (List.find (profile_matches (desc n) elem) (hw elem)) as [p|] eqn:Hfind.
    + eexists _, _. split.
      { unfold mbind, M_bind, bind, gets, when. rewrite Hen.
        cbn [fst snd]. rewrite Hfind.
        unfold accept_profile, mbind, M_bind, bind, modify, get, emit, ret.
        cbn [_enabled_profiles with_enabled_profiles with_desc desc].
        rewrite lookup_insert_eq. reflexivity. }
      cbn [params pstate with_desc with_enabled_profiles desc _enabled_profiles
           set_image set_fps set_height set_width _width _height _fps _enable
           _format _image_format app].
      split; [reflexivity|]. split; [reflexivity|]. split.
      { intros e' Hne. unfold stream_view.
        cbn [with_desc with_enabled_profiles desc _enabled_profiles
             set_image set_fps set_height set_width _width _height _fps _enable
             _format].
        rewrite !lookup_insert_ne by congruence. reflexivity. }
      split.
      { repeat constructor. }
      split; [discriminate|].
      intros _ Hnone. rewrite Hnone. cbn [default app].
      unfold at_default in *. rewrite !lookup_insert_eq. cbn [default].
      repeat split; try reflexivity; try assumption.
      intros e He _. apply list_elem_of_In in He.
      destruct He as [<-|[]]. reflexivity.
    + destruct (_enabled_profiles n !! elem) as [l|] eqn:Hep.
      * eexists _, _. split.
        { unfold mbind, M_bind, bind, gets, when. rewrite Hen.
          cbn [fst snd]. rewrite Hfind.
          unfold get, ret. rewrite Hep. reflexivity. }
        split; [reflexivity|]. split; [reflexivity|].
        split; [reflexivity|]. split; [constructor|].
        split; [discriminate|]. intros _ Hc. discriminate.
      * eexists _, _. split.
        { unfold mbind, M_bind, bind, gets, when. rewrite Hen.
          cbn [fst snd]. rewrite Hfind.
          unfold get, ret, emit, modify. rewrite Hep. reflexivity. }
        cbn [params pstate with_desc desc _enabled_profiles set_enable
             _width _height _fps _enable _format app].
        split; [reflexivity|]. split; [reflexivity|]. split.
        { intros e' Hne. unfold stream_view.
          cbn [with_desc desc _enabled_profiles set_enable _width _height
               _fps _enable _format].
          rewrite lookup_insert_ne by congruence. reflexivity. }
        split; [repeat constructor|].
        split; [discriminate|].
        intros _ _. rewrite lookup_insert_eq.
        repeat split; try reflexivity; try assumption.
        apply list_elem_of_In. left. reflexivity.
  - exists n, []. split.
    { unfold mbind, M_bind, bind, gets, when. rewrite Hen. reflexivity. }
    repeat split; try reflexivity; try constructor; discriminate.
Qed.


Lemma find_pointwise {A} (f g : A → bool) (l : list A) :
  (∀ x, f x = g x) → List.find f l = List.find g l.
Proof.
  intros Hfg. induction l as [|x l IH]; [reflexivity|].
  cbn. rewrite Hfg, IH. reflexivity.
Qed.

(** [negotiated] only looks at the stream's own view and log lines. *)
Lemma negotiated_frame (hw : stream_index_pair → list stream_profile)
    (elem : stream_index_pair) (n n1 n2 n' : Node) (o_pre o o_post : list effect) :
  stream_view n1 elem = stream_view n elem →
  stream_view n' elem = stream_view n2 elem →
  Forall (λ e, effect_stream e ≠ Some elem) o_pre →
  Forall (λ e, effect_stream e ≠ Some elem) o_post →
  negotiated hw elem n1 n2 o →
  negotiated hw elem n n' (o_pre ++ o ++ o_post).
Proof.
  intros Hpre Hpost Fpre Fpost. unfold negotiated.
  rewrite (find_pointwise _ _ _ (λ p, profile_matches_view n1 n elem p Hpre)).
  unfold stream_view, at_default in *.
  injection Hpre as Hf Hw Hh Hr He Hp. injection Hpost as Hf' Hw' Hh' Hr' He' Hp'.
  rewrite Hf, Hw, Hh, Hr, Hw', Hh', Hr', He', Hp'.
  destruct (List.find _ _) as [p|].
  - intros (H1 & H2 & H3 & H4 & H5 & H6). repeat split; try assumption.
    intros e He0 Hs. rewrite !elem_of_app in He0.
    destruct He0 as [He0|[He0|He0]].
    + rewrite Forall_forall in Fpre. destruct (Fpre e He0 Hs).
    + apply H6; assumption.
    + rewrite Forall_forall in Fpost. destruct (Fpost e He0 Hs).
  - intros (H1 & H2 & H3 & H4 & H5 & H6). repeat split; try assumption.
    rewrite !elem_of_app. right. left. exact H6.
Qed.

(** The loops over the streams, flattened. *)
Lemma enable_streams_run (hw : stream_index_pair → list stream_profile)
    (l : list stream_index_pair) :
  NoDup l →
  ∀ n, ∃ n' out,
    for_each l (enable_stream hw) n = (Ok tt, n', out)
    ∧ params n' = params n ∧ pstate n' = pstate n
    ∧ (∀ e, e ∉ l → stream_view n' e = stream_view n e)
    ∧ Forall (λ e, ∃ elem, elem ∈ l ∧ effect_stream e = Some elem) out
    ∧ (∀ elem, elem ∈ l →
         at_default false (_enable (desc n)) elem = true →
         _enabled_profiles n !! elem = None →
         negotiated hw elem n n' out).
Proof.
  induction l as [|x l IH]; intros Hnd n.
  - exists n, []. repeat split; try constructor.
    intros elem Hin. apply elem_of_nil in Hin. destruct Hin.
  - apply NoDup_cons in Hnd as [Hx Hnd].
    destruct (enable_stream_run hw x n)
      as (n1 & o1 & Hrun1 & Hp1 & Hs1 & Hv1 & Ho1 & _ & Hneg1).
    destruct (IH Hnd n1) as (n' & o2 & Hrun2 & Hp2 & Hs2 & Hv2 & Ho2 & Hneg2).
    exists n', (o1 ++ o2). split.
    { cbn [for_each]. eapply bind_Ok; eassumption. }
    split; [congruence|]. split; [congruence|]. split.
    { intros e He. apply not_elem_of_cons in He as [Hne He].
      rewrite Hv2 by assumption. apply Hv1. assumption. }
    split.
    { apply Forall_app. split.
      - eapply Forall_impl; [exact Ho1|]. intros e He. exists x. split; [left|exact He].
      - eapply Forall_impl; [exact Ho2|]. intros e (elem & Hin & He).
        exists elem. split; [right; exact Hin|exact He]. }
    intros elem Hin Hen Hnone. apply elem_of_cons in Hin as [->|Hin].
    + rewrite <- (app_nil_l (o1 ++ o2)).
      apply (negotiated_frame hw x n n n1 n' [] o1 o2); try reflexivity.
      * apply Hv2. exact Hx.
      * constructor.
      * eapply Forall_impl; [exact Ho2|]. intros e (elem & Hin & He) Hs.
        rewrite He in Hs. injection Hs as ->. contradiction.
      * apply Hneg1; assumption.
    + assert (Hne : elem ≠ x) by (intros ->; contradiction).
      pose proof (Hv1 elem Hne) as Hview.
      rewrite <- (app_nil_r o2).
      apply (negotiated_frame hw elem n n1 n' n' o1 o2 []); try reflexivity.
      * exact Hview.
      * eapply Forall_impl; [exact Ho1|]. intros e He Hs.
        rewrite He in Hs. injection Hs as ->. contradiction.
      * constructor.
      * unfold stream_view, at_default in *. injection Hview as _ _ _ _ He Hp.
        apply Hneg2; [exact Hin| |].
        -- unfold at_default. rewrite He. exact Hen.
        -- rewrite Hp. exact Hnone.
Qed.

(** C5. From a node without negotiated profiles, [enable_devices] ends
    normally, and every enabled image stream is [negotiated]: the first
    profile, in the order the sensor reports, with the stream's format and
    index and with the requested width, height and fps (0 requests any) is
    pushed as its profile and its width, height and fps are written back;
    without such a profile the stream is disabled and a warning logged.
    Each stream is settled from its own request and its own sensor's list,
    whatever happens to the others. *)
Theorem enable_devices_negotiates (hw : stream_index_pair → list stream_profile)
    (n : Node) :
  NoDup (concat IMAGE_STREAMS) →
  _enabled_profiles n = ∅ →
  ∃ n' out,
    enable_devices IMAGE_STREAMS hw n = (Ok tt, n', out)
    ∧ ∀ elem, elem ∈ concat IMAGE_STREAMS →
        at_default false (_enable (desc n)) elem = true →
        negotiated hw elem n n' out.
Proof.
  intros Hnd Hempty.
  destruct (enable_streams_run hw _ Hnd n)
    as (n1 & o1 & Hrun & Hp & Hs & Hv & Ho & Hneg).
  unfold enable_devices.
  destruct (_align_depth (params n1)) eqn:Ha.
  - eexists _, _. split.
    { eapply bind_Ok; [rewrite for_each_concat; exact Hrun|].
      unfold mbind, M_bind, bind, gets, when, modify. rewrite Ha. reflexivity. }
    intros elem Hin Hen.
    refine (negotiated_frame hw elem n n n1 _ [] o1 _ eq_refl _ _ _ _);
      [reflexivity|constructor|constructor|].
    apply Hneg; [exact Hin|exact Hen|]. rewrite Hempty. apply lookup_empty.
  - eexists _, _. split.
    { eapply bind_Ok; [rewrite for_each_concat; exact Hrun|].
      unfold mbind, M_bind, bind, gets, when, modify. rewrite Ha. reflexivity. }
    intros elem Hin Hen.
    refine (negotiated_frame hw elem n n n1 _ [] o1 _ eq_refl _ _ _ _);
      [reflexivity|constructor|constructor|].
    apply Hneg; [exact Hin|exact Hen|]. rewrite Hempty. apply lookup_empty.
Qed.


(** ** Rules for [maintains] and [emits] *)

Section Rules.
Variable R : Node → Node → Prop.
Hypothesis R_refl : ∀ n, R n n.
Hypothesis R_trans : ∀ a b c, R a b → R b c → R a c.
Variable P : effect → Prop.

Lemma maintains_ret {A} (a : A) : maintains R (ret a).
Proof. intros n. apply R_refl. Qed.

Lemma maintains_gets {A} (f : Node → A) : maintains R (gets f).
Proof. intros n. apply R_refl. Qed.

Lemma maintains_get : maintains R get.
Proof. intros n. apply R_refl. Qed.

Lemma maintains_emit (e : effect) : maintains R (emit e).
Proof. intros n. apply R_refl. Qed.

Lemma maintains_throw {A} (e : exn) : maintains R (@throw _ A e).
Proof. intros n. apply R_refl. Qed.

Lemma maintains_terminate {A} (w : string) : maintains R (@terminate _ A w).
Proof. intros n. apply R_refl. Qed.

Lemma maintains_undefined {A} (w : string) : maintains R (@undefined _ A w).
Proof. intros n. apply R_refl. Qed.

Lemma maintains_lift {A} (r : exn + A) : maintains R (lift r).
Proof. destruct r; intros n; apply R_refl. Qed.

Lemma maintains_map_at {V} (m : gmap stream_index_pair V) (k : stream_index_pair) :
  maintains R (map_at m k).
Proof. unfold map_at. destruct (m !! k); intros n; apply R_refl. Qed.

Lemma maintains_modify (f : Node → Node) :
  (∀ n, R n (f n)) → maintains R (modify f).
Proof. intros Hf n. apply Hf. Qed.

Lemma maintains_bind {A B} (c : M A) (k : A → M B) :
  maintains R c → (∀ a, maintains R (k a)) → maintains R (c ≫= k).
Proof.
  intros Hc Hk n. specialize (Hc n). unfold mbind, M_bind, bind, node_of in *.
  destruct (c n) as [[[a| | |] n1] o1]; cbn in *; try exact Hc.
  specialize (Hk a n1). unfold node_of in Hk.
  destruct (k a n1) as [[r n2] o2]. cbn in *. eapply R_trans; eassumption.
Qed.

Lemma maintains_when (b : bool) (c : M unit) :
  maintains R c → maintains R (when b c).
Proof. intros Hc. destruct b; [exact Hc | apply maintains_ret]. Qed.

Lemma maintains_for_each {A} (l : list A) (body : A → M unit) :
  (∀ x, maintains R (body x)) → maintains R (for_each l body).
Proof.
  intros Hb. induction l as [|x l IH]; cbn [for_each].
  - apply maintains_ret.
  - apply maintains_bind; [apply Hb | intros _; exact IH].
Qed.

Lemma maintains_for_fold {A S} (l : list A) (body : S → A → M S) (s : S) :
  (∀ s x, maintains R (body s x)) → maintains R (for_fold l s body).
Proof.
  intros Hb. revert s. induction l as [|x l IH]; intros s; cbn [for_fold].
  - apply maintains_ret.
  - apply maintains_bind; [apply Hb | intros s'; apply IH].
Qed.

Lemma maintains_try_catch {A} (body : M A) (handler : exn → M A) :
  maintains R body → (∀ e, maintains R (handler e)) →
  maintains R (try_catch body handler).
Proof.
  intros Hb Hh n. specialize (Hb n). unfold try_catch, node_of in *.
  destruct (body n) as [[[a|e| |] n1] o1]; cbn in *; try exact Hb.
  specialize (Hh e n1). unfold node_of in Hh.
  destruct (handler e n1) as [[r n2] o2]. cbn in *. eapply R_trans; eassumption.
Qed.

Lemma emits_ret {A} (a : A) : emits P (ret a).
Proof. intros n. constructor. Qed.

Lemma emits_gets {A} (f : Node → A) : emits P (gets f).
Proof. intros n. constructor. Qed.

Lemma emits_get : emits P get.
Proof. intros n. constructor. Qed.

Lemma emits_modify (f : Node → Node) : emits P (modify f).
Proof. intros n. constructor. Qed.

Lemma emits_emit (e : effect) : P e → emits P (emit e).
Proof. intros He n. repeat constructor. exact He. Qed.

Lemma emits_throw {A} (e : exn) : emits P (@throw _ A e).
Proof. intros n. constructor. Qed.

Lemma emits_terminate {A} (w : string) : emits P (@terminate _ A w).
Proof. intros n. constructor. Qed.

Lemma emits_undefined {A} (w : string) : emits P (@undefined _ A w).
Proof. intros n. constructor. Qed.

Lemma emits_lift {A} (r : exn + A) : emits P (lift r).
Proof. destruct r; intros n; constructor. Qed.

Lemma emits_map_at {V} (m : gmap stream_index_pair V) (k : stream_index_pair) :
  emits P (map_at m k).
Proof. unfold map_at. destruct (m !! k); intros n; constructor. Qed.

Lemma emits_bind {A B} (c : M A) (k : A → M B) :
  emits P c → (∀ a, emits P (k a)) → emits P (c ≫= k).
Proof.
  intros Hc Hk n. specialize (Hc n). unfold mbind, M_bind, bind, out_of in *.
  destruct (c n) as [[[a| | |] n1] o1]; cbn in *; try exact Hc.
  specialize (Hk a n1). unfold out_of in Hk.
  destruct (k a n1) as [[r n2] o2]. cbn in *. apply Forall_app. split; assumption.
Qed.

Lemma emits_when (b : bool) (c : M unit) : emits P c → emits P (when b c).
Proof. intros Hc. destruct b; [exact Hc | apply emits_ret]. Qed.

Lemma emits_for_each {A} (l : list A) (body : A → M unit) :
  (∀ x, x ∈ l → emits P (body x)) → emits P (for_each l body).
Proof.
  induction l as [|x l IH]; intros Hb; cbn [for_each].
  - apply emits_ret.
  - apply emits_bind; [apply Hb; left | intros _; apply IH].
    intros y Hy. apply Hb. right. exact Hy.
Qed.

Lemma emits_for_fold {A S} (l : list A) (body : S → A → M S) (s : S) :
  (∀ s x, emits P (body s x)) → emits P (for_fold l s body).
Proof.
  intros Hb. revert s. induction l as [|x l IH]; intros s; cbn [for_fold].
  - apply emits_ret.
  - apply emits_bind; [apply Hb | intros s'; apply IH].
Qed.

Lemma emits_try_catch {A} (body : M A) (handler : exn → M A) :
  emits P body → (∀ e, emits P (handler e)) → emits P (try_catch body handler).
Proof.
  intros Hb Hh n. specialize (Hb n). unfold try_catch, out_of in *.
  destruct (body n) as [[[a|e| |] n1] o1]; cbn in *; try exact Hb.
  specialize (Hh e n1). unfold out_of in Hh.
  destruct (handler e n1) as [[r n2] o2]. cbn in *. apply Forall_app. split; assumption.
Qed.

End Rules.

(** Applies the rules down to the [modify] and [emit] leaves. *)
Ltac after_rule :=
  first
    [ assumption
    | lazymatch goal with
      | |- ∀ _, maintains _ _ => intros ?
      | |- ∀ _ _, maintains _ _ => intros ? ?
      | |- ∀ _, emits _ _ => intros ?
      | |- ∀ _ _, emits _ _ => intros ? ?
      | |- ∀ _, no_raise _ => intros ?
      | _ => idtac
      end ].

Ltac rule_step :=
  lazymatch goal with
  | |- maintains _ (_ ≫= _) => apply maintains_bind; after_rule
  | |- maintains _ (ret _) => apply maintains_ret; after_rule
  | |- maintains _ (gets _) => apply maintains_gets; after_rule
  | |- maintains _ get => apply maintains_get; after_rule
  | |- maintains _ (emit _) => apply maintains_emit; after_rule
  | |- maintains _ (throw _) => apply maintains_throw; after_rule
  | |- maintains _ (terminate _) => apply maintains_terminate; after_rule
  | |- maintains _ (undefined _) => apply maintains_undefined; after_rule
  | |- maintains _ (lift _) => apply maintains_lift; after_rule
  | |- maintains _ (map_at _ _) => apply maintains_map_at; after_rule
  | |- maintains _ (when _ _) => apply maintains_when; after_rule
  | |- maintains _ (modify _) => apply maintains_modify; intros ?
  | |- maintains _ (for_each _ _) => apply maintains_for_each; after_rule
  | |- maintains _ (for_fold _ _ _) => apply maintains_for_fold; after_rule
  | |- maintains _ (try_catch _ _) => apply maintains_try_catch; after_rule
  | |- emits _ (_ ≫= _) => apply emits_bind; after_rule
  | |- emits _ (ret _) => apply emits_ret
  | |- emits _ (gets _) => apply emits_gets
  | |- emits _ get => apply emits_get
  | |- emits _ (modify _) => apply emits_modify
  | |- emits _ (throw _) => apply emits_throw
  | |- emits _ (terminate _) => apply emits_terminate
  | |- emits _ (undefined _) => apply emits_undefined
  | |- emits _ (lift _) => apply emits_lift
  | |- emits _ (map_at _ _) => apply emits_map_at
  | |- emits _ (when _ _) => apply emits_when
  | |- emits _ (emit _) => apply emits_emit
  | |- emits _ (for_fold _ _ _) => apply emits_for_fold; after_rule
  | |- emits _ (for_each _ _) => apply emits_for_each; intros ? ?
  | |- emits _ (try_catch _ _) => apply emits_try_catch; after_rule
  | |- _ (if ?b then _ else _) => destruct b
  | |- _ (let '(_, _) := ?x in _) => destruct x
  | |- _ (match ?x with _ => _ end) => destruct x
  end.

(** ** The callbacks keep the session's state *)

Lemma session_stable_refl (n : Node) : session_stable n n.
Proof. constructor; intros; reflexivity. Qed.

Lemma session_stable_trans (a b c : Node) :
  session_stable a b → session_stable b c → session_stable a c.
Proof.
  intros [] []. constructor; try congruence; try (etrans; eassumption).
  intros Hinit. rewrite <- stable_time_base0 by exact Hinit.
  apply stable_time_base1. rewrite stable_time_base0; exact Hinit.
Qed.

Lemma touch_subseteq {V} (d : V) (k : stream_index_pair)
    (m : gmap stream_index_pair V) : m ⊆ touch d k m.
Proof.
  unfold touch. destruct (m !! k) eqn:Hk; [reflexivity|].
  apply insert_subseteq. exact Hk.
Qed.

Lemma dom_insert_subseteq_gmap {V} (k : stream_index_pair) (x : V)
    (m : gmap stream_index_pair V) : dom m ⊆ dom (<[k := x]> m).
Proof. rewrite dom_insert. set_solver. Qed.

Ltac stable_leaf :=
  constructor; cbn; intros;
  first [reflexivity | apply touch_subseteq | apply dom_insert_subseteq_gmap].

Ltac stable_rules :=
  pose proof session_stable_refl as Hrefl;
  pose proof session_stable_trans as Htrans;
  repeat rule_step; try stable_leaf.

Lemma publishFrame_stable (env : Env) (f : frame) (t : Time)
    (stream : stream_index_pair) (fam : publish_family) (copy : bool) :
  maintains session_stable (publishFrame env f t stream fam copy).
Proof.
  unfold publishFrame. destruct (frame_payload f); destruct fam; stable_rules.
Qed.


Lemma publish_points_with_stable (use_texture : bool) (color_data : list Z)
    (w h : Z) (pc : list (vertex * texture_coordinate)) (t : Time) :
  maintains session_stable (publish_points_with use_texture color_data w h pc t).
Proof. unfold publish_points_with. stable_rules. Qed.

Lemma publishPointCloud_stable (pc : list (vertex * texture_coordinate)) (t : Time)
    (frames : list frame) :
  maintains session_stable (publishPointCloud pc t frames).
Proof.
  unfold publishPointCloud.
  pose proof session_stable_refl as Hrefl.
  pose proof session_stable_trans as Htrans.
  repeat rule_step; try apply publish_points_with_stable.
Qed.

Lemma publish_one_stable (env : Env) (t : Time) (frames : list frame) (f : frame) :
  maintains session_stable (publish_one env t frames f).
Proof.
  unfold publish_one.
  pose proof session_stable_refl as Hrefl.
  pose proof session_stable_trans as Htrans.
  destruct (frame_payload f);
    repeat rule_step;
    first [apply publishFrame_stable | apply publishPointCloud_stable].
Qed.

Lemma publishAlignedDepthToOthers_stable (env : Env) (frames : list frame) (t : Time) :
  maintains session_stable (publishAlignedDepthToOthers env frames t).
Proof.
  unfold publishAlignedDepthToOthers.
  pose proof session_stable_refl as Hrefl.
  pose proof session_stable_trans as Htrans.
  repeat rule_step; apply publishFrame_stable.
Qed.

Lemma updateIsFrameArrived_stable (m : gmap stream_index_pair bool)
    (s : rs2_stream) (i : Z) :
  maintains session_stable (updateIsFrameArrived m s i).
Proof. unfold updateIsFrameArrived. stable_rules. Qed.

Lemma process_frame_stable (env : Env) (fr : rs2_frame) (t : Time) :
  maintains session_stable (process_frame env fr t).
Proof.
  unfold process_frame, publish_image_counter.
  pose proof session_stable_refl as Hrefl.
  pose proof session_stable_trans as Htrans.
  repeat rule_step;
    first [ apply updateIsFrameArrived_stable | apply publish_one_stable
          | apply publishAlignedDepthToOthers_stable | apply publishFrame_stable
          | stable_leaf ].
Qed.

(** The first statement of the frame callback: nothing when the time base
    is set, otherwise the flag is set and the two origins are recorded. *)
Lemma initialize_time_base_run (env : Env) (fr : rs2_frame) (n : Node) :
  ∃ out,
    initialize_time_base env fr n
    = (Ok tt,
       (if _intialize_time_base (time_base n) then n
        else with_time_base
               {| _intialize_time_base := true;
                  _ros_time_base := now_at_base env;
                  _camera_time_base := get_timestamp fr |} n),
       out)
    ∧ (_intialize_time_base (time_base n) = true → out = [])
    ∧ Forall (λ e, ∃ msg, e = ROS_WARN msg) out.
Proof.
  unfold initialize_time_base, mbind, M_bind, bind, gets, when, modify, emit, ret.
  destruct (_intialize_time_base (time_base n)) eqn:Hinit; cbn.
  - exists []. repeat split. constructor.
  - destruct (bool_decide _); cbn; eexists; (split; [reflexivity|]);
      (split; [discriminate|]); repeat constructor; eauto.
Qed.

Lemma initialize_time_base_stable (env : Env) (fr : rs2_frame) :
  maintains session_stable (initialize_time_base env fr).
Proof.
  intros n. destruct (initialize_time_base_run env fr n) as (out & -> & _ & _).
  unfold node_of. cbn [fst snd].
  destruct (_intialize_time_base (time_base n)) eqn:Hinit.
  - apply session_stable_refl.
  - constructor; cbn; intros; first [reflexivity | congruence].
Qed.

Lemma frame_callback_stable (env : Env) (fr : rs2_frame) :
  maintains session_stable (frame_callback env fr).
Proof.
  unfold frame_callback, frame_callback_body.
  pose proof session_stable_refl as Hrefl.
  pose proof session_stable_trans as Htrans.
  repeat rule_step;
    first [apply initialize_time_base_stable | apply process_frame_stable].
Qed.

Lemma imu_callback_stable (env : Env) (f : frame) :
  maintains session_stable (imu_callback env f).
Proof. unfold imu_callback. stable_rules. Qed.

Lemma deliver_stable (d : delivery) : maintains session_stable (deliver d).
Proof.
  destruct d; [apply frame_callback_stable | apply imu_callback_stable].
Qed.

Lemma session_stable_session (ds : list delivery) (n : Node) :
  session_stable n (session n ds).
Proof.
  revert n. induction ds as [|d ds IH]; intros n.
  - apply session_stable_refl.
  - cbn [session fold_left]. eapply session_stable_trans; [|apply IH].
    apply deliver_stable.
Qed.


(** ** The time base *)

Lemma node_of_bind_Ok {A B} (c : M A) (k : A → M B) (n n1 : Node) (a : A)
    (o1 : list effect) :
  c n = (Ok a, n1, o1) → node_of ((c ≫= k) n) = node_of (k a n1).
Proof.
  intros Hc. unfold mbind, M_bind, bind, node_of. rewrite Hc.
  destruct (k a n1) as [[r n2] o2]. reflexivity.
Qed.

Lemma node_of_try_catch_emit (body : M unit) (f : exn → effect) (n : Node) :
  node_of (try_catch body (λ e, emit (f e)) n) = node_of (body n).
Proof.
  unfold try_catch, node_of, emit. destruct (body n) as [[[[]| | |] n1] o1]; reflexivity.
Qed.

(** The node the frame callback leaves is the one [process_frame] leaves
    from the node with the time base set. *)
Lemma frame_callback_node (env : Env) (fr : rs2_frame) (n : Node) :
  let n0 := if _intialize_time_base (time_base n) then n
            else with_time_base_from env fr n in
  node_of (frame_callback env fr n)
  = node_of (process_frame env fr (frame_stamp env n0 fr) n0).
Proof.
  intros n0. unfold frame_callback, frame_callback_body.
  rewrite (node_of_try_catch_emit _
             (λ ex, ROS_ERROR ("An error has occurred during frame callback: " +:+ what ex))).
  destruct (initialize_time_base_run env fr n) as (out & Hrun & _ & _).
  rewrite (node_of_bind_Ok _ _ _ _ _ _ Hrun).
  fold (with_time_base_from env fr n). fold n0.
  apply (node_of_bind_Ok _ _ n0 n0 _ []). reflexivity.
Qed.

Lemma frame_callback_sets_time_base (env : Env) (fr : rs2_frame) (n : Node) :
  _intialize_time_base (time_base n) = false →
  time_base (node_of (frame_callback env fr n))
  = {| _intialize_time_base := true;
       _ros_time_base := now_at_base env;
       _camera_time_base := get_timestamp fr |}.
Proof.
  intros Hinit. rewrite frame_callback_node, Hinit.
  pose proof (process_frame_stable env fr
                (frame_stamp env (with_time_base_from env fr n) fr)
                (with_time_base_from env fr n)) as Hst.
  apply stable_time_base in Hst; [|reflexivity]. rewrite Hst. reflexivity.
Qed.

(** Before the time base is set the IMU callback returns at once: the
    node is as it was and nothing is emitted. *)
Lemma imu_callback_before_time_base (env : Env) (f : frame) (n : Node) :
  _intialize_time_base (time_base n) = false →
  imu_callback env f n = (Ok tt, n, []).
Proof.
  intros Hinit. unfold imu_callback, mbind, M_bind, bind, gets.
  rewrite Hinit. reflexivity.
Qed.

Lemma session_imu_before_time_base (pre : list delivery) (n : Node) :
  forallb is_imu_delivery pre = true →
  _intialize_time_base (time_base n) = false →
  session n pre = n.
Proof.
  induction pre as [|d pre IH]; intros Himu Hinit; [reflexivity|].
  cbn in Himu. apply andb_true_iff in Himu as [Hd Hpre].
  destruct d as [|env f]; [discriminate|].
  cbn [session fold_left]. unfold session_step, deliver.
  rewrite (imu_callback_before_time_base env f n Hinit). cbn [fst snd].
  apply IH; assumption.
Qed.

Lemma session_app (n : Node) (ds1 ds2 : list delivery) :
  session n (ds1 ++ ds2) = session (session n ds1) ds2.
Proof. unfold session. apply fold_left_app. Qed.

(** C6. The time base goes one way. From a node where it is not set, after
    any IMU deliveries, the first delivery to the frame callback sets the
    flag and records the clock reading and the frame's timestamp; and from
    a node where it is set, whatever is delivered afterwards, to either
    callback, the flag stays set and the two origins stay as recorded. *)
Theorem time_base_one_way (n : Node) (ds : list delivery) :
  (_intialize_time_base (time_base n) = true →
   time_base (session n ds) = time_base n)
  ∧ (_intialize_time_base (time_base n) = false →
     ∀ pre env fr,
       forallb is_imu_delivery pre = true →
       time_base (session n (pre ++ to_frame_callback env fr :: ds))
       = {| _intialize_time_base := true;
            _ros_time_base := now_at_base env;
            _camera_time_base := get_timestamp fr |}).
Proof.
  split.
  - intros Hinit. apply (stable_time_base _ _ (session_stable_session ds n) Hinit).
  - intros Hinit pre env fr Hpre.
    rewrite session_app, (session_imu_before_time_base pre n Hpre Hinit).
    cbn [session fold_left]. fold (session (session_step n (to_frame_callback env fr)) ds).
    pose proof (frame_callback_sets_time_base env fr n Hinit) as Hset.
    unfold session_step, deliver. fold (node_of (frame_callback env fr n)).
    rewrite (stable_time_base _ _ (session_stable_session ds _)); rewrite Hset; reflexivity.
Qed.


(** ** Stamps *)

Ltac stamped_leaf :=
  lazymatch goal with
  | |- stamped _ _ => let s := fresh "s" in let Hs := fresh "Hs" in
                      intros s Hs; cbn in Hs; congruence
  end.

Lemma publishFrame_stamped (env : Env) (f : frame) (t : Time)
    (stream : stream_index_pair) (fam : publish_family) (copy : bool) :
  emits (stamped t) (publishFrame env f t stream fam copy).
Proof.
  unfold publishFrame. destruct (frame_payload f);
    repeat rule_step; stamped_leaf.
Qed.

Lemma publishPointCloud_stamped (pc : list (vertex * texture_coordinate))
    (t : Time) (frames : list frame) :
  emits (stamped t) (publishPointCloud pc t frames).
Proof.
  unfold publishPointCloud, publish_points_with.
  repeat rule_step; stamped_leaf.
Qed.

Lemma process_frame_stamped (env : Env) (fr : rs2_frame) (t : Time) :
  emits (stamped t) (process_frame env fr t).
Proof.
  unfold process_frame, updateIsFrameArrived, publish_one,
    publishAlignedDepthToOthers, publish_image_counter.
  repeat rule_step;
    first [ apply publishFrame_stamped | apply publishPointCloud_stamped
          | stamped_leaf ].
Qed.

(** What the frame callback emits, by the node with the time base set. *)
Lemma frame_callback_out (env : Env) (fr : rs2_frame) (n : Node) :
  let n0 := if _intialize_time_base (time_base n) then n
            else with_time_base_from env fr n in
  ∃ warn rest,
    out_of (frame_callback env fr n) = warn ++ rest
    ∧ Forall (λ e, ∃ msg, e = ROS_WARN msg) warn
    ∧ (_intialize_time_base (time_base n) = true → warn = [])
    ∧ out_of (try_catch (process_frame env fr (frame_stamp env n0 fr))
                (λ ex, emit (ROS_ERROR ("An error has occurred during frame callback: "
                                         +:+ what ex))) n0) = rest.
Proof.
  intros n0.
  destruct (initialize_time_base_run env fr n) as (warn & Hrun & Hnil & Hwarn).
  exists warn. eexists. split; [|split; [exact Hwarn|split; [exact Hnil|reflexivity]]].
  unfold frame_callback, frame_callback_body, try_catch, out_of.
  unfold mbind, M_bind, bind at 1. rewrite Hrun.
  fold (with_time_base_from env fr n). fold n0.
  unfold mbind, M_bind, bind, gets.
  destruct (process_frame env fr (frame_stamp env n0 fr) n0) as [[[[]|e| |] n1] o1];
    cbn; rewrite ?app_nil_r, ?app_assoc; reflexivity.
Qed.


(** ** Exceptions in the frame callback *)

Lemma try_catch_emit_no_raise (body : M unit) (f : exn → effect) (n : Node) (e : exn) :
  result_of (try_catch body (λ ex, emit (f ex)) n) ≠ Raise e.
Proof.
  unfold try_catch, result_of, emit.
  destruct (body n) as [[[[]| | |] n1] o1]; cbn; discriminate.
Qed.

(** C7. An exception raised while the frame callback processes what it was
    handed never leaves the callback: the callback returns normally, with
    one ERROR line carrying the exception's message added to what was
    emitted before the exception; the node keeps what the next invocation
    needs (session_stable), and the time base is set. *)
Theorem frame_callback_catches (env : Env) (fr : rs2_frame) (n : Node) :
  (∀ e, result_of (frame_callback env fr n) ≠ Raise e)
  ∧ (∀ e n1 o1,
       frame_callback_body env fr n = (Raise e, n1, o1) →
       frame_callback env fr n
       = (Ok tt, n1,
          o1 ++ [ROS_ERROR ("An error has occurred during frame callback: "
                            +:+ what e)]))
  ∧ session_stable n (node_of (frame_callback env fr n))
  ∧ _intialize_time_base (time_base (node_of (frame_callback env fr n))) = true.
Proof.
  split; [|split; [|split]].
  - intros e. apply try_catch_emit_no_raise.
  - intros e n1 o1 Hbody. unfold frame_callback, try_catch. rewrite Hbody.
    reflexivity.
  - apply frame_callback_stable.
  - destruct (_intialize_time_base (time_base n)) eqn:Hinit.
    + rewrite (stable_time_base _ _ (frame_callback_stable env fr n) Hinit).
      exact Hinit.
    + rewrite (frame_callback_sets_time_base env fr n Hinit). reflexivity.
Qed.


(** ** A frame that has a subscriber is published *)

Lemma updateIsFrameArrived_run (m : gmap stream_index_pair bool)
    (s : rs2_stream) (i : Z) (n : Node) :
  ∃ m' out, updateIsFrameArrived m s i n = (Ok m', n, out)
            ∧ Forall (λ e, regular_frame e = None) out.
Proof.
  unfold updateIsFrameArrived. destruct (m !! (s, i)).
  - eexists _, []. split; [reflexivity|constructor].
  - eexists _, _. split; [reflexivity|]. repeat constructor.
Qed.

Lemma publish_image_counter_run (t : Time) (n : Node) :
  ∃ n' out, publish_image_counter t n = (Ok tt, n', out)
            ∧ time_base n' = time_base n
            ∧ Forall (λ e, regular_frame e = None) out.
Proof.
  unfold publish_image_counter, mbind, M_bind, bind, gets, when, emit, modify, ret.
  destruct (_counter_enabled (pstate n) && _send_counter (pstate n)); cbn.
  - eexists _, _. split; [reflexivity|]. split; [reflexivity|]. repeat constructor.
  - eexists _, _. split; [reflexivity|]. split; [reflexivity|]. constructor.
Qed.

(** [publishFrame] for a stream of its own family whose publishers exist,
    one of them with a subscriber, and whose encoding, optical frame id and
    camera info are in the maps: the camera info and the image are handed
    to the publishers, the image with the stamp, the encoding of the
    stream's descriptor and a row step of width times the frame's bytes per
    pixel. *)
Lemma publishFrame_publishes (env : Env) (f : frame) (t : Time)
    (stream : stream_index_pair) (n : Node)
    (info_pub image_pub : publisher) (enc frame_id : string) (ci : CameraInfo) :
  _info_publisher (pubs n) !! stream = Some info_pub →
  _image_publishers (pubs n) !! stream = Some image_pub →
  getNumSubscribers env info_pub ≠ 0 ∨ getNumSubscribers env image_pub ≠ 0 →
  _encoding (desc n) !! stream = Some enc →
  _optical_frame_id (params n) !! stream = Some frame_id →
  _camera_info (pstate n) !! stream = Some ci →
  ∃ n' img,
    publishFrame env f t stream Regular true n
    = (Ok tt, n',
       [publish_camera_info Regular stream
          {| ci_stamp := t; ci_seq := frame_number f |};
        publish_image Regular stream f img])
    ∧ img_stamp img = t ∧ img_encoding img = enc ∧ img_frame_id img = frame_id
    ∧ img_data img = Some (frame_payload f)
    ∧ time_base n' = time_base n.
Proof.
  intros Hinfo Himage Hsubs Henc Hfid Hci.
  assert (Hhas : negb (getNumSubscribers env info_pub =? 0)
                 || negb (getNumSubscribers env image_pub =? 0) = true).
  { apply orb_true_iff. destruct Hsubs as [Hs|Hs]; [left|right];
      apply negb_true_iff, Z.eqb_neq; exact Hs. }
  unfold publishFrame.
  destruct (frame_payload f) eqn:Hpayload;
    unfold mbind, M_bind, bind, when, gets, modify, emit, ret, map_at;
    cbn [info_publishers image_publishers encoding_of camera_info_of images
         set_images_of set_seq_of set_camera_info_of seq_of
         with_desc with_pstate pubs params desc pstate
         set_images set_seq set_camera_info _encoding _camera_info _image];
    rewrite Hinfo; cbn -[getNumSubscribers Z.eqb Z.mul Z.add];
    rewrite Himage; cbn -[getNumSubscribers Z.eqb Z.mul Z.add];
    rewrite Hhas; cbn -[getNumSubscribers Z.eqb Z.mul Z.add];
    rewrite Henc; cbn -[getNumSubscribers Z.eqb Z.mul Z.add];
    rewrite Hfid; cbn -[getNumSubscribers Z.eqb Z.mul Z.add];
    rewrite Hci; cbn -[getNumSubscribers Z.eqb Z.mul Z.add];
    eexists _, _; (split; [reflexivity|]);
    cbn; unfold at_default; rewrite ?lookup_insert_eq;
    repeat split; reflexivity.
Qed.

(** C9. While the time base is not set, a frame handed to the IMU
    callback is dropped: the callback returns with the node as it was and
    nothing emitted, so nothing is published and the time base stays
    unset. A frame handed to the frame callback sets the time base in that
    same invocation and goes on: apart from the warning about the
    timestamp domain it is processed as it would be from the node with the
    time base already set from it, and an image frame whose stream has its
    publishers, a subscriber and its map entries is published, stamped
    from the new time base. *)
Theorem frames_before_time_base (n : Node) :
  _intialize_time_base (time_base n) = false →
  (∀ env f, imu_callback env f n = (Ok tt, n, []))
  ∧ (∀ env fr,
       let n0 := with_time_base_from env fr n in
       time_base (node_of (frame_callback env fr n)) = time_base n0
       ∧ node_of (frame_callback env fr n) = node_of (frame_callback env fr n0)
       ∧ ∃ warn, out_of (frame_callback env fr n)
                 = warn ++ out_of (frame_callback env fr n0)
                 ∧ Forall (λ e, ∃ msg, e = ROS_WARN msg) warn)
  ∧ (∀ env f info_pub image_pub enc frame_id ci,
       _info_publisher (pubs n) !! frame_key f = Some info_pub →
       _image_publishers (pubs n) !! frame_key f = Some image_pub →
       getNumSubscribers env info_pub ≠ 0 ∨ getNumSubscribers env image_pub ≠ 0 →
       _encoding (desc n) !! frame_key f = Some enc →
       _optical_frame_id (params n) !! frame_key f = Some frame_id →
       _camera_info (pstate n) !! frame_key f = Some ci →
       ∃ img,
         publish_image Regular (frame_key f) f img
           ∈ out_of (frame_callback env (single f) n)
         ∧ img_stamp img
           = frame_stamp env (with_time_base_from env (single f) n) (single f)).
Proof.
  intros Hinit. split; [|split].
  - intros env f. apply imu_callback_before_time_base. exact Hinit.
  - intros env fr n0. split; [|split].
    + apply frame_callback_sets_time_base. exact Hinit.
    + rewrite !frame_callback_node. rewrite Hinit. reflexivity.
    + destruct (frame_callback_out env fr n) as (warn & rest & Hout & Hwarn & _ & Hrest).
      destruct (frame_callback_out env fr n0) as (warn0 & rest0 & Hout0 & _ & Hnil0 & Hrest0).
      rewrite Hinit in Hrest. cbn [n0 with_time_base_from with_time_base time_base
                                   _intialize_time_base] in Hnil0, Hrest0.
      exists warn. split; [|exact Hwarn].
      rewrite Hout, Hout0, (Hnil0 eq_refl). cbn [app].
      rewrite <- Hrest, <- Hrest0. reflexivity.
  - intros env f info_pub image_pub enc frame_id ci Hinfo Himage Hsubs Henc Hfid Hci.
    set (n0 := with_time_base_from env (single f) n).
    set (t := frame_stamp env n0 (single f)).
    destruct (frame_callback_out env (single f) n) as (warn & rest & Hout & _ & _ & Hrest).
    rewrite Hinit in Hrest. fold n0 t in Hrest.
    destruct (updateIsFrameArrived_run (_is_frame_arrived n0) (frame_stream_type f)
                (frame_stream_index f) n0) as (m' & o1 & Harr & _).
    destruct (publishFrame_publishes env f t (frame_key f) n0 info_pub image_pub
                enc frame_id ci Hinfo Himage Hsubs Henc Hfid Hci)
      as (n1 & img & Hpub & Hstamp & _).
    destruct (publish_image_counter_run t n1) as (n2 & o3 & Hcnt & _).
    assert (Hproc : process_frame env (single f) t n0
                    = (Ok tt, n2, [] ++ (o1 ++ [publish_camera_info Regular (frame_key f)
                                                  {| ci_stamp := t; ci_seq := frame_number f |};
                                                publish_image Regular (frame_key f) f img])
                                    ++ o3)).
    { unfold process_frame.
      eapply bind_Ok; [reflexivity|].
      eapply bind_Ok; [|exact Hcnt].
      eapply bind_Ok; [exact Harr|exact Hpub]. }
    exists img. split; [|exact Hstamp].
    rewrite Hout, <- Hrest. unfold try_catch, out_of. rewrite Hproc. cbn [snd app].
    rewrite !elem_of_app. right. left. right.
    apply list_elem_of_In. right. left. reflexivity.
Qed.


(** ** Removing streams with the same type and index *)

Lemma find_app {A} (p : A → bool) (l1 l2 : list A) :
  List.find p (l1 ++ l2)
  = match List.find p l1 with Some x => Some x | None => List.find p l2 end.
Proof.
  induction l1 as [|x l1 IH]; [reflexivity|].
  cbn. destruct (p x); [reflexivity|exact IH].
Qed.

Lemma existsb_false_filter {A} (p : A → bool) (l : list A) :
  existsb p l = false → List.filter p l = [].
Proof.
  induction l as [|x l IH]; [reflexivity|].
  cbn. destruct (p x); [discriminate|exact IH].
Qed.

Lemma existsb_true_filter {A} (p : A → bool) (l : list A) :
  existsb p l = true → List.filter p l ≠ [].
Proof.
  induction l as [|x l IH]; [discriminate|].
  cbn. destruct (p x); [discriminate|exact IH].
Qed.

Lemma take_1_app_nonempty {A} (l : list A) (x : A) :
  l ≠ [] → take 1 (l ++ [x]) = take 1 l.
Proof. destruct l; [congruence|reflexivity]. Qed.

Lemma find_is_frame_of_key (k : stream_index_pair) (l : list frame) (f : frame) :
  List.find (is_frame_of k) l = Some f → frame_key f = k ∧ is_points f = false.
Proof.
  intros Hf. apply find_some in Hf as [_ Hf]. unfold is_frame_of in Hf.
  apply andb_true_iff in Hf as [Hp Hk]. apply bool_decide_eq_true in Hk.
  apply negb_true_iff in Hp. split; assumption.
Qed.

Lemma key_in_kept (k : stream_index_pair) (kept : list frame) :
  k ∈ map frame_key (List.filter not_points kept) →
  ∃ f, List.find (is_frame_of k) kept = Some f.
Proof.
  induction kept as [|g kept IH]; cbn.
  - intros Hin. apply elem_of_nil in Hin. destruct Hin.
  - unfold is_frame_of at 1, not_points at 1.
    destruct (is_points g) eqn:Hg; cbn.
    + exact IH.
    + intros Hin. apply elem_of_cons in Hin as [->|Hin].
      * rewrite bool_decide_eq_true_2 by reflexivity. eauto.
      * destruct (bool_decide (frame_key g = k)); [eauto|apply IH, Hin].
Qed.

Lemma find_is_frame_of_points (k : stream_index_pair) (f : frame) :
  is_points f = true → List.find (is_frame_of k) [f] = None.
Proof. intros Hf. cbn. unfold is_frame_of. rewrite Hf. reflexivity. Qed.

Lemma find_is_frame_of_frame (k : stream_index_pair) (f : frame) :
  is_points f = false →
  List.find (is_frame_of k) [f]
  = if bool_decide (frame_key f = k) then Some f else None.
Proof. intros Hf. cbn. unfold is_frame_of. rewrite Hf. reflexivity. Qed.

Lemma dedup_inv_init : dedup_inv [] dedup_init.
Proof. constructor; cbn; try reflexivity; constructor. Qed.

(** One turn of the loop. *)
Lemma dedup_inv_step (align : bool) (seen : list frame) (st : dedup_state)
    (f : frame) :
  dedup_inv seen st → dedup_inv (seen ++ [f]) (dedup_step align st f).
Proof.
  intros [Hset Hnd Hpts Hfilter Hsub Hfirst]. unfold dedup_step.
  destruct (is_points f) eqn:Hf.
  - (* a points frame *)
    destruct (points_in_set st) eqn:Hin; cbn [negb].
    + constructor; try assumption.
      * rewrite Hin, existsb_app, <- Hpts. reflexivity.
      * rewrite List.filter_app. cbn. rewrite Hf.
        rewrite take_1_app_nonempty; [exact Hfilter|].
        apply existsb_true_filter. symmetry. exact Hpts.
      * apply sublist_inserts_r. exact Hsub.
      * intros k. rewrite find_app, <- Hfirst, (find_is_frame_of_points k f Hf).
        destruct (List.find _ _); reflexivity.
    + constructor; cbn [frames_to_publish is_in_set points_in_set].
      * rewrite List.filter_app. cbn. unfold not_points at 2. rewrite Hf. cbn.
        rewrite app_nil_r. exact Hset.
      * exact Hnd.
      * rewrite existsb_app. cbn. rewrite Hf. rewrite orb_true_r. reflexivity.
      * rewrite !List.filter_app. cbn. rewrite Hf, Hfilter.
        rewrite (existsb_false_filter is_points seen) by (symmetry; exact Hpts).
        reflexivity.
      * apply sublist_app; [exact Hsub|reflexivity].
      * intros k. rewrite !find_app, Hfirst. reflexivity.
  - (* an image or motion frame *)
    assert (Hgoal : dedup_inv (seen ++ [f])
              (if bool_decide (frame_key f ∈ is_in_set st) then st
               else {| points_in_set := points_in_set st;
                       frames_to_publish := frames_to_publish st ++ [f];
                       is_in_set := is_in_set st ++ [frame_key f];
                       depth_frame := depth_frame st;
                       is_depth_arrived := is_depth_arrived st |})).
    { destruct (bool_decide (frame_key f ∈ is_in_set st)) eqn:Hk.
      - apply bool_decide_eq_true in Hk.
        constructor; try assumption.
        + rewrite existsb_app. cbn. rewrite Hf, !orb_false_r. exact Hpts.
        + rewrite List.filter_app. cbn. rewrite Hf, app_nil_r. exact Hfilter.
        + apply sublist_inserts_r. exact Hsub.
        + intros k. rewrite find_app, <- Hfirst.
          destruct (List.find (is_frame_of k) (frames_to_publish st)) eqn:Hfind;
            [reflexivity|].
          rewrite (find_is_frame_of_frame k f Hf).
          destruct (bool_decide (frame_key f = k)) eqn:Hkk; [|reflexivity].
          apply bool_decide_eq_true in Hkk. subst k.
          rewrite Hset in Hk. apply key_in_kept in Hk as [g Hg]. congruence.
      - apply bool_decide_eq_false in Hk.
        constructor; cbn [frames_to_publish is_in_set points_in_set].
        + rewrite List.filter_app, map_app. cbn. unfold not_points at 2.
          rewrite Hf. cbn. rewrite Hset. reflexivity.
        + apply NoDup_app. split; [exact Hnd|]. split.
          * intros x Hx Hx'. apply list_elem_of_singleton in Hx'. subst x. contradiction.
          * apply NoDup_singleton.
        + rewrite existsb_app. cbn. rewrite Hf, !orb_false_r. exact Hpts.
        + rewrite !List.filter_app. cbn. rewrite Hf, !app_nil_r. exact Hfilter.
        + apply sublist_app; [exact Hsub|reflexivity].
        + intros k. rewrite !find_app, Hfirst. reflexivity. }
    destruct (align && _ && _); [|exact Hgoal].
    destruct Hgoal. constructor; assumption.
Qed.

Lemma dedup_inv_fold (align : bool) (frames seen : list frame) (st : dedup_state) :
  dedup_inv seen st →
  dedup_inv (seen ++ frames) (fold_left (dedup_step align) frames st).
Proof.
  revert seen st. induction frames as [|f frames IH]; intros seen st Hinv.
  - rewrite app_nil_r. exact Hinv.
  - cbn [fold_left]. replace (seen ++ f :: frames) with ((seen ++ [f]) ++ frames)
      by (rewrite <- app_assoc; reflexivity).
    apply IH, dedup_inv_step, Hinv.
Qed.

Lemma dedup_inv_dedup (align : bool) (frames : list frame) :
  dedup_inv frames (dedup align frames).
Proof. apply (dedup_inv_fold align frames [] dedup_init dedup_inv_init). Qed.


(** ** What reaches the image publishers *)

(** [publishFrame] emits nothing, or the camera info and the image of its
    frame, the image tagged with the encoding of the stream in its family
    and stamped [t]. *)
Lemma publishFrame_out (env : Env) (f : frame) (t : Time)
    (stream : stream_index_pair) (fam : publish_family) (copy : bool) (n : Node) :
  out_of (publishFrame env f t stream fam copy n) = []
  ∨ ∃ img,
      out_of (publishFrame env f t stream fam copy n)
      = [publish_camera_info fam stream {| ci_stamp := t; ci_seq := frame_number f |};
         publish_image fam stream f img]
      ∧ encoding_of fam n !! stream = Some (img_encoding img)
      ∧ img_stamp img = t.
Proof.
  unfold publishFrame, out_of.
  destruct (frame_payload f), fam, copy;
    unfold map_at, when;
    unfold mbind, M_bind, bind, gets, modify, emit, ret, throw;
    cbn [info_publishers image_publishers encoding_of camera_info_of images
         set_images_of set_seq_of set_camera_info_of seq_of
         with_desc with_pstate pubs params desc pstate fst snd app
         set_images set_seq set_camera_info set_depth_aligned_image
         set_depth_aligned_seq set_depth_aligned_camera_info
         _encoding _camera_info _image _depth_aligned_encoding
         _depth_aligned_camera_info _depth_aligned_image];
    repeat
      (lazymatch goal with
       | |- context [match ?m !! stream with _ => _ end] =>
           destruct (m !! stream) eqn:?
       | |- context [if negb ?a || negb ?b then _ else _] =>
           destruct (negb a || negb b)
       end;
       cbn [fst snd app]);
    first [ left; reflexivity
          | right; eexists; split; [reflexivity|]; split; [assumption|reflexivity] ].
Qed.

Lemma regular_frames_app (o1 o2 : list effect) :
  regular_frames (o1 ++ o2) = regular_frames o1 ++ regular_frames o2.
Proof. unfold regular_frames. apply omap_app. Qed.

Lemma regular_frames_none (out : list effect) :
  Forall (λ e, regular_frame e = None) out → regular_frames out = [].
Proof.
  induction 1 as [|e out He _ IH]; [reflexivity|].
  unfold regular_frames in *. cbn. rewrite He. exact IH.
Qed.

Lemma hands_over_nothing {A} (c : M A) :
  emits (λ e, regular_frame e = None) c → hands_over [] c.
Proof. intros Hc n. rewrite (regular_frames_none _ (Hc n)). reflexivity. Qed.

Lemma hands_over_bind {A B} (l1 l2 : list frame) (c : M A) (k : A → M B) :
  hands_over l1 c → (∀ a, hands_over l2 (k a)) → hands_over (l1 ++ l2) (c ≫= k).
Proof.
  intros Hc Hk n. specialize (Hc n). unfold mbind, M_bind, bind, out_of in *.
  destruct (c n) as [[[a| | |] n1] o1]; cbn [fst snd] in *;
    try (apply sublist_inserts_r; exact Hc).
  specialize (Hk a n1). unfold out_of in Hk.
  destruct (k a n1) as [[r n2] o2]. cbn [fst snd] in *.
  rewrite regular_frames_app. apply sublist_app; assumption.
Qed.

Lemma hands_over_for_each (l : list frame) (body : frame → M unit) :
  (∀ f, hands_over (if is_points f then [] else [f]) (body f)) →
  hands_over (List.filter not_points l) (for_each l body).
Proof.
  intros Hb. induction l as [|f l IH]; cbn [for_each List.filter].
  - intros n. reflexivity.
  - replace (if not_points f then f :: List.filter not_points l
             else List.filter not_points l)
      with ((if is_points f then [] else [f]) ++ List.filter not_points l)
      by (unfold not_points; destruct (is_points f); reflexivity).
    apply hands_over_bind; [apply Hb | intros _; exact IH].
Qed.

Lemma hands_over_try_catch_emit (l : list frame) (body : M unit) (msg : exn → string) :
  hands_over l body → hands_over l (try_catch body (λ e, emit (ROS_ERROR (msg e)))).
Proof.
  intros Hb n. specialize (Hb n). unfold try_catch, out_of, emit in *.
  destruct (body n) as [[[[]|e| |] n1] o1]; cbn [fst snd] in *; try exact Hb.
  rewrite regular_frames_app. unfold regular_frames at 2. cbn [omap list_omap regular_frame].
  rewrite app_nil_r. exact Hb.
Qed.

Lemma publishFrame_hands_over (env : Env) (f : frame) (t : Time)
    (stream : stream_index_pair) (copy : bool) :
  hands_over [f] (publishFrame env f t stream Regular copy).
Proof.
  intros n. destruct (publishFrame_out env f t stream Regular copy n)
    as [->|(img & -> & _)].
  - apply sublist_nil_l.
  - reflexivity.
Qed.

Ltac no_frame_leaf :=
  lazymatch goal with
  | |- regular_frame _ = None => reflexivity
  end.

Lemma publishFrame_aligned_no_frame (env : Env) (f : frame) (t : Time)
    (stream : stream_index_pair) (copy : bool) :
  emits (λ e, regular_frame e = None) (publishFrame env f t stream AlignedDepth copy).
Proof.
  unfold publishFrame. destruct (frame_payload f); repeat rule_step; no_frame_leaf.
Qed.

Lemma publishPointCloud_no_frame (pc : list (vertex * texture_coordinate))
    (t : Time) (frames : list frame) :
  emits (λ e, regular_frame e = None) (publishPointCloud pc t frames).
Proof.
  unfold publishPointCloud, publish_points_with. repeat rule_step; no_frame_leaf.
Qed.

Lemma publish_one_hands_over (env : Env) (t : Time) (frames : list frame) (f : frame) :
  hands_over (if is_points f then [] else [f]) (publish_one env t frames f).
Proof.
  unfold publish_one, is_points. destruct (frame_payload f).
  - apply publishFrame_hands_over.
  - apply hands_over_nothing. repeat rule_step.
    apply publishPointCloud_no_frame.
  - apply publishFrame_hands_over.
Qed.

Lemma hands_over_in_leaf (I : Node → Prop) (l : list frame) {A} (c : M A) :
  hands_over l c → (∀ n, I n → I (node_of (c n))) → hands_over_in I l c.
Proof. intros Hc HI n Hn. split; [apply Hc | apply HI, Hn]. Qed.

Lemma hands_over_in_bind (I : Node → Prop) {A B} (l1 l2 : list frame)
    (c : M A) (k : A → M B) :
  hands_over_in I l1 c → (∀ a, hands_over_in I l2 (k a)) →
  hands_over_in I (l1 ++ l2) (c ≫= k).
Proof.
  intros Hc Hk n Hn. destruct (Hc n Hn) as [Hs HI].
  unfold mbind, M_bind, bind, out_of, node_of in *.
  destruct (c n) as [[[a| | |] n1] o1]; cbn [fst snd] in *;
    try (split; [apply sublist_inserts_r; exact Hs | exact HI]).
  destruct (Hk a n1 HI) as [Hs2 HI2]. unfold out_of, node_of in *.
  destruct (k a n1) as [[r n2] o2]. cbn [fst snd] in *.
  split; [|exact HI2]. rewrite regular_frames_app. apply sublist_app; assumption.
Qed.

Lemma hands_over_in_gets_bind (I : Node → Prop) {A B} (l : list frame)
    (f : Node → A) (v : A) (k : A → M B) :
  (∀ n, I n → f n = v) → hands_over_in I l (k v) →
  hands_over_in I l (gets f ≫= k).
Proof.
  intros Hf Hk n Hn. specialize (Hk n Hn).
  unfold mbind, M_bind, bind, gets, out_of, node_of in *.
  rewrite (Hf n Hn). destruct (k v n) as [[r n2] o2]. exact Hk.
Qed.

Lemma hands_over_in_ret_bind (I : Node → Prop) {A B} (l : list frame)
    (a : A) (k : A → M B) :
  hands_over_in I l (k a) → hands_over_in I l (ret a ≫= k).
Proof.
  intros Hk n Hn. specialize (Hk n Hn).
  unfold mbind, M_bind, bind, ret, out_of, node_of in *.
  destruct (k a n) as [[r n2] o2]. exact Hk.
Qed.

Lemma hands_over_in_throw_bind (I : Node → Prop) {A B} (e : exn) (k : A → M B) :
  hands_over_in I [] (throw e ≫= k).
Proof. intros n Hn. split; [reflexivity|exact Hn]. Qed.

Lemma publishing_reads_stable (F : list NamedFilter) (a : bool) {A} (c : M A) :
  maintains session_stable c →
  ∀ n, publishing_reads F a n → publishing_reads F a (node_of (c n)).
Proof.
  intros Hc n [HF Ha]. destruct (Hc n). split; congruence.
Qed.

(** Of a frameset, the frames handed to the image publishers are among
    the image and motion frames kept by the loop, in order, each at most
    once; none when a processing block raises. *)
Lemma process_frameset_hands_over (env : Env) (ts : double)
    (dom : rs2_timestamp_domain) (num : Z) (raw : list frame) (t : Time)
    (F : list NamedFilter) (a : bool) :
  hands_over_in (publishing_reads F a)
    (match apply_filters env F raw with
     | inr filtered =>
         List.filter not_points (frames_to_publish (dedup a filtered))
     | inl _ => []
     end)
    (process_frame env (frameset ts dom num raw) t).
Proof.
  pose proof session_stable_refl as Hrefl.
  pose proof session_stable_trans as Htrans.
  set (L := match apply_filters env F raw with
            | inr filtered => List.filter not_points (frames_to_publish (dedup a filtered))
            | inl _ => []
            end).
  unfold process_frame.
  change L with ([] ++ L). apply hands_over_in_bind.
  { apply hands_over_in_leaf; [|apply publishing_reads_stable];
      [apply hands_over_nothing|]; repeat rule_step. }
  intros arrived. rewrite <- (app_nil_r L). apply hands_over_in_bind.
  2:{ intros _. apply hands_over_in_leaf; [|apply publishing_reads_stable].
      - apply hands_over_nothing. unfold publish_image_counter.
        repeat rule_step; no_frame_leaf.
      - unfold publish_image_counter. repeat rule_step; stable_leaf. }
  change L with ([] ++ L). apply hands_over_in_bind.
  { apply hands_over_in_leaf; [|apply publishing_reads_stable].
    - apply hands_over_nothing. unfold updateIsFrameArrived.
      repeat rule_step; no_frame_leaf.
    - repeat rule_step. apply updateIsFrameArrived_stable. }
  intros _. apply (hands_over_in_gets_bind _ _ _ F); [intros n [HF _]; exact HF|].
  subst L. destruct (apply_filters env F raw) as [e|filtered]; cbn [lift].
  { apply hands_over_in_throw_bind. }
  apply hands_over_in_ret_bind.
  apply (hands_over_in_gets_bind _ _ _ a); [intros n [_ Ha]; exact Ha|].
  rewrite <- (app_nil_r (List.filter _ _)). apply hands_over_in_bind.
  - apply hands_over_in_leaf; [|apply publishing_reads_stable].
    + apply hands_over_for_each. intros f. apply publish_one_hands_over.
    + repeat rule_step. apply publish_one_stable.
  - intros _. apply hands_over_in_leaf; [|apply publishing_reads_stable].
    + apply hands_over_nothing. unfold publishAlignedDepthToOthers.
      repeat rule_step. apply publishFrame_aligned_no_frame.
    + repeat rule_step. apply publishAlignedDepthToOthers_stable.
Qed.


Lemma regular_frames_try_catch_emit (body : M unit) (msg : exn → string) (n : Node) :
  regular_frames (out_of (try_catch body (λ e, emit (ROS_ERROR (msg e))) n))
  = regular_frames (out_of (body n)).
Proof.
  unfold try_catch, out_of, emit.
  destruct (body n) as [[[[]|e| |] n1] o1]; cbn [fst snd]; try reflexivity.
  rewrite regular_frames_app. unfold regular_frames at 2.
  cbn [omap list_omap regular_frame]. apply app_nil_r.
Qed.

(** ** publishPointCloud *)

Lemma fill_point_textured (color_data : list Z) (w h : Z)
    (p : vertex * texture_coordinate) (stored : option PointCloudPoint) :
  fill_point true color_data w h p = Some stored →
  (valid_point p = true ∧ ∃ r, stored = Some r ∧ record_of r p)
  ∨ (valid_point p = false ∧ stored = None).
Proof.
  unfold fill_point, valid_point. cbv zeta.
  destruct (in_unit_square (tex_u (snd p)) (tex_v (snd p))).
  - destruct (read_byte _ _) as [r|]; [|discriminate].
    destruct (read_byte _ _) as [g|]; [|discriminate].
    destruct (read_byte _ _) as [b|]; [|discriminate].
    intros [= <-]. left. split; [reflexivity|]. eexists. split; [reflexivity|].
    repeat split.
  - intros [= <-]. right. split; reflexivity.
Qed.

(** With a texture, the second loop stores a record for exactly the points
    the first loop counts, in order (when every read stays inside the
    texture data). *)
Lemma fill_points_textured (color_data : list Z) (w h : Z)
    (pts : list (vertex * texture_coordinate)) (records : list PointCloudPoint) :
  fill_points true color_data w h pts = Some records →
  Forall2 record_of records (List.filter valid_point pts)
  ∧ Z.of_nat (length records) = count_valid_points pts.
Proof.
  revert records. induction pts as [|p pts IH]; intros records Hfill.
  - cbn in Hfill. injection Hfill as <-. split; [constructor|reflexivity].
  - cbn [fill_points] in Hfill.
    destruct (fill_point true color_data w h p) as [stored|] eqn:Hp; [|discriminate].
    destruct (fill_points true color_data w h pts) as [rest|]; [|discriminate].
    injection Hfill as <-. destruct (IH rest eq_refl) as [Hrec Hlen].
    unfold count_valid_points in *. cbn [List.filter].
    destruct (fill_point_textured _ _ _ _ _ Hp) as [[Hv (r & -> & Hr)]|[Hv ->]];
      rewrite Hv; unfold option_list; cbn [option_rect app length].
    + split; [constructor; assumption|].
      rewrite !Nat2Z.inj_succ, Hlen. reflexivity.
    + split; assumption.
Qed.

(** Without a texture, the second loop tests (0, 0) for every point: it
    stores a white record for each point, whatever its texture
    coordinates. *)
Lemma fill_points_untextured (pts : list (vertex * texture_coordinate)) :
  fill_points false no_color 0 0 pts = Some (map white_point pts).
Proof.
  induction pts as [|p pts IH]; [reflexivity|].
  cbn [fill_points map]. rewrite IH. reflexivity.
Qed.

(** With a texture frame of three bytes per pixel in the frameset, what is
    published has a record for exactly the valid points, in order, and a
    width that is their number. *)
Lemma publishPointCloud_textured (pc : list (vertex * texture_coordinate))
    (t : Time) (frames : list frame) (n : Node) (msg : PointCloud2) :
  fst (_pointcloud_texture (params n)) ≠ RS2_STREAM_ANY →
  publish_pointcloud msg ∈ out_of (publishPointCloud pc t frames n) →
  Forall2 record_of (pc_records msg) (List.filter valid_point pc)
  ∧ pc_width msg = Z.of_nat (length (pc_records msg))
  ∧ pc_width msg = count_valid_points pc.
Proof.
  intros Htex. unfold publishPointCloud, mbind, M_bind, bind at 1. unfold gets at 1.
  rewrite (bool_decide_eq_false_2 _ Htex). cbn [negb].
  destruct (get_frame frames _ _) as [[? ? ? ? ? ? [w h bpp data| |]]|];
    try (intros Hin; apply elem_of_nil in Hin; destruct Hin).
  destruct (bpp =? 3);
    [|intros Hin; apply elem_of_nil in Hin; destruct Hin].
  unfold publish_points_with, mbind, M_bind, bind, gets, modify, emit, undefined, out_of.
  destruct (fill_points true data w h pc) as [records|] eqn:Hfill;
    [|intros Hin; apply elem_of_nil in Hin; destruct Hin].
  destruct (fill_points_textured data w h pc records Hfill) as [Hrec Hlen].
  destruct (count_valid_points pc <? Z.of_nat (length records));
    cbn [fst snd app].
  - intros Hin; apply elem_of_nil in Hin; destruct Hin.
  - intros Hin. apply list_elem_of_singleton in Hin. injection Hin as ->.
    cbn [pc_records pc_width]. repeat split; congruence.
Qed.


Lemma filter_all (A : Type) (f : A → bool) (l : list A) :
  forallb f l = true → List.filter f l = l.
Proof.
  induction l as [|a l IH]; [reflexivity|].
  cbn [forallb List.filter]. destruct (f a); [|discriminate].
  cbn [andb]. intros Hl. rewrite (IH Hl). reflexivity.
Qed.

Lemma filter_some_dropped (A : Type) (f : A → bool) (l : list A) :
  forallb f l = false → (length (List.filter f l) < length l)%nat.
Proof.
  induction l as [|a l IH]; [discriminate|].
  cbn [forallb List.filter]. destruct (f a); cbn [andb length].
  - intros Hl. specialize (IH Hl). lia.
  - intros _. pose proof (List.filter_length_le f l). lia.
Qed.

(** C1, at the inputs where the code leaves it. With
    [_pointcloud_texture.first == RS2_STREAM_ANY] the second loop tests
    (0, 0) in place of the texture coordinates: it stores a white record
    for every point, while the message has room for the points the first
    loop counted. When every point has its texture coordinates in the unit
    square the message is published with all of them, white, and a width
    that is their number. When some point has not, that point is stored as
    well and the last stores fall past the end of the message data:
    nothing is published. *)
Theorem publishPointCloud_untextured (pc : list (vertex * texture_coordinate))
    (t : Time) (frames : list frame) (n : Node) :
  fst (_pointcloud_texture (params n)) = RS2_STREAM_ANY →
  fill_points false no_color 0 0 pc = Some (map white_point pc)
  ∧ (forallb valid_point pc = true →
       result_of (publishPointCloud pc t frames n) = Ok tt
       ∧ out_of (publishPointCloud pc t frames n)
         = [publish_pointcloud
              {| pc_stamp := t;
                 pc_frame_id := at_default "" (_optical_frame_id (params n)) DEPTH;
                 pc_width := Z.of_nat (length pc); pc_height := 1;
                 pc_is_dense := true; pc_records := map white_point pc |}])
  ∧ (forallb valid_point pc = false →
       count_valid_points pc < Z.of_nat (length (map white_point pc))
       ∧ result_of (publishPointCloud pc t frames n)
         = Undefined "store past the end of the point cloud data"
       ∧ out_of (publishPointCloud pc t frames n) = []).
Proof.
  intros Htex. split; [apply fill_points_untextured|].
  unfold publishPointCloud, mbind, M_bind, bind, gets.
  cbn [fst snd]. rewrite (bool_decide_eq_true_2 _ Htex). cbn [negb].
  unfold publish_points_with, mbind, M_bind, bind, gets, modify, emit, undefined,
    result_of, out_of.
  rewrite fill_points_untextured, length_map. unfold count_valid_points.
  split; intros Hall.
  - rewrite (filter_all _ _ _ Hall), Z.ltb_irrefl. cbn [fst snd app].
    split; reflexivity.
  - pose proof (filter_some_dropped _ _ _ Hall) as Hlt.
    split; [lia|].
    destruct (Z.ltb_spec (Z.of_nat (length (List.filter valid_point pc)))
                (Z.of_nat (length pc))) as [_|Hge]; [|lia].
    cbn [fst snd app]. split; reflexivity.
Qed.


(** ** The filter list and the DEPTH descriptor after setupFilters *)

(** C4 (amended). For a request [setupFilters] accepts, made on an empty
    filter list, asking for "disparity" anywhere in the request puts the
    depth-to-disparity transform first, then the spatial, temporal and
    decimation stages in the order requested, then the disparity-to-depth
    transform; after it come only the colorizer, when requested, and the
    point-cloud stage, when [_pointcloud] is set. *)
Theorem setupFilters_disparity_brackets (n : Node) :
  let names := split_on "," (_filters_str (params n)) in
  _filters n = [] →
  forallb known_filter_name names = true →
  (requests "pointcloud" names = true → _pointcloud (params n) = true) →
  In "disparity" names →
  ∃ n' out,
    setupFilters n = (Ok tt, n', out)
    ∧ _filters n'
      = [disparity_start] ++ omap smoothing_stage names ++ [disparity_end]
        ++ (if requests "colorizer" names then [colorizer_stage] else [])
        ++ (if _pointcloud (params n)
            then [pointcloud_stage (_pointcloud_texture (params n))] else []).
Proof.
  intros names Hempty Hknown Hpc Hdisp.
  destruct (setupFilters_run n Hknown Hpc) as [out Hrun].
  exists (node_after_setupFilters n), out. split; [exact Hrun|].
  unfold node_after_setupFilters, filters_after_setup. fold names.
  apply requests_In in Hdisp. rewrite Hdisp, Hempty. reflexivity.
Qed.




(** ** More about the code the callbacks run *)

Lemma last_filter_Some {A} (p : A → bool) (l : list A) (x : A) :
  last (List.filter p l) = Some x ↔
  ∃ l1 l2, l = l1 ++ x :: l2 ∧ p x = true ∧ Forall (λ y, p y = false) l2.
Proof.
  induction l as [|a l IH] using rev_ind.
  - cbn. split; [discriminate|]. intros (l1 & l2 & Hl & _). destruct l1; discriminate.
  - rewrite List.filter_app. cbn [List.filter]. destruct (p a) eqn:Ha.
    + rewrite last_snoc. split.
      * intros [= <-]. exists l, []. repeat split; [exact Ha|constructor].
      * intros (l1 & l2 & Hl & Hx & Hl2).
        destruct l2 as [|b l2 _] using rev_ind.
        -- apply app_inj_tail in Hl as [_ ->]. reflexivity.
        -- rewrite app_comm_cons, app_assoc in Hl. apply app_inj_tail in Hl as [_ ->].
           apply Forall_app in Hl2 as [_ Hb]. apply Forall_inv in Hb. congruence.
    + rewrite app_nil_r, IH. split.
      * intros (l1 & l2 & -> & Hx & Hl2). exists l1, (l2 ++ [a]).
        rewrite <- app_assoc. repeat split; [exact Hx|].
        apply Forall_app. split; [exact Hl2|]. repeat constructor. exact Ha.
      * intros (l1 & l2 & Hl & Hx & Hl2).
        destruct l2 as [|b l2 _] using rev_ind.
        -- apply app_inj_tail in Hl as [_ ->]. congruence.
        -- rewrite app_comm_cons, app_assoc in Hl. apply app_inj_tail in Hl as [-> ->].
           apply Forall_app in Hl2 as [Hl2 _]. exists l1, l2. repeat split; assumption.
Qed.

Lemma last_filter_None {A} (p : A → bool) (l : list A) :
  last (List.filter p l) = None ↔ Forall (λ y, p y = false) l.
Proof.
  rewrite last_None. split.
  - intros Hnil. apply Forall_forall. intros y Hy.
    destruct (p y) eqn:Hp; [|reflexivity].
    assert (Hin : In y (List.filter p l))
      by (apply filter_In; split; [apply list_elem_of_In, Hy|exact Hp]).
    rewrite Hnil in Hin. destruct Hin.
  - intros Hall. induction Hall as [|y l Hy _ IH]; [reflexivity|].
    cbn. rewrite Hy. exact IH.
Qed.

(** [get_frame] returns the last frame of the frameset with the stream type
    and index asked for, not the first, and an empty frame when the
    frameset has none. *)
Theorem get_frame_last (frames : list frame) (stream : rs2_stream) (index : Z) :
  (∀ f, get_frame frames stream index = Some f ↔
        ∃ before after,
          frames = before ++ f :: after
          ∧ frame_stream_type f = stream ∧ frame_stream_index f = index
          ∧ Forall (λ g, ¬ (frame_stream_type g = stream ∧ frame_stream_index g = index))
              after)
  ∧ (get_frame frames stream index = None ↔
     Forall (λ g, ¬ (frame_stream_type g = stream ∧ frame_stream_index g = index)) frames).
Proof.
  assert (Hp : ∀ g, (bool_decide (frame_stream_type g = stream)
                     && (frame_stream_index g =? index) = true)
                    ↔ (frame_stream_type g = stream ∧ frame_stream_index g = index)).
  { intros g. rewrite andb_true_iff, bool_decide_eq_true, Z.eqb_eq. reflexivity. }
  assert (Hn : ∀ l, Forall (λ g, bool_decide (frame_stream_type g = stream)
                                 && (frame_stream_index g =? index) = false) l
                    ↔ Forall (λ g, ¬ (frame_stream_type g = stream
                                      ∧ frame_stream_index g = index)) l).
  { intros l. apply Forall_proper; [|reflexivity]. intros g.
    rewrite <- Hp. destruct (_ && _); split; congruence. }
  unfold get_frame. split.
  - intros f. rewrite last_filter_Some. split.
    + intros (l1 & l2 & Hl & Hf & Hl2). exists l1, l2.
      apply Hp in Hf as [Hs Hi]. apply Hn in Hl2. repeat split; assumption.
    + intros (l1 & l2 & Hl & Hs & Hi & Hl2). exists l1, l2.
      split; [exact Hl|]. split; [apply Hp; split; assumption|]. apply Hn, Hl2.
  - rewrite last_filter_None. apply Hn.
Qed.


Lemma getParameters_params (ps : ParamServer) (n : Node) :
  known_stream_string
    (param (param_string ps) "pointcloud_texture_stream" "RS2_STREAM_COLOR") = true →
  let filters := param (param_string ps) "filters" (DEFAULT_FILTERS K) in
  result_of (getParameters K ps n) = Ok tt
  ∧ _filters_str (params (node_of (getParameters K ps n))) = filters
  ∧ _pointcloud (params (node_of (getParameters K ps n)))
    = param (param_bool ps) "enable_pointcloud" (POINTCLOUD K)
      || bool_decide (is_Some (find_str "pointcloud" filters))
  ∧ _filters (node_of (getParameters K ps n)) = _filters n.
Proof.
  intros Hk filters.
  destruct (rs2_string_to_stream_known _
              (with_params (set_align_depth_pointcloud
                              (param (param_bool ps) "align_depth" (ALIGN_DEPTH K))
                              (param (param_bool ps) "enable_pointcloud" (POINTCLOUD K))
                              (params n)) n) Hk) as [st Hst].
  unfold getParameters, mbind, M_bind, bind, emit, modify, result_of, node_of.
  rewrite Hst. repeat split.
Qed.

Lemma bind_Terminated {A B} (c : M A) (k : A → M B) (n n1 : Node) (w : string)
    (o1 : list effect) :
  c n = (Terminated w, n1, o1) → (c ≫= k) n = (Terminated w, n1, o1).
Proof. intros Hc. unfold mbind, M_bind, bind. rewrite Hc. reflexivity. Qed.

(** The loop over the names stops at the first name that is not accepted:
    an ERROR line names it and the bare [throw] ends the process. *)
Lemma setupFilters_loop_unknown (names : list string) (tok : string) :
  ∀ (flags : bool * bool) (n : Node),
    (requests "pointcloud" names = true → _pointcloud (params n) = true) →
    List.find (λ s, negb (known_filter_name s)) names = Some tok →
    ∃ n' out,
      for_fold names flags setupFilters_token n
      = (Terminated "throw without an active exception", n',
         out ++ [ROS_ERROR ("Unknown Filter: " +:+ tok)]).
Proof.
  induction names as [|s names IH]; intros flags n Hpc Hfind; [discriminate|].
  cbn [List.find] in Hfind. destruct (known_filter_name s) eqn:Hs; cbn [negb] in Hfind.
  - destruct (setupFilters_token_run flags s n Hs) as [out1 H1].
    { intros ->. apply Hpc. reflexivity. }
    destruct (IH (fst flags || String.eqb "disparity" s,
                  snd flags || String.eqb "colorizer" s)
                 (with_filters (_filters n ++ option_list (smoothing_stage s)) n))
      as (n' & out2 & H2).
    { intros Hr. apply Hpc. simpl. rewrite Hr. apply orb_true_r. }
    { exact Hfind. }
    exists n', (out1 ++ out2). cbn [for_fold].
    erewrite bind_Ok; [|exact H1|exact H2]. rewrite app_assoc. reflexivity.
  - injection Hfind as <-. exists n, []. cbn [for_fold].
    unfold known_filter_name in Hs.
    apply orb_false_iff in Hs as [Hs H7]. apply orb_false_iff in Hs as [Hs H6].
    apply orb_false_iff in Hs as [Hs H5]. apply orb_false_iff in Hs as [Hs H4].
    apply orb_false_iff in Hs as [Hs H3]. apply orb_false_iff in Hs as [H1 H2].
    unfold mbind, M_bind, bind, setupFilters_token.
    rewrite H1, H2, H3, H4, H5, H6.
    destruct s as [|c s]; [discriminate|]. reflexivity.
Qed.

(** [setupFilters] after [getParameters]: the assertion on [_pointcloud]
    never fails, since [getParameters] sets the flag for a filters string
    that holds "pointcloud". [setupFilters] ends normally when every name
    of the filters string is one of colorizer, disparity, spatial,
    temporal, decimation, pointcloud or empty; otherwise the process ends
    at the first other name, after an ERROR line that names it. *)
Theorem setupFilters_after_getParameters (ps : ParamServer) (n : Node) :
  known_stream_string
    (param (param_string ps) "pointcloud_texture_stream" "RS2_STREAM_COLOR") = true →
  let n1 := node_of (getParameters K ps n) in
  let names := split_on "," (param (param_string ps) "filters" (DEFAULT_FILTERS K)) in
  match List.find (λ s, negb (known_filter_name s)) names with
  | None => ∃ out, setupFilters n1 = (Ok tt, node_after_setupFilters n1, out)
  | Some tok =>
      result_of (setupFilters n1) = Terminated "throw without an active exception"
      ∧ last (out_of (setupFilters n1)) = Some (ROS_ERROR ("Unknown Filter: " +:+ tok))
  end.
Proof.
  intros Hk n1 names.
  destruct (getParameters_params ps n Hk) as (_ & Hstr & Hpc & _).
  fold n1 in Hstr, Hpc.
  assert (Hpoint : requests "pointcloud" names = true → _pointcloud (params n1) = true).
  { intros Hr. apply requests_In, split_on_token_found in Hr.
    rewrite Hpc, (bool_decide_eq_true_2 _ Hr). apply orb_true_r. }
  destruct (List.find _ names) as [tok|] eqn:Hfind.
  - destruct (setupFilters_loop_unknown names tok (false, false) n1 Hpoint Hfind)
      as (n' & out & Hloop).
    assert (Hrun : setupFilters n1
                   = (Terminated "throw without an active exception", n',
                      [] ++ (out ++ [ROS_ERROR ("Unknown Filter: " +:+ tok)]))).
    { unfold setupFilters. eapply bind_Ok; [reflexivity|].
      cbn beta. rewrite Hstr. fold names. apply bind_Terminated. exact Hloop. }
    rewrite Hrun. unfold result_of, out_of. cbn [fst snd app]. split; [reflexivity|].
    apply last_snoc.
  - apply setupFilters_run; rewrite Hstr; fold names; [|exact Hpoint].
    apply forallb_forall. intros s Hs.
    apply find_none with (x := s) in Hfind; [|exact Hs].
    apply negb_false_iff. exact Hfind.
Qed.


(** Running the leaves of a member function. *)
Lemma run_modify {B} (g : Node → Node) (k : unit → M B) (n : Node) :
  (modify g ≫= k) n = k tt (g n).
Proof.
  unfold mbind, M_bind, bind, modify. destruct (k tt (g n)) as [[r n2] o2]. reflexivity.
Qed.

Lemma run_when_modify {B} (b : bool) (g : Node → Node) (k : unit → M B) (n : Node) :
  (when b (modify g) ≫= k) n = k tt (if b then g n else n).
Proof. destruct b; [apply run_modify | apply ret_bind]. Qed.

Lemma run_gets {A B} (g : Node → A) (k : A → M B) (n : Node) :
  (gets g ≫= k) n = k (g n) n.
Proof.
  unfold mbind, M_bind, bind, gets. destruct (k (g n) n) as [[r n2] o2]. reflexivity.
Qed.

Lemma run_map_at {V : Type} {B : Type} (m : gmap stream_index_pair V) (key : stream_index_pair)
    (k : V → M B) (n : Node) :
  (map_at m key ≫= k) n
  = match m !! key with
    | Some x => k x n
    | None => (Raise (std_out_of_range "map::at"), n, [])
    end.
Proof.
  unfold mbind, M_bind, bind, map_at. destruct (m !! key) as [x|]; [|reflexivity].
  cbn. destruct (k x n) as [[r n2] o2]. reflexivity.
Qed.

Lemma run_gets_map_at {V : Type} {B : Type} (g : Node → gmap stream_index_pair V)
    (key : stream_index_pair) (k : V → M B) (n : Node) :
  ((m ← gets g; map_at m key) ≫= k) n
  = match g n !! key with
    | Some x => k x n
    | None => (Raise (std_out_of_range "map::at"), n, [])
    end.
Proof. rewrite bind_assoc, run_gets. apply run_map_at. Qed.

(** The node [publishFrame] has prepared when it looks for the
    publishers: the image of the stream points to the frame's data (when
    the data is copied) and the sequence counter is advanced. *)
Lemma publishFrame_prepares (env : Env) (f : frame) (t : Time)
    (stream : stream_index_pair) (fam : publish_family) (copy : bool) (n : Node) :
  ∃ n1,
    seq_of fam n1 = <[stream := at_default 0 (seq_of fam n) stream + 1]> (seq_of fam n)
    ∧ seq_of (match fam with Regular => AlignedDepth | AlignedDepth => Regular end) n1
      = seq_of (match fam with Regular => AlignedDepth | AlignedDepth => Regular end) n
    ∧ pubs n1 = pubs n ∧ params n1 = params n
    ∧ encoding_of fam n1 = encoding_of fam n
    ∧ camera_info_of fam n1 = camera_info_of fam n
    ∧ _send_counter (pstate n1) = _send_counter (pstate n)
    ∧ (copy = true →
       mat_data (at_default Mat_empty (images fam n1) stream) = Some (frame_payload f))
    ∧ match info_publishers fam n !! stream, image_publishers fam n !! stream with
      | Some info_publisher, Some image_publisher =>
          if (getNumSubscribers env info_publisher =? 0)
             && (getNumSubscribers env image_publisher =? 0)
          then publishFrame env f t stream fam copy n = (Ok tt, n1, [])
          else
            match encoding_of fam n !! stream, _optical_frame_id (params n) !! stream,
                  camera_info_of fam n !! stream with
            | Some enc, Some frame_id, Some _ =>
                ∃ n2 img,
                  publishFrame env f t stream fam copy n
                  = (Ok tt, n2,
                     [publish_camera_info fam stream
                        {| ci_stamp := t; ci_seq := frame_number f |};
                      publish_image fam stream f img])
                  ∧ img_stamp img = t ∧ img_seq img = frame_number f
                  ∧ img_encoding img = enc ∧ img_frame_id img = frame_id
                  ∧ img_data img = mat_data (at_default Mat_empty (images fam n1) stream)
                  ∧ seq_of fam n2 = seq_of fam n1
                  ∧ seq_of (match fam with Regular => AlignedDepth
                                         | AlignedDepth => Regular end) n2
                    = seq_of (match fam with Regular => AlignedDepth
                                           | AlignedDepth => Regular end) n1
                  ∧ _send_counter (pstate n2) = true
            | _, _, _ =>
                publishFrame env f t stream fam copy n
                = (Raise (std_out_of_range "map::at"), n1, [])
            end
      | _, _ =>
          publishFrame env f t stream fam copy n
          = (Raise (std_out_of_range "map::at"), n1, [])
      end.
Proof.
  unfold publishFrame.
  lazymatch goal with
  | |- context [let '(_, _) := ?x in _] => destruct x as [[width height] bpp]
  end.
  eexists. 
  rewrite run_when_modify, run_modify.
  match goal with
  | |- seq_of fam ?e = _ ∧ _ =>
      match goal with
      | |- context [set_seq_of fam ?m ?x] => unify e (set_seq_of fam m x)
      end
  end.
  match goal with
  | |- context [set_seq_of fam ?m ?x] => set (n1 := set_seq_of fam m x)
  end.
  assert (Hpubs : pubs n1 = pubs n) by (unfold n1; destruct fam, copy; reflexivity).
  assert (Hparams : params n1 = params n) by (unfold n1; destruct fam, copy; reflexivity).
  assert (Henc : encoding_of fam n1 = encoding_of fam n)
    by (unfold n1; destruct fam, copy; reflexivity).
  assert (Hci : camera_info_of fam n1 = camera_info_of fam n)
    by (unfold n1; destruct fam, copy; reflexivity).
  assert (Hinfo : info_publishers fam n1 = info_publishers fam n)
    by (unfold n1; destruct fam, copy; reflexivity).
  assert (Himage : image_publishers fam n1 = image_publishers fam n)
    by (unfold n1; destruct fam, copy; reflexivity).
  split. { unfold n1. destruct fam, copy; reflexivity. }
  split. { unfold n1. destruct fam, copy; reflexivity. }
  split; [exact Hpubs|]. split; [exact Hparams|]. split; [exact Henc|].
  split; [exact Hci|].
  split. { unfold n1. destruct fam, copy; reflexivity. }
  split.
  { intros ->. unfold n1, at_default. destruct fam; cbn; rewrite lookup_insert_eq;
      reflexivity. }
  rewrite run_gets_map_at, Hinfo.
  destruct (info_publishers fam n !! stream) as [info_publisher|];
    [|destruct (image_publishers fam n !! stream); reflexivity].
  rewrite run_gets_map_at, Himage.
  destruct (image_publishers fam n !! stream) as [image_publisher|]; [|reflexivity].
  destruct (getNumSubscribers env info_publisher =? 0),
           (getNumSubscribers env image_publisher =? 0);
    cbn [negb orb andb when]; try reflexivity;
    rewrite run_gets_map_at, Henc;
    (destruct (encoding_of fam n !! stream) as [enc|]; [|reflexivity]);
    rewrite run_gets, run_gets_map_at, Hparams;
    (destruct (_optical_frame_id (params n) !! stream) as [frame_id|]; [|reflexivity]);
    rewrite run_gets_map_at, Hci;
    (destruct (camera_info_of fam n !! stream) as [ci|]; [|reflexivity]);
    rewrite run_modify;
    unfold mbind, M_bind, bind, emit, modify;
    cbn [fst snd app];
    (eexists _, _; split; [reflexivity|]);
    cbn [img_stamp img_seq img_encoding img_frame_id img_data];
    repeat (split; [reflexivity|]);
    destruct fam; repeat split; reflexivity.
Qed.

(** [publishFrame] advances the sequence counter of the stream, in the
    family it is called for, at every call: also when nobody subscribes and
    nothing is published, and also when a lookup with [at] then raises. The
    counters of the other streams and of the other family stay. (The
    counter is an [int]: stated below its largest value.) *)
Theorem publishFrame_counts_calls (env : Env) (f : frame) (t : Time)
    (stream : stream_index_pair) (fam : publish_family) (copy : bool) (n : Node) :
  at_default 0 (seq_of fam n) stream < 2 ^ 31 - 1 →
  let n' := node_of (publishFrame env f t stream fam copy n) in
  at_default 0 (seq_of fam n') stream = at_default 0 (seq_of fam n) stream + 1
  ∧ (∀ other, other ≠ stream → seq_of fam n' !! other = seq_of fam n !! other)
  ∧ seq_of (match fam with Regular => AlignedDepth | AlignedDepth => Regular end) n'
    = seq_of (match fam with Regular => AlignedDepth | AlignedDepth => Regular end) n.
Proof.
  intros _ n'. unfold n'.
  destruct (publishFrame_prepares env f t stream fam copy n)
    as (n1 & Hseq & Hother & _ & _ & _ & _ & _ & _ & Hrun).
  assert (Hn : seq_of fam (node_of (publishFrame env f t stream fam copy n))
               = seq_of fam n1
               ∧ seq_of (match fam with Regular => AlignedDepth
                                      | AlignedDepth => Regular end)
                   (node_of (publishFrame env f t stream fam copy n))
                 = seq_of (match fam with Regular => AlignedDepth
                                        | AlignedDepth => Regular end) n1).
  { destruct (info_publishers fam n !! stream), (image_publishers fam n !! stream);
      try (rewrite Hrun; split; reflexivity).
    destruct (_ && _); [rewrite Hrun; split; reflexivity|].
    destruct (encoding_of fam n !! stream), (_optical_frame_id (params n) !! stream),
             (camera_info_of fam n !! stream);
      try (rewrite Hrun; split; reflexivity).
    destruct Hrun as (n2 & img & -> & _ & _ & _ & _ & _ & H1 & H2 & _).
    split; assumption. }
  destruct Hn as [-> ->]. rewrite Hseq. unfold at_default.
  rewrite lookup_insert_eq. split; [reflexivity|]. split; [|exact Hother].
  intros other Hne. apply lookup_insert_ne. congruence.
Qed.

(** [publishFrame] publishes all or nothing. Without the stream's info or
    image publisher it raises [std::out_of_range]. With both and no
    subscriber on either it returns with nothing published and
    [_send_counter] as it was. With a subscriber it needs the stream's
    encoding, optical frame id and camera info: without one of them it
    raises [std::out_of_range], with them it publishes the camera info and
    then the image, both with the stamp [t] and the frame's number as
    sequence number, and sets [_send_counter]. Whenever it raises, nothing
    was published. *)
Theorem publishFrame_all_or_nothing (env : Env) (f : frame) (t : Time)
    (stream : stream_index_pair) (fam : publish_family) (copy : bool) (n : Node) :
  let run := publishFrame env f t stream fam copy n in
  match info_publishers fam n !! stream, image_publishers fam n !! stream with
  | Some info_publisher, Some image_publisher =>
      if (getNumSubscribers env info_publisher =? 0)
         && (getNumSubscribers env image_publisher =? 0)
      then result_of run = Ok tt ∧ out_of run = []
           ∧ _send_counter (pstate (node_of run)) = _send_counter (pstate n)
      else
        match encoding_of fam n !! stream, _optical_frame_id (params n) !! stream,
              camera_info_of fam n !! stream with
        | Some enc, Some frame_id, Some _ =>
            result_of run = Ok tt
            ∧ _send_counter (pstate (node_of run)) = true
            ∧ ∃ img,
                out_of run
                = [publish_camera_info fam stream
                     {| ci_stamp := t; ci_seq := frame_number f |};
                   publish_image fam stream f img]
                ∧ img_stamp img = t ∧ img_seq img = frame_number f
                ∧ img_encoding img = enc ∧ img_frame_id img = frame_id
        | _, _, _ =>
            result_of run = Raise (std_out_of_range "map::at") ∧ out_of run = []
        end
  | _, _ => result_of run = Raise (std_out_of_range "map::at") ∧ out_of run = []
  end.
Proof.
  intros run. unfold run.
  destruct (publishFrame_prepares env f t stream fam copy n)
    as (n1 & _ & _ & _ & _ & _ & _ & Hsend & _ & Hrun).
  destruct (info_publishers fam n !! stream), (image_publishers fam n !! stream);
    try (rewrite Hrun; split; reflexivity).
  destruct (_ && _); [rewrite Hrun; repeat split; exact Hsend|].
  destruct (encoding_of fam n !! stream), (_optical_frame_id (params n) !! stream),
           (camera_info_of fam n !! stream);
    try (rewrite Hrun; split; reflexivity).
  destruct Hrun as (n2 & img & -> & H1 & H2 & H3 & H4 & _ & _ & _ & H5).
  split; [reflexivity|]. split; [exact H5|]. exists img. repeat split; assumption.
Qed.


(** ** The image counter *)

Lemma counters_of_app (o1 o2 : list effect) :
  counters_of (o1 ++ o2) = counters_of o1 ++ counters_of o2.
Proof. unfold counters_of. apply omap_app. Qed.

Lemma counters_of_none (out : list effect) :
  Forall (λ e, ∀ t c, e ≠ publish_counter t c) out → counters_of out = [].
Proof.
  induction 1 as [|e out He _ IH]; [reflexivity|].
  cbn. fold (counters_of out). rewrite IH.
  destruct e; try reflexivity. destruct (He stamp counter). reflexivity.
Qed.

Lemma counter_quiet_counts_once {A} (c : M A) : counter_quiet c → counts_once c.
Proof.
  intros [Hm He] n. left. split; [|apply Hm]. apply counters_of_none, He.
Qed.

Lemma counts_once_bind {A B} (c : M A) (k : A → M B) :
  counter_quiet c → (∀ a, counts_once (k a)) → counts_once (c ≫= k).
Proof.
  intros [Hm He] Hk n. specialize (Hm n). specialize (He n).
  apply counters_of_none in He.
  unfold mbind, M_bind, bind, node_of, out_of in *.
  destruct (c n) as [[[a| | |] n1] o1]; cbn [fst snd] in *;
    try (left; split; assumption).
  specialize (Hk a n1). unfold node_of, out_of in Hk.
  destruct (k a n1) as [[r n2] o2]. cbn [fst snd] in *.
  rewrite counters_of_app, He, Hm in *. exact Hk.
Qed.

Lemma counts_once_try_catch_emit {A} (body : M A) (h : exn → M A) :
  counts_once body → (∀ e, counter_quiet (h e)) → counts_once (try_catch body h).
Proof.
  intros Hb Hh n. specialize (Hb n). unfold try_catch, node_of, out_of in *.
  destruct (body n) as [[[a|e| |] n1] o1]; cbn [fst snd] in *; try exact Hb.
  destruct (Hh e) as [Hm He]. specialize (Hm n1). specialize (He n1).
  apply counters_of_none in He. unfold node_of, out_of in *.
  destruct (h e n1) as [[r n2] o2]. cbn [fst snd] in *.
  rewrite counters_of_app, He, app_nil_r, Hm. exact Hb.
Qed.

Ltac quiet_leaf :=
  first [ reflexivity
        | intros; discriminate
        | cbn; reflexivity ].

Ltac quiet_rules :=
  split;
  [ pose proof (λ n : Node, eq_refl (_image_counter (pstate n))) as Hrefl;
    assert (Htrans : ∀ a b c : Node,
               _image_counter (pstate b) = _image_counter (pstate a) →
               _image_counter (pstate c) = _image_counter (pstate b) →
               _image_counter (pstate c) = _image_counter (pstate a))
      by (intros; congruence);
    repeat rule_step
  | repeat rule_step ].

Lemma publishFrame_counter_quiet (env : Env) (f : frame) (t : Time)
    (stream : stream_index_pair) (fam : publish_family) (copy : bool) :
  counter_quiet (publishFrame env f t stream fam copy).
Proof.
  unfold publishFrame. destruct (frame_payload f), fam; quiet_rules; quiet_leaf.
Qed.

Lemma publishPointCloud_counter_quiet (pc : list (vertex * texture_coordinate))
    (t : Time) (frames : list frame) :
  counter_quiet (publishPointCloud pc t frames).
Proof. unfold publishPointCloud, publish_points_with. quiet_rules; quiet_leaf. Qed.

Lemma publish_one_counter_quiet (env : Env) (t : Time) (frames : list frame)
    (f : frame) :
  counter_quiet (publish_one env t frames f).
Proof.
  unfold publish_one. destruct (frame_payload f);
    try apply publishFrame_counter_quiet.
  destruct (publishPointCloud_counter_quiet pts t frames) as [Hm He].
  quiet_rules; first [exact Hm | exact He | quiet_leaf].
Qed.

Lemma publishAlignedDepthToOthers_counter_quiet (env : Env) (frames : list frame)
    (t : Time) :
  counter_quiet (publishAlignedDepthToOthers env frames t).
Proof.
  unfold publishAlignedDepthToOthers.
  quiet_rules;
    first [ apply publishFrame_counter_quiet | quiet_leaf ].
Qed.

Lemma publish_image_counter_counts_once (t : Time) :
  counts_once (publish_image_counter t).
Proof.
  intros n. unfold publish_image_counter, mbind, M_bind, bind, gets, when, emit,
    modify, ret, node_of, out_of.
  destruct (_counter_enabled (pstate n) && _send_counter (pstate n)); cbn.
  - right. split; reflexivity.
  - left. split; reflexivity.
Qed.

Lemma process_frame_counts_once (env : Env) (fr : rs2_frame) (t : Time) :
  counts_once (process_frame env fr t).
Proof.
  unfold process_frame.
  apply counts_once_bind; [quiet_rules; quiet_leaf|]. intros is_frame_arrived.
  apply counts_once_bind; [|intros _; apply publish_image_counter_counts_once].
  destruct fr as [f|ts dom num frames].
  - unfold updateIsFrameArrived.
    quiet_rules; first [apply publishFrame_counter_quiet | quiet_leaf].
  - unfold updateIsFrameArrived.
    quiet_rules;
      first [ apply publish_one_counter_quiet
            | apply publishAlignedDepthToOthers_counter_quiet
            | quiet_leaf ].
Qed.

Lemma frame_callback_counts_once (env : Env) (fr : rs2_frame) :
  counts_once (frame_callback env fr).
Proof.
  unfold frame_callback, frame_callback_body.
  apply counts_once_try_catch_emit.
  - apply counts_once_bind.
    { unfold initialize_time_base. quiet_rules; quiet_leaf. }
    intros _. apply counts_once_bind; [quiet_rules; quiet_leaf|].
    intros t. apply process_frame_counts_once.
  - intros e. quiet_rules; quiet_leaf.
Qed.

Lemma imu_callback_counter_quiet (env : Env) (f : frame) :
  counter_quiet (imu_callback env f).
Proof. unfold imu_callback. quiet_rules; quiet_leaf. Qed.

Lemma deliver_counts_once (d : delivery) : counts_once (deliver d).
Proof.
  destruct d; [apply frame_callback_counts_once|].
  apply counter_quiet_counts_once, imu_callback_counter_quiet.
Qed.

(** The counter messages of a session carry consecutive numbers: the
    first carries the value [_image_counter] had when the session began,
    each later one the number after its predecessor's, whatever is
    delivered in between and whatever fails, and [_image_counter] ends as
    the number after the last one sent. (Stated within the range of the
    counter's type.) *)
Theorem image_counter_consecutive (n : Node) (ds : list delivery) :
  let sent := counters_of (session_out n ds) in
  _image_counter (pstate n) + Z.of_nat (length sent) ≤ 2 ^ 31 - 1 →
  sent = seqZ (_image_counter (pstate n)) (Z.of_nat (length sent))
  ∧ _image_counter (pstate (session n ds))
    = _image_counter (pstate n) + Z.of_nat (length sent).
Proof.
  intros sent _. unfold sent. clear sent.
  revert n. induction ds as [|d ds IH]; intros n.
  - cbn. split; [reflexivity|lia].
  - cbn [session_out session fold_left].
    fold (session (session_step n d) ds).
    rewrite counters_of_app, length_app.
    destruct (IH (session_step n d)) as [Hsent Hcount].
    unfold session_step in *. fold (node_of (deliver d n)) in *.
    destruct (deliver_counts_once d n) as [[Hout Hc]|[Hout Hc]];
      rewrite Hout, Hc in *; cbn [app length].
    + split; [exact Hsent | exact Hcount].
    + split.
      * rewrite Nat2Z.inj_succ, seqZ_cons by lia.
        f_equal. rewrite Z.pred_succ. rewrite <- Z.add_1_r. exact Hsent.
      * rewrite Hcount. lia.
Qed.


(** ** The IMU callback *)

(** Once the time base is set (wall-clock origin [W0], hardware origin
    [T0]) the IMU callback returns normally whatever it is handed. A frame
    of the gyro stream goes to GYRO and a frame of any other stream to
    ACCEL. Without a subscriber on the stream's info or IMU publisher
    nothing is published and the sequence counter stays; with one, one
    message is published: stamped [ros::Time(W0.toSec() + (T1 - T0) / 1000)]
    from the frame's timestamp [T1], also when [_sync_frames] is on, with
    the stream's optical frame id, the advanced sequence counter, and the
    frame's axes as angular velocity (GYRO) or linear acceleration
    (ACCEL). *)
Theorem imu_callback_publishes (env : Env) (f : frame) (n : Node)
    (W0 : Time) (T0 : double) :
  time_base n = {| _intialize_time_base := true;
                   _ros_time_base := W0; _camera_time_base := T0 |} →
  let gyro := bool_decide (frame_stream_type f = RS2_STREAM_GYRO) in
  let stream_index := if gyro then GYRO else ACCEL in
  let info_publisher := at_default None (_info_publisher (pubs n)) stream_index in
  let imu_publisher := at_default None (_imu_publishers (pubs n)) stream_index in
  at_default 0 (_seq (pstate n)) stream_index < 2 ^ 31 - 1 →
  result_of (imu_callback env f n) = Ok tt
  ∧ if (getNumSubscribers env info_publisher =? 0)
       && (getNumSubscribers env imu_publisher =? 0)
    then out_of (imu_callback env f n) = []
         ∧ _seq (pstate (node_of (imu_callback env f n))) = _seq (pstate n)
    else out_of (imu_callback env f n)
         = [publish_imu stream_index
              {| imu_frame_id := at_default "" (_optical_frame_id (params n)) stream_index;
                 imu_stamp :=
                   Time_fromSec
                     (F64.add (Time_toSec W0)
                        (F64.div (F64.sub (frame_timestamp f) T0) (F64.of_int 1000)));
                 imu_seq := at_default 0 (_seq (pstate n)) stream_index + 1;
                 imu_angular_velocity := if gyro then Some (frame_axes f) else None;
                 imu_linear_acceleration := if gyro then None else Some (frame_axes f) |}]
         ∧ _seq (pstate (node_of (imu_callback env f n)))
           = <[stream_index := at_default 0 (_seq (pstate n)) stream_index + 1]>
               (_seq (pstate n)).
Proof.
  intros Htb gyro stream_index info_publisher imu_publisher _.
  unfold imu_callback. rewrite run_gets, Htb. cbn [_intialize_time_base negb].
  change (fst GYRO) with RS2_STREAM_GYRO. fold gyro. fold stream_index.
  rewrite run_gets, run_modify, run_gets.
  cbn [pubs with_pubs set_info_publisher _imu_publishers].
  fold info_publisher. fold imu_publisher.
  destruct (getNumSubscribers env info_publisher =? 0),
           (getNumSubscribers env imu_publisher =? 0);
    cbn [negb orb andb when];
    try (unfold ret, result_of, out_of, node_of; cbn [fst snd pstate with_pubs];
         repeat split; reflexivity);
    rewrite run_gets; cbn [time_base with_pubs]; rewrite Htb;
    cbn [_ros_time_base _camera_time_base];
    rewrite run_gets, run_modify, run_modify, run_gets;
    unfold emit, result_of, out_of, node_of;
    cbn [fst snd pstate with_pstate with_params with_pubs params set_seq _seq];
    idtac.
  all: (split; [reflexivity|]); (split; [|reflexivity]).
  all: unfold at_default at 2; rewrite lookup_insert_eq; cbn [default].
  all: unfold stream_index, gyro; destruct (bool_decide _); reflexivity.
Qed.


(** ** Aligned depth *)

Lemma emits_ret_bind (P : effect → Prop) {A B} (a : A) (k : A → M B) :
  emits P (k a) → emits P (ret a ≫= k).
Proof.
  intros Hk n. specialize (Hk n). unfold mbind, M_bind, bind, ret, out_of in *.
  destruct (k a n) as [[r n2] o2]. exact Hk.
Qed.

Lemma emits_throw_bind (P : effect → Prop) {A B} (e : exn) (k : A → M B) :
  emits P (throw e ≫= k).
Proof. intros n. constructor. Qed.

Lemma for_each_skip {A} (l : list A) (body : A → M unit) (n : Node) :
  Forall (λ x, body x = ret tt) l → for_each l body n = (Ok tt, n, []).
Proof.
  induction 1 as [|x l Hx _ IH]; [reflexivity|].
  cbn [for_each]. rewrite Hx, ret_bind. exact IH.
Qed.

Lemma publishFrame_emits (P : effect → Prop) (env : Env) (f : frame) (t : Time)
    (stream : stream_index_pair) (fam : publish_family) (copy : bool) :
  P (publish_camera_info fam stream {| ci_stamp := t; ci_seq := frame_number f |}) →
  (∀ img, img_stamp img = t → P (publish_image fam stream f img)) →
  emits P (publishFrame env f t stream fam copy).
Proof.
  intros Hci Himg n.
  destruct (publishFrame_out env f t stream fam copy n)
    as [->|(img & -> & _ & Hstamp)]; repeat constructor; auto.
Qed.

(** [publishAlignedDepthToOthers] publishes in the aligned-depth family
    only, and only under the key of a frame of the frameset that is not a
    depth frame: the camera info and the image of the depth frame that
    alignment to that frame's stream type returned, stamped [t]. It emits
    nothing else, and for a frameset of depth frames alone it does
    nothing. *)
Theorem publishAlignedDepthToOthers_targets (env : Env) (frames : list frame)
    (t : Time) (n : Node) :
  Forall
    (λ e, ∃ fr aligned,
       fr ∈ frames ∧ frame_stream_type fr ≠ RS2_STREAM_DEPTH
       ∧ align_to env (frame_stream_type fr) frames = inr aligned
       ∧ (e = publish_camera_info AlignedDepth (frame_key fr)
                {| ci_stamp := t; ci_seq := frame_number aligned |}
          ∨ ∃ img, e = publish_image AlignedDepth (frame_key fr) aligned img
                   ∧ img_stamp img = t))
    (out_of (publishAlignedDepthToOthers env frames t n))
  ∧ (Forall (λ fr, frame_stream_type fr = RS2_STREAM_DEPTH) frames →
     publishAlignedDepthToOthers env frames t n = (Ok tt, n, [])).
Proof.
  split.
  - revert n. change (emits
      (λ e, ∃ fr aligned,
         fr ∈ frames ∧ frame_stream_type fr ≠ RS2_STREAM_DEPTH
         ∧ align_to env (frame_stream_type fr) frames = inr aligned
         ∧ (e = publish_camera_info AlignedDepth (frame_key fr)
                  {| ci_stamp := t; ci_seq := frame_number aligned |}
            ∨ ∃ img, e = publish_image AlignedDepth (frame_key fr) aligned img
                     ∧ img_stamp img = t))
      (publishAlignedDepthToOthers env frames t)).
    unfold publishAlignedDepthToOthers. apply emits_for_each. intros fr Hin.
    destruct (bool_decide (frame_stream_type fr = RS2_STREAM_DEPTH)) eqn:Hd;
      [apply emits_ret|].
    apply bool_decide_eq_false in Hd.
    apply emits_bind; [repeat rule_step|]. intros info_publisher.
    apply emits_bind; [repeat rule_step|]. intros image_publisher.
    apply emits_when.
    destruct (align_to env (frame_stream_type fr) frames) as [ex|aligned] eqn:Ha;
      cbn [lift]; [apply emits_throw_bind|].
    apply emits_ret_bind, publishFrame_emits.
    + exists fr, aligned. repeat (split; [assumption|]). left. reflexivity.
    + intros img Hstamp. exists fr, aligned. repeat (split; [assumption|]).
      right. exists img. split; [reflexivity|exact Hstamp].
  - intros Hall. unfold publishAlignedDepthToOthers. apply for_each_skip.
    eapply Forall_impl; [exact Hall|]. intros fr Hfr. cbn beta.
    rewrite (bool_decide_eq_true_2 _ Hfr). reflexivity.
Qed.


(** ** Frame arrivals *)

(** The callbacks never record a frame arrival in the member
    [_is_frame_arrived]: [updateIsFrameArrived] is handed a copy made at
    each invocation. The member stays as it was when the session began,
    and after the constructor no stream is ever marked as arrived. *)
Theorem is_frame_arrived_never_set (n : Node) (ds : list delivery) :
  _is_frame_arrived (session n ds) = _is_frame_arrived n
  ∧ ∀ raw k,
      _is_frame_arrived (session (BaseRealSenseNode_new raw) ds) !! k ≠ Some true.
Proof.
  split; [apply (stable_is_frame_arrived _ _ (session_stable_session ds n))|].
  intros raw k.
  rewrite (stable_is_frame_arrived _ _
             (session_stable_session ds (BaseRealSenseNode_new raw))).
  cbn [BaseRealSenseNode_new _is_frame_arrived]. intros Hk.
  repeat (apply lookup_insert_Some in Hk as [[_ Hk]|[_ Hk]]; [discriminate|]).
  rewrite lookup_empty in Hk. discriminate.
Qed.


(** ** More about enable_devices *)

(** The loops over the streams end normally and change only the streams
    of the list that were enabled. *)
Lemma enable_streams_others (hw : stream_index_pair → list stream_profile)
    (l : list stream_index_pair) :
  ∀ n, ∃ n' out,
    for_each l (enable_stream hw) n = (Ok tt, n', out)
    ∧ params n' = params n ∧ pstate n' = pstate n
    ∧ _filters n' = _filters n ∧ time_base n' = time_base n ∧ pubs n' = pubs n
    ∧ (∀ e, at_default false (_enable (desc n)) e = false ∨ e ∉ l →
            stream_view n' e = stream_view n e).
Proof.
  induction l as [|x l IH]; intros n.
  - exists n, []. repeat split.
  - destruct (enable_stream_run hw x n)
      as (n1 & o1 & Hrun1 & Hp1 & Hs1 & Hv1 & _ & Hdis1 & _).
    assert (Hrest : _filters n1 = _filters n ∧ time_base n1 = time_base n
                    ∧ pubs n1 = pubs n).
    { revert Hrun1. unfold enable_stream, accept_profile.
      unfold mbind, M_bind, bind, gets, when, modify, get, emit, ret.
      destruct (at_default false (_enable (desc n)) x);
        [|intros [= <- _]; repeat split].
      destruct (List.find _ _); cbn [fst snd];
        repeat match goal with
               | |- context [match ?m !! x with _ => _ end] => destruct (m !! x)
               end;
        intros [= <- _]; repeat split. }
    destruct Hrest as (Hf1 & Ht1 & Hu1).
    destruct (IH n1) as (n' & o2 & Hrun2 & Hp2 & Hs2 & Hf2 & Ht2 & Hu2 & Hv2).
    exists n', (o1 ++ o2). split.
    { cbn [for_each]. eapply bind_Ok; eassumption. }
    repeat (split; [congruence|]).
    intros e He.
    assert (Hview1 : stream_view n1 e = stream_view n e).
    { destruct (decide (e = x)) as [->|Hne].
      - destruct He as [He|He]; [|destruct He; left].
        destruct (Hdis1 He) as [-> _]. reflexivity.
      - apply Hv1. exact Hne. }
    rewrite <- Hview1. apply Hv2.
    destruct He as [He|He].
    + left. unfold stream_view, at_default in *.
      injection Hview1 as _ _ _ _ Hen _. rewrite Hen. exact He.
    + right. intros Hin. apply He. right. exact Hin.
Qed.

(** The same for one stream. *)
Lemma enable_stream_others (hw : stream_index_pair → list stream_profile)
    (x : stream_index_pair) (n : Node) :
  ∃ n' out,
    enable_stream hw x n = (Ok tt, n', out)
    ∧ params n' = params n ∧ pstate n' = pstate n
    ∧ _filters n' = _filters n ∧ time_base n' = time_base n ∧ pubs n' = pubs n
    ∧ (∀ e, at_default false (_enable (desc n)) e = false ∨ e ≠ x →
            stream_view n' e = stream_view n e)
    ∧ Forall (λ e, effect_stream e = Some x) out.
Proof.
  destruct (enable_stream_run hw x n) as (n1 & o1 & Hrun & _ & _ & _ & Hout & _).
  destruct (enable_streams_others hw [x] n)
    as (n' & out & Hloop & Hp & Hs & Hf & Ht & Hu & Hv).
  assert (Hone : for_each [x] (enable_stream hw) n = (Ok tt, n1, o1 ++ [])).
  { cbn [for_each]. eapply bind_Ok; [exact Hrun|reflexivity]. }
  rewrite Hone in Hloop. injection Hloop as <- _.
  exists n1, o1. split; [exact Hrun|]. repeat (split; [assumption|]).
  split; [|exact Hout].
  intros e [He | He]; apply Hv; [left; exact He|].
  right. intros Hin. apply list_elem_of_singleton in Hin. contradiction.
Qed.

(** [enable_devices] is the loop over the streams, followed, when
    [_align_depth] is set, by the creation of the aligned-depth images. *)
Lemma enable_devices_run (hw : stream_index_pair → list stream_profile) (n : Node) :
  ∃ n1 out,
    for_each (concat IMAGE_STREAMS) (enable_stream hw) n = (Ok tt, n1, out)
    ∧ enable_devices IMAGE_STREAMS hw n
      = (Ok tt,
         (if _align_depth (params n)
          then with_pstate
                 (set_depth_aligned_image
                    (((λ _, Mat_new (at_default 0 (_height (desc n1)) DEPTH)
                                    (at_default 0 (_width (desc n1)) DEPTH)
                                    (at_default CV_8UC1 (_image_format (desc n1)) DEPTH))
                        <$> _enabled_profiles n1)
                       ∪ _depth_aligned_image (pstate n1))
                    (pstate n1)) n1
          else n1),
         out).
Proof.
  destruct (enable_streams_others hw (concat IMAGE_STREAMS) n)
    as (n1 & out & Hrun & Hp & _).
  exists n1, out. split; [exact Hrun|].
  unfold enable_devices. rewrite <- (app_nil_r out).
  eapply bind_Ok; [rewrite for_each_concat; exact Hrun|].
  rewrite run_gets, Hp. destruct (_align_depth (params n)); reflexivity.
Qed.

(** With [_align_depth] set, [enable_devices] leaves an aligned-depth
    image for every stream that has a profile, DEPTH included, each of the
    height, width and element type DEPTH has after negotiation; the images
    of the other keys stay. Without [_align_depth] no aligned-depth image
    is created. *)
Theorem enable_devices_aligned_images (hw : stream_index_pair → list stream_profile)
    (n : Node) :
  let n' := node_of (enable_devices IMAGE_STREAMS hw n) in
  if _align_depth (params n)
  then ∀ k,
         _depth_aligned_image (pstate n') !! k
         = if bool_decide (is_Some (_enabled_profiles n' !! k))
           then Some (Mat_new (at_default 0 (_height (desc n')) DEPTH)
                              (at_default 0 (_width (desc n')) DEPTH)
                              (at_default CV_8UC1 (_image_format (desc n')) DEPTH))
           else _depth_aligned_image (pstate n) !! k
  else _depth_aligned_image (pstate n') = _depth_aligned_image (pstate n).
Proof.
  intros n'. unfold n'.
  destruct (enable_devices_run hw n) as (n1 & out & Hloop & ->).
  destruct (enable_streams_others hw (concat IMAGE_STREAMS) n)
    as (n1' & out' & Hloop' & _ & Hs & _).
  rewrite Hloop in Hloop'. injection Hloop' as <- <-.
  unfold node_of. cbn [fst snd].
  destruct (_align_depth (params n)); [|rewrite Hs; reflexivity].
  intros k. cbn [pstate with_pstate set_depth_aligned_image _depth_aligned_image
                 desc _enabled_profiles].
  rewrite lookup_union, lookup_fmap, Hs.
  destruct (_enabled_profiles n1 !! k) as [l|] eqn:Hk;
    cbn [fmap option_fmap option_map union option_union union_with option_union_with].
  - rewrite bool_decide_eq_true_2 by eauto.
    destruct (_depth_aligned_image (pstate n) !! k); reflexivity.
  - rewrite bool_decide_eq_false_2 by (intros [? ?]; discriminate).
    destruct (_depth_aligned_image (pstate n) !! k); reflexivity.
Qed.


(** ** A frameset that a processing block rejects *)

Lemma updateIsFrameArrived_loop (frames : list frame) :
  ∀ (m : gmap stream_index_pair bool) (n : Node),
    ∃ m' out,
      for_fold frames m
        (λ arrived f,
           updateIsFrameArrived arrived (frame_stream_type f) (frame_stream_index f)) n
      = (Ok m', n, out)
      ∧ Forall (λ e, ∃ msg, e = ROS_ERROR msg) out.
Proof.
  induction frames as [|f frames IH]; intros m n.
  - exists m, []. split; [reflexivity|constructor].
  - assert (H1 : ∃ m1 o1,
               updateIsFrameArrived m (frame_stream_type f) (frame_stream_index f) n
               = (Ok m1, n, o1) ∧ Forall (λ e, ∃ msg, e = ROS_ERROR msg) o1).
    { unfold updateIsFrameArrived. destruct (m !! _).
      - eexists _, []. split; [reflexivity|constructor].
      - eexists _, _. split; [reflexivity|]. repeat constructor. eauto. }
    destruct H1 as (m1 & o1 & Hrun1 & Ho1).
    destruct (IH m1 n) as (m' & o2 & Hrun2 & Ho2).
    exists m', (o1 ++ o2). split.
    + cbn [for_fold]. eapply bind_Ok; eassumption.
    + apply Forall_app. split; assumption.
Qed.

(** When a processing block raises on a frameset, the frame callback
    returns normally and the frameset leaves no trace but in the log:
    nothing is published, the node is as it was but for the time base,
    which is set if it was not, and the last line logged is the ERROR line
    with the exception's message. The blocks after the one that raised are
    not run. *)
Theorem frame_callback_filter_failure (env : Env) (n : Node) (ts : double)
    (dom : rs2_timestamp_domain) (num : Z) (raw : list frame) (ex : exn) :
  apply_filters env (_filters n) raw = inl ex →
  let fr := frameset ts dom num raw in
  result_of (frame_callback env fr n) = Ok tt
  ∧ node_of (frame_callback env fr n)
    = (if _intialize_time_base (time_base n) then n else with_time_base_from env fr n)
  ∧ Forall (λ e, ∃ msg, e = ROS_WARN msg ∨ e = ROS_ERROR msg)
      (out_of (frame_callback env fr n))
  ∧ last (out_of (frame_callback env fr n))
    = Some (ROS_ERROR ("An error has occurred during frame callback: " +:+ what ex)).
Proof.
  intros Hfilters fr.
  set (n0 := if _intialize_time_base (time_base n) then n
             else with_time_base_from env fr n).
  destruct (initialize_time_base_run env fr n) as (warn & Hinit & _ & Hwarn).
  fold (with_time_base_from env fr n) in Hinit. fold n0 in Hinit.
  assert (Hf0 : _filters n0 = _filters n)
    by (unfold n0; destruct (_intialize_time_base (time_base n)); reflexivity).
  destruct (updateIsFrameArrived_loop raw (_is_frame_arrived n0) n0)
    as (m' & errs & Hloop & Herrs).
  assert (Hbody : ∃ out, frame_callback_body env fr n = (Raise ex, n0, out)
                         ∧ out = warn ++ errs).
  { eexists. split.
    - unfold frame_callback_body. eapply bind_Ok; [exact Hinit|].
      eapply bind_Ok; [reflexivity|]. unfold process_frame.
      eapply bind_Ok; [reflexivity|]. apply bind_Raise. cbn [fr].
      eapply bind_Ok; [exact Hloop|].
      eapply bind_Ok; [reflexivity|]. apply bind_Raise.
      rewrite Hf0, Hfilters. reflexivity.
    - cbn [app]. rewrite ?app_nil_r. reflexivity. }
  destruct Hbody as (out & Hbody & ->).
  unfold frame_callback, try_catch, result_of, node_of, out_of. rewrite Hbody.
  cbn [emit fst snd app].
  split; [reflexivity|]. split; [reflexivity|]. split.
  - rewrite !Forall_app. repeat split.
    + eapply Forall_impl; [exact Hwarn|]. intros e [msg ->]. eauto.
    + eapply Forall_impl; [exact Herrs|]. intros e [msg ->]. eauto.
    + repeat constructor. eauto.
  - apply last_snoc.
Qed.


Lemma rs2_string_to_stream_unknown (str : string) (n : Node) :
  known_stream_string str = false →
  rs2_string_to_stream str n
  = (Raise (std_runtime_error ("Unknown stream string " +:+ str)), n, []).
Proof.
  unfold known_stream_string, rs2_string_to_stream. intros Hk.
  apply orb_false_iff in Hk as [Hk H4]. apply orb_false_iff in Hk as [Hk H3].
  apply orb_false_iff in Hk as [H1 H2]. rewrite H1, H2, H3, H4. reflexivity.
Qed.

Lemma rs2_string_to_stream_range (str : string) (n n' : Node) (st : rs2_stream)
    (out : list effect) :
  rs2_string_to_stream str n = (Ok st, n', out) →
  st ∈ [RS2_STREAM_ANY; RS2_STREAM_COLOR; RS2_STREAM_INFRARED; RS2_STREAM_FISHEYE].
Proof.
  unfold rs2_string_to_stream.
  repeat (destruct (String.eqb str _);
          [intros [= <- _ _]; repeat first [left | right] |]).
  discriminate.
Qed.

(** [getParameters] and the texture stream name. The four names
    [rs2_string_to_stream] knows are the only ones accepted, so the texture
    of the point cloud is never the depth stream or a motion stream. Any
    other name, "RS2_STREAM_DEPTH" included, raises [std::runtime_error]
    out of [getParameters], after [_align_depth] and [_pointcloud] were
    loaded and before anything else was: the filters string, the
    synchronisation flag, the optical frame ids and the stream descriptors
    are as they were. *)
Theorem getParameters_texture_stream (ps : ParamServer) (n : Node) :
  let name := param (param_string ps) "pointcloud_texture_stream" "RS2_STREAM_COLOR" in
  (known_stream_string name = true →
     result_of (getParameters K ps n) = Ok tt
     ∧ fst (_pointcloud_texture (params (node_of (getParameters K ps n))))
       ∈ [RS2_STREAM_ANY; RS2_STREAM_COLOR; RS2_STREAM_INFRARED; RS2_STREAM_FISHEYE]
     ∧ snd (_pointcloud_texture (params (node_of (getParameters K ps n))))
       = param (param_int ps) "pointcloud_texture_index" 0)
  ∧ (known_stream_string name = false →
     result_of (getParameters K ps n)
     = Raise (std_runtime_error ("Unknown stream string " +:+ name))
     ∧ out_of (getParameters K ps n) = [ROS_INFO "getParameters..."]
     ∧ node_of (getParameters K ps n)
       = with_params
           (set_align_depth_pointcloud
              (param (param_bool ps) "align_depth" (ALIGN_DEPTH K))
              (param (param_bool ps) "enable_pointcloud" (POINTCLOUD K)) (params n)) n)
  ∧ known_stream_string "RS2_STREAM_DEPTH" = false.
Proof.
  intros name. split; [|split; [|reflexivity]].
  - intros Hk.
    destruct (rs2_string_to_stream_known name
                (with_params (set_align_depth_pointcloud
                                (param (param_bool ps) "align_depth" (ALIGN_DEPTH K))
                                (param (param_bool ps) "enable_pointcloud" (POINTCLOUD K))
                                (params n)) n) Hk) as [st Hst].
    pose proof (rs2_string_to_stream_range _ _ _ _ _ Hst) as Hrange.
    unfold getParameters, mbind, M_bind, bind, emit, modify, result_of, node_of.
    fold name. rewrite Hst. cbn [fst snd params with_params _pointcloud_texture].
    repeat split; [exact Hrange].
  - intros Hk.
    unfold getParameters, mbind, M_bind, bind, emit, modify, result_of, node_of, out_of.
    fold name. rewrite (rs2_string_to_stream_unknown name _ Hk). repeat split.
Qed.

(** ** The frames a frameset gets published *)

Lemma publishable_stable (env : Env) (n n' : Node) (k : stream_index_pair) :
  session_stable n n' → publishable env n k → publishable env n' k.
Proof.
  intros Hst (info_pub & image_pub & Hinfo & Himage & Hsubs & Henc & Hfid & Hci).
  exists info_pub, image_pub.
  split; [exact (lookup_weaken _ _ _ _ Hinfo (stable_info_publisher _ _ Hst))|].
  split; [rewrite (stable_image_publishers _ _ Hst); exact Himage|].
  split; [exact Hsubs|].
  split; [rewrite (stable_encoding _ _ Hst); exact Henc|].
  split.
  - destruct Hfid as [x Hx]. exists x.
    exact (lookup_weaken _ _ _ _ Hx (stable_optical_frame_id _ _ Hst)).
  - apply elem_of_dom. apply (stable_camera_info _ _ Hst). apply elem_of_dom. exact Hci.
Qed.

(** A frame kept by the loop is published when its stream can be; a points
    frame is left aside while the point cloud has no subscriber. *)
Lemma publish_one_publishes (env : Env) (t : Time) (filtered : list frame) (f : frame)
    (n : Node) :
  getNumSubscribers env (_pointcloud_publisher (pubs n)) = 0 →
  (is_points f = false → publishable env n (frame_key f)) →
  ∃ n' out,
    publish_one env t filtered f n = (Ok tt, n', out)
    ∧ session_stable n n'
    ∧ regular_frames out = (if is_points f then [] else [f]).
Proof.
  intros Hpc Hready.
  assert (Hrun : ∃ n' out,
            publish_one env t filtered f n = (Ok tt, n', out)
            ∧ regular_frames out = (if is_points f then [] else [f])).
  { unfold publish_one, is_points in *.
    destruct (frame_payload f) as [w h b d|pc|axes] eqn:Hpay.
    - destruct (Hready eq_refl)
        as (ip & mp & Hinfo & Himage & Hsubs & [enc Henc] & [fid Hfid] & [ci Hci]).
      destruct (publishFrame_publishes env f t (frame_key f) n ip mp enc fid ci
                  Hinfo Himage Hsubs Henc Hfid Hci) as (n' & img & Hrun & _).
      exists n'. eexists. split; [exact Hrun|reflexivity].
    - unfold mbind, M_bind, bind, gets, when, ret. cbn [fst snd].
      rewrite Hpc. exists n, []. split; reflexivity.
    - destruct (Hready eq_refl)
        as (ip & mp & Hinfo & Himage & Hsubs & [enc Henc] & [fid Hfid] & [ci Hci]).
      destruct (publishFrame_publishes env f t (frame_key f) n ip mp enc fid ci
                  Hinfo Himage Hsubs Henc Hfid Hci) as (n' & img & Hrun & _).
      exists n'. eexists. split; [exact Hrun|reflexivity]. }
  destruct Hrun as (n' & out & Hrun & Hreg).
  exists n', out. split; [exact Hrun|]. split; [|exact Hreg].
  pose proof (publish_one_stable env t filtered f n) as Hst.
  rewrite Hrun in Hst. exact Hst.
Qed.

Lemma publish_kept_run (env : Env) (t : Time) (filtered kept : list frame) :
  ∀ n,
    getNumSubscribers env (_pointcloud_publisher (pubs n)) = 0 →
    Forall (λ f, is_points f = false → publishable env n (frame_key f)) kept →
    ∃ n' out,
      for_each kept (publish_one env t filtered) n = (Ok tt, n', out)
      ∧ session_stable n n'
      ∧ regular_frames out = List.filter not_points kept.
Proof.
  induction kept as [|f kept IH]; intros n Hpc Hready.
  - exists n, []. split; [reflexivity|]. split; [apply session_stable_refl|reflexivity].
  - apply Forall_cons in Hready as [Hf Hrest].
    destruct (publish_one_publishes env t filtered f n Hpc Hf)
      as (n1 & o1 & Hrun1 & Hst1 & Hreg1).
    destruct (IH n1) as (n2 & o2 & Hrun2 & Hst2 & Hreg2).
    + rewrite (stable_pointcloud_publisher _ _ Hst1). exact Hpc.
    + eapply Forall_impl; [exact Hrest|]. intros g Hg Hnp.
      eapply publishable_stable; [exact Hst1|auto].
    + exists n2, (o1 ++ o2). split; [cbn [for_each]; eapply bind_Ok; eassumption|].
      split; [eapply session_stable_trans; eassumption|].
      rewrite regular_frames_app, Hreg1, Hreg2. cbn [List.filter]. unfold not_points.
      destruct (is_points f); reflexivity.
Qed.

(** Without [_align_depth] and without a subscriber of the point cloud, a
    frameset that the processing blocks accept gets every image and motion
    frame published that the loop keeps, when the streams of these frames
    can be published. *)
Lemma process_frameset_publishes (env : Env) (ts : double)
    (dom : rs2_timestamp_domain) (num : Z) (raw filtered : list frame) (t : Time)
    (n : Node) :
  apply_filters env (_filters n) raw = inr filtered →
  _align_depth (params n) = false →
  getNumSubscribers env (_pointcloud_publisher (pubs n)) = 0 →
  Forall (λ f, is_points f = false → publishable env n (frame_key f))
    (frames_to_publish (dedup false filtered)) →
  ∃ n' out,
    process_frame env (frameset ts dom num raw) t n = (Ok tt, n', out)
    ∧ regular_frames out
      = List.filter not_points (frames_to_publish (dedup false filtered)).
Proof.
  intros Hf Ha Hpc Hready.
  destruct (updateIsFrameArrived_loop raw (_is_frame_arrived n) n)
    as (m' & o0 & Harr & Ho0).
  destruct (publish_kept_run env t filtered _ n Hpc Hready)
    as (n1 & o1 & Hloop & Hst & Hreg).
  destruct (publish_image_counter_run t n1) as (n2 & o2 & Hcnt & _ & Ho2).
  exists n2. eexists. split.
  { unfold process_frame.
    eapply bind_Ok; [reflexivity|].
    eapply bind_Ok; [|exact Hcnt].
    eapply bind_Ok; [exact Harr|].
    eapply bind_Ok; [reflexivity|]. cbv beta. rewrite Hf. cbn [lift].
    eapply bind_Ok; [reflexivity|].
    eapply bind_Ok; [reflexivity|]. cbv beta zeta. rewrite Ha.
    eapply bind_Ok; [exact Hloop|]. reflexivity. }
  rewrite !regular_frames_app, Hreg, (regular_frames_none o2 Ho2).
  rewrite (regular_frames_none o0);
    [|eapply Forall_impl; [exact Ho0|]; intros e [msg ->]; reflexivity].
  cbn [app]. rewrite !app_nil_r. reflexivity.
Qed.

(** The same for the callback: what it is handed as a frameset gets its
    kept image and motion frames published. *)
Lemma frame_callback_publishes_kept (env : Env) (ts : double)
    (dom : rs2_timestamp_domain) (num : Z) (raw filtered : list frame) (n : Node) :
  apply_filters env (_filters n) raw = inr filtered →
  _align_depth (params n) = false →
  getNumSubscribers env (_pointcloud_publisher (pubs n)) = 0 →
  Forall (λ f, is_points f = false → publishable env n (frame_key f))
    (frames_to_publish (dedup false filtered)) →
  regular_frames (out_of (frame_callback env (frameset ts dom num raw) n))
  = List.filter not_points (frames_to_publish (dedup false filtered)).
Proof.
  intros Hf Ha Hpc Hready.
  set (fr := frameset ts dom num raw).
  destruct (frame_callback_out env fr n) as (warn & rest & Hout & Hwarn & _ & Hrest).
  set (n0 := if _intialize_time_base (time_base n) then n
             else with_time_base_from env fr n) in Hrest.
  assert (H0 : _filters n0 = _filters n ∧ params n0 = params n ∧ pubs n0 = pubs n
               ∧ desc n0 = desc n ∧ pstate n0 = pstate n).
  { unfold n0. destruct (_intialize_time_base (time_base n)); repeat split. }
  destruct H0 as (HF & HP & HU & HD & HS).
  destruct (process_frameset_publishes env ts dom num raw filtered
              (frame_stamp env n0 fr) n0) as (n' & out & Hrun & Hreg).
  - rewrite HF. exact Hf.
  - rewrite HP. exact Ha.
  - rewrite HU. exact Hpc.
  - eapply Forall_impl; [exact Hready|]. intros g Hg Hnp.
    unfold publishable. rewrite HU, HD, HP, HS. exact (Hg Hnp).
  - rewrite Hout, regular_frames_app, <- Hrest.
    rewrite (regular_frames_none warn);
      [|eapply Forall_impl; [exact Hwarn|]; intros e [msg ->]; reflexivity].
    fold fr in Hrun. unfold try_catch, out_of. rewrite Hrun. exact Hreg.
Qed.

(** A single image or motion frame whose stream can be published is
    published. *)
Lemma frame_callback_publishes_single (env : Env) (f : frame) (n : Node) :
  publishable env n (frame_key f) →
  regular_frames (out_of (frame_callback env (single f) n)) = [f].
Proof.
  intros Hready.
  destruct (frame_callback_out env (single f) n)
    as (warn & rest & Hout & Hwarn & _ & Hrest).
  set (n0 := if _intialize_time_base (time_base n) then n
             else with_time_base_from env (single f) n) in Hrest.
  assert (Hready0 : publishable env n0 (frame_key f)).
  { unfold n0. destruct (_intialize_time_base (time_base n)); exact Hready. }
  destruct Hready0
    as (ip & mp & Hinfo & Himage & Hsubs & [enc Henc] & [fid Hfid] & [ci Hci]).
  set (t := frame_stamp env n0 (single f)) in *.
  destruct (updateIsFrameArrived_run (_is_frame_arrived n0) (frame_stream_type f)
              (frame_stream_index f) n0) as (m' & o1 & Harr & Ho1).
  destruct (publishFrame_publishes env f t (frame_key f) n0 ip mp enc fid ci
              Hinfo Himage Hsubs Henc Hfid Hci) as (n1 & img & Hpub & _).
  destruct (publish_image_counter_run t n1) as (n2 & o3 & Hcnt & _ & Ho3).
  assert (Hproc : process_frame env (single f) t n0
                  = (Ok tt, n2,
                     [] ++ (o1 ++ [publish_camera_info Regular (frame_key f)
                                     {| ci_stamp := t; ci_seq := frame_number f |};
                                   publish_image Regular (frame_key f) f img])
                        ++ o3)).
  { unfold process_frame.
    eapply bind_Ok; [reflexivity|].
    eapply bind_Ok; [|exact Hcnt].
    eapply bind_Ok; [exact Harr|exact Hpub]. }
  rewrite Hout, regular_frames_app, <- Hrest.
  rewrite (regular_frames_none warn);
    [|eapply Forall_impl; [exact Hwarn|]; intros e [msg ->]; reflexivity].
  unfold try_catch, out_of. rewrite Hproc. cbn [snd app].
  rewrite !regular_frames_app, (regular_frames_none o1 Ho1), (regular_frames_none o3 Ho3).
  reflexivity.
Qed.

(** Where every stamp is [t], the images carry [t]. *)
Lemma regular_stamps_stamped (t : Time) (out : list effect) :
  Forall (stamped t) out →
  regular_stamps out = map (λ f, (f, t)) (regular_frames out).
Proof.
  unfold regular_stamps, regular_frames.
  induction 1 as [|e out He _ IH]; [reflexivity|].
  cbn [omap list_omap].
  destruct e; cbn [regular_frame]; try exact IH.
  destruct fam; [|exact IH].
  cbn [map]. rewrite IH, (He (img_stamp img) eq_refl). reflexivity.
Qed.

(** ** Camera infos go with images *)

Lemma regular_info_keys_app (o1 o2 : list effect) :
  regular_info_keys (o1 ++ o2) = regular_info_keys o1 ++ regular_info_keys o2.
Proof. apply omap_app. Qed.

Lemma not_regular_out (out : list effect) :
  Forall not_regular out → regular_info_keys out = [] ∧ regular_frames out = [].
Proof.
  induction 1 as [|e out [Hf Hk] _ [IHk IHf]]; [split; reflexivity|].
  unfold regular_info_keys, regular_frames in *. cbn [omap list_omap].
  rewrite Hf, Hk. split; assumption.
Qed.

Lemma info_paired_quiet {A} (c : M A) : emits not_regular c → info_paired c.
Proof. intros Hc n. destruct (not_regular_out _ (Hc n)) as [-> ->]. reflexivity. Qed.

Lemma info_paired_bind {A B} (c : M A) (k : A → M B) :
  info_paired c → (∀ a, info_paired (k a)) → info_paired (c ≫= k).
Proof.
  intros Hc Hk n. specialize (Hc n). unfold mbind, M_bind, bind, out_of in *.
  destruct (c n) as [[[a| | |] n1] o1]; cbn [fst snd] in *; try exact Hc.
  specialize (Hk a n1). unfold out_of in Hk.
  destruct (k a n1) as [[r n2] o2]. cbn [fst snd] in *.
  rewrite regular_info_keys_app, regular_frames_app, map_app, Hc, Hk. reflexivity.
Qed.

Lemma info_paired_for_each {A} (l : list A) (body : A → M unit) :
  (∀ x, info_paired (body x)) → info_paired (for_each l body).
Proof.
  intros Hb. induction l as [|x l IH]; cbn [for_each].
  - intros n. reflexivity.
  - apply info_paired_bind; [apply Hb | intros _; exact IH].
Qed.

Lemma info_paired_try_catch_emit (body : M unit) (msg : exn → string) :
  info_paired body → info_paired (try_catch body (λ e, emit (ROS_ERROR (msg e)))).
Proof.
  intros Hb n. specialize (Hb n). unfold try_catch, out_of, emit in *.
  destruct (body n) as [[[[]|e| |] n1] o1]; cbn [fst snd] in *; try exact Hb.
  rewrite regular_info_keys_app, regular_frames_app, map_app, Hb. reflexivity.
Qed.

Ltac not_regular_leaf :=
  lazymatch goal with
  | |- not_regular _ => split; reflexivity
  end.

Lemma publishFrame_info_paired (env : Env) (f : frame) (t : Time) (copy : bool) :
  info_paired (publishFrame env f t (frame_key f) Regular copy).
Proof.
  intros n.
  destruct (publishFrame_out env f t (frame_key f) Regular copy n)
    as [->|(img & -> & _)]; reflexivity.
Qed.

Lemma publishFrame_aligned_not_regular (env : Env) (f : frame) (t : Time)
    (stream : stream_index_pair) (copy : bool) :
  emits not_regular (publishFrame env f t stream AlignedDepth copy).
Proof. apply publishFrame_emits; [|intros img _]; split; reflexivity. Qed.

Lemma publishPointCloud_not_regular (pc : list (vertex * texture_coordinate))
    (t : Time) (frames : list frame) :
  emits not_regular (publishPointCloud pc t frames).
Proof.
  unfold publishPointCloud, publish_points_with. repeat rule_step; not_regular_leaf.
Qed.

Lemma publish_one_info_paired (env : Env) (t : Time) (frames : list frame) (f : frame) :
  info_paired (publish_one env t frames f).
Proof.
  unfold publish_one. destruct (frame_payload f).
  - apply publishFrame_info_paired.
  - apply info_paired_quiet. repeat rule_step. apply publishPointCloud_not_regular.
  - apply publishFrame_info_paired.
Qed.

Lemma process_frame_info_paired (env : Env) (fr : rs2_frame) (t : Time) :
  info_paired (process_frame env fr t).
Proof.
  unfold process_frame.
  apply info_paired_bind; [apply info_paired_quiet; repeat rule_step|intros arrived].
  apply info_paired_bind;
    [|intros _; apply info_paired_quiet; unfold publish_image_counter;
      repeat rule_step; not_regular_leaf].
  destruct fr as [f|ts dom num frames].
  - apply info_paired_bind; [|intros _; apply publishFrame_info_paired].
    apply info_paired_quiet. unfold updateIsFrameArrived.
    repeat rule_step; not_regular_leaf.
  - apply info_paired_bind.
    { apply info_paired_quiet. unfold updateIsFrameArrived.
      repeat rule_step; not_regular_leaf. }
    intros _. apply info_paired_bind; [apply info_paired_quiet; repeat rule_step|].
    intros filters. apply info_paired_bind; [apply info_paired_quiet; repeat rule_step|].
    intros filtered. apply info_paired_bind; [apply info_paired_quiet; repeat rule_step|].
    intros align_depth. cbv zeta. apply info_paired_bind.
    + apply info_paired_for_each. intros f. apply publish_one_info_paired.
    + intros _. apply info_paired_quiet. unfold publishAlignedDepthToOthers.
      repeat rule_step. apply publishFrame_aligned_not_regular.
Qed.

Lemma frame_callback_info_paired (env : Env) (fr : rs2_frame) :
  info_paired (frame_callback env fr).
Proof.
  unfold frame_callback.
  apply (info_paired_try_catch_emit _
           (λ ex, "An error has occurred during frame callback: " +:+ what ex)).
  unfold frame_callback_body.
  apply info_paired_bind.
  { apply info_paired_quiet. unfold initialize_time_base.
    repeat rule_step; not_regular_leaf. }
  intros _. apply info_paired_bind; [apply info_paired_quiet; repeat rule_step|].
  intros t. apply process_frame_info_paired.
Qed.


(** ** Deduplication *)

(** C3 (as amended). Of the frames a frameset holds after the filters, the
    loop keeps, in order, the first image or motion frame of every (type,
    index) key and no other frame of that key, and the first points frame
    and no other points frame, whatever its key. The images the callback
    hands to the image publishers of the streams are of kept image and
    motion frames, in order, each at most once, and every camera info handed
    to an info publisher of the streams goes with such an image: a frame the
    loop dropped is never published on its own stream. Without
    [_align_depth] and without a subscriber of the point cloud, every kept
    image and motion frame is published, when the streams of these frames
    can be published. When a processing block raises, no frame is handed
    over. *)
Theorem dedup_keeps_first (env : Env) (n : Node) (ts : double)
    (dom : rs2_timestamp_domain) (num : Z) (raw : list frame) :
  let out := out_of (frame_callback env (frameset ts dom num raw) n) in
  regular_info_keys out = map frame_key (regular_frames out)
  ∧ match apply_filters env (_filters n) raw with
    | inr filtered =>
        let kept := frames_to_publish (dedup (_align_depth (params n)) filtered) in
        sublist kept filtered
        ∧ NoDup (map frame_key (List.filter not_points kept))
        ∧ (∀ k, List.find (is_frame_of k) kept = List.find (is_frame_of k) filtered)
        ∧ List.filter is_points kept = take 1 (List.filter is_points filtered)
        ∧ sublist (regular_frames out) (List.filter not_points kept)
        ∧ (_align_depth (params n) = false →
           getNumSubscribers env (_pointcloud_publisher (pubs n)) = 0 →
           Forall (λ f, is_points f = false → publishable env n (frame_key f)) kept →
           regular_frames out = List.filter not_points kept)
    | inl _ => regular_frames out = []
    end.
Proof.
  intros out. split; [apply frame_callback_info_paired|].
  set (fr := frameset ts dom num raw) in *.
  set (n0 := if _intialize_time_base (time_base n) then n
             else with_time_base_from env fr n).
  assert (Hreads : publishing_reads (_filters n) (_align_depth (params n)) n0).
  { unfold n0. destruct (_intialize_time_base (time_base n)); split; reflexivity. }
  destruct (frame_callback_out env fr n) as (warn & rest & Hout & Hwarn & _ & Hrest).
  fold n0 in Hrest.
  assert (Hregular : regular_frames out
                     = regular_frames
                         (out_of (process_frame env fr (frame_stamp env n0 fr) n0))).
  { unfold out. rewrite Hout, regular_frames_app, <- Hrest.
    rewrite (regular_frames_try_catch_emit _
               (λ ex, "An error has occurred during frame callback: " +:+ what ex)).
    rewrite (regular_frames_none warn); [reflexivity|].
    eapply Forall_impl; [exact Hwarn|]. intros e [msg ->]. reflexivity. }
  destruct (process_frameset_hands_over env ts dom num raw (frame_stamp env n0 fr)
              (_filters n) (_align_depth (params n)) n0 Hreads) as [Hsub _].
  fold fr in Hsub. rewrite <- Hregular in Hsub.
  destruct (apply_filters env (_filters n) raw) as [e|filtered] eqn:Hfilters.
  - apply sublist_nil_r. exact Hsub.
  - destruct (dedup_inv_dedup (_align_depth (params n)) filtered)
      as [Hset Hnd _ Hpts Hsl Hfirst].
    cbv zeta. split; [exact Hsl|]. split; [rewrite <- Hset; exact Hnd|].
    split; [exact Hfirst|]. split; [exact Hpts|]. split; [exact Hsub|].
    intros Ha Hpc Hready. rewrite Ha in Hready |- *.
    exact (frame_callback_publishes_kept env ts dom num raw filtered n
             Hfilters Ha Hpc Hready).
Qed.


(** ** Stamps *)

(** After the time base is set, the IMU callback publishes nothing, when
    neither publisher of the stream has a subscriber, or one message,
    stamped from the time base. *)
Lemma imu_callback_out (env : Env) (f : frame) (n : Node) (W0 : Time) (T0 : double) :
  time_base n = {| _intialize_time_base := true;
                   _ros_time_base := W0; _camera_time_base := T0 |} →
  let stream_index :=
    if bool_decide (frame_stream_type f = RS2_STREAM_GYRO) then GYRO else ACCEL in
  ∃ msg,
    imu_stamp msg
    = Time_fromSec
        (F64.add (Time_toSec W0)
           (F64.div (F64.sub (frame_timestamp f) T0) (F64.of_int 1000)))
    ∧ out_of (imu_callback env f n)
      = if (getNumSubscribers env
              (at_default None (_info_publisher (pubs n)) stream_index) =? 0)
           && (getNumSubscribers env
                 (at_default None (_imu_publishers (pubs n)) stream_index) =? 0)
        then []
        else [publish_imu stream_index msg].
Proof.
  intros Htb stream_index.
  unfold imu_callback. rewrite run_gets, Htb. cbn [_intialize_time_base negb].
  change (fst GYRO) with RS2_STREAM_GYRO. fold stream_index.
  rewrite run_gets, run_modify, run_gets.
  cbn [pubs with_pubs set_info_publisher _imu_publishers].
  destruct (getNumSubscribers env
              (at_default None (_info_publisher (pubs n)) stream_index) =? 0),
           (getNumSubscribers env
              (at_default None (_imu_publishers (pubs n)) stream_index) =? 0);
    cbn [negb orb andb when];
    try (rewrite run_gets; cbn [time_base with_pubs]; rewrite Htb;
         cbn [_ros_time_base _camera_time_base];
         rewrite run_gets, run_modify, run_modify, run_gets;
         unfold emit, out_of; cbn [snd];
         eexists; split; [|reflexivity]; reflexivity).
  exists {| imu_frame_id := String.EmptyString;
            imu_stamp :=
              Time_fromSec
                (F64.add (Time_toSec W0)
                   (F64.div (F64.sub (frame_timestamp f) T0) (F64.of_int 1000)));
            imu_seq := 0; imu_angular_velocity := None;
            imu_linear_acceleration := None |}.
  split; reflexivity.
Qed.

(** C2 (as amended). Once the time base is set, with wall-clock origin
    [W0] and hardware origin [T0], and whatever was delivered since:
    everything the frame callback publishes for what it is handed, with
    hardware timestamp [T1], is stamped
    [ros::Time(W0.toSec() + (T1 - T0) / 1000)] when [_sync_frames] is off,
    and with the clock reading of the invocation plus
    [ros::Duration(_ros_time_offset)] when it is on. The frames are
    published with that stamp: a single image or motion frame whose stream
    can be published, and, without [_align_depth] and without a subscriber
    of the point cloud, every image and motion frame kept of a frameset.
    What the IMU callback publishes for a sample is stamped
    [ros::Time(W0.toSec() + (T1 - T0) / 1000)] whether [_sync_frames] is
    on or off, and a sample is published when the IMU publisher of its
    stream has a subscriber. *)
Theorem delivered_frames_stamp (n : Node) (ds : list delivery) (env : Env)
    (W0 : Time) (T0 : double) :
  time_base n = {| _intialize_time_base := true;
                   _ros_time_base := W0; _camera_time_base := T0 |} →
  let from_time_base (T1 : double) :=
    Time_fromSec
      (F64.add (Time_toSec W0) (F64.div (F64.sub T1 T0) (F64.of_int 1000))) in
  let stamp (fr : rs2_frame) :=
    if _sync_frames (params n)
    then Time_plus (now_at_stamp env) (Duration_fromSec (_ros_time_offset (params n)))
    else from_time_base (get_timestamp fr) in
  (∀ fr, Forall (stamped (stamp fr)) (out_of (frame_callback env fr (session n ds))))
  ∧ (∀ f,
       publishable env n (frame_key f) →
       regular_stamps (out_of (frame_callback env (single f) (session n ds)))
       = [(f, stamp (single f))])
  ∧ (∀ ts dom num raw filtered,
       apply_filters env (_filters n) raw = inr filtered →
       _align_depth (params n) = false →
       getNumSubscribers env (_pointcloud_publisher (pubs n)) = 0 →
       Forall (λ f, is_points f = false → publishable env n (frame_key f))
         (frames_to_publish (dedup false filtered)) →
       regular_stamps
         (out_of (frame_callback env (frameset ts dom num raw) (session n ds)))
       = map (λ f, (f, stamp (frameset ts dom num raw)))
           (List.filter not_points (frames_to_publish (dedup false filtered))))
  ∧ (∀ f,
       Forall (stamped (from_time_base (frame_timestamp f)))
         (out_of (imu_callback env f (session n ds))))
  ∧ (∀ f p,
       _imu_publishers (pubs n)
       !! (if bool_decide (frame_stream_type f = RS2_STREAM_GYRO) then GYRO else ACCEL)
       = Some p →
       getNumSubscribers env p ≠ 0 →
       ∃ msg,
         out_of (imu_callback env f (session n ds))
         = [publish_imu
              (if bool_decide (frame_stream_type f = RS2_STREAM_GYRO)
               then GYRO else ACCEL) msg]
         ∧ imu_stamp msg = from_time_base (frame_timestamp f)).
Proof.
  intros Htb from_time_base stamp.
  pose proof (session_stable_session ds n) as Hst.
  assert (Hinit : _intialize_time_base (time_base n) = true) by (rewrite Htb; reflexivity).
  pose proof (stable_time_base _ _ Hst Hinit) as Htb'.
  assert (Hstamped : ∀ fr,
            Forall (stamped (stamp fr)) (out_of (frame_callback env fr (session n ds)))).
  { intros fr.
    destruct (frame_callback_out env fr (session n ds))
      as (warn & rest & -> & _ & Hnil & Hrest).
    rewrite Htb', Hinit in Hnil, Hrest. rewrite (Hnil eq_refl). cbn [app].
    rewrite <- Hrest.
    replace (frame_stamp env (session n ds) fr) with (stamp fr).
    - apply emits_try_catch; [apply process_frame_stamped|].
      intros e. apply emits_emit. intros s Hs. discriminate.
    - unfold frame_stamp, stamp, from_time_base.
      rewrite (stable_sync_frames _ _ Hst), (stable_ros_time_offset _ _ Hst), Htb', Htb.
      reflexivity. }
  split; [exact Hstamped|]. split; [|split; [|split]].
  - intros f Hready.
    rewrite (regular_stamps_stamped _ _ (Hstamped (single f))).
    rewrite (frame_callback_publishes_single env f (session n ds)); [reflexivity|].
    exact (publishable_stable env _ _ _ Hst Hready).
  - intros ts dom num raw filtered Hf Ha Hpc Hready.
    rewrite (regular_stamps_stamped _ _ (Hstamped (frameset ts dom num raw))).
    rewrite (frame_callback_publishes_kept env ts dom num raw filtered (session n ds));
      [reflexivity| | | |].
    + rewrite (stable_filters _ _ Hst). exact Hf.
    + rewrite (stable_align_depth _ _ Hst). exact Ha.
    + rewrite (stable_pointcloud_publisher _ _ Hst). exact Hpc.
    + eapply Forall_impl; [exact Hready|]. intros g Hg Hnp.
      exact (publishable_stable env _ _ _ Hst (Hg Hnp)).
  - intros f.
    destruct (imu_callback_out env f (session n ds) W0 T0) as (msg & Hstamp & ->);
      [rewrite Htb'; exact Htb|].
    destruct (_ && _); repeat constructor.
    intros s Hs. cbn [effect_stamp] in Hs. injection Hs as <-. exact Hstamp.
  - intros f p Hp Hsubs.
    destruct (imu_callback_out env f (session n ds) W0 T0) as (msg & Hstamp & Hout);
      [rewrite Htb'; exact Htb|].
    exists msg. split; [|exact Hstamp]. rewrite Hout.
    rewrite (stable_imu_publishers _ _ Hst).
    replace (at_default None (_imu_publishers (pubs n)) _) with p
      by (unfold at_default; rewrite Hp; reflexivity).
    apply Z.eqb_neq in Hsubs. rewrite Hsubs, andb_false_r. reflexivity.
Qed.

End Properties.


(* ================================================================== *)
(** * Properties of the set-up *)

Section SetUpProperties.
Context `{RosTime}.
Variable HID_STREAMS : list (list stream_index_pair).
Variable IMAGE_STREAMS : list (list stream_index_pair).
Variable sensor_default : sensor.

(** ** Running the set-up monad *)

Lemma w_bind_Ok {A B} (c : MW A) (k : A → MW B) (w w1 w2 : Whole) (a : A)
    (r : outcome B) (o1 o2 : list action) :
  c w = (Ok a, w1, o1) → k a w1 = (r, w2, o2) →
  (c ≫= k) w = (r, w2, o1 ++ o2).
Proof.
  intros Hc Hk. unfold mbind, MW_bind, w_bind. rewrite Hc, Hk. reflexivity.
Qed.

Lemma w_bind_Raise {A B} (c : MW A) (k : A → MW B) (w w1 : Whole) (e : exn)
    (o1 : list action) :
  c w = (Raise e, w1, o1) → (c ≫= k) w = (Raise e, w1, o1).
Proof. intros Hc. unfold mbind, MW_bind, w_bind. rewrite Hc. reflexivity. Qed.

Lemma w_bind_Terminated {A B} (c : MW A) (k : A → MW B) (w w1 : Whole)
    (why : string) (o1 : list action) :
  c w = (Terminated why, w1, o1) → (c ≫= k) w = (Terminated why, w1, o1).
Proof. intros Hc. unfold mbind, MW_bind, w_bind. rewrite Hc. reflexivity. Qed.

Lemma w_bind_Undefined {A B} (c : MW A) (k : A → MW B) (w w1 : Whole)
    (why : string) (o1 : list action) :
  c w = (Undefined why, w1, o1) → (c ≫= k) w = (Undefined why, w1, o1).
Proof. intros Hc. unfold mbind, MW_bind, w_bind. rewrite Hc. reflexivity. Qed.

Lemma w_run_ret {A B} (a : A) (k : A → MW B) (w : Whole) :
  (w_ret a ≫= k) w = k a w.
Proof.
  unfold mbind, MW_bind, w_bind, w_ret. destruct (k a w) as [[r w2] o2]. reflexivity.
Qed.

Lemma w_run_modify {B} (g : Whole → Whole) (k : unit → MW B) (w : Whole) :
  (w_modify g ≫= k) w = k tt (g w).
Proof.
  unfold mbind, MW_bind, w_bind, w_modify. destruct (k tt (g w)) as [[r w2] o2].
  reflexivity.
Qed.

Lemma w_run_gets {A B} (g : Whole → A) (k : A → MW B) (w : Whole) :
  (w_gets g ≫= k) w = k (g w) w.
Proof.
  unfold mbind, MW_bind, w_bind, w_gets. destruct (k (g w) w) as [[r w2] o2].
  reflexivity.
Qed.

Lemma w_run_core_gets {A B} (g : Node → A) (k : A → MW B) (w : Whole) :
  (in_core (gets g) ≫= k) w = k (g (core w)) w.
Proof.
  unfold mbind, MW_bind, w_bind, in_core, gets, with_core. cbn.
  destruct w as [n r]. cbn. destruct (k (g n) _) as [[r' w2] o2]. reflexivity.
Qed.

Lemma w_run_core_modify {B} (g : Node → Node) (k : unit → MW B) (w : Whole) :
  (in_core (modify g) ≫= k) w = k tt (with_core (g (core w)) w).
Proof.
  unfold mbind, MW_bind, w_bind, in_core, modify. cbn.
  destruct (k tt _) as [[r' w2] o2]. reflexivity.
Qed.

Lemma w_run_emit {B} (a : action) (k : unit → MW B) (w : Whole) :
  (w_emit a ≫= k) w
  = (w_result_of (k tt w), w_whole_of (k tt w), a :: w_out_of (k tt w)).
Proof.
  unfold mbind, MW_bind, w_bind, w_emit, w_result_of, w_whole_of, w_out_of.
  destruct (k tt w) as [[r' w2] o2]. reflexivity.
Qed.

Lemma w_bind_assoc {A B C} (c : MW A) (k : A → MW B) (h : B → MW C) (w : Whole) :
  ((c ≫= k) ≫= h) w = (c ≫= (λ a, k a ≫= h)) w.
Proof.
  unfold mbind, MW_bind, w_bind.
  destruct (c w) as [[[a| | |] w1] o1]; try reflexivity.
  destruct (k a w1) as [[[b| | |] w2] o2]; try reflexivity.
  destruct (h b w2) as [[r w3] o3]. rewrite app_assoc. reflexivity.
Qed.

Lemma w_bind_ext {A B} (c : MW A) (k k' : A → MW B) (w : Whole) :
  (∀ a v, k a v = k' a v) → (c ≫= k) w = (c ≫= k') w.
Proof.
  intros Hk. unfold mbind, MW_bind, w_bind.
  destruct (c w) as [[[a| | |] w1] o1]; try reflexivity.
  rewrite Hk. reflexivity.
Qed.


(** ** getEnabledProfile and updateStreamCalibData *)

Lemma w_run_getEnabledProfile {B} (k : stream_index_pair)
    (h : option stream_profile → MW B) (w : Whole) :
  (in_core (getEnabledProfile k) ≫= h) w
  = h (List.find (λ profile, bool_decide (profile_stream_type profile = fst k))
         (at_default [] (_enabled_profiles (core w)) k))
      (with_core (with_enabled_profiles (touch [] k (_enabled_profiles (core w)))
                    (core w)) w).
Proof.
  unfold mbind at 1, MW_bind, w_bind, in_core, getEnabledProfile.
  unfold mbind, M_bind, bind, gets, modify, ret. cbn [fst snd map app].
  destruct (h _ _) as [[r w2] o2]. reflexivity.
Qed.

Lemma w_run_update_camera_info {B} (k : stream_index_pair)
    (f : Calibration → Calibration) (h : unit → MW B) (w : Whole) :
  (update_camera_info k f ≫= h) w
  = h tt
      (with_core
         (with_pstate
            (set_camera_info
               (touch CameraInfo_new k (_camera_info (pstate (core w))))
               (pstate (core w)))
            (core w))
         (with_rest
            (set_calibration
               (<[k := f (at_default Calibration_new (_calibration (rest w)) k)]>
                  (_calibration (rest w)))
               (rest w))
            w)).
Proof. unfold update_camera_info. rewrite w_run_modify. reflexivity. Qed.

(** [updateStreamCalibData] ends the process when DEPTH has no enabled
    profile of the depth stream, whatever stream the profile it is handed
    belongs to: with the intrinsics of the profile at hand it logs the
    ERROR line, shuts ROS down and exits. When the SDK raises on the
    intrinsics, the exception leaves the function with the node as it
    was. *)
Theorem updateStreamCalibData_needs_depth (sdk : Sdk) (video_profile : stream_profile)
    (w : Whole) :
  List.find (λ profile, bool_decide (profile_stream_type profile = RS2_STREAM_DEPTH))
    (at_default [] (_enabled_profiles (core w)) DEPTH) = None →
  match get_intrinsics sdk video_profile with
  | inr _ =>
      w_result_of (updateStreamCalibData sdk video_profile w) = Terminated "exit(1)"
      ∧ w_out_of (updateStreamCalibData sdk video_profile w)
        = [LOG_ERROR "Given depth profile is not supported by current device!";
           ros_shutdown]
  | inl ex => updateStreamCalibData sdk video_profile w = (Raise ex, w, [])
  end.
Proof.
  intros Hnone. unfold updateStreamCalibData.
  destruct (get_intrinsics sdk video_profile) as [ex|intrinsic]; cbn [w_lift].
  { reflexivity. }
  rewrite w_run_ret, w_run_modify, w_run_update_camera_info, w_run_core_gets,
    w_run_core_modify, w_run_update_camera_info.
  rewrite w_run_getEnabledProfile.
  cbn [core rest with_core with_rest with_params with_pstate _enabled_profiles fst DEPTH].
  change (RS2_STREAM_DEPTH, 0) with DEPTH. rewrite Hnone.
  split; reflexivity.
Qed.


Lemma copies_kept_refl (w : Whole) : copies_kept w w.
Proof. constructor; auto. Qed.

Lemma copies_kept_trans (a b c : Whole) :
  copies_kept a b → copies_kept b c → copies_kept a c.
Proof. intros [] []. constructor; intros; eauto; congruence. Qed.

Lemma touch_lookup_Some {V} (d : V) (k k' : stream_index_pair)
    (m : gmap stream_index_pair V) (x : V) :
  m !! k' = Some x → touch d k m !! k' = Some x.
Proof.
  intros Hk. eapply lookup_weaken; [exact Hk|]. apply touch_subseteq.
Qed.

Lemma insert_default_lookup_Some {V} (d : V) (k k' : stream_index_pair)
    (m : gmap stream_index_pair V) (x : V) :
  m !! k' = Some x → <[k := at_default d m k]> m !! k' = Some x.
Proof.
  intros Hk. destruct (decide (k = k')) as [->|Hne].
  - rewrite lookup_insert_eq. unfold at_default. rewrite Hk. reflexivity.
  - rewrite lookup_insert_ne by exact Hne. exact Hk.
Qed.

Lemma copy_to_aligned_run (k : stream_index_pair) (w : Whole) :
  ∃ w', copy_to_aligned k w = (Ok tt, w', []) ∧ copies_kept w w'
        ∧ _depth_aligned_calibration (rest w') !! k
          = Some (at_default Calibration_new (_calibration (rest w)) k)
        ∧ _calibration (rest w') !! k
          = Some (at_default Calibration_new (_calibration (rest w)) k)
        ∧ _depth_aligned_camera_info (pstate (core w')) !! k
          = Some (at_default CameraInfo_new (_camera_info (pstate (core w))) k)
        ∧ _camera_info (pstate (core w')) !! k
          = Some (at_default CameraInfo_new (_camera_info (pstate (core w))) k).
Proof.
  eexists. split.
  { unfold copy_to_aligned. rewrite w_run_update_camera_info.
    unfold w_modify. reflexivity. }
  cbn [core rest with_core with_rest with_pstate pstate set_camera_info
       set_depth_aligned_camera_info set_calibration set_depth_aligned_calibration
       _calibration _depth_aligned_calibration _camera_info _depth_aligned_camera_info].
  split; [|split; [|split; [|split]]].
  - constructor; cbn; try reflexivity.
    + intros k' c. apply insert_default_lookup_Some.
    + intros k' c. apply touch_lookup_Some.
  - rewrite lookup_insert_eq. unfold at_default at 1. rewrite lookup_insert_eq.
    reflexivity.
  - rewrite lookup_insert_eq. reflexivity.
  - rewrite lookup_insert_eq. f_equal. unfold at_default, touch.
    destruct (_camera_info (pstate (core w)) !! k) eqn:Hk; rewrite ?Hk, ?lookup_insert_eq;
      reflexivity.
  - unfold at_default, touch.
    destruct (_camera_info (pstate (core w)) !! k) eqn:Hk; rewrite ?Hk, ?lookup_insert_eq;
      reflexivity.
Qed.

Lemma w_for_each_kept {A} (R : Whole → Whole → Prop) (l : list A)
    (body : A → MW unit) :
  (∀ w, R w w) → (∀ a b c, R a b → R b c → R a c) →
  (∀ x w, ∃ w', body x w = (Ok tt, w', []) ∧ R w w') →
  ∀ w, ∃ w', w_for_each l body w = (Ok tt, w', []) ∧ R w w'.
Proof.
  intros Hrefl Htrans Hbody. induction l as [|x l IH]; intros w.
  - exists w. split; [reflexivity|apply Hrefl].
  - destruct (Hbody x w) as (w1 & H1 & HR1). destruct (IH w1) as (w2 & H2 & HR2).
    exists w2. split; [|eapply Htrans; eassumption].
    cbn [w_for_each]. rewrite (w_bind_Ok _ _ _ _ _ _ _ _ _ H1 H2). reflexivity.
Qed.

Lemma copy_loop_run (entries : list (stream_index_pair * list stream_profile))
    (w : Whole) :
  ∃ w',
    w_for_each entries
      (λ entry, w_for_each (snd entry)
         (λ profile, copy_to_aligned
            (profile_stream_type profile, profile_stream_index profile))) w
    = (Ok tt, w', [])
    ∧ copies_kept w w'.
Proof.
  apply w_for_each_kept; [apply copies_kept_refl|apply copies_kept_trans|].
  intros entry. apply w_for_each_kept; [apply copies_kept_refl|apply copies_kept_trans|].
  intros profile v.
  destruct (copy_to_aligned_run
              (profile_stream_type profile, profile_stream_index profile) v)
    as (v' & Hrun & Hkept & _).
  exists v'. split; assumption.
Qed.


Lemma at_default_insert {V} (d x : V) (k : stream_index_pair)
    (m : gmap stream_index_pair V) : at_default d (<[k := x]> m) k = x.
Proof. unfold at_default. rewrite lookup_insert_eq. reflexivity. Qed.

Ltac wsimpl :=
  unfold with_core, with_rest, with_params, with_pstate, with_enabled_profiles,
    with_desc, set_calibration, set_stream_intrinsics, set_depth_aligned_calibration,
    set_camera_info, set_depth_aligned_camera_info, set_optical_frame_id;
  cbn [core rest params desc pstate time_base pubs _enabled_profiles _filters
       _is_frame_arrived
       _json_file_path _serial_no _namespace _base_frame_id _frame_id
       _depth_aligned_frame_id _stream_name _inter_cam_sync_mode _sensors
       _counter_publisher _depth_to_other_extrinsics_publishers
       _depth_to_other_extrinsics _depth_scale_meters
       _calibration _stream_intrinsics _depth_aligned_calibration
       _camera_info _depth_aligned_camera_info _optical_frame_id
       _seq _depth_aligned_seq _depth_aligned_image _depth_aligned_encoding
       _send_counter _counter_enabled _image_counter
       _align_depth _pointcloud _pointcloud_texture _filters_str _sync_frames
       _ros_time_offset _enable
       set_cal_D set_cal_P set_cal_K set_cal_R calibrate_K_P calibrate_R
       cal_frame_id cal_width cal_height cal_distortion_model cal_D cal_K cal_R cal_P];
  rewrite ?at_default_insert, ?insert_insert_eq.

Ltac wstep :=
  first [ rewrite w_bind_assoc
        | rewrite w_run_ret | rewrite w_run_modify | rewrite w_run_update_camera_info
        | rewrite w_run_core_gets | rewrite w_run_core_modify
        | rewrite w_run_getEnabledProfile ];
  wsimpl.

Lemma touch_is_Some {V} (d : V) (k : stream_index_pair)
    (m : gmap stream_index_pair V) : is_Some (touch d k m !! k).
Proof.
  unfold touch. destruct (m !! k) eqn:Hk; [rewrite Hk; eauto|].
  rewrite lookup_insert_eq. eauto.
Qed.

Lemma copy_camera_infos_to_aligned_run (w : Whole) :
  ∃ w', copy_camera_infos_to_aligned w = (Ok tt, w', []) ∧ copies_kept w w'.
Proof.
  unfold copy_camera_infos_to_aligned. rewrite w_run_core_gets.
  destruct (_align_depth (params (core w))); cbn [w_when].
  - rewrite w_run_core_gets. apply copy_loop_run.
  - exists w. split; [reflexivity|apply copies_kept_refl].
Qed.

Ltac list_of_length l :=
  repeat (let x := fresh "x" in destruct l as [|x l]; [discriminate|]);
  try (destruct l; [|discriminate]).

(** [updateStreamCalibData], with a depth profile enabled and the
    intrinsics of the profile at hand: it ends normally without a message,
    records the intrinsics, and leaves the camera info of the profile's
    stream with the optical frame id, the size, [K] and [P] filled from
    the intrinsics, [R] the identity and "plumb_bob" as model. [K] is
    written at 0, 2, 4, 5 and 8 only. The five distortion coefficients are
    appended to [D]: a second call for the same stream leaves ten. The
    stream's camera info is in [_camera_info] afterwards, as [publishFrame]
    needs it. *)
Theorem updateStreamCalibData_calibrates (sdk : Sdk) (video_profile depth_profile :
    stream_profile) (intrinsic : rs2_intrinsics) (w : Whole) :
  let stream_index :=
    (profile_stream_type video_profile, profile_stream_index video_profile) in
  let old := at_default Calibration_new (_calibration (rest w)) stream_index in
  get_intrinsics sdk video_profile = inr intrinsic →
  length (intr_coeffs intrinsic) = 5%nat →
  List.find (λ profile, bool_decide (profile_stream_type profile = RS2_STREAM_DEPTH))
    (at_default [] (_enabled_profiles (core w)) DEPTH) = Some depth_profile →
  well_sized old →
  let after := w_whole_of (updateStreamCalibData sdk video_profile w) in
  w_result_of (updateStreamCalibData sdk video_profile w) = Ok tt
  ∧ w_out_of (updateStreamCalibData sdk video_profile w) = []
  ∧ _stream_intrinsics (rest after) !! stream_index = Some intrinsic
  ∧ is_Some (_camera_info (pstate (core after)) !! stream_index)
  ∧ ∃ c,
      _calibration (rest after) !! stream_index = Some c
      ∧ cal_frame_id c = at_default "" (_optical_frame_id (params (core w))) stream_index
      ∧ cal_width c = intr_width intrinsic ∧ cal_height c = intr_height intrinsic
      ∧ cal_distortion_model c = "plumb_bob"
      ∧ cal_D c = cal_D old ++ map double_of_float (intr_coeffs intrinsic)
      ∧ cal_K c
        = [double_of_float (intr_fx intrinsic); default d0 (cal_K old !! 1%nat);
           double_of_float (intr_ppx intrinsic);
           default d0 (cal_K old !! 3%nat); double_of_float (intr_fy intrinsic);
           double_of_float (intr_ppy intrinsic);
           default d0 (cal_K old !! 6%nat); default d0 (cal_K old !! 7%nat); d1]
      ∧ cal_R c = [d1; d0; d0; d0; d1; d0; d0; d0; d1]
      ∧ cal_P c
        = [double_of_float (intr_fx intrinsic); d0;
           double_of_float (intr_ppx intrinsic); d0;
           d0; double_of_float (intr_fy intrinsic);
           double_of_float (intr_ppy intrinsic); d0;
           d0; d0; d1; d0].
Proof.
  intros stream_index old Hintr Hcoeffs Hdepth (HK & HR & HP) after.
  unfold after. clear after.
  destruct w as [[p d tb pb ps ifa ep fl] r]. destruct p, ps, r.
  cbn [core rest params pstate _calibration _enabled_profiles _optical_frame_id] in *.
  destruct (cal_K old) as [|k0 lK] eqn:EK; [discriminate|].
  destruct (cal_R old) as [|r0 lR] eqn:ER; [discriminate|].
  destruct (cal_P old) as [|p0 lP] eqn:EP; [discriminate|].
  destruct (intr_coeffs intrinsic) as [|c0 lC] eqn:EC; [discriminate|].
  cbn [length] in HK, HR, HP, Hcoeffs.
  injection HK as HK. injection HR as HR. injection HP as HP.
  injection Hcoeffs as Hcoeffs.
  list_of_length lK. list_of_length lR. list_of_length lP. list_of_length lC.
  destruct (bool_decide (stream_index = DEPTH) && at_default false (_enable d) DEPTH
            && at_default false (_enable d) COLOR) eqn:Hspecial.
  all: match goal with
       | |- context [updateStreamCalibData ?a ?b ?c] =>
           eassert (Hmain : updateStreamCalibData a b c = copy_camera_infos_to_aligned _)
       end.
  1, 3: unfold updateStreamCalibData; fold stream_index;
    rewrite Hintr; cbn [w_lift];
    do 7 wstep;
    change (RS2_STREAM_DEPTH, 0) with DEPTH; cbn [fst DEPTH];
    change (RS2_STREAM_DEPTH, 0) with DEPTH; rewrite Hdepth;
    do 2 wstep;
    cbn [seq w_for_each];
    unfold array_get; rewrite EC; cbn [lookup list_lookup];
    repeat wstep;
    rewrite Hspecial; cbn [w_when]; repeat wstep; reflexivity.
  all: match type of Hmain with
       | _ = copy_camera_infos_to_aligned ?w1 =>
           destruct (copy_camera_infos_to_aligned_run w1) as (w' & Hcopy & Hkept)
       end;
    rewrite Hmain, Hcopy; unfold w_result_of, w_whole_of, w_out_of; cbn [fst snd].
  all: split; [reflexivity|]; split; [reflexivity|].
  all: split; [rewrite (kept_stream_intrinsics _ _ Hkept); cbn; apply lookup_insert_eq|].
  all: split;
    [ pose proof (kept_camera_info _ _ Hkept stream_index) as Hk;
      cbn [core pstate _camera_info] in Hk;
      match type of Hk with
      | ∀ c, touch ?d ?k ?m !! _ = Some c → _ =>
          destruct (touch_is_Some d k m) as [ci Hci];
          exact (mk_is_Some _ _ (Hk ci Hci))
      end
    | ].
  all: eexists; split;
    [ apply (kept_calibration _ _ Hkept); cbn [rest _calibration];
      apply lookup_insert_eq
    | ].
  all: fold old;
    cbn [set_cal_D set_cal_P calibrate_R calibrate_K_P
         cal_frame_id cal_width cal_height cal_distortion_model cal_D cal_K cal_R cal_P];
    rewrite ?EK, ?ER, ?EP, <- ?app_assoc;
    cbn [insert list_insert lookup list_lookup default app map];
    repeat split.
Qed.


(** ** Streaming the images *)

Lemma at_default_touch {V} (d : V) (k k' : stream_index_pair)
    (m : gmap stream_index_pair V) :
  at_default d (touch d k m) k' = at_default d m k'.
Proof.
  unfold at_default, touch. destruct (m !! k) eqn:Hk; [reflexivity|].
  destruct (decide (k = k')) as [<-|Hne].
  - rewrite lookup_insert_eq, Hk. reflexivity.
  - rewrite lookup_insert_ne by exact Hne. reflexivity.
Qed.

Lemma in_core_run {A} (c : M A) (w : Whole) (r : outcome A) (n' : Node)
    (out : list effect) :
  c (core w) = (r, n', out) → in_core c w = (r, with_core n' w, map core_effect out).
Proof. intros Hc. unfold in_core. rewrite Hc. reflexivity. Qed.

Lemma run_ret {A B} (a : A) (k : A → M B) (n : Node) : (ret a ≫= k) n = k a n.
Proof.
  unfold mbind, M_bind, bind, ret. destruct (k a n) as [[r n2] o2]. reflexivity.
Qed.

Lemma gather_profiles_run (streams : list stream_index_pair) (n : Node) :
  gather_profiles streams n
  = (Ok (concat (rev (map (at_default [] (_enabled_profiles n)) streams))),
     with_enabled_profiles
       (foldl (λ m k, touch [] k m) (_enabled_profiles n) streams) n,
     []).
Proof.
  unfold gather_profiles.
  enough (Hgen : ∀ acc n0,
            for_fold streams acc
              (λ profiles elem,
                 enabled ← gets (λ n1, at_default [] (_enabled_profiles n1) elem);
                 modify (λ n1, with_enabled_profiles
                                 (touch [] elem (_enabled_profiles n1)) n1);;
                 ret (match enabled with
                      | [] => profiles
                      | _ => enabled ++ profiles
                      end)) n0
            = (Ok (concat (rev (map (at_default [] (_enabled_profiles n0)) streams))
                   ++ acc),
               with_enabled_profiles
                 (foldl (λ m k, touch [] k m) (_enabled_profiles n0) streams) n0,
               [])).
  { rewrite Hgen, app_nil_r. reflexivity. }
  induction streams as [|elem streams IH]; intros acc n0.
  - destruct n0; reflexivity.
  - cbn [for_fold]. rewrite bind_assoc, run_gets, bind_assoc, run_modify, run_ret.
    rewrite IH. cbn [_enabled_profiles with_enabled_profiles map rev foldl].
    f_equal. f_equal.
    + f_equal. rewrite concat_app. cbn [concat]. rewrite app_nil_r, <- app_assoc.
      f_equal.
      * f_equal. f_equal. apply map_ext. intros k. apply at_default_touch.
      * destruct (at_default [] (_enabled_profiles n0) elem); reflexivity.
Qed.


Lemma w_run_core {A B} (c : M A) (k : A → MW B) (w : Whole) (a : A) (n' : Node) :
  c (core w) = (Ok a, n', []) → (in_core c ≫= k) w = k a (with_core n' w).
Proof.
  intros Hc. unfold mbind, MW_bind, w_bind. rewrite (in_core_run _ _ _ _ _ Hc).
  cbn [map]. destruct (k a _) as [[r w2] o2]. reflexivity.
Qed.

Lemma w_run_sensor_at {B} (k : stream_index_pair) (h : sensor → MW B) (w : Whole) :
  (sensor_at sensor_default k ≫= h) w
  = h (at_default sensor_default (_sensors (rest w)) k)
      (with_rest (set_sensors (touch sensor_default k (_sensors (rest w))) (rest w)) w).
Proof.
  unfold sensor_at. rewrite w_bind_assoc, w_run_gets, w_bind_assoc, w_run_modify,
    w_run_ret. reflexivity.
Qed.

(** A group of image streams is started with one [open] and one [start],
    on the sensor of the group's first stream, whether that stream has an
    enabled profile or not. The sensor is opened with the enabled profiles
    of the streams of the group, those of a later stream first, and is
    started with the syncer when frames are synchronised, else with the
    frame callback. A group without an enabled profile opens nothing. *)
Theorem stream_images_opens (dev : Device) (stream : stream_index_pair)
    (others : list stream_index_pair) (scale : float) (w : Whole) :
  let profiles :=
    concat (rev (map (at_default [] (_enabled_profiles (core w))) (stream :: others))) in
  let sens := at_default sensor_default (_sensors (rest w)) stream in
  let sink :=
    if _sync_frames (params (core w)) then to_syncer else to_frame_callback_sink in
  dev_open dev sens profiles = None →
  dev_start dev sens sink = None →
  dev_get_depth_scale dev sens = inr scale →
  w_result_of (stream_images sensor_default dev (stream :: others) w) = Ok tt
  ∧ w_out_of (stream_images sensor_default dev (stream :: others) w)
    = match profiles with
      | [] => []
      | _ => [sensor_open sens profiles; sensor_start sens sink]
      end
  ∧ (profiles ≠ [] → stream = DEPTH →
     _depth_scale_meters
       (rest (w_whole_of (stream_images sensor_default dev (stream :: others) w)))
     = scale).
Proof.
  intros profiles sens sink Hopen Hstart Hscale.
  unfold stream_images.
  rewrite (w_run_core _ _ _ _ _ (gather_profiles_run (stream :: others) (core w))).
  fold profiles.
  destruct profiles as [|profile profiles'] eqn:Hprofiles.
  { repeat split; try reflexivity. intros Hne. destruct Hne. reflexivity. }
  rewrite w_run_sensor_at.
  cbn [rest core with_core with_rest _sensors]. fold sens.
  unfold open_sensor, start_sensor. rewrite Hopen. cbn [w_call].
  rewrite w_bind_assoc, w_run_ret, w_run_emit.
  destruct (bool_decide (DEPTH = stream)) eqn:Hdepth; cbn [w_when].
  - rewrite Hscale. cbn [w_lift].
    rewrite !w_bind_assoc, w_run_ret, w_run_modify, w_run_core_gets.
    cbn [rest core with_core with_rest params with_enabled_profiles _sync_frames].
    fold sink. rewrite Hstart. cbn [w_call]. rewrite w_run_ret.
    unfold w_emit, w_result_of, w_whole_of, w_out_of. cbn [fst snd].
    repeat split; reflexivity.
  - rewrite w_run_ret, w_run_core_gets.
    cbn [rest core with_core with_rest params with_enabled_profiles _sync_frames].
    fold sink. rewrite Hstart. cbn [w_call]. rewrite w_run_ret.
    unfold w_emit, w_result_of, w_whole_of, w_out_of. cbn [fst snd].
    repeat split; try reflexivity.
    intros _ ->. apply bool_decide_eq_false in Hdepth. destruct Hdepth. reflexivity.
Qed.


(** ** Streaming the motion module *)

Lemma elem_of_concat {A} (x : A) (ll : list (list A)) :
  x ∈ concat ll ↔ ∃ l, x ∈ l ∧ l ∈ ll.
Proof.
  induction ll as [|l0 ll IH]; cbn [concat].
  - split; [intros Hx; inversion Hx | intros (l & _ & Hl); inversion Hl].
  - rewrite elem_of_app, IH. split.
    + intros [Hx | (l & Hx & Hl)].
      * exists l0. split; [exact Hx | apply elem_of_cons; left; reflexivity].
      * exists l. split; [exact Hx | apply elem_of_cons; right; exact Hl].
    + intros (l & Hx & Hl). apply elem_of_cons in Hl as [-> | Hl].
      * left. exact Hx.
      * right. exists l. split; assumption.
Qed.

(** A loop whose body returns or raises: so does the loop, and an
    exception of the loop is one of the body, at an element of the list and
    a node the loop reached. *)
Lemma w_for_each_outcome {A} (R : Whole → Whole → Prop) (O : action → Prop)
    (bad : A → Whole → exn → Prop) (l : list A) (body : A → MW unit) :
  (∀ v, R v v) → (∀ a b c, R a b → R b c → R a c) →
  (∀ x v, x ∈ l →
          R v (w_whole_of (body x v)) ∧ Forall O (w_out_of (body x v))
          ∧ (w_result_of (body x v) = Ok tt
             ∨ ∃ e, w_result_of (body x v) = Raise e ∧ bad x v e)) →
  ∀ v, R v (w_whole_of (w_for_each l body v))
       ∧ Forall O (w_out_of (w_for_each l body v))
       ∧ (w_result_of (w_for_each l body v) = Ok tt
          ∨ ∃ e x u, w_result_of (w_for_each l body v) = Raise e
                     ∧ x ∈ l ∧ R v u ∧ bad x u e).
Proof.
  intros Hrefl Htrans Hbody. induction l as [|x l IH]; intros v.
  - split; [apply Hrefl|]. split; [constructor|]. left. reflexivity.
  - assert (Hbody' : ∀ y u, y ∈ l →
              R u (w_whole_of (body y u)) ∧ Forall O (w_out_of (body y u))
              ∧ (w_result_of (body y u) = Ok tt
                 ∨ ∃ e, w_result_of (body y u) = Raise e ∧ bad y u e)).
    { intros y u Hy. apply Hbody, elem_of_cons. right. exact Hy. }
    specialize (IH Hbody').
    cbn [w_for_each]. unfold mbind, MW_bind, w_bind.
    destruct (Hbody x v) as (HR & HO & Hres);
      [apply elem_of_cons; left; reflexivity|].
    destruct (body x v) as [[r v1] o1]. cbn [w_whole_of w_out_of w_result_of fst snd] in *.
    destruct Hres as [-> | (e & -> & Hbad)].
    + destruct (IH v1) as (HR2 & HO2 & Hres2).
      destruct (w_for_each l body v1) as [[r2 v2] o2].
      cbn [w_whole_of w_out_of w_result_of fst snd] in *.
      split; [eapply Htrans; eassumption|].
      split; [apply Forall_app; split; assumption|].
      destruct Hres2 as [-> | (e & y & u & -> & Hy & Hu & Hbad)]; [left; reflexivity|].
      right. exists e, y, u. split; [reflexivity|].
      split; [apply elem_of_cons; right; exact Hy|].
      split; [eapply Htrans; eassumption|exact Hbad].
    + cbn [w_whole_of w_out_of w_result_of fst snd].
      split; [exact HR|]. split; [exact HO|].
      right. exists e, x, v. split; [reflexivity|].
      split; [apply elem_of_cons; left; reflexivity|]. split; [apply Hrefl|exact Hbad].
Qed.

Lemma hid_kept_refl (w : Whole) : hid_kept sensor_default w w.
Proof. repeat split. Qed.

Lemma hid_kept_trans (a b c : Whole) :
  hid_kept sensor_default a b → hid_kept sensor_default b c → hid_kept sensor_default a c.
Proof.
  intros (Hab & Hab' & Hab'') (Hbc & Hbc' & Hbc''). split; [congruence|]. split.
  - intros k Hk. rewrite Hbc', Hab' by congruence. reflexivity.
  - intros k. rewrite Hbc''. apply Hab''.
Qed.

Lemma asked_profiles_touch (k elem : stream_index_pair) (w : Whole) :
  asked_profiles sensor_default
    (with_rest (set_sensors (touch sensor_default k (_sensors (rest w))) (rest w)) w) elem
  = asked_profiles sensor_default w elem.
Proof.
  unfold asked_profiles. cbn [rest with_rest set_sensors _sensors].
  rewrite at_default_touch. reflexivity.
Qed.

(** The body of the loop "Streaming HID" emits nothing and returns, unless
    the sensor of an enabled stream raises when it is asked its profiles. *)
Lemma enable_hid_stream_run (elem : stream_index_pair) (w : Whole) :
  hid_kept sensor_default w (w_whole_of (enable_hid_stream sensor_default elem w))
  ∧ Forall (λ _, False) (w_out_of (enable_hid_stream sensor_default elem w))
  ∧ (w_result_of (enable_hid_stream sensor_default elem w) = Ok tt
     ∨ ∃ e, w_result_of (enable_hid_stream sensor_default elem w) = Raise e
            ∧ at_default false (_enable (desc (core w))) elem = true
            ∧ asked_profiles sensor_default w elem = inl e).
Proof.
  unfold enable_hid_stream. rewrite w_run_core_gets.
  destruct (at_default false (_enable (desc (core w))) elem) eqn:Henabled;
    cbn [w_when].
  - rewrite w_run_sensor_at.
    pose proof (asked_profiles_touch elem) as Htouch.
    unfold asked_profiles.
    destruct (sensor_stream_profiles (at_default sensor_default (_sensors (rest w)) elem))
      as [e|profiles] eqn:Hasked; cbn [w_lift].
    + cbn. split; [|split; [constructor|]].
      * split; [reflexivity|]. split; [reflexivity|]. intros k. apply Htouch.
      * right. exists e. repeat split.
    + rewrite w_run_ret, w_run_core_gets.
      cbn [core rest with_rest with_core].
      destruct (List.find _ _) as [profile|].
      * unfold in_core, modify. cbn. split; [|split; [constructor|left; reflexivity]].
        split; [reflexivity|]. split; [|intros k; apply Htouch].
        intros k Hk. apply lookup_insert_ne. intros ->. congruence.
      * cbn. split; [|split; [constructor|left; reflexivity]].
        split; [reflexivity|]. split; [reflexivity|]. intros k. apply Htouch.
  - cbn. split; [apply hid_kept_refl|]. split; [constructor|left; reflexivity].
Qed.

Lemma hid_loop_run (w : Whole) :
  let run := w_for_each HID_STREAMS
               (λ streams, w_for_each streams (enable_hid_stream sensor_default)) w in
  hid_kept sensor_default w (w_whole_of run)
  ∧ w_out_of run = []
  ∧ (w_result_of run = Ok tt
     ∨ ∃ e elem, w_result_of run = Raise e ∧ elem ∈ concat HID_STREAMS
                 ∧ at_default false (_enable (desc (core w))) elem = true
                 ∧ asked_profiles sensor_default w elem = inl e).
Proof.
  intros run.
  destruct (w_for_each_outcome (hid_kept sensor_default) (λ _, False)
              (λ streams v e, ∃ elem, elem ∈ streams
                 ∧ at_default false (_enable (desc (core v))) elem = true
                 ∧ asked_profiles sensor_default v elem = inl e)
              HID_STREAMS
              (λ streams, w_for_each streams (enable_hid_stream sensor_default))
              hid_kept_refl hid_kept_trans) with (v := w) as (HR & HO & Hres).
  { intros streams v _.
    destruct (w_for_each_outcome (hid_kept sensor_default) (λ _, False)
                (λ elem u e, at_default false (_enable (desc (core u))) elem = true
                             ∧ asked_profiles sensor_default u elem = inl e)
                streams (enable_hid_stream sensor_default)
                hid_kept_refl hid_kept_trans) with (v := v) as (HR & HO & Hres).
    { intros elem u _. apply enable_hid_stream_run. }
    split; [exact HR|]. split; [exact HO|].
    destruct Hres as [Hok | (e & elem & u & Hraise & Hin & (Hd & _ & Ha) & Hen & Hask)];
      [left; exact Hok|].
    right. exists e. split; [exact Hraise|]. exists elem. split; [exact Hin|].
    rewrite <- Hd, <- Ha. split; assumption. }
  fold run in HR, HO, Hres. split; [exact HR|]. split.
  { destruct (w_out_of run) as [|a o]; [reflexivity|].
    apply Forall_cons in HO as [[] _]. }
  destruct Hres
    as [Hok | (e & streams & u & Hraise & Hin & (Hd & _ & Ha) & elem & Hel & Hen & Hask)];
    [left; exact Hok|].
  right. exists e, elem. split; [exact Hraise|].
  split; [apply elem_of_concat; exists streams; split; assumption|].
  rewrite <- Hd, <- Ha. split; assumption.
Qed.

(** The motion module is started only when gyro and accel both have an
    enabled profile. When one of the two is disabled and has no profile,
    the loop over the HID streams and the start of the motion module do
    nothing that shows, also when the other stream is enabled: no sensor is
    opened or started and no IMU info is published. They end normally when
    the sensors of the enabled HID streams answer their profiles, and else
    in the exception of such a sensor. *)
Theorem stream_imu_needs_both (dev : Device) (sdk : Sdk) (missing : stream_index_pair)
    (w : Whole) :
  missing = GYRO ∨ missing = ACCEL →
  at_default false (_enable (desc (core w))) missing = false →
  _enabled_profiles (core w) !! missing = None →
  let run :=
    (w_for_each HID_STREAMS
       (λ streams, w_for_each streams (enable_hid_stream sensor_default));;
     stream_imu sensor_default dev sdk) w in
  w_out_of run = []
  ∧ (w_result_of run = Ok tt
     ∨ ∃ e elem, w_result_of run = Raise e ∧ elem ∈ concat HID_STREAMS
                 ∧ at_default false (_enable (desc (core w))) elem = true
                 ∧ asked_profiles sensor_default w elem = inl e)
  ∧ ((∀ elem, elem ∈ concat HID_STREAMS →
              at_default false (_enable (desc (core w))) elem = true →
              ∃ profiles, asked_profiles sensor_default w elem = inr profiles) →
     w_result_of run = Ok tt).
Proof.
  intros Hmissing Hdisabled Hnone run.
  assert (Hrun : w_out_of run = []
                 ∧ (w_result_of run = Ok tt
                    ∨ ∃ e elem, w_result_of run = Raise e ∧ elem ∈ concat HID_STREAMS
                                ∧ at_default false (_enable (desc (core w))) elem = true
                                ∧ asked_profiles sensor_default w elem = inl e)).
  { destruct (hid_loop_run w) as ((Hdesc & Hkept & _) & Hout & Hres).
    unfold run, mbind, MW_bind, w_bind.
    destruct (w_for_each HID_STREAMS _ w) as [[r w1] o1].
    cbn [w_whole_of w_out_of w_result_of fst snd] in *. subst o1.
    destruct Hres as [-> | (e & elem & -> & Hrest)].
    - specialize (Hkept missing Hdisabled). rewrite Hnone in Hkept.
      assert (Himu : stream_imu sensor_default dev sdk w1 = (Ok tt, w1, [])).
      { unfold stream_imu. rewrite w_run_core_gets.
        destruct Hmissing as [-> | ->]; rewrite Hkept.
        - reflexivity.
        - destruct (_enabled_profiles (core w1) !! GYRO); reflexivity. }
      rewrite Himu. cbn. split; [reflexivity|left; reflexivity].
    - cbn. split; [reflexivity|]. right. exists e, elem. split; [reflexivity|exact Hrest]. }
  destruct Hrun as [Hout Hres]. split; [exact Hout|]. split; [exact Hres|].
  intros Hanswer. destruct Hres as [Hok | (e & elem & _ & Hin & Hen & Hask)]; [exact Hok|].
  destruct (Hanswer elem Hin Hen) as [profiles Hp]. congruence.
Qed.


(** ** enable_devices on the sensors of the node *)

Lemma negotiation_kept_refl (S : list stream_index_pair) (w : Whole) :
  negotiation_kept sensor_default S w w.
Proof. repeat split. Qed.

Lemma negotiation_kept_trans (S : list stream_index_pair) (a b c : Whole) :
  negotiation_kept sensor_default S a b → negotiation_kept sensor_default S b c →
  negotiation_kept sensor_default S a c.
Proof.
  intros (Hp1 & Ha1 & Hv1) (Hp2 & Ha2 & Hv2). split; [congruence|]. split.
  - intros k. rewrite Ha2. apply Ha1.
  - intros k Hk. rewrite <- (Hv1 k Hk). apply Hv2.
    destruct Hk as [Hk | Hk]; [left|right; exact Hk].
    specialize (Hv1 k (or_introl Hk)). unfold stream_view, at_default in *.
    injection Hv1 as _ _ _ _ Hen _. rewrite Hen. exact Hk.
Qed.

(** What [enable_devices] logs: lines about the negotiation of a stream. *)
Lemma negotiation_lines (elem : stream_index_pair) (out : list effect) :
  Forall (λ e, effect_stream e = Some elem) out →
  Forall (λ a, ∃ x k, a = core_effect x ∧ effect_stream x = Some k)
    (map core_effect out).
Proof.
  induction 1 as [|x out Hx _ IH]; cbn [map]; constructor; [|exact IH].
  exists x, elem. split; [reflexivity|exact Hx].
Qed.

(** The statements of [enable_devices] for one stream end normally, unless
    the sensor of the stream, which is enabled, raises when it is asked its
    profiles; they log negotiation lines only. *)
Lemma enable_stream_of_sensor_run (S : list stream_index_pair)
    (elem : stream_index_pair) (w : Whole) :
  elem ∈ S →
  negotiation_kept sensor_default S w
    (w_whole_of (enable_stream_of_sensor sensor_default elem w))
  ∧ Forall (λ a, ∃ x k, a = core_effect x ∧ effect_stream x = Some k)
      (w_out_of (enable_stream_of_sensor sensor_default elem w))
  ∧ (w_result_of (enable_stream_of_sensor sensor_default elem w) = Ok tt
     ∨ ∃ e, w_result_of (enable_stream_of_sensor sensor_default elem w) = Raise e
            ∧ at_default false (_enable (desc (core w))) elem = true
            ∧ asked_profiles sensor_default w elem = inl e).
Proof.
  intros Hin. unfold enable_stream_of_sensor. rewrite w_run_core_gets.
  destruct (at_default false (_enable (desc (core w))) elem) eqn:Henabled;
    cbn [w_when].
  - rewrite w_run_sensor_at.
    pose proof (asked_profiles_touch elem) as Htouch.
    unfold asked_profiles.
    destruct (sensor_stream_profiles (at_default sensor_default (_sensors (rest w)) elem))
      as [e|profiles] eqn:Hasked; cbn [w_lift].
    + cbn. split; [|split; [constructor|]].
      * split; [reflexivity|]. split; [intros k; apply Htouch|]. intros k _. reflexivity.
      * right. exists e. repeat split.
    + rewrite w_run_ret.
      match goal with
      | |- context [in_core _ ?v] => set (w0 := v)
      end.
      destruct (enable_stream_others (λ _, profiles) elem (core w0))
        as (n' & out & Hrun & Hp & _ & _ & _ & _ & Hview & Hout).
      unfold in_core. rewrite Hrun. cbn [w_whole_of w_out_of w_result_of fst snd].
      split; [|split; [exact (negotiation_lines elem out Hout)|left; reflexivity]].
      split; [exact Hp|]. split; [intros k; apply Htouch|].
      intros k Hk. cbn [core with_core]. apply Hview.
      destruct Hk as [Hk | Hk]; [left; exact Hk|].
      right. intros ->. contradiction.
  - cbn. split; [apply negotiation_kept_refl|]. split; [constructor|left; reflexivity].
Qed.

(** [enable_devices], on the sensors of the node: it ends normally, unless
    the sensor of an enabled image stream raises when it is asked its
    profiles, and then in that exception. *)
Lemma enable_devices_on_sensors_run (w : Whole) :
  let run := enable_devices_on_sensors IMAGE_STREAMS sensor_default w in
  negotiation_kept sensor_default (concat IMAGE_STREAMS) w (w_whole_of run)
  ∧ Forall (λ a, ∃ x k, a = core_effect x ∧ effect_stream x = Some k) (w_out_of run)
  ∧ (w_result_of run = Ok tt
     ∨ ∃ e elem, w_result_of run = Raise e ∧ elem ∈ concat IMAGE_STREAMS
                 ∧ at_default false (_enable (desc (core w))) elem = true
                 ∧ asked_profiles sensor_default w elem = inl e).
Proof.
  intros run.
  set (S := concat IMAGE_STREAMS).
  destruct (w_for_each_outcome (negotiation_kept sensor_default S)
              (λ a, ∃ x k, a = core_effect x ∧ effect_stream x = Some k)
              (λ streams v e, ∃ elem, elem ∈ S
                 ∧ at_default false (_enable (desc (core v))) elem = true
                 ∧ asked_profiles sensor_default v elem = inl e)
              IMAGE_STREAMS
              (λ streams, w_for_each streams (enable_stream_of_sensor sensor_default))
              (negotiation_kept_refl S) (negotiation_kept_trans S))
    with (v := w) as (HR & HO & Hres).
  { intros streams v Hstreams.
    destruct (w_for_each_outcome (negotiation_kept sensor_default S)
                (λ a, ∃ x k, a = core_effect x ∧ effect_stream x = Some k)
                (λ elem u e, elem ∈ S
                   ∧ at_default false (_enable (desc (core u))) elem = true
                   ∧ asked_profiles sensor_default u elem = inl e)
                streams (enable_stream_of_sensor sensor_default)
                (negotiation_kept_refl S) (negotiation_kept_trans S))
      with (v := v) as (HR & HO & Hres).
    { intros elem u Helem.
      assert (Hin : elem ∈ S).
      { apply elem_of_concat. exists streams. split; assumption. }
      destruct (enable_stream_of_sensor_run S elem u Hin) as (HR & HO & Hres).
      split; [exact HR|]. split; [exact HO|].
      destruct Hres as [Hok | (e & Hraise & Hen & Hask)]; [left; exact Hok|].
      right. exists e. repeat split; assumption. }
    split; [exact HR|]. split; [exact HO|].
    destruct Hres as [Hok | (e & elem & u & Hraise & _ & (_ & Ha & Hv) & Hin & Hen & Hask)];
      [left; exact Hok|].
    right. exists e. split; [exact Hraise|]. exists elem. split; [exact Hin|].
    rewrite <- Ha. split; [|exact Hask].
    destruct (at_default false (_enable (desc (core v))) elem) eqn:Hv0; [reflexivity|].
    specialize (Hv elem (or_introl Hv0)). unfold stream_view, at_default in *.
    injection Hv as _ _ _ _ Hx _. rewrite Hx, Hv0 in Hen. discriminate. }
  unfold run, enable_devices_on_sensors, mbind, MW_bind, w_bind.
  destruct (w_for_each IMAGE_STREAMS _ w) as [[r w1] o1].
  cbn [w_whole_of w_out_of w_result_of fst snd] in *.
  destruct Hres as [-> | (e & streams & u & -> & _ & (_ & Ha & Hv) & elem & Hin & Hen & Hask)].
  - unfold in_core, create_aligned_images, mbind, M_bind, bind, gets, when, modify, ret.
    destruct HR as (Hp & Hasked & Hview).
    destruct (_align_depth (params (core w1))); cbn [fst snd app map];
      rewrite app_nil_r; (split; [|split; [exact HO|left; reflexivity]]);
      (split; [exact Hp|]); (split; [exact Hasked|exact Hview]).
  - split; [exact HR|]. split; [exact HO|].
    right. exists e, elem. split; [reflexivity|]. split; [exact Hin|].
    rewrite <- Ha. split; [|exact Hask].
    destruct (at_default false (_enable (desc (core w))) elem) eqn:Hv0; [reflexivity|].
    specialize (Hv elem (or_introl Hv0)). unfold stream_view, at_default in *.
    injection Hv as _ _ _ _ Hx _. rewrite Hx, Hv0 in Hen. discriminate.
Qed.

(** On the sensors of the node, [enable_devices] never turns a stream on,
    whether it returns or raises: a stream that is enabled afterwards was
    enabled before. It leaves the parameters, and it leaves as they were
    the format, size, rate, enable flag and profiles of every stream that
    was disabled or is not an image stream. It logs lines about the
    negotiation of a stream only. It ends normally when the sensors of the
    enabled image streams answer their profiles, and else in the exception
    of such a sensor. *)
Theorem enable_devices_only_disables (w : Whole) :
  let run := enable_devices_on_sensors IMAGE_STREAMS sensor_default w in
  let n := core w in
  let n' := core (w_whole_of run) in
  params n' = params n
  ∧ (∀ e, at_default false (_enable (desc n')) e = true →
          at_default false (_enable (desc n)) e = true)
  ∧ (∀ e, at_default false (_enable (desc n)) e = false ∨ e ∉ concat IMAGE_STREAMS →
          stream_view n' e = stream_view n e)
  ∧ Forall (λ a, ∃ x k, a = core_effect x ∧ effect_stream x = Some k) (w_out_of run)
  ∧ (w_result_of run = Ok tt
     ∨ ∃ ex elem, w_result_of run = Raise ex ∧ elem ∈ concat IMAGE_STREAMS
                  ∧ at_default false (_enable (desc n)) elem = true
                  ∧ asked_profiles sensor_default w elem = inl ex)
  ∧ ((∀ elem, elem ∈ concat IMAGE_STREAMS →
              at_default false (_enable (desc n)) elem = true →
              ∃ profiles, asked_profiles sensor_default w elem = inr profiles) →
     w_result_of run = Ok tt).
Proof.
  intros run n n'.
  destruct (enable_devices_on_sensors_run w) as ((Hp & _ & Hview) & Hout & Hres).
  fold run in Hp, Hview, Hout, Hres. fold n n' in Hp, Hview.
  split; [exact Hp|]. split.
  { intros e He. destruct (at_default false (_enable (desc n)) e) eqn:Hen; [reflexivity|].
    specialize (Hview e (or_introl Hen)). unfold stream_view, at_default in *.
    injection Hview as _ _ _ _ Hx _. rewrite Hx, Hen in He. discriminate. }
  split; [exact Hview|]. split; [exact Hout|]. split; [exact Hres|].
  intros Hanswer. destruct Hres as [Hok | (ex & elem & _ & Hin & Hen & Hask)]; [exact Hok|].
  destruct (Hanswer elem Hin Hen) as [profiles Hprofiles]. congruence.
Qed.

(** A loop of the set-up whose body runs a member function of [Node] runs
    the loop of that function. *)
Lemma w_for_each_in_core {A} (J : Whole → Prop) (l : list A) (body : A → MW unit)
    (f : A → M unit) :
  (∀ x v, x ∈ l → J v →
     w_result_of (body x v) = result_of (f x (core v))
     ∧ core (w_whole_of (body x v)) = node_of (f x (core v))
     ∧ w_out_of (body x v) = map core_effect (out_of (f x (core v)))
     ∧ J (w_whole_of (body x v))) →
  ∀ v, J v →
    w_result_of (w_for_each l body v) = result_of (for_each l f (core v))
    ∧ core (w_whole_of (w_for_each l body v)) = node_of (for_each l f (core v))
    ∧ w_out_of (w_for_each l body v) = map core_effect (out_of (for_each l f (core v)))
    ∧ J (w_whole_of (w_for_each l body v)).
Proof.
  induction l as [|x l IH]; intros Hbody v HJ.
  - repeat split. exact HJ.
  - assert (Hbody' : ∀ y u, y ∈ l → J u →
              w_result_of (body y u) = result_of (f y (core u))
              ∧ core (w_whole_of (body y u)) = node_of (f y (core u))
              ∧ w_out_of (body y u) = map core_effect (out_of (f y (core u)))
              ∧ J (w_whole_of (body y u))).
    { intros y u Hy. apply Hbody, elem_of_cons. right. exact Hy. }
    specialize (IH Hbody').
    destruct (Hbody x v) as (Hr & Hn & Ho & HJ1);
      [apply elem_of_cons; left; reflexivity|exact HJ|].
    cbn [w_for_each for_each]. unfold mbind, MW_bind, w_bind, M_bind, bind.
    destruct (body x v) as [[r v1] o1]. destruct (f x (core v)) as [[r' n1] o1'].
    unfold w_result_of, w_whole_of, w_out_of, result_of, node_of, out_of in *.
    cbn [fst snd] in *. subst r' n1 o1.
    destruct r as [[]|e|why|why]; cbn [fst snd]; try (repeat split; exact HJ1).
    destruct (IH v1 HJ1) as (Hr2 & Hn2 & Ho2 & HJ2).
    destruct (w_for_each l body v1) as [[r2 v2] o2].
    destruct (for_each l f (core v1)) as [[r2' n2] o2'].
    cbn [fst snd] in *. subst r2' n2 o2. rewrite map_app. repeat split. exact HJ2.
Qed.

(** Where the sensors of the enabled image streams answer the profiles
    [hw], [enable_devices] on the sensors of the node is [enable_devices]
    on [hw]: same result, same node, same lines. *)
Lemma enable_devices_on_sensors_answered (hw : stream_index_pair → list stream_profile)
    (w : Whole) :
  (∀ elem, elem ∈ concat IMAGE_STREAMS →
           at_default false (_enable (desc (core w))) elem = true →
           asked_profiles sensor_default w elem = inr (hw elem)) →
  w_result_of (enable_devices_on_sensors IMAGE_STREAMS sensor_default w)
  = result_of (enable_devices IMAGE_STREAMS hw (core w))
  ∧ core (w_whole_of (enable_devices_on_sensors IMAGE_STREAMS sensor_default w))
    = node_of (enable_devices IMAGE_STREAMS hw (core w))
  ∧ w_out_of (enable_devices_on_sensors IMAGE_STREAMS sensor_default w)
    = map core_effect (out_of (enable_devices IMAGE_STREAMS hw (core w))).
Proof.
  intros Hanswer.
  set (J := λ v : Whole,
         (∀ k, asked_profiles sensor_default v k = asked_profiles sensor_default w k)
         ∧ ∀ k, at_default false (_enable (desc (core v))) k = true →
                at_default false (_enable (desc (core w))) k = true).
  assert (Hstream : ∀ elem v, elem ∈ concat IMAGE_STREAMS → J v →
            w_result_of (enable_stream_of_sensor sensor_default elem v)
            = result_of (enable_stream hw elem (core v))
            ∧ core (w_whole_of (enable_stream_of_sensor sensor_default elem v))
              = node_of (enable_stream hw elem (core v))
            ∧ w_out_of (enable_stream_of_sensor sensor_default elem v)
              = map core_effect (out_of (enable_stream hw elem (core v)))
            ∧ J (w_whole_of (enable_stream_of_sensor sensor_default elem v))).
  { intros elem v Hin [Hask Hen].
    assert (HJ' : J (w_whole_of (enable_stream_of_sensor sensor_default elem v))).
    { destruct (enable_stream_of_sensor_run [elem] elem v) as ((_ & Ha & Hv) & _);
        [apply list_elem_of_singleton; reflexivity|].
      split; [intros k; rewrite Ha; apply Hask|].
      intros k Hk. apply Hen.
      destruct (at_default false (_enable (desc (core v))) k) eqn:Hv0; [reflexivity|].
      specialize (Hv k (or_introl Hv0)). unfold stream_view, at_default in *.
      injection Hv as _ _ _ _ Hx _. rewrite Hx, Hv0 in Hk. discriminate. }
    split; [|split; [|split; [|exact HJ']]]; clear HJ';
      unfold enable_stream_of_sensor; rewrite w_run_core_gets;
      destruct (at_default false (_enable (desc (core v))) elem) eqn:Henabled;
      cbn [w_when];
      try (rewrite w_run_sensor_at;
           pose proof (Hanswer elem Hin (Hen elem Henabled)) as Hhw;
           rewrite <- Hask in Hhw; unfold asked_profiles in Hhw; rewrite Hhw;
           cbn [w_lift]; rewrite w_run_ret; unfold in_core;
           cbn [core with_rest];
           change (enable_stream (λ _, hw elem) elem (core v))
             with (enable_stream hw elem (core v));
           destruct (enable_stream hw elem (core v)) as [[r n'] o]; reflexivity);
      destruct (enable_stream_run hw elem (core v))
        as (n' & o & Hrun & _ & _ & _ & _ & Hdis & _);
      destruct (Hdis Henabled) as [-> ->]; rewrite Hrun; reflexivity. }
  assert (HJ : J w) by (split; intros k; auto).
  destruct (w_for_each_in_core J IMAGE_STREAMS
              (λ streams, w_for_each streams (enable_stream_of_sensor sensor_default))
              (λ streams, for_each streams (enable_stream hw))) with (v := w)
    as (Hr & Hn & Ho & _); [|exact HJ|].
  { intros streams v Hstreams HJv.
    apply (w_for_each_in_core J streams); [|exact HJv].
    intros elem u Helem. apply Hstream.
    apply elem_of_concat. exists streams. split; assumption. }
  unfold enable_devices_on_sensors.
  change (enable_devices IMAGE_STREAMS hw (core w))
    with ((for_each IMAGE_STREAMS (λ streams, for_each streams (enable_stream hw));;
           create_aligned_images) (core w)).
  unfold mbind, MW_bind, w_bind, M_bind, bind.
  destruct (w_for_each IMAGE_STREAMS _ w) as [[r v1] o1].
  destruct (for_each IMAGE_STREAMS _ (core w)) as [[r' n1] o1'].
  unfold w_result_of, w_whole_of, w_out_of, result_of, node_of, out_of in *.
  cbn [fst snd] in *. subst r' n1 o1.
  destruct r as [[]|e|why|why]; cbn [fst snd]; try (repeat split; reflexivity).
  unfold in_core. destruct (create_aligned_images (core v1)) as [[r2 n2] o2].
  cbn [fst snd core with_core]. rewrite map_app. repeat split.
Qed.

Lemma enable_devices_on_sensors_no_depth :
  w_preserves (λ w, no_depth (core w))
    (enable_devices_on_sensors IMAGE_STREAMS sensor_default).
Proof.
  intros w r w1 o [Hp He] Hrun.
  destruct (enable_devices_on_sensors_run w) as ((_ & _ & Hview) & _).
  rewrite Hrun in Hview. cbn [w_whole_of fst snd] in Hview.
  specialize (Hview DEPTH (or_introl He)). unfold stream_view in Hview.
  injection Hview as _ _ _ _ Hen Hep.
  split; unfold at_default in *; [rewrite Hep; exact Hp | rewrite Hen; exact He].
Qed.


(** ** Extrinsics and IMU info *)

Lemma rsExtrinsicsToMsg_run (extrinsics : rs2_extrinsics) (frame_id : string)
    (w : Whole) :
  length (ext_rotation extrinsics) = 9%nat →
  length (ext_translation extrinsics) = 3%nat →
  rsExtrinsicsToMsg extrinsics frame_id w
  = (Ok {| ex_frame_id := frame_id;
           ex_rotation := map double_of_float (ext_rotation extrinsics);
           ex_translation := map double_of_float (ext_translation extrinsics) |},
     w, []).
Proof.
  destruct extrinsics as [rot tr]. cbn [ext_rotation ext_translation].
  intros Hrot Htr.
  destruct rot as [|r0 rot]; [discriminate|]. injection Hrot as Hrot.
  list_of_length rot.
  destruct tr as [|t0 tr]; [discriminate|]. injection Htr as Htr.
  list_of_length tr.
  reflexivity.
Qed.

Lemma front_profile_run (k : stream_index_pair) (n : Node) :
  front_profile k n
  = (match at_default [] (_enabled_profiles n) k with
     | profile :: _ => Ok profile
     | [] => Undefined "front() of an empty vector"
     end,
     with_enabled_profiles (touch [] k (_enabled_profiles n)) n, []).
Proof.
  unfold front_profile. rewrite run_gets, run_modify.
  destruct (at_default [] (_enabled_profiles n) k); reflexivity.
Qed.


Lemma w_run_front_profile {B} (k : stream_index_pair) (h : stream_profile → MW B)
    (w : Whole) :
  (in_core (front_profile k) ≫= h) w
  = match at_default [] (_enabled_profiles (core w)) k with
    | profile :: _ =>
        h profile
          (with_core (with_enabled_profiles (touch [] k (_enabled_profiles (core w)))
                        (core w)) w)
    | [] =>
        (Undefined "front() of an empty vector",
         with_core (with_enabled_profiles (touch [] k (_enabled_profiles (core w)))
                      (core w)) w, [])
    end.
Proof.
  pose proof (front_profile_run k (core w)) as Hrun.
  destruct (at_default [] (_enabled_profiles (core w)) k) as [|profile profiles].
  - apply w_bind_Undefined. exact (in_core_run _ _ _ _ _ Hrun).
  - apply w_run_core. exact Hrun.
Qed.

(** The extrinsics from depth to another stream, both enabled. With an
    enabled profile for each of the two, the SDK is asked for the
    extrinsics from the first depth profile to the first profile of the
    stream, they are recorded under the stream, and one message goes to
    the stream's extrinsics publisher: the nine rotation entries and the
    three translation entries, widened to doubles, in the same order.
    When one of the two streams has no enabled profile, the result is not
    defined and nothing is published. *)
Theorem publish_depth_extrinsics_publishes (sdk : Sdk) (stream : stream_index_pair)
    (frame_id : string) (w : Whole) :
  at_default false (_enable (desc (core w))) DEPTH = true →
  at_default false (_enable (desc (core w))) stream = true →
  (∀ depth_profile depth_others profile others ex,
     at_default [] (_enabled_profiles (core w)) DEPTH = depth_profile :: depth_others →
     at_default [] (_enabled_profiles (core w)) stream = profile :: others →
     get_extrinsics_to sdk depth_profile profile = inr ex →
     length (ext_rotation ex) = 9%nat →
     length (ext_translation ex) = 3%nat →
     w_result_of (publish_depth_extrinsics sdk stream frame_id w) = Ok tt
     ∧ w_out_of (publish_depth_extrinsics sdk stream frame_id w)
       = [publish_extrinsics
            (at_default None (_depth_to_other_extrinsics_publishers (rest w)) stream)
            {| ex_frame_id := frame_id;
               ex_rotation := map double_of_float (ext_rotation ex);
               ex_translation := map double_of_float (ext_translation ex) |}]
     ∧ _depth_to_other_extrinsics
         (rest (w_whole_of (publish_depth_extrinsics sdk stream frame_id w))) !! stream
       = Some ex)
  ∧ (at_default [] (_enabled_profiles (core w)) DEPTH = []
     ∨ at_default [] (_enabled_profiles (core w)) stream = [] →
     w_result_of (publish_depth_extrinsics sdk stream frame_id w)
     = Undefined "front() of an empty vector"
     ∧ w_out_of (publish_depth_extrinsics sdk stream frame_id w) = []).
Proof.
  intros Hdepth Hstream.
  unfold publish_depth_extrinsics.
  rewrite !w_run_core_gets, Hdepth, Hstream. cbn [andb w_when].
  unfold getRsExtrinsics. rewrite !w_bind_assoc, w_run_front_profile.
  split.
  - intros depth_profile depth_others profile others ex Hdp Hp Hex Hrot Htr.
    rewrite Hdp. cbv beta iota. rewrite !w_bind_assoc, w_run_front_profile.
    cbn [core with_core with_enabled_profiles _enabled_profiles].
    rewrite at_default_touch, Hp, Hex. cbn [w_lift].
    rewrite w_run_ret, w_run_modify, w_run_gets, w_run_modify.
    cbn [rest with_rest with_core set_extrinsics set_extrinsics_publishers
         _depth_to_other_extrinsics_publishers].
    erewrite w_bind_Ok;
      [|apply (rsExtrinsicsToMsg_run ex frame_id _ Hrot Htr)|reflexivity].
    unfold w_result_of, w_whole_of, w_out_of.
    cbn [fst snd app rest with_rest with_core set_extrinsics set_extrinsics_publishers
         _depth_to_other_extrinsics].
    repeat split. apply lookup_insert_eq.
  - intros [Hdp | Hp].
    + rewrite Hdp. split; reflexivity.
    + destruct (at_default [] (_enabled_profiles (core w)) DEPTH) as [|dp dps].
      { split; reflexivity. }
      cbv beta iota. rewrite !w_bind_assoc, w_run_front_profile.
      cbn [core with_core with_enabled_profiles _enabled_profiles].
      rewrite at_default_touch, Hp. split; reflexivity.
Qed.


(** [getImuInfo] for a stream with an enabled profile whose motion
    intrinsics the SDK gives: the message carries the 3x4 matrix row by
    row in [data], and the noise and bias variances, all widened to
    doubles; the frame id is "imu_gyro" for the gyro and "imu_accel" for
    the accelerometer. Nothing is emitted. *)
Theorem getImuInfo_flattens (sdk : Sdk) (stream_index : stream_index_pair)
    (sp : stream_profile) (others : list stream_profile)
    (imuIntrinsics : rs2_motion_device_intrinsic) (w : Whole) :
  at_default [] (_enabled_profiles (core w)) stream_index = sp :: others →
  get_motion_intrinsics sdk sp = inr imuIntrinsics →
  length (mi_data imuIntrinsics) = 3%nat →
  Forall (λ row, length row = 4%nat) (mi_data imuIntrinsics) →
  length (mi_noise_variances imuIntrinsics) = 3%nat →
  length (mi_bias_variances imuIntrinsics) = 3%nat →
  w_result_of (getImuInfo sdk stream_index w)
  = Ok {| ii_frame_id :=
            if bool_decide (GYRO = stream_index) then "imu_gyro"
            else if bool_decide (ACCEL = stream_index) then "imu_accel" else "";
          ii_data := map double_of_float (concat (mi_data imuIntrinsics));
          ii_noise_variances :=
            map double_of_float (mi_noise_variances imuIntrinsics);
          ii_bias_variances :=
            map double_of_float (mi_bias_variances imuIntrinsics) |}
  ∧ w_out_of (getImuInfo sdk stream_index w) = [].
Proof.
  intros Hsp Hmi Hdata Hrows Hnoise Hbias.
  unfold getImuInfo. rewrite w_run_front_profile, Hsp, Hmi. cbn [w_lift].
  rewrite w_run_ret.
  destruct imuIntrinsics as [data noise bias].
  cbn [mi_data mi_noise_variances mi_bias_variances] in *.
  destruct data as [|row0 data]; [discriminate|]. injection Hdata as Hdata.
  list_of_length data.
  destruct noise as [|n0 noise]; [discriminate|]. injection Hnoise as Hnoise.
  list_of_length noise.
  destruct bias as [|b0 bias]; [discriminate|]. injection Hbias as Hbias.
  list_of_length bias.
  apply Forall_cons in Hrows as [H0 Hrows]. apply Forall_cons in Hrows as [H1 Hrows].
  apply Forall_cons in Hrows as [H2 _].
  destruct row0 as [|a0 row0]; [discriminate|]. injection H0 as H0.
  list_of_length row0.
  destruct x as [|a1 row1]; [discriminate|]. injection H1 as H1.
  list_of_length row1.
  destruct x0 as [|a2 row2]; [discriminate|]. injection H2 as H2.
  list_of_length row2.
  split; reflexivity.
Qed.


(** ** Static transforms *)

Lemma w_run_optical_frame_id_at {B} (k : stream_index_pair) (h : string → MW B)
    (w : Whole) :
  (optical_frame_id_at k ≫= h) w
  = h (at_default "" (_optical_frame_id (params (core w))) k)
      (with_core
         (with_params (set_optical_frame_id
                         (touch "" k (_optical_frame_id (params (core w))))
                         (params (core w))) (core w)) w).
Proof.
  unfold optical_frame_id_at.
  rewrite w_bind_assoc, w_run_core_gets, w_bind_assoc, w_run_core_modify, w_run_ret.
  reflexivity.
Qed.

Lemma w_run_publish_static_tf {B} (t : Time) (x y z : float) (q : quaternion)
    (from to : string) (k : unit → MW B) (w : Whole) :
  (publish_static_tf t (x, y, z) q from to ≫= k) w
  = (w_result_of (k tt w), w_whole_of (k tt w),
     sendTransform
       {| tf_stamp := t; tf_frame_id := from; tf_child_frame_id := to;
          tf_translation :=
            (double_of_float z, double_of_float (SFopp x), double_of_float (SFopp y));
          tf_rotation := q |} :: w_out_of (k tt w)).
Proof. unfold publish_static_tf. apply w_run_emit. Qed.

(** [publishStaticTransforms] on a node whose DEPTH entry holds no profile
    of the depth stream: the transforms from the base frame to the depth
    frame and from the depth frame to its optical frame are sent first,
    both without translation; then the ERROR line is logged, ROS is shut
    down and the process exits. No other transform is sent. *)
Theorem publishStaticTransforms_needs_depth (sdk : Sdk) (geo : Geometry)
    (transform_ts_ : Time) (w : Whole) :
  List.find (λ profile, bool_decide (profile_stream_type profile = RS2_STREAM_DEPTH))
    (at_default [] (_enabled_profiles (core w)) DEPTH) = None →
  w_result_of (publishStaticTransforms sdk geo transform_ts_ w) = Terminated "exit(1)"
  ∧ w_out_of (publishStaticTransforms sdk geo transform_ts_ w)
    = [LOG_INFO "publishStaticTransforms...";
       sendTransform
         {| tf_stamp := transform_ts_;
            tf_frame_id := _base_frame_id (rest w);
            tf_child_frame_id := at_default "" (_frame_id (rest w)) DEPTH;
            tf_translation := (S754_zero false, S754_zero true, S754_zero true);
            tf_rotation := (d0, d0, d0, d1) |};
       sendTransform
         {| tf_stamp := transform_ts_;
            tf_frame_id := at_default "" (_frame_id (rest w)) DEPTH;
            tf_child_frame_id :=
              at_default "" (_optical_frame_id (params (core w))) DEPTH;
            tf_translation := (S754_zero false, S754_zero true, S754_zero true);
            tf_rotation := quaternion_optical geo |};
       LOG_ERROR "Given depth profile is not supported by current device!";
       ros_shutdown].
Proof.
  intros Hnone. unfold publishStaticTransforms.
  rewrite w_run_emit, !w_run_gets.
  unfold zero_trans. rewrite w_run_publish_static_tf.
  rewrite w_run_optical_frame_id_at, w_run_publish_static_tf.
  rewrite w_run_getEnabledProfile.
  cbn [core rest with_core with_rest with_params params _enabled_profiles fst DEPTH].
  change (RS2_STREAM_DEPTH, 0) with DEPTH. rewrite Hnone.
  split; reflexivity.
Qed.


(** The transforms of one enabled stream that has an enabled profile, as
    depth has. The SDK is asked for the extrinsics from the stream to
    depth. Two transforms are sent: from the base frame to the stream's
    frame, with the translation (x, y, z) of the extrinsics sent as
    (z, -x, -y) and the rotation of the extrinsics, read as a column-major
    matrix, conjugated with the optical rotation; and from the stream's
    frame to its optical frame, the optical rotation without translation.
    With [_align_depth] two more are sent, the same two with the aligned
    frame of the stream in place of the stream's frame: the optical frame of
    the stream is then the child of two frames. *)
Theorem publish_stream_tf_sends (sdk : Sdk) (geo : Geometry) (transform_ts_ : Time)
    (stream : stream_index_pair) (w : Whole)
    (profile depth_profile : stream_profile) (others depth_others : list stream_profile)
    (ex : rs2_extrinsics) (r0 r1 r2 r3 r4 r5 r6 r7 r8 t0 t1 t2 x y z s : float) :
  at_default false (_enable (desc (core w))) stream = true →
  at_default [] (_enabled_profiles (core w)) stream = profile :: others →
  at_default [] (_enabled_profiles (core w)) DEPTH = depth_profile :: depth_others →
  get_extrinsics_to sdk profile depth_profile = inr ex →
  ext_rotation ex = [r0; r1; r2; r3; r4; r5; r6; r7; r8] →
  ext_translation ex = [t0; t1; t2] →
  Quaternionf geo [[r0; r3; r6]; [r1; r4; r7]; [r2; r5; r8]] = (x, y, z, s) →
  let q := quaternion_optical geo in
  let Q :=
    quaternion_mul geo
      (quaternion_mul geo q
         (double_of_float x, double_of_float y, double_of_float z, double_of_float s))
      (quaternion_inverse geo q) in
  let trans :=
    (double_of_float t2, double_of_float (SFopp t0), double_of_float (SFopp t1)) in
  let none := (S754_zero false, S754_zero true, S754_zero true) in
  let base := _base_frame_id (rest w) in
  let frame := at_default "" (_frame_id (rest w)) stream in
  let aligned := at_default "" (_depth_aligned_frame_id (rest w)) stream in
  let optical := at_default "" (_optical_frame_id (params (core w))) stream in
  w_result_of (publish_stream_tf sdk geo transform_ts_ stream w) = Ok tt
  ∧ w_out_of (publish_stream_tf sdk geo transform_ts_ stream w)
    = [sendTransform
         {| tf_stamp := transform_ts_; tf_frame_id := base; tf_child_frame_id := frame;
            tf_translation := trans; tf_rotation := Q |};
       sendTransform
         {| tf_stamp := transform_ts_; tf_frame_id := frame;
            tf_child_frame_id := optical;
            tf_translation := none; tf_rotation := q |}]
      ++ (if _align_depth (params (core w)) then
            [sendTransform
               {| tf_stamp := transform_ts_; tf_frame_id := base;
                  tf_child_frame_id := aligned;
                  tf_translation := trans; tf_rotation := Q |};
             sendTransform
               {| tf_stamp := transform_ts_; tf_frame_id := aligned;
                  tf_child_frame_id := optical;
                  tf_translation := none; tf_rotation := q |}]
          else []).
Proof.
  intros Henabled Hp Hdp Hex Hrot Htr HQ q Q trans none base frame aligned optical.
  unfold publish_stream_tf.
  rewrite w_run_core_gets, Henabled. cbn [w_when].
  unfold getRsExtrinsics. rewrite !w_bind_assoc, w_run_front_profile, Hp.
  cbv beta iota. rewrite !w_bind_assoc, w_run_front_profile.
  cbn [core with_core with_enabled_profiles _enabled_profiles].
  rewrite at_default_touch, Hdp, Hex. cbn [w_lift].
  rewrite w_run_ret.
  unfold rotationMatrixToQuaternion, array_get. rewrite Hrot, Htr.
  cbn [lookup list_lookup].
  repeat first [rewrite w_bind_assoc | rewrite w_run_ret].
  rewrite HQ. cbv beta iota.
  repeat first [rewrite w_bind_assoc | rewrite w_run_ret].
  rewrite ?w_run_ret, !w_run_gets, w_run_publish_static_tf,
    w_run_optical_frame_id_at.
  unfold zero_trans. rewrite w_run_publish_static_tf, w_run_core_gets.
  cbn [core rest with_core with_rest with_params with_enabled_profiles params
       _align_depth set_optical_frame_id _optical_frame_id].
  destruct (_align_depth (params (core w))); cbn [w_when].
  - rewrite w_run_gets, w_run_publish_static_tf, w_run_optical_frame_id_at.
    cbn [core rest with_core with_rest with_params with_enabled_profiles params
         set_optical_frame_id _optical_frame_id].
    rewrite at_default_touch.
    unfold publish_static_tf, w_emit, w_result_of, w_whole_of, w_out_of.
    cbn [fst snd]. split; reflexivity.
  - unfold w_ret, w_result_of, w_whole_of, w_out_of.
    cbn [fst snd]. split; reflexivity.
Qed.


(** ** setupPublishers *)

Lemma w_run_advertise_as {B} (topic : string) (queue_size : Z) (latch : bool)
    (k : publisher → MW B) (w : Whole) :
  (advertise_as topic queue_size latch ≫= k) w
  = (w_result_of (k (Some topic) w), w_whole_of (k (Some topic) w),
     advertise topic queue_size latch :: w_out_of (k (Some topic) w)).
Proof.
  unfold advertise_as. rewrite w_bind_assoc, w_run_emit, w_run_ret. reflexivity.
Qed.

Lemma w_run_update_pubs {B} (f : Publishers → Publishers) (k : unit → MW B)
    (w : Whole) :
  (update_pubs f ≫= k) w = k tt (with_core (with_pubs (f (pubs (core w))) (core w)) w).
Proof. unfold update_pubs. rewrite w_run_core_modify. reflexivity. Qed.

Lemma w_emit_step {B} (a : action) (k : unit → MW B) (w w' : Whole)
    (r : outcome B) (o : list action) :
  k tt w = (r, w', o) → (w_emit a ≫= k) w = (r, w', a :: o).
Proof. intros Hk. rewrite w_run_emit, Hk. reflexivity. Qed.

Lemma w_advertise_as_step {B} (topic : string) (queue_size : Z) (latch : bool)
    (k : publisher → MW B) (w w' : Whole) (r : outcome B) (o : list action) :
  k (Some topic) w = (r, w', o) →
  (advertise_as topic queue_size latch ≫= k) w
  = (r, w', advertise topic queue_size latch :: o).
Proof. intros Hk. rewrite w_run_advertise_as, Hk. reflexivity. Qed.

(** One step of the run of a set-up function, towards a result that is
    still to be determined. *)
Ltac wexec1 :=
  first
    [ rewrite w_bind_assoc | rewrite w_run_ret | rewrite w_run_modify
    | rewrite w_run_gets | rewrite w_run_core_gets | rewrite w_run_core_modify
    | rewrite w_run_update_pubs
    | eapply w_emit_step | eapply w_advertise_as_step ];
  cbv beta.

Lemma advertise_image_stream_run (stream : stream_index_pair) (w : Whole) :
  let enabled := at_default false (_enable (desc (core w))) stream in
  let name := at_default "" (_stream_name (rest w)) stream in
  let rectified_image :=
    bool_decide (stream = DEPTH) || bool_decide (stream = INFRA1)
    || bool_decide (stream = INFRA2) in
  let aligned :=
    enabled && (_align_depth (params (core w)) && negb (bool_decide (stream = DEPTH))) in
  ∃ w' out,
    advertise_image_stream stream w = (Ok tt, w', out)
    ∧ same_settings w w'
    ∧ _image_publishers (pubs (core w'))
      = (if enabled
         then <[stream := Some (name ++ "/image_"
                                ++ (if rectified_image then "rect_" else "")
                                ++ "raw")%string]>
                (_image_publishers (pubs (core w)))
         else _image_publishers (pubs (core w)))
    ∧ _info_publisher (pubs (core w'))
      = (if enabled
         then <[stream := Some (name ++ "/camera_info")%string]>
                (_info_publisher (pubs (core w)))
         else _info_publisher (pubs (core w)))
    ∧ _depth_aligned_image_publishers (pubs (core w'))
      = (if aligned
         then <[stream := Some ("aligned_depth_to_" ++ name ++ "/image_raw")%string]>
                (_depth_aligned_image_publishers (pubs (core w)))
         else _depth_aligned_image_publishers (pubs (core w)))
    ∧ _depth_aligned_info_publisher (pubs (core w'))
      = (if aligned
         then <[stream := Some ("aligned_depth_to_" ++ name ++ "/camera_info")%string]>
                (_depth_aligned_info_publisher (pubs (core w)))
         else _depth_aligned_info_publisher (pubs (core w)))
    ∧ _pointcloud_publisher (pubs (core w'))
      = (if enabled && (bool_decide (stream = DEPTH) && _pointcloud (params (core w)))
         then Some "depth/color/points"
         else _pointcloud_publisher (pubs (core w)))
    ∧ _imu_publishers (pubs (core w')) = _imu_publishers (pubs (core w))
    ∧ _counter_enabled (pstate (core w')) = _counter_enabled (pstate (core w)) || enabled
    ∧ _counter_publisher (rest w')
      = (if enabled && negb (_counter_enabled (pstate (core w)))
         then Some "/depth/counter"
         else _counter_publisher (rest w)).
Proof.
  intros enabled name rectified_image aligned. subst aligned.
  unfold advertise_image_stream. rewrite w_run_core_gets. fold enabled.
  destruct w as [[p d tb pb ps ifa ep fl] r]. destruct p, ps, pb, r.
  cbn [core rest params desc pstate pubs _align_depth _pointcloud _counter_enabled
       _stream_name _image_publishers _info_publisher _depth_aligned_image_publishers
       _depth_aligned_info_publisher _pointcloud_publisher _imu_publishers
       _counter_publisher] in *.
  destruct enabled; cbn [w_when andb orb].
  2: { do 2 eexists. split; [reflexivity|]. cbn. rewrite ?orb_false_r.
       unfold same_settings. repeat split. }
  destruct _counter_enabled0, _align_depth0, (bool_decide (stream = DEPTH)),
    _pointcloud0.
  all: do 2 eexists; (split;
    [ repeat (wexec1;
              cbn [core rest with_core with_rest with_pubs with_pstate params pstate
                   _align_depth _pointcloud _counter_enabled _stream_name
                   set_counter_publisher set_counter_enabled negb andb orb w_when]);
      unfold update_pubs, in_core, modify, w_ret; cbn [map]; reflexivity
    | ]); cbn; unfold same_settings; repeat split.
Qed.


Lemma insert_loop_step {V} (c : stream_index_pair → bool) (x : stream_index_pair → V)
    (s' : stream_index_pair) (l' : list stream_index_pair)
    (m m1 : gmap stream_index_pair V) (s : stream_index_pair) :
  m1 = (if c s' then <[s' := x s']> m else m) →
  (s ∈ s' :: l' ∧ c s = true) ∨ m !! s = Some (x s) →
  (s ∈ l' ∧ c s = true) ∨ m1 !! s = Some (x s).
Proof.
  intros -> [[Hin Hc] | Hm].
  - apply elem_of_cons in Hin as [-> | Hin]; [|left; split; assumption].
    right. rewrite Hc. apply lookup_insert_eq.
  - right. destruct (c s'); [|exact Hm].
    destruct (decide (s = s')) as [-> | Hne].
    + apply lookup_insert_eq.
    + rewrite lookup_insert_ne by congruence. exact Hm.
Qed.

Lemma same_settings_trans (a b c : Whole) :
  same_settings a b → same_settings b c → same_settings a c.
Proof. intros (? & ? & ?) (? & ? & ?). repeat split; congruence. Qed.

Lemma advertise_loop_run (w0 : Whole) (l : list stream_index_pair) :
  let en := λ s, at_default false (_enable (desc (core w0))) s in
  let name := λ s, at_default "" (_stream_name (rest w0)) s in
  let image_topic := λ s,
    Some (name s ++ "/image_"
          ++ (if bool_decide (s = DEPTH) || bool_decide (s = INFRA1)
                 || bool_decide (s = INFRA2) then "rect_" else "")
          ++ "raw")%string in
  let info_topic := λ s, Some (name s ++ "/camera_info")%string in
  let al := λ s,
    en s && (_align_depth (params (core w0)) && negb (bool_decide (s = DEPTH))) in
  let aligned_image_topic := λ s,
    Some ("aligned_depth_to_" ++ name s ++ "/image_raw")%string in
  let aligned_info_topic := λ s,
    Some ("aligned_depth_to_" ++ name s ++ "/camera_info")%string in
  ∀ w, same_settings w0 w →
    ∃ w' out,
      w_for_each l advertise_image_stream w = (Ok tt, w', out)
      ∧ same_settings w0 w'
      ∧ (∀ s, (s ∈ l ∧ en s = true)
              ∨ _image_publishers (pubs (core w)) !! s = Some (image_topic s) →
              _image_publishers (pubs (core w')) !! s = Some (image_topic s))
      ∧ (∀ s, (s ∈ l ∧ en s = true)
              ∨ _info_publisher (pubs (core w)) !! s = Some (info_topic s) →
              _info_publisher (pubs (core w')) !! s = Some (info_topic s))
      ∧ (∀ s, (s ∈ l ∧ al s = true)
              ∨ _depth_aligned_image_publishers (pubs (core w)) !! s
                = Some (aligned_image_topic s) →
              _depth_aligned_image_publishers (pubs (core w')) !! s
              = Some (aligned_image_topic s))
      ∧ (∀ s, (s ∈ l ∧ al s = true)
              ∨ _depth_aligned_info_publisher (pubs (core w)) !! s
                = Some (aligned_info_topic s) →
              _depth_aligned_info_publisher (pubs (core w')) !! s
              = Some (aligned_info_topic s))
      ∧ ((DEPTH ∈ l ∧ en DEPTH && _pointcloud (params (core w0)) = true)
         ∨ _pointcloud_publisher (pubs (core w)) = Some "depth/color/points" →
         _pointcloud_publisher (pubs (core w')) = Some "depth/color/points")
      ∧ ((∃ s, s ∈ l ∧ en s = true) ∨ _counter_enabled (pstate (core w)) = true →
         _counter_enabled (pstate (core w')) = true)
      ∧ (((∃ s, s ∈ l ∧ en s = true) ∧ _counter_enabled (pstate (core w)) = false)
         ∨ (_counter_enabled (pstate (core w)) = true
            ∧ _counter_publisher (rest w) = Some "/depth/counter") →
         _counter_publisher (rest w') = Some "/depth/counter").
Proof.
  intros en name image_topic info_topic al aligned_image_topic aligned_info_topic.
  induction l as [|s' l IH]; intros w Hsame.
  - exists w, []. split; [reflexivity|]. split; [exact Hsame|].
    repeat split.
    1-4: intros s [[Hin _] | Hm]; [inversion Hin | exact Hm].
    + intros [[Hin _] | Hm]; [inversion Hin | exact Hm].
    + intros [(s & Hin & _) | Hm]; [inversion Hin | exact Hm].
    + intros [[(s & Hin & _) _] | [_ Hm]]; [inversion Hin | exact Hm].
  - destruct (advertise_image_stream_run s' w)
      as (w1 & o1 & Hrun1 & Hsame1 & Himg & Hinfo & Hai & Haf & Hpc & _ & Hce & Hcp).
    destruct Hsame as (Hd & Hp & Hn).
    rewrite Hd, Hn in Himg, Hinfo. rewrite Hd, Hp, Hn in Hai, Haf.
    rewrite Hd, Hp in Hpc. rewrite Hd in Hce, Hcp.
    fold (en s') in Himg, Hinfo, Hai, Haf, Hpc, Hce, Hcp.
    fold (name s') in Himg, Hinfo, Hai, Haf.
    fold (al s') in Hai, Haf.
    assert (Hsame01 : same_settings w0 w1).
    { eapply same_settings_trans; [|exact Hsame1]. repeat split; assumption. }
    destruct (IH w1 Hsame01)
      as (w2 & o2 & Hrun2 & Hsame2 & Gimg & Ginfo & Gai & Gaf & Gpc & Gce & Gcp).
    exists w2, (o1 ++ o2). split.
    { cbn [w_for_each]. apply (w_bind_Ok _ _ _ _ _ _ _ _ _ Hrun1 Hrun2). }
    split; [exact Hsame2|].
    split; [|split; [|split; [|split; [|split; [|split]]]]].
    + intros s Hs. apply Gimg.
      exact (insert_loop_step en image_topic s' l _ _ s Himg Hs).
    + intros s Hs. apply Ginfo.
      exact (insert_loop_step en info_topic s' l _ _ s Hinfo Hs).
    + intros s Hs. apply Gai.
      exact (insert_loop_step al aligned_image_topic s' l _ _ s Hai Hs).
    + intros s Hs. apply Gaf.
      exact (insert_loop_step al aligned_info_topic s' l _ _ s Haf Hs).
    + intros Hs. apply Gpc. rewrite Hpc.
      destruct Hs as [[Hin Hc] | Hm].
      * apply elem_of_cons in Hin as [<- | Hin]; [|left; split; assumption].
        right. apply andb_true_iff in Hc as [He Hpcl].
        rewrite He, Hpcl. reflexivity.
      * right. destruct (en s' && _); [reflexivity | exact Hm].
    + intros Hs. apply Gce. rewrite Hce.
      destruct Hs as [(s & Hin & He) | Hm].
      * apply elem_of_cons in Hin as [-> | Hin]; [|left; exists s; split; assumption].
        right. rewrite He. apply orb_true_r.
      * right. rewrite Hm. reflexivity.
    + intros Hs. apply Gcp. rewrite Hce, Hcp.
      destruct Hs as [[(s & Hin & He) Hoff] | [Hon Hm]].
      * rewrite Hoff. cbn [negb orb].
        apply elem_of_cons in Hin as [-> | Hin].
        -- right. rewrite He. split; reflexivity.
        -- destruct (en s') eqn:He'.
           ++ right. split; reflexivity.
           ++ left. split; [exists s; split; assumption | reflexivity].
      * right. rewrite Hon. cbn [negb]. rewrite andb_false_r.
        split; [reflexivity | exact Hm].
Qed.


Lemma advertise_extrinsics_run (stream : stream_index_pair) (topic : string)
    (w : Whole) :
  ∃ w' out,
    advertise_extrinsics stream topic w = (Ok tt, w', out)
    ∧ core w' = core w
    ∧ _counter_publisher (rest w') = _counter_publisher (rest w)
    ∧ _stream_name (rest w') = _stream_name (rest w).
Proof.
  unfold advertise_extrinsics. rewrite !w_run_core_gets.
  destruct (_ && _); cbn [w_when].
  - do 2 eexists. split.
    { eapply w_advertise_as_step. unfold w_modify. reflexivity. }
    destruct w as [n r]. destruct r. repeat split.
  - exists w, []. repeat split.
Qed.

Lemma advertise_imu_run (stream : stream_index_pair) (sample imu_info : string)
    (w : Whole) :
  ∃ w' out,
    advertise_imu stream sample imu_info w = (Ok tt, w', out)
    ∧ rest w' = rest w
    ∧ desc (core w') = desc (core w) ∧ params (core w') = params (core w)
    ∧ pstate (core w') = pstate (core w)
    ∧ _image_publishers (pubs (core w')) = _image_publishers (pubs (core w))
    ∧ _depth_aligned_image_publishers (pubs (core w'))
      = _depth_aligned_image_publishers (pubs (core w))
    ∧ _depth_aligned_info_publisher (pubs (core w'))
      = _depth_aligned_info_publisher (pubs (core w))
    ∧ _pointcloud_publisher (pubs (core w')) = _pointcloud_publisher (pubs (core w))
    ∧ _info_publisher (pubs (core w'))
      = (if at_default false (_enable (desc (core w))) stream
         then <[stream := Some imu_info]> (_info_publisher (pubs (core w)))
         else _info_publisher (pubs (core w)))
    ∧ _imu_publishers (pubs (core w'))
      = (if at_default false (_enable (desc (core w))) stream
         then <[stream := Some sample]> (_imu_publishers (pubs (core w)))
         else _imu_publishers (pubs (core w))).
Proof.
  unfold advertise_imu. rewrite !w_run_core_gets.
  destruct w as [[p d tb pb ps ifa ep fl] r]. destruct pb.
  cbn [core desc].
  destruct (at_default false (_enable d) stream); cbn [w_when].
  - do 2 eexists. split.
    { repeat (wexec1; cbn [core with_core with_pubs pubs]).
      unfold update_pubs, in_core, modify. cbn [map]. reflexivity. }
    cbn. repeat split.
  - do 2 eexists. split; [reflexivity|]. repeat split.
Qed.

(** [setupPublishers] never fails, and an enabled image stream has its
    publishers afterwards: the image publisher on
    "<name>/image_raw" ("<name>/image_rect_raw" for depth and the two
    infrared streams) and the camera info publisher on
    "<name>/camera_info", which [publishFrame] looks up; with
    [_align_depth], for a stream other than depth, the two aligned-depth
    publishers on "aligned_depth_to_<name>/..."; for depth with
    [_pointcloud], the point cloud publisher. The counter is enabled, and
    its publisher is on "/depth/counter" when it was not enabled before. *)
Theorem setupPublishers_image_streams (stream : stream_index_pair) (w : Whole) :
  stream ∈ concat IMAGE_STREAMS →
  at_default false (_enable (desc (core w))) stream = true →
  stream ≠ GYRO → stream ≠ ACCEL →
  let after := w_whole_of (setupPublishers IMAGE_STREAMS w) in
  let name := at_default "" (_stream_name (rest w)) stream in
  w_result_of (setupPublishers IMAGE_STREAMS w) = Ok tt
  ∧ _image_publishers (pubs (core after)) !! stream
    = Some (Some (name ++ "/image_"
                  ++ (if bool_decide (stream = DEPTH) || bool_decide (stream = INFRA1)
                         || bool_decide (stream = INFRA2) then "rect_" else "")
                  ++ "raw")%string)
  ∧ _info_publisher (pubs (core after)) !! stream
    = Some (Some (name ++ "/camera_info")%string)
  ∧ (_align_depth (params (core w)) = true → stream ≠ DEPTH →
     _depth_aligned_image_publishers (pubs (core after)) !! stream
     = Some (Some ("aligned_depth_to_" ++ name ++ "/image_raw")%string)
     ∧ _depth_aligned_info_publisher (pubs (core after)) !! stream
       = Some (Some ("aligned_depth_to_" ++ name ++ "/camera_info")%string))
  ∧ (stream = DEPTH → _pointcloud (params (core w)) = true →
     _pointcloud_publisher (pubs (core after)) = Some "depth/color/points")
  ∧ _counter_enabled (pstate (core after)) = true
  ∧ (_counter_enabled (pstate (core w)) = false →
     _counter_publisher (rest after) = Some "/depth/counter").
Proof.
  intros Hin Hen Hgyro Haccel after name. subst after.
  assert (Hsame : same_settings w w) by (repeat split).
  destruct (advertise_loop_run w (concat IMAGE_STREAMS) w Hsame)
    as (w1 & o1 & Hloop & Hsame1 & Gimg & Ginfo & Gai & Gaf & Gpc & Gce & Gcp).
  destruct Hsame1 as (Hd1 & Hp1 & Hn1).
  destruct (advertise_extrinsics_run FISHEYE "extrinsics/depth_to_fisheye" w1)
    as (w2 & o2 & Hrun2 & Hc2 & Hcp2 & Hn2).
  destruct (advertise_extrinsics_run COLOR "extrinsics/depth_to_color" w2)
    as (w3 & o3 & Hrun3 & Hc3 & Hcp3 & Hn3).
  destruct (advertise_extrinsics_run INFRA1 "extrinsics/depth_to_infra1" w3)
    as (w4 & o4 & Hrun4 & Hc4 & Hcp4 & Hn4).
  destruct (advertise_extrinsics_run INFRA2 "extrinsics/depth_to_infra2" w4)
    as (w5 & o5 & Hrun5 & Hc5 & Hcp5 & Hn5).
  destruct (advertise_imu_run GYRO "gyro/sample" "gyro/imu_info" w5)
    as (w6 & o6 & Hrun6 & Hr6 & Hd6 & Hp6 & Hps6 & Hi6 & Hai6 & Haf6 & Hpc6 & Hinfo6 & _).
  destruct (advertise_imu_run ACCEL "accel/sample" "accel/imu_info" w6)
    as (w7 & o7 & Hrun7 & Hr7 & Hd7 & Hp7 & Hps7 & Hi7 & Hai7 & Haf7 & Hpc7 & Hinfo7 & _).
  assert (Hrun : setupPublishers IMAGE_STREAMS w
                 = (Ok tt, w7,
                    LOG_INFO "setupPublishers..."
                    :: o1 ++ o2 ++ o3 ++ o4 ++ o5 ++ o6 ++ o7)).
  { unfold setupPublishers. apply w_emit_step.
    eapply w_bind_Ok; [exact Hloop|]. eapply w_bind_Ok; [exact Hrun2|].
    eapply w_bind_Ok; [exact Hrun3|]. eapply w_bind_Ok; [exact Hrun4|].
    eapply w_bind_Ok; [exact Hrun5|]. eapply w_bind_Ok; [exact Hrun6|].
    exact Hrun7. }
  rewrite Hrun. unfold w_result_of, w_whole_of. cbn [fst snd].
  split; [reflexivity|].
  rewrite Hi7, Hi6, Hc5, Hc4, Hc3, Hc2.
  split; [apply Gimg; left; split; assumption|].
  split.
  { rewrite Hinfo7.
    assert (Hinfo : _info_publisher (pubs (core w6)) !! stream
                    = Some (Some (name ++ "/camera_info")%string)).
    { rewrite Hinfo6, Hc5, Hc4, Hc3, Hc2.
      match goal with
      | |- (if ?b then _ else _) !! _ = _ => destruct b
      end;
        rewrite ?lookup_insert_ne by congruence;
        apply Ginfo; left; split; assumption. }
    match goal with
    | |- (if ?b then _ else _) !! _ = _ => destruct b
    end;
      rewrite ?lookup_insert_ne by congruence; exact Hinfo. }
  split.
  { intros Halign Hnd. rewrite Hai7, Hai6, Haf7, Haf6, Hc5, Hc4, Hc3, Hc2.
    split; [apply Gai | apply Gaf]; left; (split; [exact Hin|]);
      rewrite Hen, Halign, bool_decide_eq_false_2 by exact Hnd; reflexivity. }
  split.
  { intros -> Hpc. rewrite Hpc7, Hpc6, Hc5, Hc4, Hc3, Hc2.
    apply Gpc. left. split; [exact Hin|]. rewrite Hen, Hpc. reflexivity. }
  split.
  { rewrite Hps7, Hps6, Hc5, Hc4, Hc3, Hc2. apply Gce. left.
    exists stream. split; assumption. }
  intros Hoff. rewrite Hr7, Hr6, Hcp5, Hcp4, Hcp3, Hcp2. apply Gcp. left.
  split; [exists stream; split; assumption | exact Hoff].
Qed.


(** ** setupDevice *)

Lemma w_bind_Ok_inv {A B} (c : MW A) (k : A → MW B) (w w' : Whole) (b : B)
    (out : list action) :
  (c ≫= k) w = (Ok b, w', out) →
  ∃ a w1 o1 o2, c w = (Ok a, w1, o1) ∧ k a w1 = (Ok b, w', o2) ∧ out = o1 ++ o2.
Proof.
  unfold mbind, MW_bind, w_bind.
  destruct (c w) as [[[a| | |] w1] o1]; try discriminate.
  destruct (k a w1) as [[r w2] o2] eqn:Hk. intros [= -> -> <-].
  exists a, w1, o1, o2. repeat split. exact Hk.
Qed.

Lemma rethrow_logged_Ok_inv {A} (c : MW A) (w w' : Whole) (a : A)
    (out : list action) :
  rethrow_logged c w = (Ok a, w', out) → c w = (Ok a, w', out).
Proof.
  unfold rethrow_logged, w_try_catch.
  destruct (c w) as [[[x|e| |] w1] o1]; try (intros H0; exact H0).
  unfold mbind, MW_bind, w_bind, w_emit, w_throw. cbn. discriminate.
Qed.

Section Keeps.
Context {X : Type} (f : Whole → X).

Lemma keeps_bind {A B} (c : MW A) (k : A → MW B) :
  w_keeps f c → (∀ a, w_keeps f (k a)) → w_keeps f (c ≫= k).
Proof.
  intros Hc Hk w r w2 o. unfold mbind, MW_bind, w_bind.
  destruct (c w) as [[[a| | |] w1] o1] eqn:Hcw.
  - destruct (k a w1) as [[r' w2'] o2] eqn:Hkw. intros [= <- <- <-].
    rewrite (Hk _ _ _ _ _ Hkw). apply (Hc _ _ _ _ Hcw).
  - intros [= <- <- <-]. apply (Hc _ _ _ _ Hcw).
  - intros [= <- <- <-]. apply (Hc _ _ _ _ Hcw).
  - intros [= <- <- <-]. apply (Hc _ _ _ _ Hcw).
Qed.

Lemma keeps_ret {A} (a : A) : w_keeps f (w_ret a).
Proof. intros w r w1 o [= <- <- <-]. reflexivity. Qed.

Lemma keeps_gets {A} (g : Whole → A) : w_keeps f (w_gets g).
Proof. intros w r w1 o [= <- <- <-]. reflexivity. Qed.

Lemma keeps_emit (a : action) : w_keeps f (w_emit a).
Proof. intros w r w1 o [= <- <- <-]. reflexivity. Qed.

Lemma keeps_throw {A} (e : exn) : w_keeps f (@w_throw _ A e).
Proof. intros w r w1 o [= <- <- <-]. reflexivity. Qed.

Lemma keeps_terminate {A} (why : string) : w_keeps f (@w_terminate _ A why).
Proof. intros w r w1 o [= <- <- <-]. reflexivity. Qed.

Lemma keeps_lift {A} (x : exn + A) : w_keeps f (w_lift x).
Proof. destruct x; [apply keeps_throw | apply keeps_ret]. Qed.

Lemma keeps_call (x : option exn) : w_keeps f (w_call x).
Proof. destruct x; [apply keeps_throw | apply keeps_ret]. Qed.

Lemma keeps_modify (g : Whole → Whole) :
  (∀ w, f (g w) = f w) → w_keeps f (w_modify g).
Proof. intros Hg w r w1 o [= <- <- <-]. apply Hg. Qed.

Lemma keeps_core_gets {A} (g : Node → A) : w_keeps f (in_core (gets g)).
Proof.
  intros w r w1 o. unfold in_core, gets. cbn. intros [= <- <- <-].
  destruct w; reflexivity.
Qed.

Lemma keeps_when (b : bool) (c : MW unit) : w_keeps f c → w_keeps f (w_when b c).
Proof. intros Hc. destruct b; [exact Hc | apply keeps_ret]. Qed.

Lemma keeps_for_each {A} (l : list A) (body : A → MW unit) :
  (∀ x, w_keeps f (body x)) → w_keeps f (w_for_each l body).
Proof.
  intros Hbody. induction l as [|x l IH]; cbn [w_for_each].
  - apply keeps_ret.
  - apply keeps_bind; [apply Hbody | intros _; exact IH].
Qed.

Lemma keeps_try_catch {A} (c : MW A) (h : exn → MW A) :
  w_keeps f c → (∀ e, w_keeps f (h e)) → w_keeps f (w_try_catch c h).
Proof.
  intros Hc Hh w r w2 o. unfold w_try_catch.
  destruct (c w) as [[[a|e| |] w1] o1] eqn:Hcw.
  - intros [= <- <- <-]. apply (Hc _ _ _ _ Hcw).
  - destruct (h e w1) as [[r' w2'] o2] eqn:Hhw. intros [= <- <- <-].
    rewrite (Hh _ _ _ _ _ Hhw). apply (Hc _ _ _ _ Hcw).
  - intros [= <- <- <-]. apply (Hc _ _ _ _ Hcw).
  - intros [= <- <- <-]. apply (Hc _ _ _ _ Hcw).
Qed.

End Keeps.

Ltac keeps_rules :=
  repeat first
    [ apply keeps_bind; [|intros ?] | apply keeps_ret | apply keeps_gets
    | apply keeps_emit | apply keeps_throw | apply keeps_terminate
    | apply keeps_lift | apply keeps_call | apply keeps_core_gets
    | apply keeps_when | apply keeps_for_each; intros ? ].

Lemma load_json_file_keeps (dev : Device) (fs : FileSystem) :
  w_keeps (λ w, w) (load_json_file dev fs).
Proof.
  unfold load_json_file. apply keeps_bind; [apply keeps_gets|]. intros path.
  destruct (negb _); [|apply keeps_emit].
  destruct (dev_is_advanced_mode dev); [|apply keeps_emit].
  destruct (fs path); keeps_rules.
Qed.

Lemma log_device_info_keeps (dev : Device) : w_keeps (λ w, w) (log_device_info dev).
Proof. unfold log_device_info. keeps_rules. Qed.

Lemma register_sensor_keeps (elem : sensor) : w_keeps core (register_sensor elem).
Proof.
  unfold register_sensor. apply keeps_bind; [|intros _; apply keeps_emit].
  destruct (streams_of_module _).
  - unfold assign_sensor. apply keeps_modify. intros w. reflexivity.
  - keeps_rules.
Qed.

(** Of the members only the set-up uses, registering a sensor changes
    [_sensors] alone. *)
Lemma register_sensor_keeps_members (elem : sensor) :
  w_keeps (λ w, set_sensors ∅ (rest w)) (register_sensor elem).
Proof.
  unfold register_sensor. apply keeps_bind; [|intros _; apply keeps_emit].
  destruct (streams_of_module _).
  - unfold assign_sensor. apply keeps_modify. intros w. reflexivity.
  - keeps_rules.
Qed.


Lemma w_for_each_establish {A} (R : Whole → Whole → Prop) (E : A → Whole → Prop)
    (l : list A) (body : A → MW unit) :
  (∀ w, R w w) → (∀ a b c, R a b → R b c → R a c) →
  (∀ x w w', E x w → R w w' → E x w') →
  (∀ x w, ∃ w' o, body x w = (Ok tt, w', o) ∧ R w w' ∧ E x w') →
  ∀ w, ∃ w' o, w_for_each l body w = (Ok tt, w', o) ∧ R w w' ∧ ∀ x, x ∈ l → E x w'.
Proof.
  intros Hrefl Htrans Hstable Hbody. induction l as [|x l IH]; intros w.
  - exists w, []. split; [reflexivity|]. split; [apply Hrefl|].
    intros x Hx. inversion Hx.
  - destruct (Hbody x w) as (w1 & o1 & H1 & HR1 & HE1).
    destruct (IH w1) as (w2 & o2 & H2 & HR2 & HE2).
    exists w2, (o1 ++ o2). split.
    { cbn [w_for_each]. apply (w_bind_Ok _ _ _ _ _ _ _ _ _ H1 H2). }
    split; [eapply Htrans; eassumption|].
    intros y Hy. apply elem_of_cons in Hy as [-> | Hy].
    + eapply Hstable; eassumption.
    + apply HE2, Hy.
Qed.

Lemma disable_unsupported_run (stream_index : stream_index_pair) (w : Whole) :
  ∃ w' o,
    disable_unsupported stream_index w = (Ok tt, w', o)
    ∧ (rest w' = rest w
       ∧ ∀ k, at_default false (_enable (desc (core w'))) k = true →
              at_default false (_enable (desc (core w))) k = true)
    ∧ (at_default false (_enable (desc (core w'))) stream_index = true →
       is_Some (_sensors (rest w') !! stream_index)).
Proof.
  unfold disable_unsupported. rewrite w_run_core_gets, w_run_gets.
  destruct (at_default false (_enable (desc (core w))) stream_index) eqn:Hen;
    cbn [andb].
  - destruct (_sensors (rest w) !! stream_index) as [sens|] eqn:Hsens.
    + rewrite bool_decide_eq_false_2 by discriminate. cbn [w_when].
      exists w, []. split; [reflexivity|]. split; [split; [reflexivity|auto]|].
      intros _. rewrite Hsens. eauto.
    + rewrite bool_decide_eq_true_2 by reflexivity. cbn [w_when].
      do 2 eexists. split.
      { eapply w_emit_step. unfold in_core, modify. cbn. reflexivity. }
      cbn [core rest with_core with_desc desc set_enable _enable].
      split; [split; [reflexivity|]|].
      * intros k. unfold at_default.
        destruct (decide (k = stream_index)) as [-> | Hne].
        -- rewrite lookup_insert_eq. discriminate.
        -- rewrite lookup_insert_ne by congruence. auto.
      * unfold at_default. rewrite lookup_insert_eq. discriminate.
  - cbn [w_when]. exists w, []. split; [reflexivity|].
    split; [split; [reflexivity|auto]|]. rewrite Hen. discriminate.
Qed.

Lemma update_enable_map_run (w : Whole) :
  ∃ w' o,
    update_enable_map HID_STREAMS IMAGE_STREAMS w = (Ok tt, w', o)
    ∧ rest w' = rest w
    ∧ (∀ k, at_default false (_enable (desc (core w'))) k = true →
            at_default false (_enable (desc (core w))) k = true)
    ∧ ∀ s, s ∈ concat (IMAGE_STREAMS ++ HID_STREAMS) →
           at_default false (_enable (desc (core w'))) s = true →
           is_Some (_sensors (rest w') !! s).
Proof.
  set (R := λ v v' : Whole,
         rest v' = rest v
         ∧ ∀ k, at_default false (_enable (desc (core v'))) k = true →
                at_default false (_enable (desc (core v))) k = true).
  set (E := λ (s : stream_index_pair) (v : Whole),
         at_default false (_enable (desc (core v))) s = true →
         is_Some (_sensors (rest v) !! s)).
  assert (Hrefl : ∀ v, R v v) by (intros v; split; auto).
  assert (Htrans : ∀ a b c, R a b → R b c → R a c).
  { intros a b c [Hab Hab'] [Hbc Hbc']. split; [congruence | auto]. }
  assert (Hstable : ∀ s v v', E s v → R v v' → E s v').
  { intros s v v' HE [Hr Hen] Hs. rewrite Hr. apply HE, Hen, Hs. }
  destruct (w_for_each_establish R (λ l v, ∀ s, s ∈ l → E s v)
              (IMAGE_STREAMS ++ HID_STREAMS)
              (λ elem, w_for_each elem disable_unsupported) Hrefl Htrans)
    with (w := w) as (w' & o & Hrun & [Hrest Hen] & HE).
  { intros l v v' Hl HR s Hs. eapply Hstable; [apply Hl, Hs | exact HR]. }
  { intros l v.
    apply (w_for_each_establish R E l disable_unsupported Hrefl Htrans Hstable).
    intros s u. apply disable_unsupported_run. }
  exists w', o. split; [exact Hrun|]. split; [exact Hrest|]. split; [exact Hen|].
  intros s Hs. apply elem_of_concat in Hs as (l & Hsl & Hl).
  exact (HE l Hl s Hsl).
Qed.

Lemma set_cam_sync_mode_run (dev : Device) (w w' : Whole) (r : outcome unit)
    (o : list action) :
  set_cam_sync_mode sensor_default dev w = (r, w', o) →
  core w' = core w
  ∧ ∀ s, is_Some (_sensors (rest w) !! s) → is_Some (_sensors (rest w') !! s).
Proof.
  unfold set_cam_sync_mode. rewrite w_run_gets.
  destruct (negb _); cbn [w_when].
  - rewrite w_run_sensor_at.
    assert (Hgrow : ∀ s, is_Some (_sensors (rest w) !! s) →
                         is_Some (touch sensor_default DEPTH (_sensors (rest w)) !! s)).
    { intros s [x Hx]. exists x. apply touch_lookup_Some, Hx. }
    destruct (dev_set_option dev _ _) as [e|]; cbn [w_call].
    + intros [= <- <- <-]. split; [reflexivity | exact Hgrow].
    + rewrite w_run_ret, w_run_emit. unfold w_emit, w_result_of, w_whole_of, w_out_of.
      cbn [fst snd]. intros [= <- <- <-]. split; [reflexivity | exact Hgrow].
  - intros [= <- <- <-]. split; [reflexivity | auto].
Qed.

(** When [setupDevice] returns, every stream of [IMAGE_STREAMS] and
    [HID_STREAMS] that is still enabled has a sensor of the camera: the
    streams the camera does not serve were disabled. No stream is enabled
    that was not enabled before. *)
Theorem setupDevice_supported (dev : Device) (fs : FileSystem) (w w' : Whole)
    (out : list action) :
  setupDevice HID_STREAMS IMAGE_STREAMS sensor_default dev fs w = (Ok tt, w', out) →
  (∀ s, s ∈ concat (IMAGE_STREAMS ++ HID_STREAMS) →
        at_default false (_enable (desc (core w'))) s = true →
        is_Some (_sensors (rest w') !! s))
  ∧ (∀ s, at_default false (_enable (desc (core w'))) s = true →
          at_default false (_enable (desc (core w))) s = true).
Proof.
  unfold setupDevice. intros Hrun.
  apply w_bind_Ok_inv in Hrun as (? & w0 & o0 & o0' & Hemit & Hrun & _).
  injection Hemit as _ <- _.
  apply rethrow_logged_Ok_inv in Hrun.
  apply w_bind_Ok_inv in Hrun as (? & w1 & o1 & o1' & Hjson & Hrun & _).
  apply load_json_file_keeps in Hjson. cbn beta in Hjson. subst w1.
  apply w_bind_Ok_inv in Hrun as (dev_sensors & w2 & o2 & o2' & Hinfo & Hrun & _).
  apply log_device_info_keeps in Hinfo. cbn beta in Hinfo. subst w2.
  apply w_bind_Ok_inv in Hrun as (? & w3 & o3 & o3' & Hreg & Hrun & _).
  apply (keeps_for_each core _ _ register_sensor_keeps) in Hreg.
  apply w_bind_Ok_inv in Hrun as (? & w4 & o4 & o4' & Hmap & Hsync & _).
  destruct (update_enable_map_run w3) as (w4' & o4'' & Hmap' & Hrest & Hen & Hsens).
  rewrite Hmap' in Hmap. injection Hmap as _ <- _.
  apply set_cam_sync_mode_run in Hsync as [Hcore Hgrow].
  rewrite Hcore. split.
  - intros s Hs Hon. apply Hgrow, Hsens; assumption.
  - intros s Hon. rewrite <- Hreg. apply Hen, Hon.
Qed.


Lemma log_device_info_run (dev : Device) (w : Whole) (camera_name fw_ver pid : string)
    (dev_sensors : list sensor) :
  dev_name dev = inr camera_name →
  dev_firmware_version dev = inr fw_ver →
  dev_product_id dev = inr pid →
  dev_query_sensors dev = inr dev_sensors →
  ∃ o, log_device_info dev w = (Ok dev_sensors, w, o).
Proof.
  intros Hname Hfw Hpid Hquery. unfold log_device_info.
  rewrite Hname, Hfw, Hpid, Hquery. cbn [w_lift].
  eexists. repeat wexec1. reflexivity.
Qed.

Lemma register_sensors_unknown (known others : list sensor) (unknown : sensor) :
  Forall (λ s, is_Some (streams_of_module (sensor_name s))) known →
  streams_of_module (sensor_name unknown) = None →
  ∀ w, ∃ w',
    w_for_each (known ++ unknown :: others) register_sensor w
    = (Terminated "exit(1)", w',
       map (λ s, LOG_INFO (sensor_name s ++ " was found.")%string) known
       ++ [LOG_ERROR_module (sensor_name unknown); ros_shutdown]).
Proof.
  intros Hknown Hunknown. induction Hknown as [|s known [ks Hs] _ IH]; intros w.
  - exists w. cbn [app map w_for_each]. apply w_bind_Terminated.
    unfold register_sensor. rewrite Hunknown. apply w_bind_Terminated.
    reflexivity.
  - assert (Hreg : ∃ w1, register_sensor s w
                         = (Ok tt, w1, [LOG_INFO (sensor_name s ++ " was found.")%string])).
    { unfold register_sensor. rewrite Hs. unfold assign_sensor.
      eexists. rewrite w_run_modify. reflexivity. }
    destruct Hreg as (w1 & Hreg). destruct (IH w1) as (w' & Hrest).
    exists w'. cbn [app map w_for_each].
    apply (w_bind_Ok _ _ _ _ _ _ _ _ _ Hreg Hrest).
Qed.

Lemma rethrow_logged_Terminated {A} (c : MW A) (w w' : Whole) (why : string)
    (o : list action) :
  c w = (Terminated why, w', o) → rethrow_logged c w = (Terminated why, w', o).
Proof. intros Hc. unfold rethrow_logged, w_try_catch. rewrite Hc. reflexivity. Qed.

(** A camera that reports a module whose name is none of the five the node
    knows: when the calls before succeed, [setupDevice] says which sensors
    were found before that module, logs the ERROR that names it, shuts ROS
    down and ends the process with [exit(1)]; the handlers of the
    [try] do not run. The members of the node other than [_sensors] are as
    they were. *)
Theorem setupDevice_unknown_module (dev : Device) (fs : FileSystem) (w : Whole)
    (camera_name fw_ver pid : string) (known others : list sensor)
    (unknown : sensor) :
  w_result_of (load_json_file dev fs w) = Ok tt →
  dev_name dev = inr camera_name →
  dev_firmware_version dev = inr fw_ver →
  dev_product_id dev = inr pid →
  dev_query_sensors dev = inr (known ++ unknown :: others) →
  Forall (λ s, is_Some (streams_of_module (sensor_name s))) known →
  streams_of_module (sensor_name unknown) = None →
  w_result_of (setupDevice HID_STREAMS IMAGE_STREAMS sensor_default dev fs w)
  = Terminated "exit(1)"
  ∧ (∃ before,
       w_out_of (setupDevice HID_STREAMS IMAGE_STREAMS sensor_default dev fs w)
       = before
         ++ map (λ s, LOG_INFO (sensor_name s ++ " was found.")%string) known
         ++ [LOG_ERROR_module (sensor_name unknown); ros_shutdown])
  ∧ core (w_whole_of (setupDevice HID_STREAMS IMAGE_STREAMS sensor_default dev fs w))
    = core w
  ∧ set_sensors ∅
      (rest (w_whole_of (setupDevice HID_STREAMS IMAGE_STREAMS sensor_default dev fs w)))
    = set_sensors ∅ (rest w).
Proof.
  intros Hjson Hname Hfw Hpid Hquery Hknown Hunknown.
  destruct (load_json_file dev fs w) as [[rj wj] oj] eqn:Hj.
  cbn in Hjson. subst rj.
  pose proof (load_json_file_keeps dev fs _ _ _ _ Hj) as Hwj. cbn beta in Hwj.
  subst wj.
  destruct (log_device_info_run dev w _ _ _ _ Hname Hfw Hpid Hquery) as (oi & Hinfo).
  destruct (register_sensors_unknown known others unknown Hknown Hunknown w)
    as (w' & Hreg).
  pose proof (keeps_for_each core _ _ register_sensor_keeps _ _ _ _ Hreg) as Hcore.
  pose proof (keeps_for_each (λ v, set_sensors ∅ (rest v)) _ _
                register_sensor_keeps_members _ _ _ _ Hreg) as Hmembers.
  assert (Hrun : setupDevice HID_STREAMS IMAGE_STREAMS sensor_default dev fs w
                 = (Terminated "exit(1)", w',
                    LOG_INFO "setupDevice..."
                    :: oj ++ oi
                       ++ map (λ s, LOG_INFO (sensor_name s ++ " was found.")%string)
                            known
                       ++ [LOG_ERROR_module (sensor_name unknown); ros_shutdown])).
  { unfold setupDevice. apply w_emit_step. apply rethrow_logged_Terminated.
    eapply w_bind_Ok; [exact Hj|]. eapply w_bind_Ok; [exact Hinfo|].
    apply w_bind_Terminated. exact Hreg. }
  rewrite Hrun. unfold w_result_of, w_out_of, w_whole_of. cbn [fst snd].
  split; [reflexivity|]. split; [|split; [exact Hcore|exact Hmembers]].
  exists (LOG_INFO "setupDevice..." :: oj ++ oi).
  cbn [app]. rewrite <- !app_assoc. reflexivity.
Qed.


(** ** The calibration data of all enabled profiles *)

Lemma w_for_each_spec {A} (P : Whole → Prop) (R : Whole → Whole → Prop)
    (E : A → Whole → Prop) (l : list A) (body : A → MW unit) :
  (∀ w, R w w) → (∀ a b c, R a b → R b c → R a c) →
  (∀ x w w', E x w → R w w' → E x w') →
  (∀ x w, x ∈ l → P w → ∃ w', body x w = (Ok tt, w', []) ∧ R w w' ∧ E x w' ∧ P w') →
  ∀ w, P w →
    ∃ w', w_for_each l body w = (Ok tt, w', []) ∧ R w w' ∧ P w'
          ∧ ∀ x, x ∈ l → E x w'.
Proof.
  intros Hrefl Htrans Hstable. induction l as [|x l IH]; intros Hbody w HP.
  - exists w. split; [reflexivity|]. split; [apply Hrefl|]. split; [exact HP|].
    intros x Hx. inversion Hx.
  - destruct (Hbody x w) as (w1 & H1 & HR1 & HE1 & HP1);
      [apply elem_of_cons; left; reflexivity | exact HP |].
    destruct (IH (λ y v Hy, Hbody y v (proj2 (elem_of_cons l y x) (or_intror Hy)))
                w1 HP1)
      as (w2 & H2 & HR2 & HP2 & HE2).
    exists w2. split.
    { cbn [w_for_each]. apply (w_bind_Ok _ _ _ _ _ _ _ _ _ H1 H2). }
    split; [eapply Htrans; eassumption|]. split; [exact HP2|].
    intros y Hy. apply elem_of_cons in Hy as [-> | Hy].
    + eapply Hstable; eassumption.
    + apply HE2, Hy.
Qed.

Lemma copies_added_refl (w : Whole) : copies_added w w.
Proof. constructor; auto using copies_kept_refl. Qed.

Lemma copies_added_trans (a b c : Whole) :
  copies_added a b → copies_added b c → copies_added a c.
Proof.
  intros [Hk1 Hc1 Ha1 Hp1] [Hk2 Hc2 Ha2 Hp2]. constructor.
  - eapply copies_kept_trans; eassumption.
  - intros k x Hx. destruct (Hc2 k x Hx) as [Hb | ->]; [|right; reflexivity].
    apply Hc1, Hb.
  - auto.
  - congruence.
Qed.

Lemma copy_to_aligned_added (k : stream_index_pair) (w : Whole) :
  ∃ w', copy_to_aligned k w = (Ok tt, w', []) ∧ copies_added w w'
        ∧ is_Some (_depth_aligned_camera_info (pstate (core w')) !! k).
Proof.
  destruct (copy_to_aligned_run k w) as (w' & Hrun & Hkept & _ & Hcal & Hal & _).
  exists w'. split; [exact Hrun|]. split; [|rewrite Hal; eauto].
  unfold copy_to_aligned in Hrun. rewrite w_run_update_camera_info in Hrun.
  unfold w_modify in Hrun. injection Hrun as <-.
  constructor.
  - exact Hkept.
  - cbn [rest with_rest with_core set_calibration set_depth_aligned_calibration
         _calibration].
    intros k' c. destruct (decide (k' = k)) as [-> | Hne].
    + rewrite lookup_insert_eq. unfold at_default.
      destruct (_calibration (rest w) !! k) as [c0|]; intros [= <-]; auto.
    + rewrite lookup_insert_ne by congruence. auto.
  - cbn [core with_core with_pstate pstate set_camera_info
         set_depth_aligned_camera_info _depth_aligned_camera_info].
    intros k' [x Hx]. destruct (decide (k' = k)) as [-> | Hne].
    + rewrite lookup_insert_eq. eauto.
    + rewrite lookup_insert_ne by congruence. eauto.
  - destruct w as [n r]. destruct n. reflexivity.
Qed.

Lemma copy_camera_infos_to_aligned_added (w : Whole) :
  ∃ w', copy_camera_infos_to_aligned w = (Ok tt, w', []) ∧ copies_added w w'
        ∧ (_align_depth (params (core w)) = true →
           ∀ entry profile, entry ∈ in_key_order (_enabled_profiles (core w)) →
             profile ∈ snd entry →
             is_Some (_depth_aligned_camera_info (pstate (core w'))
                      !! (profile_stream_type profile, profile_stream_index profile))).
Proof.
  unfold copy_camera_infos_to_aligned. rewrite w_run_core_gets.
  destruct (_align_depth (params (core w))); cbn [w_when].
  2: { exists w. split; [reflexivity|]. split; [apply copies_added_refl|].
       discriminate. }
  rewrite w_run_core_gets.
  set (E := λ (profile : stream_profile) (v : Whole),
         is_Some (_depth_aligned_camera_info (pstate (core v))
                  !! (profile_stream_type profile, profile_stream_index profile))).
  assert (Hstable : ∀ p v v', E p v → copies_added v v' → E p v').
  { intros p v v' HE Hadd. apply (added_aligned _ _ Hadd), HE. }
  destruct (w_for_each_spec (λ _, True) copies_added
              (λ entry v, ∀ profile, profile ∈ snd entry → E profile v)
              (in_key_order (_enabled_profiles (core w)))
              (λ entry, w_for_each (snd entry)
                 (λ profile, copy_to_aligned
                    (profile_stream_type profile, profile_stream_index profile)))
              copies_added_refl copies_added_trans)
    with (w := w) as (w' & Hrun & Hadd & _ & HE).
  { intros entry v v' Hentry Hvv profile Hp. eapply Hstable; [apply Hentry, Hp|exact Hvv]. }
  { intros entry v _ _.
    destruct (w_for_each_spec (λ _, True) copies_added E (snd entry)
                (λ profile, copy_to_aligned
                   (profile_stream_type profile, profile_stream_index profile))
                copies_added_refl copies_added_trans Hstable)
      with (w := v) as (v' & Hrun & Hadd & _ & HE).
    - intros profile u _ _.
      destruct (copy_to_aligned_added
                  (profile_stream_type profile, profile_stream_index profile) u)
        as (u' & Hu & Hadd & Hal).
      exists u'. split; [exact Hu|]. split; [exact Hadd|]. split; [exact Hal | exact I].
    - exact I.
    - exists v'. split; [exact Hrun|]. split; [exact Hadd|]. split; [exact HE | exact I]. }
  { exact I. }
  exists w'. split; [exact Hrun|]. split; [exact Hadd|].
  intros _ entry profile Hentry Hp. exact (HE entry Hentry profile Hp).
Qed.


Lemma touch_present {V} (d x : V) (k : stream_index_pair)
    (m : gmap stream_index_pair V) : m !! k = Some x → touch d k m = m.
Proof. intros Hk. unfold touch. rewrite Hk. reflexivity. Qed.

Lemma find_Some_lookup (f : stream_profile → bool) (k : stream_index_pair)
    (m : gmap stream_index_pair (list stream_profile)) (p : stream_profile) :
  List.find f (at_default [] m k) = Some p → ∃ l, m !! k = Some l.
Proof.
  unfold at_default. destruct (m !! k) as [l|]; [eauto|]. discriminate.
Qed.

Lemma well_sized_new : well_sized Calibration_new.
Proof. repeat split. Qed.

Lemma updateStreamCalibData_step (sdk : Sdk) (video_profile depth_profile :
    stream_profile) (intrinsic : rs2_intrinsics) (w : Whole) :
  let stream_index :=
    (profile_stream_type video_profile, profile_stream_index video_profile) in
  get_intrinsics sdk video_profile = inr intrinsic →
  length (intr_coeffs intrinsic) = 5%nat →
  List.find (λ profile, bool_decide (profile_stream_type profile = RS2_STREAM_DEPTH))
    (at_default [] (_enabled_profiles (core w)) DEPTH) = Some depth_profile →
  (∀ k c, _calibration (rest w) !! k = Some c → well_sized c) →
  ∃ w',
    updateStreamCalibData sdk video_profile w = (Ok tt, w', [])
    ∧ _enabled_profiles (core w') = _enabled_profiles (core w)
    ∧ desc (core w') = desc (core w)
    ∧ _align_depth (params (core w')) = _align_depth (params (core w))
    ∧ pubs (core w') = pubs (core w)
    ∧ (∀ k, is_Some (_camera_info (pstate (core w)) !! k) →
            is_Some (_camera_info (pstate (core w')) !! k))
    ∧ (∀ k, is_Some (_depth_aligned_camera_info (pstate (core w)) !! k) →
            is_Some (_depth_aligned_camera_info (pstate (core w')) !! k))
    ∧ (∀ k c, _calibration (rest w') !! k = Some c → well_sized c)
    ∧ is_Some (_camera_info (pstate (core w')) !! stream_index)
    ∧ (_align_depth (params (core w)) = true →
       ∀ entry profile, entry ∈ in_key_order (_enabled_profiles (core w)) →
         profile ∈ snd entry →
         is_Some (_depth_aligned_camera_info (pstate (core w'))
                  !! (profile_stream_type profile, profile_stream_index profile))).
Proof.
  intros stream_index Hintr Hcoeffs Hdepth Hsized.
  destruct (find_Some_lookup _ _ _ _ Hdepth) as [depth_profiles Hpresent].
  destruct w as [[p d tb pb ps ifa ep fl] r]. destruct p, ps, r.
  cbn [core rest params pstate desc pubs _calibration _enabled_profiles
       _optical_frame_id _align_depth _camera_info _depth_aligned_camera_info] in *.
  destruct (intr_coeffs intrinsic) as [|c0 lC] eqn:EC; [discriminate|].
  injection Hcoeffs as Hcoeffs. list_of_length lC.
  destruct (bool_decide (stream_index = DEPTH) && at_default false (_enable d) DEPTH
            && at_default false (_enable d) COLOR) eqn:Hspecial.
  all: match goal with
       | |- context [updateStreamCalibData ?a ?b ?c] =>
           eassert (Hmain : updateStreamCalibData a b c = copy_camera_infos_to_aligned _)
       end.
  1, 3: unfold updateStreamCalibData; fold stream_index;
    rewrite Hintr; cbn [w_lift];
    do 7 wstep;
    change (RS2_STREAM_DEPTH, 0) with DEPTH; cbn [fst DEPTH];
    change (RS2_STREAM_DEPTH, 0) with DEPTH; rewrite Hdepth;
    do 2 wstep;
    cbn [seq w_for_each];
    unfold array_get; rewrite EC; cbn [lookup list_lookup];
    repeat wstep;
    rewrite Hspecial; cbn [w_when]; repeat wstep; reflexivity.
  all: match type of Hmain with
       | _ = copy_camera_infos_to_aligned ?w1 =>
           destruct (copy_camera_infos_to_aligned_added w1) as (w' & Hcopy & Hadd & Hal)
       end;
    exists w'; (split; [rewrite Hmain; exact Hcopy|]);
    destruct Hadd as [Hkept Hnew Haligned Hpubs];
    destruct Hkept as [Hcal Hci _ Hep Hparams Hdesc];
    cbn [core rest params pstate desc pubs _calibration _enabled_profiles
         _optical_frame_id _align_depth _camera_info _depth_aligned_camera_info] in *;
    rewrite (touch_present _ _ _ _ Hpresent) in *.
  all: split; [exact Hep|]; split; [exact Hdesc|];
    split; [rewrite Hparams; reflexivity|]; split; [exact Hpubs|].
  all: split;
    [intros k [ci0 Hci0]; exists ci0; apply Hci; repeat apply touch_lookup_Some;
     exact Hci0|].
  all: split; [exact Haligned|].
  all: split;
    [ intros k c Hc; destruct (Hnew k c Hc) as [Hold | ->]; [|apply well_sized_new];
      destruct (decide (k = stream_index)) as [-> | Hne];
      [ rewrite lookup_insert_eq in Hold; injection Hold as <-;
        assert (Hw : well_sized
                       (at_default Calibration_new _calibration0 stream_index));
        [ unfold at_default;
          destruct (_calibration0 !! stream_index) as [c1|] eqn:Hc1;
          [exact (Hsized _ _ Hc1) | apply well_sized_new]
        | destruct Hw as (HK & HR & HP); unfold well_sized;
          cbn [set_cal_D set_cal_P calibrate_R calibrate_K_P
               cal_frame_id cal_width cal_height cal_distortion_model
               cal_D cal_K cal_R cal_P];
          rewrite !length_insert; repeat split; assumption ]
      | rewrite lookup_insert_ne in Hold by congruence; exact (Hsized _ _ Hold) ]
    | ].
  all: split;
    [ match type of Hci with
      | ∀ k c, touch ?d0 ?k0 ?m0 !! k = Some c → _ =>
          destruct (touch_is_Some d0 k0 m0) as [ci Hci0];
          exists ci; apply Hci; exact Hci0
      end
    | ].
  all: intros Halign; apply Hal; cbn [core params _align_depth]; exact Halign.
Qed.


Lemma elem_of_in_key_order {V} (m : gmap stream_index_pair V)
    (entry : stream_index_pair * V) :
  entry ∈ in_key_order m ↔ m !! fst entry = Some (snd entry).
Proof.
  unfold in_key_order. rewrite merge_sort_Permutation. destruct entry as [k x].
  apply elem_of_map_to_list.
Qed.

(** The first loop of [setupStreams], on a node with an enabled depth
    profile, calibrations of the right sizes and an SDK that gives the
    intrinsics of every enabled profile, with five coefficients: it ends
    normally and emits nothing, and afterwards the stream of every enabled
    profile has its camera info, which [publishFrame] looks up, and with
    [_align_depth] its aligned-depth camera info as well. *)
Theorem calibrate_streams_camera_infos (sdk : Sdk) (depth_profile : stream_profile)
    (w : Whole) :
  (∀ k l p, _enabled_profiles (core w) !! k = Some l → p ∈ l →
     ∃ intrinsic, get_intrinsics sdk p = inr intrinsic
                  ∧ length (intr_coeffs intrinsic) = 5%nat) →
  List.find (λ profile, bool_decide (profile_stream_type profile = RS2_STREAM_DEPTH))
    (at_default [] (_enabled_profiles (core w)) DEPTH) = Some depth_profile →
  (∀ k c, _calibration (rest w) !! k = Some c → well_sized c) →
  w_result_of (calibrate_streams sdk w) = Ok tt
  ∧ w_out_of (calibrate_streams sdk w) = []
  ∧ ∀ k l p, _enabled_profiles (core w) !! k = Some l → p ∈ l →
      is_Some (_camera_info (pstate (core (w_whole_of (calibrate_streams sdk w))))
               !! (profile_stream_type p, profile_stream_index p))
      ∧ (_align_depth (params (core w)) = true →
         is_Some (_depth_aligned_camera_info
                    (pstate (core (w_whole_of (calibrate_streams sdk w))))
                  !! (profile_stream_type p, profile_stream_index p))).
Proof.
  intros Hsdk Hdepth Hsized.
  set (P := λ v : Whole,
         _enabled_profiles (core v) = _enabled_profiles (core w)
         ∧ _align_depth (params (core v)) = _align_depth (params (core w))
         ∧ ∀ k c, _calibration (rest v) !! k = Some c → well_sized c).
  set (R := λ v v' : Whole,
         (∀ k, is_Some (_camera_info (pstate (core v)) !! k) →
               is_Some (_camera_info (pstate (core v')) !! k))
         ∧ ∀ k, is_Some (_depth_aligned_camera_info (pstate (core v)) !! k) →
                is_Some (_depth_aligned_camera_info (pstate (core v')) !! k)).
  set (E := λ (p : stream_profile) (v : Whole),
         is_Some (_camera_info (pstate (core v))
                  !! (profile_stream_type p, profile_stream_index p))
         ∧ (_align_depth (params (core w)) = true →
            is_Some (_depth_aligned_camera_info (pstate (core v))
                     !! (profile_stream_type p, profile_stream_index p)))).
  assert (Hrefl : ∀ v, R v v) by (intros v; split; auto).
  assert (Htrans : ∀ a b c, R a b → R b c → R a c).
  { intros a b c [H1 H2] [H3 H4]. split; auto. }
  assert (Hstable : ∀ p v v', E p v → R v v' → E p v').
  { intros p v v' [H1 H2] [H3 H4]. split; auto. }
  assert (Hrun : ∃ w', calibrate_streams sdk w = (Ok tt, w', [])
                       ∧ ∀ entry, entry ∈ in_key_order (_enabled_profiles (core w)) →
                           ∀ p, p ∈ snd entry → E p w').
  { unfold calibrate_streams. rewrite w_run_core_gets.
    destruct (w_for_each_spec P R (λ entry v, ∀ p, p ∈ snd entry → E p v)
                (in_key_order (_enabled_profiles (core w)))
                (λ entry, w_for_each (snd entry) (updateStreamCalibData sdk))
                Hrefl Htrans)
      with (w := w) as (w' & Hloop & _ & _ & HE).
    - intros entry v v' Hentry HR p Hp. eapply Hstable; [apply Hentry, Hp | exact HR].
    - intros entry v Hentry HP.
      destruct (w_for_each_spec P R E (snd entry) (updateStreamCalibData sdk)
                  Hrefl Htrans Hstable)
        with (w := v) as (v' & Hinner & HR & HP' & HE).
      + intros p u Hp (Hep & Halign & Hsz).
        apply elem_of_in_key_order in Hentry.
        destruct (Hsdk _ _ p Hentry Hp) as (intrinsic & Hintr & Hcoeffs).
        assert (Hd : List.find
                       (λ profile, bool_decide (profile_stream_type profile
                                                = RS2_STREAM_DEPTH))
                       (at_default [] (_enabled_profiles (core u)) DEPTH)
                     = Some depth_profile) by (rewrite Hep; exact Hdepth).
        destruct (updateStreamCalibData_step sdk p depth_profile intrinsic u
                    Hintr Hcoeffs Hd Hsz)
          as (u' & Hu & Hep' & _ & Halign' & _ & Hci & Hal & Hsz' & Hnew & Haligned).
        exists u'. split; [exact Hu|]. split; [split; assumption|].
        split.
        * split; [exact Hnew|]. intros Hon.
          apply (Haligned (eq_trans Halign Hon) entry p).
          -- apply elem_of_in_key_order. rewrite Hep. exact Hentry.
          -- exact Hp.
        * split; [congruence|]. split; [congruence | exact Hsz'].
      + exact HP.
      + exists v'. split; [exact Hinner|]. split; [exact HR|].
        split; [exact HE | exact HP'].
    - split; [reflexivity|]. split; [reflexivity | exact Hsized].
    - exists w'. split; [exact Hloop | exact HE]. }
  destruct Hrun as (w' & Hrun & HE). rewrite Hrun.
  unfold w_result_of, w_out_of, w_whole_of. cbn [fst snd].
  split; [reflexivity|]. split; [reflexivity|].
  intros k l p Hk Hp. apply (HE (k, l)); [|exact Hp].
  apply elem_of_in_key_order. exact Hk.
Qed.


(** ** The node without the depth stream *)

Section Preserves.
Variable I : Whole → Prop.

Lemma preserves_bind {A B} (c : MW A) (k : A → MW B) :
  w_preserves I c → (∀ a, w_preserves I (k a)) → w_preserves I (c ≫= k).
Proof.
  intros Hc Hk w r w2 o HI. unfold mbind, MW_bind, w_bind.
  destruct (c w) as [[[a| | |] w1] o1] eqn:Hcw.
  - destruct (k a w1) as [[r' w2'] o2] eqn:Hkw. intros [= <- <- <-].
    apply (Hk _ _ _ _ _ (Hc _ _ _ _ HI Hcw) Hkw).
  - intros [= <- <- <-]. apply (Hc _ _ _ _ HI Hcw).
  - intros [= <- <- <-]. apply (Hc _ _ _ _ HI Hcw).
  - intros [= <- <- <-]. apply (Hc _ _ _ _ HI Hcw).
Qed.

Lemma preserves_ret {A} (a : A) : w_preserves I (w_ret a).
Proof. intros w r w1 o HI [= <- <- <-]. exact HI. Qed.

Lemma preserves_gets {A} (g : Whole → A) : w_preserves I (w_gets g).
Proof. intros w r w1 o HI [= <- <- <-]. exact HI. Qed.

Lemma preserves_emit (a : action) : w_preserves I (w_emit a).
Proof. intros w r w1 o HI [= <- <- <-]. exact HI. Qed.

Lemma preserves_throw {A} (e : exn) : w_preserves I (@w_throw _ A e).
Proof. intros w r w1 o HI [= <- <- <-]. exact HI. Qed.

Lemma preserves_terminate {A} (why : string) : w_preserves I (@w_terminate _ A why).
Proof. intros w r w1 o HI [= <- <- <-]. exact HI. Qed.

Lemma preserves_undefined {A} (why : string) : w_preserves I (@w_undefined _ A why).
Proof. intros w r w1 o HI [= <- <- <-]. exact HI. Qed.

Lemma preserves_lift {A} (x : exn + A) : w_preserves I (w_lift x).
Proof. destruct x; [apply preserves_throw | apply preserves_ret]. Qed.

Lemma preserves_call (x : option exn) : w_preserves I (w_call x).
Proof. destruct x; [apply preserves_throw | apply preserves_ret]. Qed.

Lemma preserves_array_get {A} (a : list A) (i : nat) : w_preserves I (array_get a i).
Proof.
  unfold array_get. destruct (a !! i); [apply preserves_ret | apply preserves_undefined].
Qed.

Lemma preserves_modify (g : Whole → Whole) :
  (∀ w, I w → I (g w)) → w_preserves I (w_modify g).
Proof. intros Hg w r w1 o HI [= <- <- <-]. apply Hg, HI. Qed.

Lemma preserves_core_gets {A} (g : Node → A) : w_preserves I (in_core (gets g)).
Proof.
  intros w r w1 o HI. unfold in_core, gets. cbn. intros [= <- <- <-].
  destruct w; exact HI.
Qed.

Lemma preserves_core_modify (g : Node → Node) :
  (∀ w, I w → I (with_core (g (core w)) w)) → w_preserves I (in_core (modify g)).
Proof.
  intros Hg w r w1 o HI. unfold in_core, modify. cbn. intros [= <- <- <-].
  apply Hg, HI.
Qed.

Lemma preserves_when (b : bool) (c : MW unit) :
  w_preserves I c → w_preserves I (w_when b c).
Proof. intros Hc. destruct b; [exact Hc | apply preserves_ret]. Qed.

Lemma preserves_for_each {A} (l : list A) (body : A → MW unit) :
  (∀ x, w_preserves I (body x)) → w_preserves I (w_for_each l body).
Proof.
  intros Hbody. induction l as [|x l IH]; cbn [w_for_each].
  - apply preserves_ret.
  - apply preserves_bind; [apply Hbody | intros _; exact IH].
Qed.

Lemma preserves_for_fold {A S} (l : list A) (body : S → A → MW S) (s : S) :
  (∀ s x, w_preserves I (body s x)) → w_preserves I (w_for_fold l s body).
Proof.
  intros Hbody. revert s. induction l as [|x l IH]; intros s; cbn [w_for_fold].
  - apply preserves_ret.
  - apply preserves_bind; [apply Hbody | intros s'; apply IH].
Qed.

Lemma preserves_try_catch {A} (c : MW A) (h : exn → MW A) :
  w_preserves I c → (∀ e, w_preserves I (h e)) → w_preserves I (w_try_catch c h).
Proof.
  intros Hc Hh w r w2 o HI. unfold w_try_catch.
  destruct (c w) as [[[a|e| |] w1] o1] eqn:Hcw.
  - intros [= <- <- <-]. apply (Hc _ _ _ _ HI Hcw).
  - destruct (h e w1) as [[r' w2'] o2] eqn:Hhw. intros [= <- <- <-].
    apply (Hh _ _ _ _ _ (Hc _ _ _ _ HI Hcw) Hhw).
  - intros [= <- <- <-]. apply (Hc _ _ _ _ HI Hcw).
  - intros [= <- <- <-]. apply (Hc _ _ _ _ HI Hcw).
Qed.

Lemma preserves_rethrow_logged {A} (c : MW A) :
  w_preserves I c → w_preserves I (rethrow_logged c).
Proof.
  intros Hc. unfold rethrow_logged. apply preserves_try_catch; [exact Hc|].
  intros e. apply preserves_bind; [apply preserves_emit|].
  intros _. apply preserves_throw.
Qed.

Lemma preserves_keeps {X A} (f : Whole → X) (c : MW A) :
  (∀ w w', f w' = f w → I w → I w') → w_keeps f c → w_preserves I c.
Proof. intros HfI Hc w r w1 o HI Hrun. apply (HfI w w1 (Hc _ _ _ _ Hrun) HI). Qed.

End Preserves.

Ltac preserves_step :=
  lazymatch goal with
  | |- w_preserves _ (_ ≫= _) => apply preserves_bind; [|intros ?]
  | |- w_preserves _ (w_ret _) => apply preserves_ret
  | |- w_preserves _ (w_gets _) => apply preserves_gets
  | |- w_preserves _ (w_emit _) => apply preserves_emit
  | |- w_preserves _ (w_throw _) => apply preserves_throw
  | |- w_preserves _ (w_terminate _) => apply preserves_terminate
  | |- w_preserves _ (w_undefined _) => apply preserves_undefined
  | |- w_preserves _ (w_lift _) => apply preserves_lift
  | |- w_preserves _ (w_call _) => apply preserves_call
  | |- w_preserves _ (array_get _ _) => apply preserves_array_get
  | |- w_preserves _ (in_core (gets _)) => apply preserves_core_gets
  | |- w_preserves _ (in_core (modify _)) =>
      apply preserves_core_modify; intros ? ?
  | |- w_preserves _ (w_modify _) => apply preserves_modify; intros ? ?
  | |- w_preserves _ (w_when _ _) => apply preserves_when
  | |- w_preserves _ (w_for_each _ _) => apply preserves_for_each; intros ?
  | |- w_preserves _ (w_for_fold _ _ _) => apply preserves_for_fold; intros ? ?
  | |- w_preserves _ (rethrow_logged _) => apply preserves_rethrow_logged
  | |- w_preserves _ (if ?b then _ else _) => destruct b
  | |- w_preserves _ (let '(_, _) := ?x in _) => destruct x
  | |- w_preserves _ (match ?x with _ => _ end) => destruct x
  end.


Lemma preserves_in_core {A} (c : M A) :
  maintains no_depth_kept c → w_preserves (λ w, no_depth (core w)) (in_core c).
Proof.
  intros Hc w r w1 o HJ. unfold in_core. specialize (Hc (core w)).
  unfold node_of in Hc. destruct (c (core w)) as [[r' n'] out]. cbn in Hc.
  intros [= <- <- <-]. cbn. apply Hc, HJ.
Qed.

Lemma no_depth_touch (k : stream_index_pair) (n : Node) :
  no_depth n → no_depth (with_enabled_profiles (touch [] k (_enabled_profiles n)) n).
Proof.
  intros [Hp He]. split; [|exact He].
  cbn [_enabled_profiles with_enabled_profiles]. rewrite at_default_touch. exact Hp.
Qed.

Lemma no_depth_kept_refl (n : Node) : no_depth_kept n n.
Proof. intros Hn. exact Hn. Qed.

Lemma no_depth_kept_trans (a b c : Node) :
  no_depth_kept a b → no_depth_kept b c → no_depth_kept a c.
Proof. unfold no_depth_kept. auto. Qed.

Ltac m_step :=
  lazymatch goal with
  | |- maintains _ (_ ≫= _) =>
      apply (maintains_bind _ no_depth_kept_trans); [|intros ?]
  | |- maintains _ (ret _) => apply (maintains_ret _ no_depth_kept_refl)
  | |- maintains _ (gets _) => apply (maintains_gets _ no_depth_kept_refl)
  | |- maintains _ (emit _) => apply (maintains_emit _ no_depth_kept_refl)
  | |- maintains _ (throw _) => apply (maintains_throw _ no_depth_kept_refl)
  | |- maintains _ (terminate _) => apply (maintains_terminate _ no_depth_kept_refl)
  | |- maintains _ (undefined _) => apply (maintains_undefined _ no_depth_kept_refl)
  | |- maintains _ (when _ _) => apply (maintains_when _ no_depth_kept_refl)
  | |- maintains _ (modify _) => apply maintains_modify; intros ?
  | |- maintains _ (for_each _ _) =>
      apply (maintains_for_each _ no_depth_kept_refl no_depth_kept_trans); intros ?
  | |- maintains _ (for_fold _ _ _) =>
      apply (maintains_for_fold _ no_depth_kept_refl no_depth_kept_trans); intros ? ?
  | |- maintains _ (if ?b then _ else _) => destruct b
  | |- maintains _ (let '(_, _) := ?x in _) => destruct x
  | |- maintains _ (match ?x with _ => _ end) => destruct x
  end.

Ltac no_depth_rules :=
  repeat m_step;
  try (intros Hno; first [exact Hno | apply no_depth_touch; exact Hno]).

Lemma getEnabledProfile_no_depth (k : stream_index_pair) :
  maintains no_depth_kept (getEnabledProfile k).
Proof. unfold getEnabledProfile. no_depth_rules. Qed.

Lemma front_profile_no_depth (k : stream_index_pair) :
  maintains no_depth_kept (front_profile k).
Proof. unfold front_profile. no_depth_rules. Qed.

Lemma gather_profiles_no_depth (streams : list stream_index_pair) :
  maintains no_depth_kept (gather_profiles streams).
Proof. unfold gather_profiles. no_depth_rules. Qed.

Lemma setupFilters_no_depth :
  maintains no_depth_kept setupFilters.
Proof.
  unfold setupFilters, setupFilters_token, push_back_filter, insert_begin_filter.
  no_depth_rules.
Qed.


Lemma disable_unsupported_no_depth (stream_index : stream_index_pair) :
  w_preserves (λ w, no_depth (core w)) (disable_unsupported stream_index).
Proof.
  unfold disable_unsupported. repeat preserves_step.
  match goal with Hno : no_depth _ |- _ => destruct Hno as [Hp He] end.
  split; [exact Hp|].
  cbn [core with_core with_desc desc set_enable _enable]. unfold at_default.
  destruct (decide (stream_index = DEPTH)) as [-> | Hne].
  - rewrite lookup_insert_eq. reflexivity.
  - rewrite lookup_insert_ne by exact Hne. exact He.
Qed.

Lemma enable_hid_stream_no_depth (elem : stream_index_pair) :
  w_preserves (λ w, no_depth (core w)) (enable_hid_stream sensor_default elem).
Proof.
  intros w r w1 o [Hp He] Hrun.
  destruct (enable_hid_stream_run elem w) as ((Hdesc & Hkept & _) & _).
  rewrite Hrun in Hdesc, Hkept. cbn [w_whole_of fst snd] in Hdesc, Hkept.
  split.
  - unfold at_default in *. rewrite (Hkept DEPTH He). exact Hp.
  - rewrite Hdesc. exact He.
Qed.

Ltac nd_step :=
  first
    [ apply preserves_in_core;
      first [ apply getEnabledProfile_no_depth | apply front_profile_no_depth
            | apply gather_profiles_no_depth | apply setupFilters_no_depth ]
    | apply enable_devices_on_sensors_no_depth
    | apply disable_unsupported_no_depth
    | apply enable_hid_stream_no_depth
    | lazymatch goal with
      | |- w_preserves _ (let _ := _ in _) => cbv zeta
      end
    | preserves_step ].

Ltac nd_rules :=
  repeat nd_step;
  try match goal with
      | Hno : no_depth _ |- no_depth _ =>
          first [exact Hno | apply no_depth_touch; exact Hno]
      end.

Lemma getParameters_frames_no_depth (KS : SetupConstants) (ps : ParamServer) :
  w_preserves (λ w, no_depth (core w)) (getParameters_frames KS ps).
Proof. unfold getParameters_frames. nd_rules. Qed.

Lemma setupDevice_no_depth (dev : Device) (fs : FileSystem) :
  w_preserves (λ w, no_depth (core w))
    (setupDevice HID_STREAMS IMAGE_STREAMS sensor_default dev fs).
Proof.
  unfold setupDevice, load_json_file, log_device_info, register_sensor, assign_sensor,
    update_enable_map, set_cam_sync_mode, sensor_at.
  nd_rules.
Qed.

Lemma setupPublishers_no_depth :
  w_preserves (λ w, no_depth (core w)) (setupPublishers IMAGE_STREAMS).
Proof.
  unfold setupPublishers, advertise_image_stream, advertise_extrinsics, advertise_imu,
    advertise_as, update_pubs.
  nd_rules.
Qed.

Lemma setupStreams_no_depth (dev : Device) (sdk : Sdk) :
  w_preserves (λ w, no_depth (core w))
    (setupStreams HID_STREAMS IMAGE_STREAMS sensor_default dev sdk).
Proof.
  unfold setupStreams, calibrate_streams, updateStreamCalibData,
    copy_camera_infos_to_aligned, copy_to_aligned, update_camera_info, shutdown_and_exit,
    stream_images, stream_imu, announce_imu, getImuInfo, publish_depth_extrinsics,
    getRsExtrinsics, rsExtrinsicsToMsg, open_sensor, start_sensor, sensor_at, update_pubs.
  nd_rules.
Qed.


Lemma getParameters_no_depth (K : Constants) (ps : ParamServer) (n n1 : Node)
    (out : list effect) :
  param (param_bool ps) "enable_depth" (ENABLE_DEPTH K) = false →
  at_default [] (_enabled_profiles n) DEPTH = [] →
  getParameters K ps n = (Ok tt, n1, out) → no_depth n1.
Proof.
  intros Hparam Hep.
  destruct (known_stream_string
              (param (param_string ps) "pointcloud_texture_stream" "RS2_STREAM_COLOR"))
    eqn:Hknown.
  - destruct (rs2_string_to_stream_known _
                (with_params (set_align_depth_pointcloud
                                (param (param_bool ps) "align_depth" (ALIGN_DEPTH K))
                                (param (param_bool ps) "enable_pointcloud" (POINTCLOUD K))
                                (params n)) n) Hknown) as [st Hst].
    unfold getParameters, mbind, M_bind, bind, emit, modify.
    rewrite Hst. cbn [fst snd]. intros [= <- _].
    split; [exact Hep|].
    cbn [desc with_params with_desc set_width set_height set_fps set_enable _enable].
    unfold at_default. rewrite lookup_insert_eq. exact Hparam.
  - unfold getParameters, mbind, M_bind, bind, emit, modify.
    rewrite (rs2_string_to_stream_unknown _ _ Hknown). discriminate.
Qed.

Lemma publishStaticTransforms_exits (sdk : Sdk) (geo : Geometry) (transform_ts_ : Time)
    (w : Whole) :
  no_depth (core w) →
  w_result_of (publishStaticTransforms sdk geo transform_ts_ w) = Terminated "exit(1)".
Proof.
  intros [Hep _]. unfold publishStaticTransforms.
  rewrite w_run_emit, !w_run_gets.
  unfold zero_trans. rewrite w_run_publish_static_tf.
  rewrite w_run_optical_frame_id_at, w_run_publish_static_tf.
  rewrite w_run_getEnabledProfile.
  cbn [core rest with_core with_rest with_params params _enabled_profiles fst DEPTH].
  change (RS2_STREAM_DEPTH, 0) with DEPTH. rewrite Hep. reflexivity.
Qed.

(** The node does not come up without the depth stream. On a node that has
    no profile under DEPTH, with the parameter [enable_depth] false (set, or
    by default), [publishTopics] never returns: whatever the camera, the
    SDK and the other parameters are, it ends in an exception, in the end of
    the process or in undefined behaviour. *)
Theorem publishTopics_needs_depth (K : Constants) (KS : SetupConstants)
    (ps : ParamServer) (dev : Device) (fs : FileSystem) (sdk : Sdk) (geo : Geometry)
    (now : Time) (w : Whole) :
  param (param_bool ps) "enable_depth" (ENABLE_DEPTH K) = false →
  at_default [] (_enabled_profiles (core w)) DEPTH = [] →
  w_result_of
    (publishTopics HID_STREAMS IMAGE_STREAMS sensor_default K KS ps dev fs sdk geo now w)
  ≠ Ok tt.
Proof.
  intros Hparam Hep Hok.
  destruct (publishTopics HID_STREAMS IMAGE_STREAMS sensor_default K KS ps dev fs sdk geo now w)
    as [[r w'] o] eqn:Hrun.
  cbn in Hok. subst r. unfold publishTopics in Hrun.
  apply w_bind_Ok_inv in Hrun as (? & w1 & o1 & ? & Hget & Hrun & _).
  assert (Hno1 : no_depth (core w1)).
  { unfold in_core in Hget.
    destruct (getParameters K ps (core w)) as [[r1 n1] out1] eqn:Hg.
    injection Hget as -> <- _. destruct x.
    exact (getParameters_no_depth K ps _ _ _ Hparam Hep Hg). }
  apply w_bind_Ok_inv in Hrun as (? & w2 & o2 & ? & Hframes & Hrun & _).
  pose proof (getParameters_frames_no_depth KS ps _ _ _ _ Hno1 Hframes) as Hno2.
  apply w_bind_Ok_inv in Hrun as (? & w3 & o3 & ? & Hdevice & Hrun & _).
  pose proof (setupDevice_no_depth dev fs _ _ _ _ Hno2 Hdevice) as Hno3.
  apply w_bind_Ok_inv in Hrun as (? & w4 & o4 & ? & Hpubs & Hrun & _).
  pose proof (setupPublishers_no_depth _ _ _ _ Hno3 Hpubs) as Hno4.
  apply w_bind_Ok_inv in Hrun as (? & w5 & o5 & ? & Hstreams & Hrun & _).
  pose proof (setupStreams_no_depth dev sdk _ _ _ _ Hno4 Hstreams) as Hno5.
  apply w_bind_Ok_inv in Hrun as (? & w6 & o6 & ? & Hfilters & Hrun & _).
  pose proof (preserves_in_core _ setupFilters_no_depth _ _ _ _ Hno5 Hfilters) as Hno6.
  apply w_bind_Ok_inv in Hrun as (? & w7 & o7 & ? & Htf & _).
  pose proof (publishStaticTransforms_exits sdk geo now w6 Hno6) as Hexit.
  rewrite Htf in Hexit. discriminate.
Qed.


(** ** Exceptions during the set-up *)

Lemma w_bind_Raise_inv {A B} (c : MW A) (k : A → MW B) (w w' : Whole) (e : exn)
    (out : list action) :
  (c ≫= k) w = (Raise e, w', out) →
  c w = (Raise e, w', out)
  ∨ ∃ a w1 o1 o2, c w = (Ok a, w1, o1) ∧ k a w1 = (Raise e, w', o2) ∧ out = o1 ++ o2.
Proof.
  unfold mbind, MW_bind, w_bind.
  destruct (c w) as [[[a|e'| |] w1] o1]; try discriminate.
  - destruct (k a w1) as [[r w2] o2] eqn:Hk. intros [= -> -> <-].
    right. exists a, w1, o1, o2. repeat split. exact Hk.
  - intros [= -> -> ->]. left. reflexivity.
Qed.

Lemma rethrow_logged_Raise_inv {A} (c : MW A) (w w' : Whole) (e : exn)
    (out : list action) :
  rethrow_logged c w = (Raise e, w', out) →
  ∃ before,
    c w = (Raise e, w', before)
    ∧ out = before ++ [LOG_ERROR ("An exception has been thrown: " ++ what e)%string].
Proof.
  unfold rethrow_logged, w_try_catch.
  destruct (c w) as [[[x|e'| |] w1] o1]; try discriminate.
  unfold mbind, MW_bind, w_bind, w_emit, w_throw. cbn.
  intros [= -> -> <-]. exists o1. split; reflexivity.
Qed.

(** An exception that leaves [setupDevice] was raised inside the [try]
    block and has been logged: the last thing emitted is the ERROR line
    "An exception has been thrown: " with the text of the exception. An
    exception that leaves [setupStreams] has been logged in the same way,
    with one exception: [enable_devices] runs before the [try] block, and
    what a sensor raises when it is asked its profiles there leaves
    [setupStreams] after the line "setupStreams..." and the lines of the
    negotiation, without any ERROR line. *)
Theorem setup_exceptions_logged (dev : Device) (fs : FileSystem) (sdk : Sdk)
    (w w' : Whole) (e : exn) (out : list action) :
  (setupDevice HID_STREAMS IMAGE_STREAMS sensor_default dev fs w = (Raise e, w', out) →
   ∃ before,
     out = before ++ [LOG_ERROR ("An exception has been thrown: " ++ what e)%string])
  ∧ (setupStreams HID_STREAMS IMAGE_STREAMS sensor_default dev sdk w = (Raise e, w', out) →
     (∃ before,
        out = before ++ [LOG_ERROR ("An exception has been thrown: " ++ what e)%string])
     ∨ (∃ lines elem,
          enable_devices_on_sensors IMAGE_STREAMS sensor_default w = (Raise e, w', lines)
          ∧ out = LOG_INFO "setupStreams..." :: lines
          ∧ Forall (λ a, ∃ x k, a = core_effect x ∧ effect_stream x = Some k) lines
          ∧ elem ∈ concat IMAGE_STREAMS
          ∧ at_default false (_enable (desc (core w))) elem = true
          ∧ asked_profiles sensor_default w elem = inl e)).
Proof.
  split; intros Hrun.
  - unfold setupDevice in Hrun.
    apply w_bind_Raise_inv in Hrun as [Hrun | (? & w1 & o1 & o2 & _ & Hrun & ->)];
      [discriminate|].
    apply rethrow_logged_Raise_inv in Hrun as (before & _ & ->).
    exists (o1 ++ before). apply app_assoc.
  - unfold setupStreams in Hrun.
    apply w_bind_Raise_inv in Hrun as [Hrun | (? & w1 & o1 & lines & Hinfo & Hrun & ->)];
      [discriminate|].
    injection Hinfo as _ <- <-.
    apply w_bind_Raise_inv in Hrun as [Hrun | (? & w2 & o2 & ? & _ & Hrun & ->)].
    + right.
      destruct (enable_devices_on_sensors_run w) as (_ & Hlines & Hres).
      rewrite Hrun in Hlines, Hres. cbn [w_out_of w_result_of fst snd] in Hlines, Hres.
      destruct Hres as [Hok | (e' & elem & Hraise & Hin & Hen & Hask)]; [discriminate|].
      injection Hraise as <-.
      exists lines, elem. repeat split; assumption.
    + left. apply rethrow_logged_Raise_inv in Hrun as (before & _ & ->).
      exists ([LOG_INFO "setupStreams..."] ++ o2 ++ before).
      rewrite <- !app_assoc. reflexivity.
Qed.


(** A texture stream name that [rs2_string_to_stream] does not know ends
    the bring-up at once: [publishTopics] raises the [std::runtime_error]
    of [getParameters] after the line "getParameters..." alone. The camera
    is not asked anything, nothing is advertised, and of the node only
    [_align_depth] and [_pointcloud] have been loaded. *)
Theorem publishTopics_unknown_texture (K : Constants) (KS : SetupConstants)
    (ps : ParamServer) (dev : Device) (fs : FileSystem) (sdk : Sdk) (geo : Geometry)
    (now : Time) (w : Whole) :
  known_stream_string
    (param (param_string ps) "pointcloud_texture_stream" "RS2_STREAM_COLOR") = false →
  publishTopics HID_STREAMS IMAGE_STREAMS sensor_default K KS ps dev fs sdk geo now w
  = (Raise (std_runtime_error
              ("Unknown stream string "
               +:+ param (param_string ps) "pointcloud_texture_stream"
                     "RS2_STREAM_COLOR")),
     with_core
       (with_params
          (set_align_depth_pointcloud
             (param (param_bool ps) "align_depth" (ALIGN_DEPTH K))
             (param (param_bool ps) "enable_pointcloud" (POINTCLOUD K))
             (params (core w)))
          (core w)) w,
     [core_effect (ROS_INFO "getParameters...")]).
Proof.
  intros Hunknown. unfold publishTopics. apply w_bind_Raise.
  apply (in_core_run _ _ _ _ [ROS_INFO "getParameters..."]).
  unfold getParameters, mbind, M_bind, bind, emit, modify.
  rewrite (rs2_string_to_stream_unknown _ _ Hunknown). reflexivity.
Qed.

End SetUpProperties.

(** * Scenarios *)

#[local] Existing Instance Sample.time.

(** ** Parameters *)

(** With only [filters = "temporal,pointcloud"] set, [_sync_frames] and
    [_pointcloud] come out true although enable_sync and enable_pointcloud
    default to false. *)
Lemma getParameters_forces_sync_witness :
  ∃ n',
    getParameters Sample.constants
      (Sample.server (Some "temporal,pointcloud") None None) Sample.constructed
    = (Ok tt, n', [ROS_INFO "getParameters..."])
    ∧ _sync_frames (params n') = true
    ∧ _pointcloud (params n') = true.
Proof.
  destruct (getParameters_forces_sync Sample.constants
              (Sample.server (Some "temporal,pointcloud") None None)
              Sample.constructed eq_refl)
    as (n' & Hrun & _ & _ & Hsync & _ & _ & Htoken).
  exists n'. split; [exact Hrun|]. split.
  - apply Hsync. right. right. discriminate.
  - apply Htoken. right. left. reflexivity.
Defined.

(** With nothing set and the defaults all off, enable_sync decides. *)
Example getParameters_sync_default :
  _sync_frames (params (Sample.configured Sample.no_parameters)) = false.
Proof. reflexivity. Qed.

(** An unknown texture stream name raises. *)
Example getParameters_unknown_texture :
  result_of (getParameters Sample.constants
               (Sample.server None None (Some "RS2_STREAM_DEPTH")) Sample.constructed)
  = Raise (std_runtime_error "Unknown stream string RS2_STREAM_DEPTH").
Proof. reflexivity. Qed.

(** ** Filters *)

(** "temporal,disparity,spatial" without point cloud: the four stages. *)
Lemma setupFilters_disparity_brackets_witness :
  ∃ n' out,
    setupFilters (Sample.configured
                    (Sample.server (Some "temporal,disparity,spatial") None None))
    = (Ok tt, n', out)
    ∧ _filters n' = [disparity_start; temporal; spatial; disparity_end].
Proof.
  destruct (setupFilters_disparity_brackets
              (Sample.configured
                 (Sample.server (Some "temporal,disparity,spatial") None None))
              eq_refl eq_refl)
    as (n' & out & Hrun & Hfilters).
  - intros Hpc. vm_compute in Hpc. discriminate.
  - right. left. reflexivity.
  - exists n', out. split; [exact Hrun | exact Hfilters].
Defined.

(** The same request with enable_pointcloud set: the point-cloud stage
    comes after the disparity-to-depth transform, which is then not the
    last stage, and the stages are not the four of the request. And the
    request "disparity,colorizer" by itself puts the colorizer after the
    disparity-to-depth transform. *)
Lemma setupFilters_disparity_end_not_last :
  let n := Sample.configured
             (Sample.server (Some "temporal,disparity,spatial") (Some true) None) in
  let m := Sample.configured (Sample.server (Some "disparity,colorizer") None None) in
  result_of (setupFilters n) = Ok tt
  ∧ _filters (node_of (setupFilters n))
    = [disparity_start; temporal; spatial; disparity_end;
       pointcloud_stage (RS2_STREAM_COLOR, 0)]
  ∧ _filters (node_of (setupFilters n))
    ≠ [disparity_start; temporal; spatial; disparity_end]
  ∧ last (_filters (node_of (setupFilters n))) ≠ Some disparity_end
  ∧ result_of (setupFilters m) = Ok tt
  ∧ _filters (node_of (setupFilters m))
    = [disparity_start; disparity_end; colorizer_stage]
  ∧ last (_filters (node_of (setupFilters m))) ≠ Some disparity_end.
Proof.
  cbv zeta. split; [reflexivity|]. split; [reflexivity|].
  split; [vm_compute; discriminate|]. split; [vm_compute; discriminate|].
  split; [reflexivity|]. split; [reflexivity|].
  vm_compute; discriminate.
Qed.

(** "disparity,colorizer": the colorizer comes after the disparity-to-depth
    transform. *)
Example setupFilters_disparity_colorizer :
  _filters (node_of (setupFilters
                       (Sample.configured
                          (Sample.server (Some "disparity,colorizer") None None))))
  = [disparity_start; disparity_end; colorizer_stage].
Proof. reflexivity. Qed.

(** An unknown name ends the process. *)
Example setupFilters_unknown_name :
  result_of (setupFilters (Sample.configured
                             (Sample.server (Some "spatial,median") None None)))
  = Terminated "throw without an active exception".
Proof. reflexivity. Qed.


(** ** Negotiation *)

(** Depth 848x480@30 is offered: the first Z16 profile of that size is
    taken (not the 1280x720 one before it, nor the Y8 one). Color
    1920x1080@60 is not offered: the stream is disabled with a warning. *)
Lemma enable_devices_negotiates_witness :
  ∃ n' out,
    enable_devices Sample.image_streams Sample.sensor_profiles Sample.requesting
    = (Ok tt, n', out)
    ∧ _enabled_profiles n' !! DEPTH
      = Some [Sample.profile DEPTH RS2_FORMAT_Z16 848 480 30]
    ∧ at_default false (_enable (desc n')) DEPTH = true
    ∧ _enable (desc n') !! COLOR = Some false
    ∧ _enabled_profiles n' !! COLOR = None
    ∧ ROS_WARN_not_supported COLOR RS2_FORMAT_RGB8 1920 1080 60 ∈ out.
Proof.
  destruct (enable_devices_negotiates Sample.image_streams Sample.sensor_profiles
              Sample.requesting)
    as (n' & out & Hrun & Hneg).
  - apply (bool_decide_unpack _). vm_compute. exact I.
  - reflexivity.
  - assert (Hd : DEPTH ∈ concat Sample.image_streams)
      by (apply (bool_decide_unpack _); vm_compute; exact I).
    assert (Hc : COLOR ∈ concat Sample.image_streams)
      by (apply (bool_decide_unpack _); vm_compute; exact I).
    pose proof (Hneg DEPTH Hd eq_refl) as Hdepth.
    pose proof (Hneg COLOR Hc eq_refl) as Hcolor.
    unfold negotiated in Hdepth, Hcolor.
    change (List.find (profile_matches (desc Sample.requesting) DEPTH)
              (Sample.sensor_profiles DEPTH))
      with (Some (Sample.profile DEPTH RS2_FORMAT_Z16 848 480 30)) in Hdepth.
    change (List.find (profile_matches (desc Sample.requesting) COLOR)
              (Sample.sensor_profiles COLOR))
      with (@None stream_profile) in Hcolor.
    destruct Hdepth as (Hp & _ & _ & _ & Hen & _).
    destruct Hcolor as (Hdis & Hnone & _ & _ & _ & Hwarn).
    exists n', out. repeat split; assumption.
Defined.


(** ** Stamps and the time base *)

(** Wall-clock origin 1000 s, hardware origin 1000 ms, a depth image at
    1500 ms, after two other deliveries: everything published is stamped
    1000.5 s, and the image is published. A gyro sample at 1500 ms is
    published with the same stamp. *)
Lemma delivered_frames_stamp_witness :
  Forall (stamped 1000500000000)
    (out_of (frame_callback Sample.env_ok (single (Sample.depth_image 1500 7))
               (session (Sample.streaming_since Sample.no_parameters)
                  [to_imu_callback Sample.env_ok (Sample.gyro_sample 1200);
                   to_frame_callback Sample.env_ok
                     (single (Sample.depth_image 1300 6))])))
  ∧ regular_stamps
      (out_of (frame_callback Sample.env_ok (single (Sample.depth_image 1500 7))
                 (session (Sample.streaming_since Sample.no_parameters)
                    [to_imu_callback Sample.env_ok (Sample.gyro_sample 1200);
                     to_frame_callback Sample.env_ok
                       (single (Sample.depth_image 1300 6))])))
    = [(Sample.depth_image 1500 7, 1000500000000)]
  ∧ ∃ msg,
      out_of (imu_callback Sample.env_ok (Sample.gyro_sample 1500)
                (session (Sample.streaming_since Sample.no_parameters)
                   [to_imu_callback Sample.env_ok (Sample.gyro_sample 1200);
                    to_frame_callback Sample.env_ok
                      (single (Sample.depth_image 1300 6))]))
      = [publish_imu GYRO msg]
      ∧ imu_stamp msg = 1000500000000.
Proof.
  pose proof (delivered_frames_stamp (Sample.streaming_since Sample.no_parameters)
                [to_imu_callback Sample.env_ok (Sample.gyro_sample 1200);
                 to_frame_callback Sample.env_ok (single (Sample.depth_image 1300 6))]
                Sample.env_ok (10 ^ 12) (F64.of_int 1000) eq_refl) as Hs.
  cbv zeta in Hs. destruct Hs as (Hall & Hsingle & _ & _ & Himu).
  assert (Hready : publishable Sample.env_ok
                     (Sample.streaming_since Sample.no_parameters)
                     (frame_key (Sample.depth_image 1500 7))).
  { exists (Some "depth/camera_info"), (Some "depth/image_rect_raw").
    split; [reflexivity|]. split; [reflexivity|].
    split; [left; vm_compute; discriminate|].
    split; [|split]; eexists; reflexivity. }
  specialize (Hall (single (Sample.depth_image 1500 7))).
  specialize (Hsingle (Sample.depth_image 1500 7) Hready).
  destruct (Himu (Sample.gyro_sample 1500) (Some "gyro/sample") eq_refl)
    as (msg & Hout & Hstamp); [vm_compute; discriminate|].
  match type of Hall with
  | Forall (stamped ?t) _ =>
      replace t with (1000500000000 : @Time Sample.time) in Hall, Hsingle
        by (vm_compute; reflexivity)
  end.
  match type of Hstamp with
  | _ = ?t =>
      replace t with (1000500000000 : @Time Sample.time) in Hstamp
        by (vm_compute; reflexivity)
  end.
  split; [exact Hall|]. split; [exact Hsingle|].
  exists msg. split; [exact Hout|exact Hstamp].
Defined.

(** And the depth image is published, with that stamp, the encoding and
    row step of a 16-bit image, and the frame number as sequence number. *)
Example frame_callback_publishes_depth :
  Sample.image_headers
    (out_of (frame_callback Sample.env_ok (single (Sample.depth_image 1500 7))
               (Sample.streaming_since Sample.no_parameters)))
  = [(Regular, DEPTH, 1000500000000, TYPE_16UC1, 4, 7)].
Proof. vm_compute. reflexivity. Qed.

(** In synchronised mode (here forced by a filters string) the stamp is the
    clock reading of the invocation plus the offset: 2000 s. *)
Example frame_callback_stamp_sync :
  Sample.image_headers
    (out_of (frame_callback Sample.env_ok (single (Sample.depth_image 1500 7))
               (Sample.streaming_since (Sample.server (Some "spatial") None None))))
  = [(Regular, DEPTH, 2 * 10 ^ 12, TYPE_16UC1, 4, 7)].
Proof. vm_compute. reflexivity. Qed.

(** From the unset time base: gyro samples are dropped, the first image
    frame sets the origins (clock 2000 s, hardware 1000 ms), and later
    deliveries leave them. *)
Example time_base_scenario :
  Sample.time_base_triple
    (session (Sample.streaming Sample.no_parameters)
       [to_imu_callback Sample.env_ok (Sample.gyro_sample 900);
        to_frame_callback Sample.env_ok (single (Sample.depth_image 1000 1));
        to_imu_callback Sample.env_ok (Sample.gyro_sample 1100);
        to_frame_callback Sample.env_ok (single (Sample.depth_image 1500 2))])
  = (true, 2 * 10 ^ 12, F64.of_int 1000).
Proof. vm_compute. reflexivity. Qed.

(** Before the time base is set a gyro sample is dropped and the first
    depth image is published, stamped with the clock reading taken as
    origin. *)
Lemma frames_before_time_base_witness :
  imu_callback Sample.env_ok (Sample.gyro_sample 900)
    (Sample.streaming Sample.no_parameters)
  = (Ok tt, Sample.streaming Sample.no_parameters, [])
  ∧ ∃ img,
      publish_image Regular DEPTH (Sample.depth_image 1000 1) img
        ∈ out_of (frame_callback Sample.env_ok (single (Sample.depth_image 1000 1))
                    (Sample.streaming Sample.no_parameters))
      ∧ img_stamp img = 2 * 10 ^ 12.
Proof.
  destruct (frames_before_time_base (Sample.streaming Sample.no_parameters) eq_refl)
    as (Himu & _ & Hpub).
  split; [apply Himu|].
  assert (Hsubs : getNumSubscribers Sample.env_ok (Some "depth/camera_info") ≠ 0
                  ∨ getNumSubscribers Sample.env_ok (Some "depth/image_rect_raw") ≠ 0)
    by (left; vm_compute; discriminate).
  destruct (Hpub Sample.env_ok (Sample.depth_image 1000 1)
              (Some "depth/camera_info") (Some "depth/image_rect_raw")
              TYPE_16UC1 "camera_depth_optical_frame"
              (@Build_CameraInfo Sample.time 0 0)
              eq_refl eq_refl Hsubs eq_refl eq_refl eq_refl)
    as (img & Hin & Hstamp).
  exists img. split; [exact Hin|]. rewrite Hstamp. vm_compute. reflexivity.
Defined.

(** After the time base is set, a gyro sample with a subscriber is
    published, stamped from the time base. *)
Example imu_callback_after_time_base :
  Sample.stamps
    (out_of (imu_callback Sample.env_ok (Sample.gyro_sample 1500)
               (Sample.streaming_since Sample.no_parameters)))
  = [1000500000000].
Proof. vm_compute. reflexivity. Qed.

(** In synchronised mode (forced here by a filters string), with the clock
    at 2000 s and no offset: a depth image with hardware timestamp 1500 ms
    is stamped 2000 s, the clock reading, while a gyro sample with the same
    hardware timestamp is stamped 1000.5 s, from the time base (origins
    1000 s and 1000 ms). The output timestamp of this delivered frame is not
    the wall-clock time of the invocation plus the offset. *)
Lemma imu_stamp_ignores_sync :
  let n := Sample.streaming_since (Sample.server (Some "spatial") None None) in
  _sync_frames (params n) = true
  ∧ Sample.time_base_triple n = (true, 10 ^ 12, F64.of_int 1000)
  ∧ Sample.stamps
      (out_of (frame_callback Sample.env_ok (single (Sample.depth_image 1500 7)) n))
    = [2 * 10 ^ 12; 2 * 10 ^ 12]
  ∧ Sample.stamps (out_of (imu_callback Sample.env_ok (Sample.gyro_sample 1500) n))
    = [1000500000000]
  ∧ ¬ Forall
        (stamped (Time_plus (now_at_stamp Sample.env_ok)
                    (Duration_fromSec (_ros_time_offset (params n)))))
        (out_of (imu_callback Sample.env_ok (Sample.gyro_sample 1500) n)).
Proof.
  cbv zeta. split; [reflexivity|]. split; [vm_compute; reflexivity|].
  split; [vm_compute; reflexivity|]. split; [vm_compute; reflexivity|].
  intros Hall.
  assert (Hstamps : Forall (λ s : Z, s = 2 * 10 ^ 12)
                      (Sample.stamps
                         (out_of (imu_callback Sample.env_ok (Sample.gyro_sample 1500)
                                    (Sample.streaming_since
                                       (Sample.server (Some "spatial") None None)))))).
  { unfold Sample.stamps. revert Hall.
    generalize (out_of (imu_callback Sample.env_ok (Sample.gyro_sample 1500)
                          (Sample.streaming_since
                             (Sample.server (Some "spatial") None None)))).
    intros out. induction 1 as [|e out He _ IH]; [constructor|].
    cbn [omap list_omap]. destruct (effect_stamp e) as [s|] eqn:Hs; [|exact IH].
    constructor; [|exact IH]. rewrite (He s Hs). vm_compute. reflexivity. }
  vm_compute in Hstamps. inversion Hstamps as [|s l Hs _]. discriminate Hs.
Qed.

(** ** Exceptions *)

(** A processing block raises: the callback returns normally with the
    ERROR line, the time base is as it was, and the image delivered next
    is published. *)
Example frame_callback_catches_scenario :
  let n := with_filters [spatial] (Sample.streaming_since Sample.no_parameters) in
  let failing :=
    frameset (F64.of_int 1400) RS2_TIMESTAMP_DOMAIN_HARDWARE_CLOCK 6
      [Sample.depth_image 1400 6] in
  Sample.ended (frame_callback_body Sample.env_failing failing n)
  = "raised: frame didn't arrive within 5000"
  ∧ Sample.ended (frame_callback Sample.env_failing failing n) = "returned"
  ∧ Sample.error_lines (out_of (frame_callback Sample.env_failing failing n))
    = ["An error has occurred during frame callback: frame didn't arrive within 5000"]
  ∧ Sample.time_base_triple (node_of (frame_callback Sample.env_failing failing n))
    = (true, 10 ^ 12, F64.of_int 1000)
  ∧ regular_frames
      (out_of (frame_callback Sample.env_ok
                 (frameset (F64.of_int 1500) RS2_TIMESTAMP_DOMAIN_HARDWARE_CLOCK 7
                    [Sample.depth_image 1500 7])
                 (node_of (frame_callback Sample.env_failing failing n))))
    = [Sample.depth_image 1500 7].
Proof. cbv zeta. repeat split; vm_compute; reflexivity. Qed.

(** A frame of a stream without publisher: [at] raises, the exception is
    caught and logged. *)
Example frame_callback_catches_out_of_range :
  let fisheye :=
    {| frame_stream_type := RS2_STREAM_FISHEYE; frame_stream_index := 0;
       frame_format := RS2_FORMAT_RAW8; frame_timestamp := F64.of_int 1500;
       frame_timestamp_domain := RS2_TIMESTAMP_DOMAIN_HARDWARE_CLOCK;
       frame_number := 1; frame_payload := video_frame 1 1 1 [0] |} in
  Sample.ended (frame_callback Sample.env_ok (single fisheye)
                  (Sample.streaming_since Sample.no_parameters)) = "returned"
  ∧ Sample.error_lines
      (out_of (frame_callback Sample.env_ok (single fisheye)
                 (Sample.streaming_since Sample.no_parameters)))
    = ["An error has occurred during frame callback: map::at"].
Proof. cbv zeta. split; vm_compute; reflexivity. Qed.

(** ** Point clouds *)

(** No texture stream and two points, the first with texture coordinates
    (2, 2): the first loop counts one point, the second stores both, and
    the store of the second falls past the end of the message data. *)
Lemma publishPointCloud_untextured_witness :
  count_valid_points Sample.two_points = 1
  ∧ fill_points false no_color 0 0 Sample.two_points
    = Some (map white_point Sample.two_points)
  ∧ result_of (publishPointCloud Sample.two_points (0 : @Time Sample.time) []
                 (Sample.streaming_since
                    (Sample.server None (Some true) (Some "RS2_STREAM_ANY"))))
    = Undefined "store past the end of the point cloud data".
Proof.
  destruct (publishPointCloud_untextured Sample.two_points (0 : @Time Sample.time) []
              (Sample.streaming_since
                 (Sample.server None (Some true) (Some "RS2_STREAM_ANY")))
              eq_refl) as (Hfill & _ & Hsome).
  destruct (Hsome eq_refl) as (_ & Hres & _).
  split; [reflexivity|]. split; [exact Hfill | exact Hres].
Defined.

(** No texture stream and a point inside the unit square: published, white. *)
Example publishPointCloud_untextured_white :
  Sample.clouds
    (out_of (publishPointCloud [(Sample.vertex_at 2, Sample.uv F32.one F32.zero)]
               (0 : @Time Sample.time) []
               (Sample.streaming_since
                  (Sample.server None (Some true) (Some "RS2_STREAM_ANY")))))
  = [(1, [white_point (Sample.vertex_at 2, Sample.uv F32.one F32.zero)])].
Proof. vm_compute. reflexivity. Qed.

(** With the color image as texture, the point at (2, 2) is left out and
    the point at (0.5, 0.5) takes the color of the pixel at (1, 1). *)
Example publishPointCloud_textured_scenario :
  Sample.clouds
    (out_of (publishPointCloud Sample.two_points (0 : @Time Sample.time)
               [Sample.color_image 1500 1]
               (Sample.streaming_since (Sample.server None (Some true) None))))
  = [(1, [{| pt_x := F32.of_int 2; pt_y := F32.of_int 2; pt_z := F32.of_int 1;
             pt_r := 10; pt_g := 20; pt_b := 30 |}])].
Proof. vm_compute. reflexivity. Qed.

(** With a texture, a point at (1, 1) passes the test and its color is read
    at row [texture_height], outside the texture data. *)
Example publishPointCloud_textured_border :
  Sample.ended
    (publishPointCloud [(Sample.vertex_at 1, Sample.uv F32.one F32.one)]
       (0 : @Time Sample.time) [Sample.color_image 1500 1]
       (Sample.streaming_since (Sample.server None (Some true) None)))
  = "undefined: read outside the texture data".
Proof. vm_compute. reflexivity. Qed.

(** Without the texture frame in the frameset nothing is published. *)
Example publishPointCloud_no_texture_frame :
  Sample.ended
    (publishPointCloud Sample.two_points (0 : @Time Sample.time)
       [Sample.depth_image 1500 1]
       (Sample.streaming_since (Sample.server None (Some true) None)))
  = "returned"
  ∧ Sample.clouds
      (out_of (publishPointCloud Sample.two_points (0 : @Time Sample.time)
                 [Sample.depth_image 1500 1]
                 (Sample.streaming_since (Sample.server None (Some true) None))))
    = [].
Proof. split; vm_compute; reflexivity. Qed.

(** ** Frames of the same stream *)

(** A frameset with the depth image, the colorized depth image (same stream
    and index), the color image and two points frames: the depth image and
    the color image are published, the colorized one is not, and one point
    cloud is, from the first points frame. *)
Example dedup_keeps_first_scenario :
  let frames :=
    [Sample.depth_image 1500 7; Sample.colorized_depth_image 1500 7;
     Sample.color_image 1500 7; Sample.points_frame 1500 Sample.two_points;
     Sample.points_frame 1500 []] in
  let run :=
    frame_callback Sample.env_ok
      (frameset (F64.of_int 1500) RS2_TIMESTAMP_DOMAIN_HARDWARE_CLOCK 7 frames)
      (Sample.streaming_since (Sample.server None (Some true) None)) in
  frames_to_publish (dedup false frames)
  = [Sample.depth_image 1500 7; Sample.color_image 1500 7;
     Sample.points_frame 1500 Sample.two_points]
  ∧ regular_frames (out_of run)
    = [Sample.depth_image 1500 7; Sample.color_image 1500 7]
  ∧ Sample.image_headers (out_of run)
    = [(Regular, DEPTH, 2 * 10 ^ 12, TYPE_16UC1, 4, 7);
       (Regular, COLOR, 2 * 10 ^ 12, RGB8, 6, 7)]
  ∧ regular_info_keys (out_of run) = [DEPTH; COLOR]
  ∧ length (Sample.clouds (out_of run)) = 1%nat.
Proof. cbv zeta. repeat split; vm_compute; reflexivity. Qed.

(** A frameset with the depth frame, the colorized depth frame, a color
    frame and a points frame, while the point cloud has no subscriber: the
    depth frame and the color frame are published, the colorized depth frame
    is not. *)
Lemma dedup_keeps_first_witness :
  regular_frames
    (out_of (frame_callback Sample.env_images
               (frameset (F64.of_int 1500) RS2_TIMESTAMP_DOMAIN_HARDWARE_CLOCK 7
                  [Sample.depth_image 1500 7; Sample.colorized_depth_image 1500 7;
                   Sample.color_image 1500 7;
                   Sample.points_frame 1500 Sample.two_points])
               (Sample.streaming_since Sample.no_parameters)))
  = [Sample.depth_image 1500 7; Sample.color_image 1500 7].
Proof.
  pose proof (dedup_keeps_first Sample.env_images
                (Sample.streaming_since Sample.no_parameters)
                (F64.of_int 1500) RS2_TIMESTAMP_DOMAIN_HARDWARE_CLOCK 7
                [Sample.depth_image 1500 7; Sample.colorized_depth_image 1500 7;
                 Sample.color_image 1500 7;
                 Sample.points_frame 1500 Sample.two_points]) as Hkept.
  cbv zeta in Hkept. destruct Hkept as [_ Hkept].
  change (apply_filters Sample.env_images
            (_filters (Sample.streaming_since Sample.no_parameters))
            [Sample.depth_image 1500 7; Sample.colorized_depth_image 1500 7;
             Sample.color_image 1500 7; Sample.points_frame 1500 Sample.two_points])
    with (@inr exn _
            [Sample.depth_image 1500 7; Sample.colorized_depth_image 1500 7;
             Sample.color_image 1500 7; Sample.points_frame 1500 Sample.two_points])
    in Hkept.
  cbv beta iota in Hkept.
  change (frames_to_publish
            (dedup (_align_depth (params (Sample.streaming_since Sample.no_parameters)))
               [Sample.depth_image 1500 7; Sample.colorized_depth_image 1500 7;
                Sample.color_image 1500 7; Sample.points_frame 1500 Sample.two_points]))
    with [Sample.depth_image 1500 7; Sample.color_image 1500 7;
          Sample.points_frame 1500 Sample.two_points] in Hkept.
  destruct Hkept as (_ & _ & _ & _ & _ & Hpublished).
  apply Hpublished.
  - reflexivity.
  - reflexivity.
  - repeat constructor.
    + intros _. exists (Some "depth/camera_info"), (Some "depth/image_rect_raw").
      split; [reflexivity|]. split; [reflexivity|].
      split; [left; vm_compute; discriminate|].
      split; [|split]; eexists; reflexivity.
    + intros _. exists (Some "color/camera_info"), (Some "color/image_raw").
      split; [reflexivity|]. split; [reflexivity|].
      split; [left; vm_compute; discriminate|].
      split; [|split]; eexists; reflexivity.
    + intros Hnp. discriminate Hnp.
Defined.

(** A frameset with two color frames and a points frame, on a node that
    publishes the point cloud textured from the color stream: the loop
    keeps the first color frame and drops the second, and only the first
    is published as color image; but the point cloud is colored from the
    dropped frame, the last color frame of the frameset (gray, 100), not
    from the kept one (10, 20, 30). And with [_align_depth], a frameset
    with the colorized depth frame before the depth frame: the depth frame
    is dropped, yet it makes the callback publish depth aligned to color,
    and it is the frame the alignment is made of. The dropped frames reach
    the point-cloud and aligned-depth publishers. *)
Lemma dedup_dropped_frame_reaches_sinks :
  let n := Sample.streaming_since (Sample.server None (Some true) None) in
  let twice := [Sample.color_image 1500 7; Sample.gray_image 1500 7;
                Sample.points_frame 1500 Sample.two_points] in
  let once := [Sample.color_image 1500 7; Sample.points_frame 1500 Sample.two_points] in
  let callback env frames m :=
    out_of (frame_callback env
              (frameset (F64.of_int 1500) RS2_TIMESTAMP_DOMAIN_HARDWARE_CLOCK 7 frames)
              m) in
  let m := Sample.aligning in
  let both := [Sample.colorized_depth_image 1500 7; Sample.depth_image 1500 7;
               Sample.color_image 1500 7] in
  let colorized := [Sample.colorized_depth_image 1500 7; Sample.color_image 1500 7] in
  apply_filters Sample.env_ok (_filters n) twice = inr twice
  ∧ frames_to_publish (dedup (_align_depth (params n)) twice) = once
  ∧ regular_frames (callback Sample.env_ok twice n) = [Sample.color_image 1500 7]
  ∧ Sample.cloud_colors (callback Sample.env_ok twice n) = [[(100, 100, 100)]]
  ∧ Sample.cloud_colors (callback Sample.env_ok once n) = [[(10, 20, 30)]]
  ∧ apply_filters Sample.env_aligning (_filters m) both = inr both
  ∧ frames_to_publish (dedup (_align_depth (params m)) both) = colorized
  ∧ regular_frames (callback Sample.env_aligning both m) = colorized
  ∧ Sample.aligned_frames (callback Sample.env_aligning both m)
    = [Sample.depth_image 1500 7]
  ∧ Sample.aligned_frames (callback Sample.env_aligning colorized m) = [].
Proof. cbv zeta. repeat split; vm_compute; reflexivity. Qed.

(** ** More scenarios *)

(** "spatial,median": the process ends at "median". *)
Lemma setupFilters_after_getParameters_witness :
  result_of (setupFilters
               (Sample.configured (Sample.server (Some "spatial,median") None None)))
  = Terminated "throw without an active exception"
  ∧ last (out_of (setupFilters
                    (Sample.configured
                       (Sample.server (Some "spatial,median") None None))))
    = Some (ROS_ERROR "Unknown Filter: median").
Proof.
  exact (setupFilters_after_getParameters Sample.constants
           (Sample.server (Some "spatial,median") None None) Sample.constructed eq_refl).
Defined.

(** The first depth image handed to [publishFrame] takes DEPTH's counter
    from 0 to 1. *)
Lemma publishFrame_counts_calls_witness :
  at_default 0
    (_seq (pstate (node_of (publishFrame Sample.env_ok (Sample.depth_image 1500 7)
                              (0 : @Time Sample.time) DEPTH Regular true
                              (Sample.streaming_since Sample.no_parameters)))))
    DEPTH
  = 0 + 1.
Proof.
  assert (Hlt : at_default 0
                  (seq_of Regular (Sample.streaming_since Sample.no_parameters)) DEPTH
                < 2 ^ 31 - 1) by (vm_compute; reflexivity).
  destruct (publishFrame_counts_calls Sample.env_ok (Sample.depth_image 1500 7)
              (0 : @Time Sample.time) DEPTH Regular true
              (Sample.streaming_since Sample.no_parameters) Hlt) as [Hseq _].
  exact Hseq.
Defined.

(** Two depth images with a gyro sample and a frame of a stream without
    publisher in between: the counters 0 and 1 are sent, and the counter
    ends at 2. *)
Lemma image_counter_consecutive_witness :
  counters_of
    (session_out (Sample.counted (Sample.streaming_since Sample.no_parameters))
       [to_frame_callback Sample.env_ok (single (Sample.depth_image 1100 1));
        to_imu_callback Sample.env_ok (Sample.gyro_sample 1200);
        to_frame_callback Sample.env_ok (single (Sample.gyro_sample 1250));
        to_frame_callback Sample.env_ok (single (Sample.depth_image 1300 2))])
  = [0; 1]
  ∧ _image_counter
      (pstate
         (session (Sample.counted (Sample.streaming_since Sample.no_parameters))
            [to_frame_callback Sample.env_ok (single (Sample.depth_image 1100 1));
             to_imu_callback Sample.env_ok (Sample.gyro_sample 1200);
             to_frame_callback Sample.env_ok (single (Sample.gyro_sample 1250));
             to_frame_callback Sample.env_ok (single (Sample.depth_image 1300 2))]))
    = 2.
Proof.
  pose proof (image_counter_consecutive
                (Sample.counted (Sample.streaming_since Sample.no_parameters))
                [to_frame_callback Sample.env_ok (single (Sample.depth_image 1100 1));
                 to_imu_callback Sample.env_ok (Sample.gyro_sample 1200);
                 to_frame_callback Sample.env_ok (single (Sample.gyro_sample 1250));
                 to_frame_callback Sample.env_ok (single (Sample.depth_image 1300 2))])
    as Hc.
  cbv zeta in Hc.
  match type of Hc with
  | context [length ?l] =>
      replace (length l) with 2%nat in Hc by (vm_compute; reflexivity)
  end.
  match type of Hc with
  | context [_image_counter (pstate ?n) + Z.of_nat 2] =>
      replace (_image_counter (pstate n)) with 0 in Hc by reflexivity
  end.
  apply Hc. vm_compute. discriminate.
Defined.

(** A gyro sample at 1500 ms in synchronised mode, with the origins at
    1000 s and 1000 ms: published, stamped 1000.5 s. *)
Lemma imu_callback_publishes_witness :
  result_of (imu_callback Sample.env_ok (Sample.gyro_sample 1500)
               (Sample.streaming_since (Sample.server (Some "spatial") None None)))
  = Ok tt
  ∧ _sync_frames (params (Sample.streaming_since
                            (Sample.server (Some "spatial") None None))) = true
  ∧ Sample.stamps
      (out_of (imu_callback Sample.env_ok (Sample.gyro_sample 1500)
                 (Sample.streaming_since (Sample.server (Some "spatial") None None))))
    = [1000500000000].
Proof.
  assert (Hlt : at_default 0
                  (_seq (pstate (Sample.streaming_since
                                   (Sample.server (Some "spatial") None None))))
                  GYRO < 2 ^ 31 - 1) by (vm_compute; reflexivity).
  destruct (imu_callback_publishes Sample.env_ok (Sample.gyro_sample 1500)
              (Sample.streaming_since (Sample.server (Some "spatial") None None))
              (10 ^ 12) (F64.of_int 1000) eq_refl Hlt) as [Hres _].
  split; [exact Hres|]. split; vm_compute; reflexivity.
Defined.

(** The two points with the color image as texture: one record, width 1. *)
Lemma publishPointCloud_textured_witness :
  ∃ msg,
    publish_pointcloud msg
      ∈ out_of (publishPointCloud Sample.two_points (0 : @Time Sample.time)
                  [Sample.color_image 1500 1]
                  (Sample.streaming_since (Sample.server None (Some true) None)))
    ∧ pc_width msg = 1
    ∧ length (pc_records msg) = 1%nat.
Proof.
  eexists. split.
  { apply list_elem_of_In. left. reflexivity. }
  match goal with
  | |- pc_width ?m = _ ∧ _ =>
      destruct (publishPointCloud_textured Sample.two_points (0 : @Time Sample.time)
                  [Sample.color_image 1500 1]
                  (Sample.streaming_since (Sample.server None (Some true) None)) m)
        as (Hrec & Hlen & Hwidth)
  end.
  - discriminate.
  - apply list_elem_of_In. left. reflexivity.
  - split; [exact Hwidth|]. apply Forall2_length in Hrec. exact Hrec.
Defined.

(** The spatial filter raises on a frameset with a depth image. *)
Lemma frame_callback_filter_failure_witness :
  result_of (frame_callback Sample.env_failing
               (frameset (F64.of_int 1400) RS2_TIMESTAMP_DOMAIN_HARDWARE_CLOCK 6
                  [Sample.depth_image 1400 6])
               (with_filters [spatial] (Sample.streaming_since Sample.no_parameters)))
  = Ok tt
  ∧ node_of (frame_callback Sample.env_failing
               (frameset (F64.of_int 1400) RS2_TIMESTAMP_DOMAIN_HARDWARE_CLOCK 6
                  [Sample.depth_image 1400 6])
               (with_filters [spatial] (Sample.streaming_since Sample.no_parameters)))
    = with_filters [spatial] (Sample.streaming_since Sample.no_parameters).
Proof.
  destruct (frame_callback_filter_failure Sample.env_failing
              (with_filters [spatial] (Sample.streaming_since Sample.no_parameters))
              (F64.of_int 1400) RS2_TIMESTAMP_DOMAIN_HARDWARE_CLOCK 6
              [Sample.depth_image 1400 6]
              (rs2_error "frame didn't arrive within 5000") eq_refl)
    as (Hres & Hnode & _).
  split; [exact Hres | exact Hnode].
Defined.

Lemma updateStreamCalibData_needs_depth_witness :
  w_result_of (updateStreamCalibData Sample.sdk
                 (Sample.profile COLOR RS2_FORMAT_RGB8 1280 720 30)
                 (Sample.whole Sample.constructed))
  = Terminated "exit(1)"
  ∧ w_out_of (updateStreamCalibData Sample.sdk
                (Sample.profile COLOR RS2_FORMAT_RGB8 1280 720 30)
                (Sample.whole Sample.constructed))
    = [LOG_ERROR "Given depth profile is not supported by current device!";
       ros_shutdown].
Proof.
  exact (updateStreamCalibData_needs_depth Sample.sdk
           (Sample.profile COLOR RS2_FORMAT_RGB8 1280 720 30)
           (Sample.whole Sample.constructed) eq_refl).
Defined.

Lemma updateStreamCalibData_calibrates_witness :
  w_result_of (updateStreamCalibData Sample.sdk
                 (Sample.profile DEPTH RS2_FORMAT_Z16 848 480 30)
                 (Sample.whole Sample.negotiated))
  = Ok tt
  ∧ ∃ c,
      _calibration
        (rest (w_whole_of (updateStreamCalibData Sample.sdk
                             (Sample.profile DEPTH RS2_FORMAT_Z16 848 480 30)
                             (Sample.whole Sample.negotiated))))
      !! DEPTH = Some c
      ∧ cal_width c = 848 ∧ cal_height c = 480
      ∧ cal_distortion_model c = "plumb_bob"
      ∧ cal_D c = replicate 5 d0
      ∧ cal_K c = [F64.of_int 600; d0; F64.of_int 424;
                   d0; F64.of_int 600; F64.of_int 240;
                   d0; d0; d1].
Proof.
  destruct (updateStreamCalibData_calibrates Sample.sdk
              (Sample.profile DEPTH RS2_FORMAT_Z16 848 480 30)
              (Sample.profile DEPTH RS2_FORMAT_Z16 848 480 30)
              (Sample.intrinsics_of (Sample.profile DEPTH RS2_FORMAT_Z16 848 480 30))
              (Sample.whole Sample.negotiated))
    as (Hok & _ & _ & _ & c & Hc & _ & Hw & Hh & Hm & HD & HK & _ & _).
  - reflexivity.
  - reflexivity.
  - vm_compute. reflexivity.
  - repeat split; reflexivity.
  - split; [exact Hok|]. exists c.
    split; [exact Hc|]. split; [exact Hw|]. split; [exact Hh|].
    split; [exact Hm|]. split.
    + rewrite HD. vm_compute. reflexivity.
    + rewrite HK. vm_compute. reflexivity.
Defined.

(** ** The set-up *)

Lemma stream_images_opens_witness :
  w_result_of (stream_images Sample.sensor_default (Sample.device [Sample.stereo_module])
                 [DEPTH; INFRA1; INFRA2] (Sample.whole Sample.negotiated))
  = Ok tt.
Proof.
  exact (proj1 (stream_images_opens Sample.sensor_default
                  (Sample.device [Sample.stereo_module]) DEPTH
              [INFRA1; INFRA2] (F32.of_bits 1 (-10)) (Sample.whole Sample.negotiated)
              eq_refl eq_refl eq_refl)).
Defined.

Lemma stream_imu_needs_both_witness :
  w_out_of
    ((w_for_each Sample.hid_streams
        (λ streams, w_for_each streams (enable_hid_stream Sample.sensor_default));;
      stream_imu Sample.sensor_default (Sample.device [Sample.motion_module]) Sample.sdk)
       Sample.gyro_only)
  = []
  ∧ w_result_of
      ((w_for_each Sample.hid_streams
          (λ streams, w_for_each streams (enable_hid_stream Sample.sensor_default));;
        stream_imu Sample.sensor_default (Sample.device [Sample.motion_module]) Sample.sdk)
         Sample.gyro_only)
    = Ok tt.
Proof.
  destruct (stream_imu_needs_both Sample.hid_streams Sample.sensor_default
              (Sample.device [Sample.motion_module]) Sample.sdk ACCEL Sample.gyro_only
              (or_intror eq_refl) eq_refl eq_refl) as (Hout & _ & Hok).
  split; [exact Hout|]. apply Hok.
  intros elem Hin Hen.
  apply elem_of_concat in Hin as (streams & Hin & Hs).
  apply list_elem_of_singleton in Hs as ->.
  apply elem_of_cons in Hin as [-> | Hin];
    [|apply list_elem_of_singleton in Hin as ->; discriminate Hen].
  eexists. reflexivity.
Defined.

Lemma publish_depth_extrinsics_publishes_witness :
  w_result_of (publish_depth_extrinsics Sample.sdk COLOR "depth_to_color_extrinsics"
                 (Sample.whole Sample.negotiated_both))
  = Ok tt.
Proof.
  destruct (publish_depth_extrinsics_publishes Sample.sdk COLOR
              "depth_to_color_extrinsics" (Sample.whole Sample.negotiated_both)
              eq_refl eq_refl) as [Hpublishes _].
  exact (proj1 (Hpublishes (Sample.profile DEPTH RS2_FORMAT_Z16 848 480 30) []
                  (Sample.profile COLOR RS2_FORMAT_RGB8 1280 720 30) []
                  _ eq_refl eq_refl eq_refl eq_refl eq_refl)).
Defined.

Lemma getImuInfo_flattens_witness :
  w_result_of (getImuInfo Sample.sdk GYRO Sample.gyro_negotiated)
  = Ok {| ii_frame_id := "imu_gyro"; ii_data := replicate 12 d0;
          ii_noise_variances := replicate 3 d0;
          ii_bias_variances := replicate 3 d0 |}.
Proof.
  destruct (getImuInfo_flattens Sample.sdk GYRO Sample.gyro_profile []
              {| mi_data := replicate 3 (replicate 4 (S754_zero false));
                 mi_noise_variances := replicate 3 (S754_zero false);
                 mi_bias_variances := replicate 3 (S754_zero false) |}
              Sample.gyro_negotiated) as [Hok _];
    [reflexivity | reflexivity | reflexivity | repeat constructor
    | reflexivity | reflexivity | exact Hok].
Defined.

Lemma publishStaticTransforms_needs_depth_witness :
  w_result_of (publishStaticTransforms Sample.sdk Sample.geometry (0 : Z)
                 (Sample.whole Sample.constructed))
  = Terminated "exit(1)".
Proof.
  exact (proj1 (publishStaticTransforms_needs_depth Sample.sdk Sample.geometry (0 : Z)
                  (Sample.whole Sample.constructed) eq_refl)).
Defined.

Lemma publish_stream_tf_sends_witness :
  w_result_of (publish_stream_tf Sample.sdk Sample.geometry (0 : Z) COLOR
                 (Sample.whole Sample.negotiated_both))
  = Ok tt.
Proof.
  exact (proj1 (publish_stream_tf_sends Sample.sdk Sample.geometry (0 : Z) COLOR
                  (Sample.whole Sample.negotiated_both)
                  (Sample.profile COLOR RS2_FORMAT_RGB8 1280 720 30)
                  (Sample.profile DEPTH RS2_FORMAT_Z16 848 480 30) [] [] _
                  (F32.of_int 1) (F32.of_int 0) (F32.of_int 0)
                  (F32.of_int 0) (F32.of_int 1) (F32.of_int 0)
                  (F32.of_int 0) (F32.of_int 0) (F32.of_int 1)
                  (F32.of_int 0) (F32.of_int 0) (F32.of_int 0)
                  F32.zero F32.zero F32.zero F32.one
                  eq_refl eq_refl eq_refl eq_refl eq_refl eq_refl eq_refl)).
Defined.

Lemma setupPublishers_image_streams_witness :
  _image_publishers
    (pubs (core (w_whole_of (setupPublishers Sample.image_streams
                               Sample.configured_whole))))
  !! DEPTH = Some (Some "depth/image_rect_raw")
  ∧ _counter_publisher
      (rest (w_whole_of (setupPublishers Sample.image_streams Sample.configured_whole)))
    = Some "/depth/counter".
Proof.
  destruct (setupPublishers_image_streams Sample.image_streams DEPTH
              Sample.configured_whole)
    as (_ & Himage & _ & _ & _ & _ & Hcounter).
  - apply (bool_decide_unpack _). reflexivity.
  - reflexivity.
  - discriminate.
  - discriminate.
  - split; [exact Himage | apply Hcounter; reflexivity].
Defined.

Lemma calibrate_streams_camera_infos_witness :
  w_result_of (calibrate_streams Sample.sdk (Sample.whole Sample.negotiated_both))
  = Ok tt
  ∧ is_Some (_camera_info
               (pstate (core (w_whole_of
                                (calibrate_streams Sample.sdk
                                   (Sample.whole Sample.negotiated_both)))))
             !! COLOR).
Proof.
  destruct (calibrate_streams_camera_infos Sample.sdk
              (Sample.profile DEPTH RS2_FORMAT_Z16 848 480 30)
              (Sample.whole Sample.negotiated_both))
    as (Hok & _ & Hinfos).
  - intros k l p _ _. eexists. split; reflexivity.
  - reflexivity.
  - intros k c Hc. discriminate Hc.
  - split; [exact Hok|].
    apply (Hinfos COLOR [Sample.profile COLOR RS2_FORMAT_RGB8 1280 720 30]
             (Sample.profile COLOR RS2_FORMAT_RGB8 1280 720 30)).
    + reflexivity.
    + apply (bool_decide_unpack _). reflexivity.
Defined.

Lemma publishTopics_needs_depth_witness :
  w_result_of
    (publishTopics Sample.hid_streams Sample.image_streams Sample.sensor_default
       Sample.constants Sample.setup_constants Sample.server_without_depth
       (Sample.device [Sample.stereo_module; Sample.rgb_camera]) Sample.no_files
       Sample.sdk Sample.geometry (0 : @Time Sample.time) (Sample.whole Sample.constructed))
  ≠ Ok tt.
Proof.
  apply (publishTopics_needs_depth Sample.hid_streams Sample.image_streams
           Sample.sensor_default Sample.constants Sample.setup_constants Sample.server_without_depth
           (Sample.device [Sample.stereo_module; Sample.rgb_camera]) Sample.no_files
           Sample.sdk Sample.geometry (0 : @Time Sample.time) (Sample.whole Sample.constructed));
    reflexivity.
Defined.

Lemma publishTopics_unknown_texture_witness :
  w_result_of
    (publishTopics Sample.hid_streams Sample.image_streams Sample.sensor_default
       Sample.constants Sample.setup_constants (Sample.server None None (Some "RS2_STREAM_DEPTH"))
       (Sample.device [Sample.stereo_module; Sample.rgb_camera]) Sample.no_files
       Sample.sdk Sample.geometry (0 : @Time Sample.time) (Sample.whole Sample.constructed))
  = Raise (std_runtime_error "Unknown stream string RS2_STREAM_DEPTH").
Proof.
  rewrite (publishTopics_unknown_texture Sample.hid_streams Sample.image_streams
             Sample.sensor_default Sample.constants Sample.setup_constants
             (Sample.server None None (Some "RS2_STREAM_DEPTH"))
             (Sample.device [Sample.stereo_module; Sample.rgb_camera]) Sample.no_files
             Sample.sdk Sample.geometry (0 : @Time Sample.time) (Sample.whole Sample.constructed)
             eq_refl).
  reflexivity.
Defined.

Lemma setupDevice_unknown_module_witness :
  w_result_of
    (setupDevice Sample.hid_streams Sample.image_streams Sample.sensor_default
       (Sample.device [Sample.stereo_module; Sample.tracking_module; Sample.rgb_camera])
       Sample.no_files Sample.configured_whole)
  = Terminated "exit(1)".
Proof.
  destruct (setupDevice_unknown_module Sample.hid_streams Sample.image_streams
              Sample.sensor_default
              (Sample.device
                 [Sample.stereo_module; Sample.tracking_module; Sample.rgb_camera])
              Sample.no_files Sample.configured_whole
              "Intel RealSense D435" "05.10.03.00" "0B07"
              [Sample.stereo_module] [Sample.rgb_camera] Sample.tracking_module)
    as (Hexit & _).
  - reflexivity.
  - reflexivity.
  - reflexivity.
  - reflexivity.
  - reflexivity.
  - apply (bool_decide_unpack _). reflexivity.
  - reflexivity.
  - exact Hexit.
Defined.

Lemma setupDevice_supported_witness :
  is_Some
    (_sensors
       (rest (w_whole_of
                (setupDevice Sample.hid_streams Sample.image_streams Sample.sensor_default
                   (Sample.device [Sample.stereo_module; Sample.rgb_camera])
                   Sample.no_files Sample.configured_whole)))
     !! DEPTH)
  ∧ at_default false
      (_enable
         (desc (core (w_whole_of
                        (setupDevice Sample.hid_streams Sample.image_streams
                           Sample.sensor_default
                           (Sample.device [Sample.stereo_module; Sample.rgb_camera])
                           Sample.no_files Sample.configured_whole)))))
      FISHEYE = false.
Proof.
  destruct (setupDevice Sample.hid_streams Sample.image_streams Sample.sensor_default
              (Sample.device [Sample.stereo_module; Sample.rgb_camera])
              Sample.no_files Sample.configured_whole) as [[r w'] out] eqn:Hrun.
  assert (Hok : r = Ok tt).
  { change r with (w_result_of (r, w', out)). rewrite <- Hrun. reflexivity. }
  subst r.
  destruct (setupDevice_supported Sample.hid_streams Sample.image_streams
              Sample.sensor_default
              (Sample.device [Sample.stereo_module; Sample.rgb_camera])
              Sample.no_files Sample.configured_whole w' out Hrun)
    as [Hsensors _].
  assert (Hdepth : at_default false (_enable (desc (core w'))) DEPTH = true).
  { change w' with (w_whole_of (Ok tt, w', out)). rewrite <- Hrun. reflexivity. }
  assert (Hfisheye : at_default false (_enable (desc (core w'))) FISHEYE = false).
  { change w' with (w_whole_of (Ok tt, w', out)). rewrite <- Hrun. reflexivity. }
  split; [|exact Hfisheye].
  apply (Hsensors DEPTH); [|exact Hdepth].
  apply (bool_decide_unpack _). reflexivity.
Defined.

Lemma setup_exceptions_logged_witness :
  (∃ before,
     w_out_of (setupDevice Sample.hid_streams Sample.image_streams Sample.sensor_default
                 Sample.silent_device Sample.no_files Sample.configured_whole)
     = before ++ [LOG_ERROR "An exception has been thrown: get_info failed"])
  ∧ ((∃ before,
        w_out_of (setupStreams Sample.hid_streams Sample.image_streams
                    Sample.sensor_default (Sample.device [Sample.unanswering_stereo_module])
                    Sample.sdk (Sample.requesting_whole Sample.unanswering_stereo_module))
        = before
          ++ [LOG_ERROR "An exception has been thrown: failed to get stream profiles"])
     ∨ ∃ lines,
         w_out_of (setupStreams Sample.hid_streams Sample.image_streams
                     Sample.sensor_default (Sample.device [Sample.unanswering_stereo_module])
                     Sample.sdk (Sample.requesting_whole Sample.unanswering_stereo_module))
         = LOG_INFO "setupStreams..." :: lines
         ∧ Forall (λ a, ∃ x k, a = core_effect x ∧ effect_stream x = Some k) lines).
Proof.
  split.
  - destruct (setupDevice Sample.hid_streams Sample.image_streams Sample.sensor_default
                Sample.silent_device Sample.no_files Sample.configured_whole)
      as [[r w'] out] eqn:Hrun.
    assert (Hraise : r = Raise (rs2_error "get_info failed")).
    { change r with (w_result_of (r, w', out)). rewrite <- Hrun. reflexivity. }
    subst r.
    exact (proj1 (setup_exceptions_logged Sample.hid_streams Sample.image_streams
                    Sample.sensor_default Sample.silent_device Sample.no_files Sample.sdk
                    Sample.configured_whole w' (rs2_error "get_info failed") out) Hrun).
  - destruct (setupStreams Sample.hid_streams Sample.image_streams Sample.sensor_default
                (Sample.device [Sample.unanswering_stereo_module]) Sample.sdk
                (Sample.requesting_whole Sample.unanswering_stereo_module))
      as [[r w'] out] eqn:Hrun.
    assert (Hraise : r = Raise (rs2_error "failed to get stream profiles")).
    { change r with (w_result_of (r, w', out)). rewrite <- Hrun. reflexivity. }
    subst r.
    destruct (proj2 (setup_exceptions_logged Sample.hid_streams Sample.image_streams
                       Sample.sensor_default (Sample.device [Sample.unanswering_stereo_module])
                       Sample.no_files Sample.sdk
                       (Sample.requesting_whole Sample.unanswering_stereo_module) w'
                       (rs2_error "failed to get stream profiles") out) Hrun)
      as [Hlogged | (lines & elem & _ & Hout & Hlines & _)].
    + left. exact Hlogged.
    + right. exists lines. split; assumption.
Defined.

(** The exception of the stereo module leaves [setupStreams] without an
    ERROR line. *)
Example setupStreams_profiles_unlogged :
  w_result_of
    (setupStreams Sample.hid_streams Sample.image_streams Sample.sensor_default
       (Sample.device [Sample.unanswering_stereo_module]) Sample.sdk
       (Sample.requesting_whole Sample.unanswering_stereo_module))
  = Raise (rs2_error "failed to get stream profiles")
  ∧ w_out_of
      (setupStreams Sample.hid_streams Sample.image_streams Sample.sensor_default
         (Sample.device [Sample.unanswering_stereo_module]) Sample.sdk
         (Sample.requesting_whole Sample.unanswering_stereo_module))
    = [LOG_INFO "setupStreams..."].
Proof. split; reflexivity. Qed.

(** With the stereo module that answers, [enable_devices] negotiates depth
    and disables color, as on the profiles the sensors report. *)
Example enable_devices_on_sensors_negotiates :
  w_result_of (enable_devices_on_sensors Sample.image_streams Sample.sensor_default
                 (Sample.requesting_whole Sample.stereo_module)) = Ok tt
  ∧ _enabled_profiles
      (core (w_whole_of (enable_devices_on_sensors Sample.image_streams
                           Sample.sensor_default
                           (Sample.requesting_whole Sample.stereo_module)))) !! DEPTH
    = Some [Sample.profile DEPTH RS2_FORMAT_Z16 848 480 30]
  ∧ at_default false
      (_enable
         (desc (core (w_whole_of (enable_devices_on_sensors Sample.image_streams
                                    Sample.sensor_default
                                    (Sample.requesting_whole Sample.stereo_module))))))
      COLOR = false.
Proof. repeat split; vm_compute; reflexivity. Qed.
